(* ===== verification/_CoqProject ===== *)
-Q . S2P
Prelude.v
JsString.v
Json.v
Numbers.v
Config.v
World.v
Api.v
ApiAsync.v
Save.v
Book.v
Library.v
Geometry.v
Player.v
TestSuite.v
Render.v
UI.v
Game.v
Events.v
UITests.v
Debug.v
