(* ===== verification/Prelude.v ===== *)
(** * The Library of Babel: a verification of the game

    The program (src/src/js) is a browser game.  The player walks a grid of
    rooms; each room holds a catalog of book titles and each book has pages.
    Catalogs and pages are generated on demand by a text-generation backend
    and kept in [localStorage] so that a second visit shows the same content.
    The parts, leaf first, and how they interact:
    - [CONFIG] and [MOCK_DATA] (config.js, mockData.js): constants.
    - [APIHandler] (api.js): builds the prompts, calls the backend at most
      once per [minTimeBetweenCalls], extracts a catalog from the answer,
      and falls back to [MOCK_DATA] on any failure.
    - [SaveSystem] (save.js): the storage layer, with in-memory caches per
      instance and two index records of the keys written.
    - [Book] (book.js): the pager of one book; a page is read from storage
      or generated and stored.
    - [Library] (library.js): the current room; a catalog is read from
      storage or generated, brought to [booksPerRoom] titles and stored.
    - [Player] (player.js): position, held keys, and what the player
      stands near, recomputed at each tick; it draws itself.
    - [UIHandler] (ui.js): the dialogs, the open book, the notification and
      the listeners of the page's buttons and of the E key.
    - [Game] (game.js) and main.js: the game loop driven by
      [requestAnimationFrame], the drawing of a frame on the canvas, the
      interaction with books, the card catalog and exits; it owns all of
      the above, and its handler calls it back.
    - debug.js: an error overlay installed as [window.onerror].
    - uitests.js and test.js: the in-browser tests of the handler on a
      mock game, and [window.runBabelTests], which runs both suites.

    ** Files of the development
    - [Prelude]: the state and exception monad [St S A := S -> res A * S]
      (a throw keeps the state reached, as JavaScript keeps side effects),
      its notations in [babel_scope], [detach] for the exceptions nobody
      receives (promises not awaited, event listeners, frame callbacks),
      [for_each] (a [forEach] of statements), the relation [keeps R m]
      with its combinators and tactic [keeps_auto], the [eventually] of a
      step function, hint databases, generic lemmas.
    - [JsString]: strings as lists of UTF-16 code units ([jstr]) and the
      String methods the code calls ([indexOf], [lastIndexOf], [substring],
      [split], [trim], [replace] with a global pattern, number printing).
    - [Json]: JavaScript values ([jsval]), truthiness, property access,
      [JSON.stringify] and [JSON.parse] after ECMA-262 (escapes, lone
      surrogates, duplicate keys); numbers are kept as their literal text.
      The parser is a fuelled recursive descent; its fuel,
      [2 * length s + 2], is shown to be enough ([json_parse_fuel_enough]).
    - [Numbers]: the text of a number and back: the digits [z_to_js]
      writes, [number_lexeme] (an integer's or a half's [toString]) and
      [number_value] (the value of a lexeme), with their round trip.
    - [Config]: [CONFIG], [MOCK_DATA] and [CONFIG_online], the same
      configuration with the debug switches off, for examples.
    - [World]: the browser: [localStorage] as a [gmap], the clock, and the
      answers of [fetch], [Math.random], [confirm], [prompt] and of a random
      [sort] as lists consumed in order; [trace] is ghost state, the start
      time of each backend request.  A method of an object runs in
      [St (T * World)]: its fields beside the shared world.
    - [Api] (Module [Api]): [initialize], [callAPI] (fuel 2: the code calls
      itself once after a failure, and then answers offline), the three
      generators, which take the [this.callAPI] they call (test.js replaces
      it on an instance), the catalog extraction, and the interface
      [Generator] / [GeneratorLaws] through which [Book] and [Library] call
      the handler.
    - [ApiAsync] (Module [ApiAsync]): [callAPI] cut at its two [await]s
      (the rate-limit timer, the [fetch]) into the segments
      [callAPI_start], [send_request] and [on_response]; an [activation] is
      a call suspended at one of them, and [step] is the event loop: a new
      call, the clock advancing, a due timer firing, a response arriving,
      in any order.  [settle] resumes one activation alone (three
      resumptions per level of retry).
    - [Save] (Module [Save]): every method of [SaveSystem], and the class
      [SaveMethods] of the four methods a [Book] or a [Library] calls on
      its own SaveSystem, with the instance [save_methods] the program
      uses (the tests install others).
    - [Book] (Module [Book]): [getPageContent], [goToPage], [nextPage],
      [prevPage], over any [Generator] and [SaveMethods].
    - [Library] (Module [Library]): [loadRoom] with its two [while] loops
      (fuel: the length of the catalog for the [pop] loop, [booksPerRoom]
      for the [push] loop, one turn per element removed or added; the
      closed form shows the loops end before the fuel does), [moveToRoom],
      [getBook], [initialize].
    - [Geometry] (Module [Geometry]): [getBookPositions] and [getRoomInfo];
      the coordinates are JavaScript numbers computed with [/] and are kept
      as rationals ([Q]), exact for the shipped layout.
    - [Player] (Module [Player]): [initialize], [update] with
      [checkForRoomExits], [checkForNearbyBooks] and the card catalog test,
      and the key handlers; coordinates as rationals, [closestDistance]
      kept squared ([Math.sqrt] is increasing).
    - [TestSuite] (Module [TestSuite]): the main suite of test.js: its
      assertion counters and console, each test with its local objects
      ([obj], [local]) and the replacements it installs on them, and
      [runTests].  The tests that touch the world are run symbolically
      on any storage ([ts_cbv] computes all but the world's methods, which
      their run lemmas replace).
    - [Render] (Module [Render]): the 2D context as a record of its styles,
      its current path and the log of the shapes painted, each with the
      styles in force; its methods ([fillRect], [beginPath], [moveTo],
      [lineTo], [arc], [stroke], [fill], [fillText]); [Game.render] with
      [renderBookshelves] (its loops, the highlight test, the title read
      from the catalog and truncated), [renderExits], [renderCardCatalog],
      [renderRoomInfo], and [Player.render] ([renderPlayer]).  The canvas
      size is [CONFIG.roomSize].
    - [UI] (Module [UI]): every method and listener of [UIHandler], over
      two classes of what the handler reaches of its game: [UIHost] (its
      own state, the room, the current page of a book object) and
      [BookObjects] ([library.getBook] and the methods [getPageContent],
      [prevPage], [nextPage] of a book object, named by a reference), with
      their laws.  The close listener takes the [hideDialog] and
      [startGameLoop] it calls as parameters: the tests replace them.
      [parseInt] of the catalog items after ECMA-262.
    - [Game] (Module [Game]): [initialize], [startGame], [startGameLoop],
      [gameLoop], [update], [render] (on the game's canvas), [useExit],
      [handleInteraction], the key handlers and [resizeCanvas] (a function
      of the configuration: [CONFIG.roomSize] takes the size of the
      [Container]), calling the [UI] handler on
      the game's [ui] field; the game is the handler's [UIHost], and its
      [BookObjects] ([game_books]) are the slots of [library.books], so a
      book's page and cache are shared with the library as the JavaScript
      object is.  [requestAnimationFrame] counts the callbacks pending for
      the next frame.  The creation date is [Date.prototype.toISOString]
      of the world's clock.
    - [Events] (Module [Events]): main.js ([boot]), the events of the page,
      their listeners in registration order ([dispatch]: the handler's
      [keydown] listener before the game's, each one [detach]ed), an
      animation frame running the [gameLoop] callbacks pending, which
      events the page offers ([enabled]) and the states a session reaches
      ([session], by rule induction: it starts from [boot] under the
      configuration that [resizeCanvas] makes of CONFIG, as the
      constructor does, and the window [resize] listener may change the
      room size between any two events); [same_on f] relates states with
      the same view [f], the frame rule of each invariant.
    - [UITests] (Module [UITests]): the tests of uitests.js run on the [UI]
      handler over a mock game (its own [UIHost] and [BookObjects]
      instances: [getBook] hands out a new object at each call), the
      assertion counters and console, [runTests], and [runBabelTests],
      which runs the main suite of [TestSuite] and then this one.
    - [Debug] (Module [Debug]): [window.onerror] and the [Close] button of
      its error boxes.

    ** What the theorems show (the claims C1..C40 of the manifest)
    - Catalogs: a room entered for the first time gets exactly
      [booksPerRoom] titles whatever the generator answers, and they are
      stored (C1, with the closed form of the loops C27); the current room
      stays in the grid (C24); moves at an edge fail and change nothing,
      others go one step on the right axis (C28).
    - The handler: [callAPI] never throws, answers offline or makes one
      request, at [minTimeBetweenCalls] after the previous one when no other
      call overlaps (C2); a call that overlaps no other is exactly that
      run-to-completion call (C4), but two overlapping calls wait for the
      same instant and send their requests together (C3, a finding); the
      catalog extraction on a JSON array (C29).
    - Storage: catalogs and pages read back what was stored, from the same
      or a new SaveSystem (C5, C6); two pages never share a key (C14); the
      position written at a tick brings a new player back there (C13); the
      index records list each key once (C7);
      [resetAllData] forgets everything under the prefix (C8); a page is
      generated at most once (C23).
    - Geometry and movement: with an even [booksPerAisle] every book below
      [aislesPerRoom * booksPerAisle] gets one position, in order (C32);
      positions lie inside the room (C34); a tick keeps the player inside
      the room and moves it at most [speed] per axis (C35);
      [checkForNearbyBooks] finds the first nearest book within reach
      (C36); holding W reaches the north exit (C15, liveness:
      [eventually] over the ticks, by induction on the steps left to the
      exit line).
    - Drawing: a frame paints at most one book in the highlight colour, the
      one at the player's [nearbyBookIndex] (C18; [grows_by] follows the
      book marks of the shapes painted, through every part of the frame).
    - The interface and the session: a click on a catalog item opens the
      book of that index, read back by [parseInt] (C16); the form refuses
      blank names and descriptions (C39); in every state of a session,
      whatever the window's resizes, the book
      is shown exactly when the handler holds one (C12), and at most one
      [gameLoop] callback is pending, none while the game is stopped
      (C17); a successful [useExit] enters the neighbouring room and places
      the player at the entrance facing the room left, from which one step
      back reaches the exit leading back (C38).
    - The tests: on any storage with well-formed index records the main
      suite passes its 26 assertions (29 with an API key) and resolves to
      [true] (C20).
    - Findings, stated as theorems: the per-instance cache serves stale
      catalogs (C9); E at an exit moves two rooms, as both [keydown]
      listeners run the interaction (C10); E cannot close a book the
      player stands by (C11); the UI suite fails two assertions and
      [runBabelTests] resolves to [undefined] (C19); the main suite
      overwrites the player's character and leaves a three-book room
      (C21); the story book leaves a catalog of [bookIndex + 1] entries in
      a new room (C22); [initialize] resets the fallback mode (C25);
      brackets around non-JSON text give [null] (C26); a cancelled key
      dialog is not remembered (C30); after the window narrows, a player
      beyond the new right edge can no longer move horizontally (C31); the
      books 3 and 4 of a side overlap on screen (C33); the card catalog zone covers the north doorway (C37);
      an earlier notification's timer hides a later one (C40).
    - Other theorems, not claims: an odd [booksPerAisle] gives fractional
      indices ([Geometry.odd_aisle_fractional_index]); the offline answer
      gives the story template to a page prompt whose title contains
      [History] ([Api.mock_story_for_history]); the bullet [•] is not
      stripped ([Api.bullet_not_stripped]); each error box is removed by
      its own button ([Debug.closeBox_own]); [JSON.parse] inverts
      [JSON.stringify] and builds JSON values ([json_parse_stringify],
      [json_parse_wf]); the requests of one handler stay spaced while its
      calls do not overlap ([Api.callAPI_spaced]); two new handlers send
      their requests closer than [minTimeBetweenCalls]
      ([Api.two_handlers_unspaced]).

    ** Not modelled, and why
    - The size of the canvas element itself (game.js 28-29): only its
      copy in [CONFIG.roomSize], which the code reads, is kept.  Pixels, fonts, styles and focus of
      the page, the HTML of the dialogs (kept as the template and its
      values) and the styles of the error boxes: presentation.  The page's
      markup is not in the repository: the dialog and the book start hidden.
    - Interleavings of the [async] methods other than [callAPI]: a method
      runs to its end before the next event, so the races of the
      specification (two loads of one room, a click during a load, the
      [library.initialize] that [startGame] starts without awaiting it
      while the story is requested) are not covered.  [callAPI] alone is
      also modelled at its awaits (ApiAsync.v), where overlapping calls on
      one handler are run interleaved.  The random comparator of the
      offline catalog shuffle ([sort] with [Math.random], api.js 71-74) is
      an oracle permutation: the number of comparisons, hence of random
      draws, depends on the engine's sort.  An exception nobody catches is dropped by
      [detach]; whether the browser reports it to [window.onerror] or as an
      unhandled rejection is not followed.
    - Parsed numbers are literal texts; the code's integer arithmetic is
      kept as [Z] and its coordinates as [Q] (exact: the values are halves
      and integers, far from the 53-bit limit of doubles).  Objects keep
      insertion order (integer-like keys are not moved first); storage has
      no quota.
    - The console output of the tests ([console.group], the summary
      line) and [typeof] on the page's globals, taken as the scripts of the
      game being loaded. *)

From stdpp Require Export base list gmap strings.
From Stdlib Require Export ZArith Lia.
From Stdlib Require Import FunctionalExtensionality.

(** JavaScript exceptions that the modelled code can raise or catch.  The
    code throws [TypeError] on a property access of [null]/[undefined] or a
    call of a missing method, [SyntaxError] from [JSON.parse], [RangeError]
    from [Array(n)] with a negative [n], and an [Error] built from an HTTP
    status in [callAPI], and the [NotFoundError] of [removeChild] on a node
    that is not a child.  [OutOfFuel] is raised only by the fuelled models
    of recursive methods when their fuel runs out (theorems show it never
    happens with the fuel chosen), and [Unmodelled] marks a value shape the
    model does not follow (documented per use). *)
Inductive exn :=
  | TypeError
  | SyntaxError
  | RangeError
  | HttpError (status : Z)
  | NotFoundError
  | OutOfFuel
  | Unmodelled.

(** The outcome of a statement: a value or a pending exception. *)
Inductive res (A : Type) := Ok (a : A) | Exc (e : exn).
Arguments Ok {_} _.
Arguments Exc {_} _.

(** [St S A]: a computation over the state [S] that may throw.  A throw keeps
    the state reached so far, as JavaScript keeps the side effects that ran
    before an exception. *)
Definition St (S A : Type) : Type := S -> res A * S.

#[export] Instance st_ret S : MRet (St S) := fun A a s => (Ok a, s).
#[export] Instance st_bind S : MBind (St S) := fun A B k m s =>
  match m s with
  | (Ok a, s') => k a s'
  | (Exc e, s') => (Exc e, s')
  end.

Section StOps.
Context {S : Type}.

Definition get : St S S := fun s => (Ok s, s).
Definition put (s : S) : St S unit := fun _ => (Ok tt, s).
Definition modify (f : S -> S) : St S unit := fun s => (Ok tt, f s).
Definition gets {A} (f : S -> A) : St S A := fun s => (Ok (f s), s).
Definition throw {A} (e : exn) : St S A := fun s => (Exc e, s).

(** [try { m } catch (e) { h e }] *)
Definition try_catch {A} (m : St S A) (h : exn -> St S A) : St S A :=
  fun s => match m s with
           | (Ok a, s') => (Ok a, s')
           | (Exc e, s') => h e s'
           end.

(** Run a method of a sub-object: [view] selects the part of the state
    the method sees, [upd] writes it back. *)
Definition zoom {T A} (view : S -> T) (upd : T -> S -> S) (m : St T A) : St S A :=
  fun s => let '(r, t') := m (view s) in (r, upd t' s).
End StOps.

Declare Scope babel_scope.
Delimit Scope babel_scope with babel.
Notation "'try' m 'catch' h" := (try_catch m h)
  (at level 10, m at level 100, h at level 200) : babel_scope.
Open Scope babel_scope.

(** Results of a run. *)
Definition result_of {S A} (r : res A * S) : res A := fst r.
Definition state_of {S A} (r : res A * S) : S := snd r.

(** ** Monad laws and running lemmas, used by [autorewrite with st]. *)
Section Laws.
Context {S A B : Type}.

Lemma st_run_bind (m : St S A) (k : A -> St S B) s :
  (m ≫= k) s = match m s with
               | (Ok a, s') => k a s'
               | (Exc e, s') => (Exc e, s')
               end.
Proof. reflexivity. Qed.

Lemma st_run_ret (a : A) (s : S) : (mret a : St S A) s = (Ok a, s).
Proof. reflexivity. Qed.

Lemma st_bind_ret_l (a : A) (k : A -> St S B) : (mret a ≫= k) = k a.
Proof. reflexivity. Qed.

Lemma st_bind_assoc {C} (m : St S A) (k : A -> St S B) (k' : B -> St S C) :
  ((m ≫= k) ≫= k') = (m ≫= fun a => k a ≫= k').
Proof.
  unfold mbind, st_bind. apply functional_extensionality.
  intros s. destruct (m s) as [[a|e] s']; reflexivity.
Qed.
End Laws.

Create Rewrite HintDb st.
#[export] Hint Rewrite @st_run_bind @st_run_ret : st.

(** Unfold the monad and the state primitives of a goal. *)
Ltac st_simpl :=
  repeat (unfold mbind, mret, st_bind, st_ret, get, put, modify, gets, throw,
            try_catch, zoom in *; simpl in *).

(** ** Generic lemmas on lists and integers shared by the components. *)

Create HintDb babel.

Lemma length_firstn_le {A} n (l : list A) : n <= length l -> length (firstn n l) = n.
Proof. intros. rewrite length_firstn. lia. Qed.

Lemma Z_of_nat_lt_iff (a b : nat) : (Z.of_nat a < Z.of_nat b)%Z <-> a < b.
Proof. lia. Qed.

#[export] Hint Resolve length_firstn_le : babel.

Lemma filter_all {A} (f : A -> bool) (l : list A) :
  (forall x, In x l -> f x = true) -> List.filter f l = l.
Proof.
  induction l as [|x l IH]; intros H; [done|]. cbn. rewrite (H x (or_introl eq_refl)).
  f_equal. apply IH. intros y Hy. apply H. by right.
Qed.

Lemma NoDup_map_filter {A B} (g : A -> B) (f : A -> bool) (l : list A) :
  NoDup (map g l) -> NoDup (map g (List.filter f l)).
Proof.
  induction l as [|x l IH]; [done|]. cbn. intros Hnd. apply NoDup_cons in Hnd as [Hx Hnd].
  destruct (f x); [|by apply IH]. cbn. apply NoDup_cons. split; [|by apply IH].
  intros Hin. apply Hx. apply list_elem_of_In in Hin. apply list_elem_of_In.
  apply in_map_iff in Hin as (y & Hy & Hin). apply filter_In in Hin as [Hin _].
  apply in_map_iff. by exists y.
Qed.

Lemma filter_none {A} (f : A -> bool) (l : list A) :
  (forall x, In x l -> f x = false) -> List.filter f l = [].
Proof.
  induction l as [|x l IH]; intros H; [done|]. cbn. rewrite (H x (or_introl eq_refl)).
  apply IH. intros y Hy. apply H. by right.
Qed.

(** Case analysis on the boolean comparisons of [Z] in the goal, closing
    the contradictory branches by [lia]. *)
Ltac zcase :=
  repeat match goal with
    | |- context [Z.eqb ?a ?b] => destruct (Z.eqb_spec a b); try lia
    | |- context [Z.ltb ?a ?b] => destruct (Z.ltb_spec a b); try lia
    | |- context [Z.leb ?a ?b] => destruct (Z.leb_spec a b); try lia
    end.

(** Close a decidable proposition about concrete values by evaluation. *)
Ltac decide_true := match goal with |- ?P => apply (bool_decide_unpack P) end; vm_compute; exact I.

(** Strong induction on the length of a list. *)
Lemma list_length_ind {A} (P : list A -> Prop) :
  (forall l, (forall l', length l' < length l -> P l') -> P l) -> forall l, P l.
Proof.
  intros H l. remember (length l) as n eqn:E. revert l E.
  induction n as [n IH] using lt_wf_ind. intros l ->. apply H.
  intros l' Hl'. eapply IH; [exact Hl'|reflexivity].
Qed.

(** Cutting a list at the first occurrence of a separator is unique. *)
Lemma app_sep_inj {A} (sep : A) (a b a' b' : list A) :
  sep ∉ a -> sep ∉ a' -> a ++ sep :: b = a' ++ sep :: b' -> a = a' /\ b = b'.
Proof.
  revert a'. induction a as [|x a IH]; intros [|y a'] Ha Ha' Heq; simpl in Heq; injection Heq.
  - done.
  - intros _ ->. set_solver.
  - intros _ <-. set_solver.
  - intros Hab ->. destruct (IH a') as [-> ->]; set_solver.
Qed.

(** ** Relations kept by a computation

    [keeps R m]: every run of [m] (returning or throwing) ends in a state
    related to its start by [R].  With [R] a preorder this composes along
    [≫=], so a frame property of a method follows from the ones of the
    calls it makes. *)
Section Keeps.
Context {S : Type} (R : S -> S -> Prop) `{!PreOrder R}.

Definition keeps {A} (m : St S A) : Prop := forall s, R s (snd (m s)).

Lemma keeps_bind {A B} (m : St S A) (k : A -> St S B) :
  keeps m -> (forall a, keeps (k a)) -> keeps (m ≫= k).
Proof.
  intros Hm Hk s. specialize (Hm s). unfold mbind, st_bind.
  destruct (m s) as [[a|e] s']; [|done]. etrans; [exact Hm|apply Hk].
Qed.

Lemma keeps_ret {A} (a : A) : keeps (mret a).
Proof. intros s. reflexivity. Qed.

Lemma keeps_throw {A} e : keeps (throw (A := A) e).
Proof. intros s. reflexivity. Qed.

Lemma keeps_gets {A} (f : S -> A) : keeps (gets f).
Proof. intros s. reflexivity. Qed.

Lemma keeps_modify f : (forall s, R s (f s)) -> keeps (modify f).
Proof. intros H s. apply H. Qed.

Lemma keeps_if {A} (b : bool) (m1 m2 : St S A) : keeps m1 -> keeps m2 -> keeps (if b then m1 else m2).
Proof. by destruct b. Qed.
End Keeps.

(** Split a [keeps] goal along the binds and branches of a method. *)
Ltac keeps_step :=
  match goal with
  | |- keeps _ (_ ≫= _) => apply keeps_bind; [try typeclasses eauto..|intros ?]
  | |- keeps _ (if _ then _ else _) => apply keeps_if; try typeclasses eauto
  | |- keeps _ (mret _) => apply keeps_ret; try typeclasses eauto
  | |- keeps _ (throw _) => apply keeps_throw; try typeclasses eauto
  | |- keeps _ (gets _) => apply keeps_gets; try typeclasses eauto
  | |- keeps _ (modify _) => apply keeps_modify; try typeclasses eauto
  | |- keeps _ (match _ with _ => _ end) => case_match
  end.
Ltac keeps_auto := repeat keeps_step.

(** ** Exceptions nobody sees

    [detach m]: [m] runs where no caller receives its exception: the body
    of a promise nobody awaits ([p.then(...)] without a handler, an [async]
    method called without [await]) or an event listener (the browser
    reports the exception and goes on with the next listener).  The
    effects [m] had before it threw are kept. *)
Definition detach {S} (m : St S unit) : St S unit := try m catch (fun _ => mret tt).

Lemma detach_run {S} (m : St S unit) s : detach m s = (Ok tt, snd (m s)).
Proof. unfold detach, try_catch. by destruct (m s) as [[[]|e] s']. Qed.

Lemma keeps_detach {S} (R : S -> S -> Prop) (m : St S unit) : keeps R m -> keeps R (detach m).
Proof. intros Hm s. rewrite detach_run. apply Hm. Qed.

(** ** Loops: [array.forEach(f)] and [for (i = 0; i < n; i++)]

    [for_each xs f] runs [f] on each element in order; an exception stops
    the loop with the effects of the calls made so far. *)
Definition for_each {S A} (xs : list A) (f : A -> St S unit) : St S unit :=
  fold_right (fun x rest => f x;; rest) (mret tt) xs.

Lemma keeps_for_each {S A} (R : S -> S -> Prop) `{!PreOrder R} (xs : list A) (f : A -> St S unit) :
  (forall x, keeps R (f x)) -> keeps R (for_each xs f).
Proof.
  intros Hf. induction xs as [|x xs IH]; cbn [for_each fold_right].
  - apply (keeps_ret R).
  - apply (keeps_bind R); [apply Hf | intros _; exact IH].
Qed.

(** ** Reaching a condition by iterating a step

    [eventually f P s]: iterating the step [f] from [s] reaches a state
    where [P] holds; the [eventually] of a small-step semantics, for a
    deterministic step. *)
Inductive eventually {S} (f : S -> S) (P : S -> Prop) : S -> Prop :=
  | eventually_now s : P s -> eventually f P s
  | eventually_step s : eventually f P (f s) -> eventually f P s.

Lemma eventually_iter {S} (f : S -> S) (P : S -> Prop) s :
  eventually f P s <-> exists n, P (Nat.iter n f s).
Proof.
  split.
  - induction 1 as [s Hs|s _ [n Hn]]; [by exists 0%nat|]. exists (Datatypes.S n). by rewrite Nat.iter_succ_r.
  - intros [n Hn]. revert s Hn. induction n as [|n IH]; intros s Hs; [by constructor|].
    rewrite Nat.iter_succ_r in Hs. apply eventually_step, IH, Hs.
Qed.
