(* ===== verification/JsString.v ===== *)
(** * JavaScript strings and the String methods the program calls.

    A JavaScript string is a sequence of UTF-16 code units; [jstr] is a list
    of [Z], each in [0, 65536).  Source literals are written as Rocq strings
    (UTF-8) and decoded by [js].  The methods are those of the ECMAScript
    specification that the sources call: [indexOf], [lastIndexOf],
    [substring], [includes], [split] on a one-unit separator, [trim], the
    regular-expression replacements of [api.js] and the number-to-string
    conversion of template literals. *)

From S2P Require Import Prelude.
From Stdlib Require Import DecimalString DecimalZ.
Open Scope Z_scope.

Abbreviation jstr := (list Z).

(** ** Literals: UTF-8 bytes decoded to UTF-16 code units *)

Fixpoint utf8_to_utf16 (bs : list Z) : jstr :=
  match bs with
  | [] => []
  | b :: rest =>
      if b <? 128 then b :: utf8_to_utf16 rest
      else if b <? 224 then
        match rest with
        | c :: r => ((b - 192) * 64 + (c - 128)) :: utf8_to_utf16 r
        | [] => []
        end
      else if b <? 240 then
        match rest with
        | c1 :: c2 :: r =>
            ((b - 224) * 4096 + (c1 - 128) * 64 + (c2 - 128)) :: utf8_to_utf16 r
        | _ => []
        end
      else
        match rest with
        | c1 :: c2 :: c3 :: r =>
            let cp := (b - 240) * 262144 + (c1 - 128) * 4096 + (c2 - 128) * 64 + (c3 - 128) in
            (55296 + (cp - 65536) / 1024) :: (56320 + (cp - 65536) mod 1024)
              :: utf8_to_utf16 r
        | _ => []
        end
  end.

Definition js (s : string) : jstr :=
  utf8_to_utf16 (map (fun a => Z.of_N (Ascii.N_of_ascii a)) (String.list_ascii_of_string s)).

(** Decide the comparisons of two string literals by evaluation, as the
    [switch] and [===] tests on literals of the code. *)
Ltac js_decide :=
  repeat match goal with
  | |- context [bool_decide (js ?a = js ?b)] =>
      let v := eval vm_compute in (bool_decide (js a = js b)) in
      change (bool_decide (js a = js b)) with v
  end; cbv beta iota.

(** ** Searching: [indexOf], [lastIndexOf], [includes] *)

Fixpoint is_prefix (pat s : jstr) : bool :=
  match pat, s with
  | [], _ => true
  | p :: pat', c :: s' => (p =? c) && is_prefix pat' s'
  | _ :: _, [] => false
  end.

(** First position at or after [i] where [pat] occurs. *)
Fixpoint find_from (pat s : jstr) (i : nat) : option nat :=
  if is_prefix pat s then Some i
  else match s with
       | [] => None
       | _ :: s' => find_from pat s' (S i)
       end.

(** Last position at or after [i] where [pat] occurs. *)
Fixpoint find_last_from (pat s : jstr) (i : nat) : option nat :=
  match s with
  | [] => if is_prefix pat [] then Some i else None
  | _ :: s' =>
      match find_last_from pat s' (S i) with
      | Some j => Some j
      | None => if is_prefix pat s then Some i else None
      end
  end.

(** [s.indexOf(pat)], [s.lastIndexOf(pat)]: -1 when absent. *)
Definition index_of (s pat : jstr) : Z :=
  match find_from pat s 0 with Some i => Z.of_nat i | None => -1 end.

Definition last_index_of (s pat : jstr) : Z :=
  match find_last_from pat s 0 with Some i => Z.of_nat i | None => -1 end.

(** [s.includes(pat)] *)
Definition includes (s pat : jstr) : bool :=
  match find_from pat s 0 with Some _ => true | None => false end.

(** [s.substring(start, end)]: both bounds clamped to [0, length], swapped
    when [start > end]. *)
Definition substring (s : jstr) (start end_ : Z) : jstr :=
  let len := Z.of_nat (length s) in
  let a := Z.min (Z.max start 0) len in
  let b := Z.min (Z.max end_ 0) len in
  let from := Z.min a b in
  let to := Z.max a b in
  firstn (Z.to_nat (to - from)) (skipn (Z.to_nat from) s).

(** ** [split] on a one-unit separator *)

(** [s.split(sep)] for a separator of one code unit: the pieces between the
    occurrences, empty pieces included ("" splits to [""]). *)
Fixpoint split_on (sep : Z) (s : jstr) : list jstr :=
  match s with
  | [] => [[]]
  | c :: s' =>
      if c =? sep then [] :: split_on sep s'
      else match split_on sep s' with
           | w :: ws => (c :: w) :: ws
           | [] => [[c]]
           end
  end.

(** ** White space and [trim] *)

(** ECMAScript WhiteSpace and LineTerminator code units: the set of [\s] in
    a regular expression and of [String.prototype.trim]. *)
Definition is_js_space (c : Z) : bool :=
  (c =? 9) || (c =? 10) || (c =? 11) || (c =? 12) || (c =? 13) || (c =? 32)
  || (c =? 160) || (c =? 5760) || ((8192 <=? c) && (c <=? 8202))
  || (c =? 8232) || (c =? 8233) || (c =? 8239) || (c =? 8287)
  || (c =? 12288) || (c =? 65279).

Fixpoint drop_while (p : Z -> bool) (s : jstr) : jstr :=
  match s with
  | [] => []
  | c :: s' => if p c then drop_while p s' else s
  end.

Definition trim (s : jstr) : jstr :=
  rev (drop_while is_js_space (rev (drop_while is_js_space s))).

Lemma drop_while_all p s : Forall (fun c => p c = true) s -> drop_while p s = [].
Proof. induction 1 as [|c s Hc _ IH]; cbn; [done|]. by rewrite Hc. Qed.

Lemma drop_while_nonempty p s : Exists (fun c => p c = false) s -> drop_while p s <> [].
Proof. induction 1 as [c s Hc|c s _ IH]; cbn; [by rewrite Hc|]. by destruct (p c). Qed.

Lemma drop_while_Exists p s :
  Exists (fun c => p c = false) s -> Exists (fun c => p c = false) (drop_while p s).
Proof.
  induction 1 as [c s Hc|c s Hs IH]; cbn.
  - rewrite Hc. by apply Exists_cons_hd.
  - destruct (p c); [exact IH | by apply Exists_cons_tl].
Qed.

(** [trim] of white space only is empty, and of a text with another
    character is not. *)
Lemma trim_all_space s : Forall (fun c => is_js_space c = true) s -> trim s = [].
Proof. intros H. unfold trim. by rewrite (drop_while_all _ s H). Qed.

Lemma trim_nonblank s : Exists (fun c => is_js_space c = false) s -> trim s <> [].
Proof.
  intros H. unfold trim. intros E. apply (f_equal (@rev Z)) in E. rewrite rev_involutive in E.
  revert E. apply drop_while_nonempty. apply Exists_rev, drop_while_Exists, H.
Qed.

(** ** Number to string, as in a template literal [`${n}`] for an integer *)

Definition z_to_js (z : Z) : jstr := js (NilEmpty.string_of_int (Z.to_int z)).

(** ** [String.prototype.replace] with a global regular expression that
    matches a literal, and a replacement string.

    GetSubstitution: [$$] is [$], [$&] the matched text, [$`] the text
    before the match, [$'] the text after it; every other [$] is literal
    (the patterns of [api.js] have no capture groups). *)
Fixpoint get_substitution (rep matched before after : jstr) : jstr :=
  match rep with
  | 36 :: 36 :: r => 36 :: get_substitution r matched before after
  | 36 :: 38 :: r => matched ++ get_substitution r matched before after
  | 36 :: 96 :: r => before ++ get_substitution r matched before after
  | 36 :: 39 :: r => after ++ get_substitution r matched before after
  | c :: r => c :: get_substitution r matched before after
  | [] => []
  end.

(** One scan of [s] left to right; [seen] is the part of the original string
    already scanned.  A match of a non-empty [pat] skips its length. *)
Fixpoint replace_all_go (fuel : nat) (pat rep seen s : jstr) : jstr :=
  match fuel with
  | O => s
  | S f =>
      match s with
      | [] => []
      | c :: s' =>
          if is_prefix pat s then
            let after := drop (length pat) s in
            get_substitution rep pat seen after
              ++ replace_all_go f pat rep (seen ++ pat) after
          else c :: replace_all_go f pat rep (seen ++ [c]) s'
      end
  end.

(** [s.replace(/pat/g, rep)] for a literal, non-empty [pat]; the fuel is the
    length of [s], one step per code unit. *)
Definition replace_all (s pat rep : jstr) : jstr :=
  replace_all_go (length s) pat rep [] s.

(** ** Lemmas on searching and slicing *)

Lemma is_prefix_app p r : is_prefix p (p ++ r) = true.
Proof. induction p as [|c p IH]; simpl; [done|]. by rewrite Z.eqb_refl. Qed.

Lemma is_prefix_single c s : is_prefix [c] s = match s with d :: _ => c =? d | [] => false end.
Proof. destruct s; simpl; [done|]. by rewrite andb_true_r. Qed.

(** [indexOf] of a unit finds its first occurrence. *)
Lemma find_from_first c pre rest i :
  c ∉ pre -> find_from [c] (pre ++ c :: rest) i = Some (i + length pre)%nat.
Proof.
  revert i. induction pre as [|d pre IH]; intros i Hc; simpl.
  - by rewrite Z.eqb_refl, Nat.add_0_r.
  - destruct (Z.eqb_spec c d) as [->|Hcd]; [set_solver|].
    rewrite IH by set_solver. f_equal. lia.
Qed.

Lemma index_of_first c pre rest :
  c ∉ pre -> index_of (pre ++ c :: rest) [c] = Z.of_nat (length pre).
Proof. intros H. unfold index_of. by rewrite find_from_first. Qed.

Lemma find_last_from_none c s i : c ∉ s -> find_last_from [c] s i = None.
Proof.
  revert i. induction s as [|d s IH]; intros i Hc; simpl; [done|].
  rewrite IH by set_solver. destruct (Z.eqb_spec c d); set_solver.
Qed.

(** [lastIndexOf] of a unit finds its last occurrence. *)
Lemma find_last_from_last c pre post i :
  c ∉ post -> find_last_from [c] (pre ++ c :: post) i = Some (i + length pre)%nat.
Proof.
  revert i. induction pre as [|d pre IH]; intros i Hc; simpl.
  - rewrite find_last_from_none by done. by rewrite Z.eqb_refl, Nat.add_0_r.
  - rewrite IH by done. f_equal. lia.
Qed.

Lemma last_index_of_last c pre post :
  c ∉ post -> last_index_of (pre ++ c :: post) [c] = Z.of_nat (length pre).
Proof. intros H. unfold last_index_of. by rewrite find_last_from_last. Qed.

Lemma index_of_absent c s : c ∉ s -> index_of s [c] = -1.
Proof.
  intros Hc. unfold index_of. enough (forall i, find_from [c] s i = None) as -> by done.
  induction s as [|d s IH]; intros i; simpl; [done|].
  destruct (Z.eqb_spec c d); [set_solver|]. simpl. apply IH. set_solver.
Qed.

(** [substring] between two positions in range takes what lies between. *)
Lemma substring_in_range s a b :
  0 <= a <= b -> b <= Z.of_nat (length s) ->
  substring s a b = take (Z.to_nat (b - a)) (drop (Z.to_nat a) s).
Proof.
  intros Hab Hb. unfold substring.
  rewrite (Z.max_l a 0), (Z.max_l b 0), (Z.min_l a), (Z.min_l b), (Z.min_l a b), (Z.max_r a b) by lia.
  reflexivity.
Qed.

Lemma substring_app_exact pre mid post :
  substring (pre ++ mid ++ post) (Z.of_nat (length pre)) (Z.of_nat (length pre + length mid)) = mid.
Proof.
  rewrite substring_in_range by (rewrite ?length_app; lia).
  rewrite drop_app_length' by lia. rewrite take_app_length' by lia. done.
Qed.

(** ** Integers as text: the decimal form of [z_to_js] uses only [-] and
    digits, and different integers print differently. *)

(** [-] or a decimal digit. *)
Definition num_unit (c : Z) : bool := (c =? 45) || ((48 <=? c) && (c <=? 57)).

Lemma utf8_to_utf16_ascii bs : Forall (fun b => b < 128) bs -> utf8_to_utf16 bs = bs.
Proof.
  induction 1 as [|b bs Hb _ IH]; [done|]. simpl.
  destruct (Z.ltb_spec b 128); [|lia]. by rewrite IH.
Qed.

Definition dec_codes (s : string) : list Z :=
  map (fun a => Z.of_N (Ascii.N_of_ascii a)) (String.list_ascii_of_string s).

Lemma string_of_uint_codes d : Forall (fun c => 48 <= c <= 57) (dec_codes (NilEmpty.string_of_uint d)).
Proof. unfold dec_codes. induction d; simpl; repeat constructor; try lia; assumption. Qed.

Lemma z_to_js_codes z : z_to_js z = dec_codes (NilEmpty.string_of_int (Z.to_int z)) /\
  Forall (fun c => num_unit c = true) (z_to_js z).
Proof.
  unfold z_to_js, js. fold (dec_codes (NilEmpty.string_of_int (Z.to_int z))).
  assert (Forall (fun c => num_unit c = true) (dec_codes (NilEmpty.string_of_int (Z.to_int z)))) as H.
  { assert (Hu := string_of_uint_codes). unfold dec_codes in *.
    destruct (Z.to_int z) as [d|d]; simpl; [|constructor; [reflexivity|]];
      (eapply Forall_impl; [apply Hu|]);
      intros c Hc; unfold num_unit; apply orb_true_iff; right; apply andb_true_iff; simpl in Hc; split; apply Z.leb_le; lia. }
  rewrite utf8_to_utf16_ascii; [done|].
  eapply Forall_impl; [exact H|]. intros c Hc. unfold num_unit in Hc.
  apply orb_true_iff in Hc as [Hc%Z.eqb_eq|Hc%andb_true_iff]; lia.
Qed.

Lemma dec_codes_inj s t : dec_codes s = dec_codes t -> s = t.
Proof.
  revert t. induction s as [|a s IH]; intros [|b t]; simpl; try done.
  intros [= Hab Hst]. f_equal; [|by apply IH].
  rewrite <-(Ascii.ascii_N_embedding a), <-(Ascii.ascii_N_embedding b). f_equal. lia.
Qed.

Lemma z_to_js_inj a b : z_to_js a = z_to_js b -> a = b.
Proof.
  rewrite (proj1 (z_to_js_codes a)), (proj1 (z_to_js_codes b)). intros H.
  apply dec_codes_inj in H. apply DecimalZ.to_int_inj.
  apply (f_equal NilEmpty.int_of_string) in H. rewrite !NilEmpty.isi in H. congruence.
Qed.
