(* ===== verification/Json.v ===== *)
(** * JavaScript values and JSON.

    [jsval] holds the values that flow through the program: [undefined],
    [null], booleans, numbers, strings, arrays and plain objects.  A number
    is kept as its JSON lexeme (the program only prints, stores and
    reparses numbers).  [JSON.stringify] ([stringify]), [JSON.parse]
    ([json_parse]), truthiness ([truthy]), [String(v)] ([to_js_string]),
    property access ([get_prop]) and the array methods the code uses are
    defined here, following ECMAScript.  The main theorem is the round trip
    [json_parse (stringify v) = Some v] for JSON values. *)

From S2P Require Import Prelude JsString.
Open Scope Z_scope.

#[warnings="-register-all"]
Inductive jsval :=
  | JUndef
  | JNull
  | JBool (b : bool)
  | JNum (lexeme : jstr)
  | JStr (s : jstr)
  | JArr (xs : list jsval)
  | JObj (props : list (jstr * jsval)).

(** ** Numbers *)

Definition is_digit (c : Z) : bool := (48 <=? c) && (c <=? 57).

Fixpoint take_digits (s : jstr) : jstr * jstr :=
  match s with
  | c :: s' => if is_digit c then let '(d, r) := take_digits s' in (c :: d, r) else ([], s)
  | [] => ([], [])
  end.

(** One or more digits. *)
Definition digits1 (s : jstr) : option (jstr * jstr) :=
  match take_digits s with
  | ([], _) => None
  | (d, r) => Some (d, r)
  end.

(** The JSON number grammar
    [-? (0 | [1-9][0-9]* ) (. [0-9]+)? ([eE] [+-]? [0-9]+)?], longest match,
    one function per part. *)
Definition lex_sign (s : jstr) : jstr * jstr :=
  match s with c :: r => if c =? 45 then ([45], r) else ([], s) | [] => ([], []) end.

Definition lex_int (s : jstr) : option (jstr * jstr) :=
  match s with
  | c :: r => if c =? 48 then Some ([48], r) else if is_digit c then digits1 s else None
  | [] => None
  end.

Definition lex_frac (s : jstr) : option (jstr * jstr) :=
  match s with
  | c :: r => if c =? 46 then '(d, r') ← digits1 r; Some (46 :: d, r') else Some ([], s)
  | [] => Some ([], [])
  end.

Definition lex_exp (s : jstr) : option (jstr * jstr) :=
  match s with
  | e :: r =>
      if (e =? 101) || (e =? 69) then
        let '(sg, r1) := match r with
                         | c :: r1 => if (c =? 43) || (c =? 45) then ([c], r1) else ([], r)
                         | [] => ([], [])
                         end in
        '(d, r') ← digits1 r1; Some (e :: sg ++ d, r')
      else Some ([], s)
  | [] => Some ([], [])
  end.

Definition lex_number (s : jstr) : option (jstr * jstr) :=
  let '(sign, s1) := lex_sign s in
  '(ipart, s2) ← lex_int s1;
  '(fpart, s3) ← lex_frac s2;
  '(epart, s4) ← lex_exp s3;
  Some (sign ++ ipart ++ fpart ++ epart, s4).

(** A lexeme that [lex_number] reads whole. *)
Definition valid_number (lx : jstr) : bool :=
  match lex_number lx with
  | Some (l, []) => bool_decide (l = lx)
  | _ => false
  end.

(** A number lexeme denotes zero when all its mantissa digits are 0. *)
Fixpoint mantissa_zero (lx : jstr) : bool :=
  match lx with
  | [] => true
  | c :: r =>
      if (c =? 101) || (c =? 69) then true
      else if is_digit c then (c =? 48) && mantissa_zero r
      else mantissa_zero r
  end.

(** ** Truthiness, [String(v)], property access *)

Definition truthy (v : jsval) : bool :=
  match v with
  | JUndef | JNull => false
  | JBool b => b
  | JNum lx => negb (mantissa_zero lx)
  | JStr s => match s with [] => false | _ :: _ => true end
  | JArr _ | JObj _ => true
  end.

Fixpoint join (sep : jstr) (xs : list jstr) : jstr :=
  match xs with
  | [] => []
  | [x] => x
  | x :: xs' => x ++ sep ++ join sep xs'
  end.

(** [String(v)]: the conversion of a template literal [`${v}`]. *)
Fixpoint to_js_string (v : jsval) : jstr :=
  match v with
  | JUndef => js "undefined"
  | JNull => js "null"
  | JBool true => js "true"
  | JBool false => js "false"
  | JNum lx => lx
  | JStr s => s
  | JArr xs =>
      join [44] (map (fun x => match x with
                               | JUndef | JNull => []
                               | _ => to_js_string x
                               end) xs)
  | JObj _ => js "[object Object]"
  end.

Fixpoint assoc_lookup (k : jstr) (ps : list (jstr * jsval)) : option jsval :=
  match ps with
  | [] => None
  | (k', v) :: ps' => if bool_decide (k = k') then Some v else assoc_lookup k ps'
  end.

Fixpoint digits_value (acc : Z) (s : jstr) : Z :=
  match s with [] => acc | c :: r => digits_value (acc * 10 + (c - 48)) r end.

(** A canonical array index: ["0"] or digits without a leading zero. *)
Definition array_index (key : jstr) : option nat :=
  match key with
  | [] => None
  | [48] => Some 0%nat
  | 48 :: _ => None
  | _ => if forallb is_digit key then Some (Z.to_nat (digits_value 0 key)) else None
  end.

(** [v[key]]: [None] is the TypeError of a property access on [null] or
    [undefined]; a missing property reads as [undefined].  Arrays and
    strings answer their index properties (other built-in properties such
    as [length] are not read by the program through this path). *)
Definition get_prop (v : jsval) (key : jstr) : option jsval :=
  match v with
  | JUndef | JNull => None
  | JObj ps => Some (default JUndef (assoc_lookup key ps))
  | JArr xs =>
      Some (match array_index key with
            | Some i => default JUndef (xs !! i)
            | None => JUndef
            end)
  | JStr s =>
      Some (match array_index key with
            | Some i => match s !! i with Some c => JStr [c] | None => JUndef end
            | None => JUndef
            end)
  | _ => Some JUndef
  end.

(** ** [JSON.stringify] *)

Definition hex_digit (n : Z) : Z := if n <? 10 then 48 + n else 87 + n.

(** Four lowercase hexadecimal digits of a code unit. *)
Definition hex4 (c : Z) : jstr :=
  [hex_digit (c / 4096 mod 16); hex_digit (c / 256 mod 16);
   hex_digit (c / 16 mod 16); hex_digit (c mod 16)].

Definition is_high_surrogate (c : Z) : bool := (55296 <=? c) && (c <=? 56319).
Definition is_low_surrogate (c : Z) : bool := (56320 <=? c) && (c <=? 57343).

(** QuoteJSONString, without the enclosing quotes: the short escapes,
    [\u00XX] below 0x20, and [\uXXXX] for a surrogate that is not part of a
    pair (ES2019 well-formed [JSON.stringify]). *)
Fixpoint quote_units (s : jstr) : jstr :=
  match s with
  | [] => []
  | c :: r =>
      if c =? 34 then [92; 34] ++ quote_units r
      else if c =? 92 then [92; 92] ++ quote_units r
      else if c =? 8 then [92; 98] ++ quote_units r
      else if c =? 9 then [92; 116] ++ quote_units r
      else if c =? 10 then [92; 110] ++ quote_units r
      else if c =? 12 then [92; 102] ++ quote_units r
      else if c =? 13 then [92; 114] ++ quote_units r
      else if c <? 32 then [92; 117] ++ hex4 c ++ quote_units r
      else if is_high_surrogate c then
        match r with
        | d :: r' =>
            if is_low_surrogate d then c :: d :: quote_units r'
            else [92; 117] ++ hex4 c ++ quote_units r
        | [] => [92; 117] ++ hex4 c
        end
      else if is_low_surrogate c then [92; 117] ++ hex4 c ++ quote_units r
      else c :: quote_units r
  end.

Arguments hex4 : simpl never.

Definition quote (s : jstr) : jstr := [34] ++ quote_units s ++ [34].

(** SerializeJSONProperty: [None] is the [undefined] result of
    [JSON.stringify(undefined)]; inside an array [undefined] prints as
    [null], inside an object the property is left out. *)
Fixpoint stringify (v : jsval) : option jstr :=
  match v with
  | JUndef => None
  | JNull => Some (js "null")
  | JBool true => Some (js "true")
  | JBool false => Some (js "false")
  | JNum lx => Some lx
  | JStr s => Some (quote s)
  | JArr xs =>
      Some ([91] ++ join [44] (map (fun x => default (js "null") (stringify x)) xs) ++ [93])
  | JObj ps =>
      Some ([123] ++ join [44]
              (omap (fun kv => (fun t => quote kv.1 ++ [58] ++ t) <$> stringify kv.2) ps)
              ++ [125])
  end.

(** The text of an array element and of an object member. *)
Definition elem_text (x : jsval) : jstr := default (js "null") (stringify x).
Definition member_text (kv : jstr * jsval) : option jstr :=
  (fun t => quote kv.1 ++ [58] ++ t) <$> stringify kv.2.

Lemma stringify_JArr xs : stringify (JArr xs) = Some ([91] ++ join [44] (map elem_text xs) ++ [93]).
Proof. reflexivity. Qed.

Lemma stringify_JObj ps :
  stringify (JObj ps) = Some ([123] ++ join [44] (omap member_text ps) ++ [125]).
Proof. reflexivity. Qed.

(** [JSON.stringify] of an array of strings, the shape of a catalog. *)
Definition stringify_strings (xs : list jstr) : jstr :=
  default [] (stringify (JArr (map JStr xs))).

(** ** [JSON.parse] *)

Definition is_json_ws (c : Z) : bool := (c =? 32) || (c =? 9) || (c =? 10) || (c =? 13).

Definition skip_ws (s : jstr) : jstr := drop_while is_json_ws s.

Definition hex_value (c : Z) : option Z :=
  if (48 <=? c) && (c <=? 57) then Some (c - 48)
  else if (97 <=? c) && (c <=? 102) then Some (c - 87)
  else if (65 <=? c) && (c <=? 70) then Some (c - 55)
  else None.

(** The one-character escapes: quote, backslash, slash, b, f, n, r, t. *)
Definition short_escape (e : Z) : option Z :=
  if e =? 34 then Some 34
  else if e =? 92 then Some 92
  else if e =? 47 then Some 47
  else if e =? 98 then Some 8
  else if e =? 102 then Some 12
  else if e =? 110 then Some 10
  else if e =? 114 then Some 13
  else if e =? 116 then Some 9
  else None.

(** The body of a string literal after its opening quote: its code units
    and the text after the closing quote. *)
Fixpoint parse_string_body (s : jstr) : option (jstr * jstr) :=
  match s with
  | [] => None
  | c :: r =>
      if c =? 34 then Some ([], r)
      else if c =? 92 then
        match r with
        | e :: r' =>
            match short_escape e with
            | Some u => '(x, rest) ← parse_string_body r'; Some (u :: x, rest)
            | None =>
            if e =? 117 then
              match r' with
              | h1 :: h2 :: h3 :: h4 :: r'' =>
                  v1 ← hex_value h1; v2 ← hex_value h2; v3 ← hex_value h3; v4 ← hex_value h4;
                  '(x, rest) ← parse_string_body r'';
                  Some ((((v1 * 16 + v2) * 16 + v3) * 16 + v4) :: x, rest)
              | _ => None
              end
            else None
            end
        | [] => None
        end
      else if c <? 32 then None
      else '(x, rest) ← parse_string_body r; Some (c :: x, rest)
  end.

(** Setting a property of an object under construction: a repeated key
    keeps its first position and takes the last value. *)
Fixpoint obj_set (k : jstr) (v : jsval) (ps : list (jstr * jsval)) : list (jstr * jsval) :=
  match ps with
  | [] => [(k, v)]
  | (k', v') :: ps' => if bool_decide (k = k') then (k, v) :: ps' else (k', v') :: obj_set k v ps'
  end.

(** The value parser, with a fuel that bounds the nesting and the number of
    elements; [json_parse] gives it twice the length of the text, which is
    enough (each nested call consumes a character). *)
Fixpoint parse_value (fuel : nat) (s : jstr) : option (jsval * jstr) :=
  match fuel with
  | O => None
  | S f =>
      match skip_ws s with
      | [] => None
      | c :: r =>
          if c =? 91 then
            match skip_ws r with
            | d :: r' => if d =? 93 then Some (JArr [], r')
                         else '(xs, r') ← parse_elements f r; Some (JArr xs, r')
            | [] => None
            end
          else if c =? 123 then
            match skip_ws r with
            | d :: r' => if d =? 125 then Some (JObj [], r')
                         else '(ps, r') ← parse_members f [] r; Some (JObj ps, r')
            | [] => None
            end
          else if c =? 34 then '(x, r') ← parse_string_body r; Some (JStr x, r')
          else if is_prefix (js "true") (c :: r) then Some (JBool true, drop 3 r)
          else if is_prefix (js "false") (c :: r) then Some (JBool false, drop 4 r)
          else if is_prefix (js "null") (c :: r) then Some (JNull, drop 3 r)
          else '(lx, r') ← lex_number (c :: r); Some (JNum lx, r')
      end
  end
with parse_elements (fuel : nat) (s : jstr) : option (list jsval * jstr) :=
  match fuel with
  | O => None
  | S f =>
      '(x, r) ← parse_value f s;
      match skip_ws r with
      | d :: r' =>
          if d =? 44 then '(xs, r'') ← parse_elements f r'; Some (x :: xs, r'')
          else if d =? 93 then Some ([x], r')
          else None
      | [] => None
      end
  end
with parse_members (fuel : nat) (acc : list (jstr * jsval)) (s : jstr)
    : option (list (jstr * jsval) * jstr) :=
  match fuel with
  | O => None
  | S f =>
      match skip_ws s with
      | c :: r =>
          if c =? 34 then
            '(k, r1) ← parse_string_body r;
            match skip_ws r1 with
            | d :: r2 =>
                if d =? 58 then
                  '(x, r3) ← parse_value f r2;
                  match skip_ws r3 with
                  | e :: r4 =>
                      if e =? 44 then parse_members f (obj_set k x acc) r4
                      else if e =? 125 then Some (obj_set k x acc, r4)
                      else None
                  | [] => None
                  end
                else None
            | [] => None
            end
          else None
      | [] => None
      end
  end.

(** [JSON.parse(s)]: [None] is the SyntaxError. *)
Definition json_parse (s : jstr) : option jsval :=
  '(v, r) ← parse_value (2 * length s + 2) s;
  match skip_ws r with [] => Some v | _ => None end.

(** ** Round trip of strings *)

(** Every code unit is a 16-bit value. *)
Definition units_ok (s : jstr) : bool := forallb (fun c => (0 <=? c) && (c <? 65536)) s.

Lemma hex_value_digit n : 0 <= n < 16 -> hex_value (hex_digit n) = Some n.
Proof. intros Hn. unfold hex_value, hex_digit. zcase; f_equal; lia. Qed.

Lemma parse_string_body_regular c t :
  32 <= c -> c <> 34 -> c <> 92 ->
  parse_string_body (c :: t) =
    match parse_string_body t with Some (x, r) => Some (c :: x, r) | None => None end.
Proof.
  intros H1 H2 H3. simpl. zcase. destruct (parse_string_body t) as [[]|]; reflexivity.
Qed.

Lemma parse_string_body_escape e u t :
  short_escape e = Some u ->
  parse_string_body (92 :: e :: t) =
    match parse_string_body t with Some (x, r) => Some (u :: x, r) | None => None end.
Proof.
  intros He. simpl. rewrite He. destruct (parse_string_body t) as [[]|]; reflexivity.
Qed.

Lemma hex4_recombine c :
  0 <= c < 65536 ->
  ((c / 4096 mod 16 * 16 + c / 256 mod 16) * 16 + c / 16 mod 16) * 16 + c mod 16 = c.
Proof.
  intros Hc.
  assert (E1 : c / 256 = c / 16 / 16) by (rewrite Z.div_div by lia; reflexivity).
  assert (E2 : c / 4096 = c / 256 / 16) by (rewrite Z.div_div by lia; reflexivity).
  pose proof (Z.div_mod c 16 ltac:(lia)).
  pose proof (Z.div_mod (c / 16) 16 ltac:(lia)).
  pose proof (Z.div_mod (c / 256) 16 ltac:(lia)).
  rewrite (Z.mod_small (c / 4096) 16) by (split; [apply Z.div_pos|apply Z.div_lt_upper_bound]; lia).
  lia.
Qed.

Lemma parse_string_body_hex4 c t :
  0 <= c < 65536 ->
  parse_string_body (92 :: 117 :: hex4 c ++ t) =
    match parse_string_body t with Some (x, r) => Some (c :: x, r) | None => None end.
Proof.
  intros Hc. unfold hex4. simpl. zcase.
  rewrite !hex_value_digit by (apply Z.mod_pos_bound; lia). simpl.
  destruct (parse_string_body t) as [[x r]|]; [|reflexivity].
  simpl. by rewrite hex4_recombine.
Qed.

Lemma units_ok_cons c r :
  units_ok (c :: r) = true <-> 0 <= c < 65536 /\ units_ok r = true.
Proof. unfold units_ok. simpl. rewrite andb_true_iff, andb_true_iff, Z.leb_le, Z.ltb_lt. tauto. Qed.

(** The parser reads back what QuoteJSONString writes. *)
Lemma parse_quote_units s rest :
  units_ok s = true -> parse_string_body (quote_units s ++ 34 :: rest) = Some (s, rest).
Proof.
  revert rest. induction s as [s IH] using list_length_ind. intros rest Hok.
  destruct s as [|c r]; [reflexivity|].
  apply units_ok_cons in Hok as [Hc Hr].
  assert (IHr : parse_string_body (quote_units r ++ 34 :: rest) = Some (r, rest))
    by (apply IH; [simpl; lia|done]).
  cbn [quote_units]. unfold is_high_surrogate, is_low_surrogate. zcase; cbn [andb]; cbv beta iota;
    rewrite <-?app_assoc; cbn [app]; try subst c;
    try (erewrite parse_string_body_escape by reflexivity; by rewrite IHr);
    try (rewrite parse_string_body_regular by lia; by rewrite IHr);
    try (rewrite parse_string_body_hex4 by lia; by rewrite IHr).
  destruct r as [|d r']; cbn [app].
  - rewrite parse_string_body_hex4 by lia. reflexivity.
  - apply units_ok_cons in Hr as [Hd Hr'].
    zcase; cbn [andb]; cbv beta iota; rewrite <-?app_assoc; cbn [app]; rewrite <-?app_assoc;
      try (rewrite parse_string_body_hex4 by lia; by rewrite IHr).
    rewrite !parse_string_body_regular by lia.
    rewrite IH by (simpl; lia || done). reflexivity.
Qed.

(** ** The number lexer stops at a delimiter *)

(** A text that cannot continue a number lexeme. *)
Definition num_stop (rest : jstr) : Prop :=
  match rest with
  | [] => True
  | c :: _ => is_digit c = false /\ c <> 46 /\ c <> 101 /\ c <> 69 /\ c <> 43 /\ c <> 45
  end.

(** A lexing stage reads the same prefix when more text follows, provided
    the text that follows a complete read cannot continue it. *)
Definition stage_app (f : jstr -> option (jstr * jstr)) : Prop :=
  forall s l r rest, f s = Some (l, r) -> (r = [] -> num_stop rest) ->
    f (s ++ rest) = Some (l, r ++ rest).

Lemma take_digits_app s d r rest :
  take_digits s = (d, r) -> (r = [] -> num_stop rest) ->
  take_digits (s ++ rest) = (d, r ++ rest).
Proof.
  revert d r. induction s as [|c s IH]; intros d r Hs Hstop; simpl in *.
  - injection Hs as <- <-. destruct rest as [|c rest]; [done|].
    simpl. by destruct (Hstop eq_refl) as [-> _].
  - destruct (is_digit c); [|by injection Hs as <- <-].
    destruct (take_digits s) as [d' r'] eqn:E. injection Hs as <- <-.
    by rewrite (IH d' r' eq_refl Hstop).
Qed.

Lemma digits1_app : stage_app digits1.
Proof.
  intros s l r rest. unfold digits1.
  destruct (take_digits s) as [d r'] eqn:E. intros Hs Hstop.
  destruct d; [done|]. injection Hs as <- <-.
  by rewrite (take_digits_app _ _ _ _ E Hstop).
Qed.

Lemma lex_int_app : stage_app lex_int.
Proof.
  intros [|c s] l r rest; [done|]. simpl. intros Hs Hstop.
  destruct (c =? 48); [by injection Hs as <- <-|].
  destruct (is_digit c); [|done]. by apply (digits1_app (c :: s)).
Qed.

Lemma lex_frac_app : stage_app lex_frac.
Proof.
  intros [|c s] l r rest; simpl.
  - intros [= <- <-] Hstop. destruct rest as [|c rest]; [done|]. simpl.
    destruct (Hstop eq_refl) as (_ & H & _). by zcase.
  - destruct (c =? 46); [|by intros [= <- <-]].
    destruct (digits1 s) as [[d r']|] eqn:E; [|done]. intros [= <- <-] Hstop.
    by rewrite (digits1_app _ _ _ _ E Hstop).
Qed.

Lemma lex_exp_app : stage_app lex_exp.
Proof.
  intros [|c s] l r rest; simpl.
  - intros [= <- <-] Hstop. destruct rest as [|c rest]; [done|]. simpl.
    destruct (Hstop eq_refl) as (_ & _ & H1 & H2 & _). by zcase.
  - destruct ((c =? 101) || (c =? 69)); [|by intros [= <- <-]].
    destruct s as [|c' s]; simpl.
    + unfold digits1. simpl. done.
    + destruct ((c' =? 43) || (c' =? 45)).
      * destruct (digits1 s) as [[d r']|] eqn:E; [|done]. intros [= <- <-] Hstop.
        by rewrite (digits1_app _ _ _ _ E Hstop).
      * destruct (digits1 (c' :: s)) as [[d r']|] eqn:E; [|done]. intros [= <- <-] Hstop.
        pose proof (digits1_app _ _ _ _ E Hstop) as H. simpl in H. by rewrite H.
Qed.

(** A valid lexeme followed by a delimiter is read whole. *)
Lemma lex_number_app lx rest :
  valid_number lx = true -> num_stop rest -> lex_number (lx ++ rest) = Some (lx, rest).
Proof.
  unfold valid_number. destruct (lex_number lx) as [[l r]|] eqn:E; [|done].
  destruct r; [|done]. intros Hl%bool_decide_eq_true Hstop. subst l.
  unfold lex_number in E |- *. destruct (lex_sign lx) as [sg s1] eqn:Es.
  destruct (lex_int s1) as [[ip s2]|] eqn:Ei; simpl in E; [|done].
  destruct (lex_frac s2) as [[fp s3]|] eqn:Ef; simpl in E; [|done].
  destruct (lex_exp s3) as [[ep s4]|] eqn:Ee; simpl in E; [|done].
  injection E as Hlx ->.
  assert (Hs1 : s1 <> []) by (intros ->; discriminate).
  assert (Es' : lex_sign (lx ++ rest) = (sg, s1 ++ rest)).
  { destruct lx as [|c lx]; simpl in *; [by injection Es as <- <-|].
    destruct (c =? 45); by injection Es as <- <-. }
  rewrite Es'.
  rewrite (lex_int_app _ _ _ _ Ei) by (intros _; exact Hstop). simpl.
  rewrite (lex_frac_app _ _ _ _ Ef) by (intros _; exact Hstop). simpl.
  rewrite (lex_exp_app _ _ _ _ Ee) by (intros _; exact Hstop).
  simpl. by rewrite Hlx.
Qed.

(** ** Round trip of JSON values *)

(** A JSON value: no [undefined], valid number lexemes, 16-bit code units,
    and no repeated key in an object. *)
Fixpoint json_wf (v : jsval) : bool :=
  match v with
  | JUndef => false
  | JNull | JBool _ => true
  | JNum lx => valid_number lx
  | JStr s => units_ok s
  | JArr xs => forallb json_wf xs
  | JObj ps =>
      bool_decide (NoDup (map fst ps)) && forallb (fun kv => units_ok kv.1 && json_wf kv.2) ps
  end.

(** The number of values, elements and members, a bound on the parser's
    nesting. *)
Fixpoint jsize (v : jsval) : nat :=
  match v with
  | JArr xs => S (sum_list_with (fun x => S (jsize x)) xs)
  | JObj ps => S (sum_list_with (fun kv => S (jsize kv.2)) ps)
  | _ => 1%nat
  end.

(** Induction on values with hypotheses on the elements and members. *)
Section jsval_rect.
Variable P : jsval -> Prop.
Hypothesis HUndef : P JUndef.
Hypothesis HNull : P JNull.
Hypothesis HBool : forall b, P (JBool b).
Hypothesis HNum : forall lx, P (JNum lx).
Hypothesis HStr : forall s, P (JStr s).
Hypothesis HArr : forall xs, Forall P xs -> P (JArr xs).
Hypothesis HObj : forall ps, Forall (fun kv => P kv.2) ps -> P (JObj ps).

Fixpoint jsval_ind' (v : jsval) : P v :=
  match v with
  | JUndef => HUndef
  | JNull => HNull
  | JBool b => HBool b
  | JNum lx => HNum lx
  | JStr s => HStr s
  | JArr xs =>
      HArr xs ((fix go (xs : list jsval) : Forall P xs :=
                  match xs with
                  | [] => List.Forall_nil _
                  | x :: xs' => List.Forall_cons _ x xs' (jsval_ind' x) (go xs')
                  end) xs)
  | JObj ps =>
      HObj ps ((fix go (ps : list (jstr * jsval)) : Forall (fun kv => P kv.2) ps :=
                  match ps with
                  | [] => List.Forall_nil _
                  | kv :: ps' => List.Forall_cons _ kv ps' (jsval_ind' kv.2) (go ps')
                  end) ps)
  end.
End jsval_rect.

(** What may follow a value inside a JSON text. *)
Definition value_stop (rest : jstr) : Prop :=
  match rest with [] => True | c :: _ => c = 44 \/ c = 93 \/ c = 125 end.

Lemma value_stop_num_stop rest : value_stop rest -> num_stop rest.
Proof. destruct rest as [|c r]; [done|]. simpl. intros Hc. unfold is_digit. zcase. Qed.

Lemma skip_ws_cons c s : is_json_ws c = false -> skip_ws (c :: s) = c :: s.
Proof. intros H. unfold skip_ws. simpl. by rewrite H. Qed.

Lemma valid_number_head lx :
  valid_number lx = true -> exists c lx', lx = c :: lx' /\ (c = 45 \/ 48 <= c <= 57).
Proof.
  unfold valid_number, lex_number, lex_sign, lex_int, is_digit.
  destruct lx as [|c lx']; [done|]. intros H. exists c, lx'. split; [done|].
  destruct (Z.eqb_spec c 45); [by left|right].
  destruct (Z.eqb_spec c 48); [lia|]. destruct ((48 <=? c) && (c <=? 57)) eqn:E; [|done].
  apply andb_prop in E as [? ?]. lia.
Qed.

Lemma stringify_head v t :
  json_wf v = true -> stringify v = Some t ->
  exists c t', t = c :: t' /\ is_json_ws c = false /\ c <> 44 /\ c <> 93 /\ c <> 125.
Proof.
  destruct v as [| |[]|lx|s|xs|ps]; simpl; intros Hwf Ht; simplify_eq;
    try (by eexists _, _; split; [reflexivity|]).
  destruct (valid_number_head _ Hwf) as (c & lx' & -> & Hc).
  exists c, lx'. split; [done|]. unfold is_json_ws. zcase.
Qed.

Lemma is_prefix_cons_ne p pat c s : p <> c -> is_prefix (p :: pat) (c :: s) = false.
Proof. intros H. simpl. by zcase. Qed.

Lemma parse_value_num f c s :
  (c = 45 \/ 48 <= c <= 57) ->
  parse_value (S f) (c :: s) = '(lx, r') ← lex_number (c :: s); Some (JNum lx, r').
Proof.
  intros Hc. cbn [parse_value].
  rewrite skip_ws_cons by (unfold is_json_ws; zcase).
  change (js "true") with [116; 114; 117; 101].
  change (js "false") with [102; 97; 108; 115; 101].
  change (js "null") with [110; 117; 108; 108].
  rewrite !is_prefix_cons_ne by lia. zcase; reflexivity.
Qed.

Lemma obj_set_fresh k x acc :
  k ∉ map fst acc -> obj_set k x acc = acc ++ [(k, x)].
Proof.
  induction acc as [|[k' v'] acc IH]; intros Hk; [done|]. simpl in *.
  rewrite bool_decide_false by set_solver. f_equal. apply IH. set_solver.
Qed.

Lemma stringify_wf v : json_wf v = true -> exists t, stringify v = Some t.
Proof. destruct v as [| |[]| | | |]; simpl; by eauto. Qed.

(** What the round trip of one value states, used as induction hypothesis. *)
Definition reads_back (v : jsval) : Prop :=
  json_wf v = true -> forall n t rest, stringify v = Some t -> (jsize v <= n)%nat ->
  value_stop rest -> parse_value n (t ++ rest) = Some (v, rest).

Lemma join_cons_cons (sep a : jstr) l : l <> [] -> join sep (a :: l) = a ++ sep ++ join sep l.
Proof. destruct l; [done|reflexivity]. Qed.

Lemma omap_member_text_cons k x ps tx :
  stringify x = Some tx ->
  omap member_text ((k, x) :: ps) = (quote k ++ [58] ++ tx) :: omap member_text ps.
Proof. intros H. simpl. unfold member_text at 1. simpl. by rewrite H. Qed.

Lemma omap_member_text_nil ps :
  forallb (fun kv => units_ok kv.1 && json_wf kv.2) ps = true -> ps <> [] ->
  omap member_text ps <> [].
Proof.
  destruct ps as [|[k x] ps]; [done|]. intros Hwf _. cbn [forallb] in Hwf.
  apply andb_prop in Hwf as [[_ Hx]%andb_prop _].
  destruct (stringify_wf x Hx) as [tx Htx]. by rewrite (omap_member_text_cons k x ps tx Htx).
Qed.

Lemma parse_elements_text xs :
  Forall reads_back xs -> forallb json_wf xs = true -> xs <> [] ->
  forall n rest, (sum_list_with (fun x => S (jsize x)) xs <= n)%nat ->
  parse_elements n (join [44] (map elem_text xs) ++ 93 :: rest) = Some (xs, rest).
Proof.
  induction 1 as [|x xs Hx Hxs IH]; [done|]. simpl.
  intros [Hwfx Hwfs]%andb_prop _ n rest Hn.
  destruct n as [|f]; [lia|]. destruct (stringify_wf x Hwfx) as [tx Htx].
  assert (Hex : elem_text x = tx) by (unfold elem_text; by rewrite Htx).
  destruct xs as [|y ys]; cbn [map]; rewrite Hex.
  - cbn [parse_elements join]. rewrite (Hx Hwfx f tx (93 :: rest) Htx) by (simpl; lia || auto).
    reflexivity.
  - rewrite <-!app_assoc.
    cbn [parse_elements]. rewrite (Hx Hwfx f tx _ Htx) by (simpl; lia || auto). simpl.
    rewrite IH by (done || simpl in *; lia). reflexivity.
Qed.

Lemma parse_members_text ps acc :
  Forall (fun kv => reads_back kv.2) ps ->
  forallb (fun kv => units_ok kv.1 && json_wf kv.2) ps = true -> ps <> [] ->
  NoDup (map fst (acc ++ ps)) ->
  forall n rest, (sum_list_with (fun kv => S (jsize kv.2)) ps <= n)%nat ->
  parse_members n acc (join [44] (omap member_text ps) ++ 125 :: rest) = Some (acc ++ ps, rest).
Proof.
  intros Hps. revert acc. induction Hps as [|[k x] ps Hx Hps IH]; [done|].
  intros acc Hwf _ Hnd n rest Hn. simpl in Hwf, Hn.
  apply andb_prop in Hwf as [[Hk Hwfx]%andb_prop Hwfs].
  destruct n as [|f]; [lia|]. destruct (stringify_wf x Hwfx) as [tx Htx].
  rewrite map_app in Hnd. simpl in Hnd.
  assert (Hfresh : k ∉ map fst acc).
  { intros Hin. apply NoDup_app in Hnd as (_ & Hd & _). exact (Hd k Hin (list_elem_of_here _ _)). }
  rewrite (omap_member_text_cons k x ps tx Htx). unfold quote.
  destruct (decide (ps = [])) as [->|Hne].
  - cbn [omap list_omap join]. rewrite <-!app_assoc. cbn [app parse_members]. rewrite skip_ws_cons by done. simpl.
    rewrite parse_quote_units by done. simpl.
    rewrite (Hx Hwfx f tx (125 :: rest) Htx) by (simpl; lia || auto). simpl.
    by rewrite obj_set_fresh.
  - rewrite join_cons_cons by (by apply omap_member_text_nil). rewrite <-!app_assoc.
    cbn [app parse_members]. rewrite skip_ws_cons by done. simpl.
    rewrite parse_quote_units by done. simpl.
    rewrite (Hx Hwfx f tx _ Htx) by (simpl; lia || auto). simpl.
    rewrite obj_set_fresh by done. rewrite IH; [by rewrite <-app_assoc|done|done| |lia].
    by rewrite <-app_assoc, map_app.
Qed.

Lemma parse_value_array f r :
  parse_value (S f) (91 :: r) =
    match skip_ws r with
    | d :: r' => if d =? 93 then Some (JArr [], r')
                 else '(xs, r') ← parse_elements f r; Some (JArr xs, r')
    | [] => None
    end.
Proof. reflexivity. Qed.

Lemma parse_value_object f r :
  parse_value (S f) (123 :: r) =
    match skip_ws r with
    | d :: r' => if d =? 125 then Some (JObj [], r')
                 else '(ps, r') ← parse_members f [] r; Some (JObj ps, r')
    | [] => None
    end.
Proof. reflexivity. Qed.

Lemma parse_value_stringify v : reads_back v.
Proof.
  induction v as [| |b|lx|s|xs IH|ps IH] using jsval_ind';
    intros Hwf n t rest Ht Hn Hstop; destruct n as [|f]; simpl in Hn; try lia.
  - done.
  - injection Ht as <-. reflexivity.
  - destruct b; injection Ht as <-; reflexivity.
  - injection Ht as <-. simpl in Hwf.
    destruct (valid_number_head lx Hwf) as (c & lx' & -> & Hc).
    rewrite <-app_comm_cons, parse_value_num by done.
    rewrite app_comm_cons, lex_number_app by auto using value_stop_num_stop. done.
  - injection Ht as <-. unfold quote. rewrite <-!app_assoc. simpl.
    rewrite parse_quote_units by done. done.
  - rewrite stringify_JArr in Ht. injection Ht as <-. destruct xs as [|x xs']; [done|].
    pose proof Hwf as Hw. simpl in Hw. apply andb_prop in Hw as [Hwfx _].
    destruct (stringify_wf x Hwfx) as [tx Htx].
    destruct (stringify_head x tx Hwfx Htx) as (c & t' & -> & Hws & _ & H93 & _).
    assert (Hbody : exists tail, join [44] (map elem_text (x :: xs')) ++ 93 :: rest = c :: tail).
    { cbn [map]. unfold elem_text at 1. rewrite Htx. destruct xs'; simpl; eauto. }
    destruct Hbody as [tail Htail].
    cbn [app]. rewrite <-!app_assoc. cbn [app].
    rewrite parse_value_array, Htail, skip_ws_cons by done.
    zcase. rewrite <-Htail, parse_elements_text; [done|done|done|done|lia].
  - rewrite stringify_JObj in Ht. injection Ht as <-. destruct ps as [|[k x] ps']; [done|].
    pose proof Hwf as Hw. simpl in Hw.
    apply andb_prop in Hw as [Hnd%bool_decide_eq_true [[Hk Hwfx]%andb_prop _]%andb_prop].
    destruct (stringify_wf x Hwfx) as [tx Htx].
    cbn [app]. rewrite <-!app_assoc. cbn [app].
    set (body := join [44] _ ++ 125 :: rest).
    assert (Hbody : exists tail, body = 34 :: tail).
    { subst body. rewrite (omap_member_text_cons k x ps' tx Htx).
      destruct (omap member_text ps'); simpl; eauto. }
    destruct Hbody as [tail Htail]. rewrite parse_value_object, Htail, skip_ws_cons by done.
    simpl Z.eqb. cbv iota. rewrite <-Htail. subst body.
    rewrite <-(app_nil_l ((k, x) :: ps')).
    simpl in Hwf. apply andb_prop in Hwf as [_ Hwf].
    rewrite parse_members_text; [done|done|done|done|done|simpl in *; lia].
Qed.

Lemma join_length_ge {A} (f : A -> nat) (g : A -> jstr) xs :
  Forall (fun x => (f x <= length (g x))%nat) xs ->
  (sum_list_with (fun x => S (f x)) xs <= length (join [44%Z] (map g xs)) + 1)%nat.
Proof.
  induction 1 as [|x xs Hx Hxs IH]; simpl; [lia|].
  destruct xs as [|y ys]; simpl in *; [lia|]. rewrite !length_app. simpl. lia.
Qed.

Lemma omap_member_text_wf ps :
  forallb (fun kv => units_ok kv.1 && json_wf kv.2) ps = true ->
  omap member_text ps = map (fun kv => quote kv.1 ++ [58] ++ elem_text kv.2) ps.
Proof.
  induction ps as [|[k x] ps IH]; [done|]. cbn [forallb].
  intros [[_ Hx]%andb_prop Hps]%andb_prop.
  destruct (stringify_wf x Hx) as [tx Htx].
  rewrite (omap_member_text_cons k x ps tx Htx), IH by done.
  simpl. unfold elem_text. by rewrite Htx.
Qed.

Lemma quote_length s : (2 <= length (quote s))%nat.
Proof. unfold quote. rewrite !length_app. simpl. lia. Qed.

Lemma valid_number_length lx : valid_number lx = true -> (1 <= length lx)%nat.
Proof. intros H. destruct (valid_number_head lx H) as (c & lx' & -> & _). simpl. lia. Qed.

(** The size of a value is at most the length of its text, so the fuel of
    [json_parse] is enough. *)
Lemma jsize_le_length v : json_wf v = true -> forall t, stringify v = Some t -> (jsize v <= length t)%nat.
Proof.
  induction v as [| |b|lx|s|xs IH|ps IH] using jsval_ind'; intros Hwf t Ht; try done;
    simpl in Ht; simplify_eq; simpl.
  - lia.
  - destruct b; simplify_eq; simpl; lia.
  - by apply valid_number_length.
  - pose proof (quote_length s). simpl. lia.
  - change (fun x => default (js "null") (stringify x)) with elem_text.
    rewrite !length_app. simpl.
    enough ((sum_list_with (fun x => S (jsize x)) xs <= length (join [44%Z] (map elem_text xs)) + 1)%nat)
      by lia.
    apply join_length_ge. simpl in Hwf. rewrite forallb_forall in Hwf.
    apply Forall_forall. intros x Hin. rewrite Forall_forall in IH.
    specialize (Hwf x (proj1 (list_elem_of_In _ _) Hin)). destruct (stringify_wf x Hwf) as [tx Htx].
    unfold elem_text. rewrite Htx. by apply (IH x Hin).
  - simpl in Hwf. apply andb_prop in Hwf as [_ Hwf].
    change (fun kv : jstr * jsval => (fun t => quote kv.1 ++ [58] ++ t) <$> stringify kv.2)
      with member_text.
    rewrite omap_member_text_wf by done. rewrite !length_app. cbn [length].
    enough ((sum_list_with (fun kv => S (jsize kv.2)) ps <=
             length (join [44%Z] (map (fun kv => quote kv.1 ++ [58%Z] ++ elem_text kv.2) ps)) + 1)%nat)
      by lia.
    apply join_length_ge. rewrite forallb_forall in Hwf.
    apply Forall_forall. intros [k x] Hin. rewrite Forall_forall in IH.
    specialize (Hwf _ (proj1 (list_elem_of_In _ _) Hin)). apply andb_prop in Hwf as [_ Hwf].
    destruct (stringify_wf x Hwf) as [tx Htx].
    unfold elem_text. simpl. rewrite Htx. simpl. rewrite !length_app. simpl.
    pose proof (IH _ Hin Hwf tx Htx). simpl in *. lia.
Qed.

(** [JSON.parse] reads back what [JSON.stringify] writes, for every JSON
    value: arrays and objects at any depth, strings with any code units
    (escapes and lone surrogates included), numbers kept as lexemes. *)
Lemma stringify_parses v t :
  json_wf v = true -> stringify v = Some t -> json_parse t = Some v.
Proof.
  intros Hwf Ht. pose proof (jsize_le_length v Hwf t Ht) as Hle.
  unfold json_parse. rewrite <-(app_nil_r t) at 2.
  rewrite (parse_value_stringify v Hwf _ t [] Ht) by (simpl; lia). reflexivity.
Qed.

Lemma json_wf_strings titles :
  json_wf (JArr (map JStr titles)) = forallb units_ok titles.
Proof. induction titles as [|x xs IH]; [done|]. simpl in *. by rewrite IH. Qed.

(** A catalog, an array of titles, survives its storage as JSON text. *)
Lemma stringify_strings_parses titles :
  forallb units_ok titles = true ->
  json_parse (stringify_strings titles) = Some (JArr (map JStr titles)).
Proof.
  intros H. apply stringify_parses; [by rewrite json_wf_strings|reflexivity].
Qed.

(** ** The round trip *)

(** [JSON.parse] reads back what [JSON.stringify] writes, for every
    value without [undefined], with valid number literals, well-formed
    strings and distinct keys in each object. *)
Theorem json_parse_stringify v t :
  json_wf v = true -> stringify v = Some t -> json_parse t = Some v.
Proof. apply stringify_parses. Qed.

(** An object with an array holding a number, a string with a quote, a
    control character and a lone surrogate, [null] and [true]. *)
Definition sample_json : jsval :=
  JObj [(js "a", JArr [JNum (js "-1.5e3"); JStr [120; 34; 10; 55296]; JNull; JBool true]);
        (js "b", JObj [])].

Lemma json_parse_stringify_witness :
  json_parse (default [] (stringify sample_json)) = Some sample_json.
Proof. apply json_parse_stringify; [vm_compute; reflexivity|vm_compute; reflexivity]. Defined.

(** ** The fuel of [JSON.parse]

    The fuel of [parse_value] is never what makes [json_parse] fail: a
    parse that succeeds with some fuel succeeds with more, and with twice
    the number of code units it reads (each level of nesting and each
    element reads at least one).  First, what the lexers read. *)

Lemma drop_while_length p s : (length (drop_while p s) <= length s)%nat.
Proof. induction s as [|c s IH]; cbn; [done|]. destruct (p c); cbn; lia. Qed.

Lemma skip_ws_length s : (length (skip_ws s) <= length s)%nat.
Proof. apply drop_while_length. Qed.

Lemma take_digits_split s d r : take_digits s = (d, r) -> s = d ++ r.
Proof.
  revert d r. induction s as [|c s IH]; intros d r; cbn; [by intros [= <- <-]|].
  destruct (is_digit c); [|by intros [= <- <-]].
  destruct (take_digits s) as [d' r'] eqn:E. intros [= <- <-]. cbn. by rewrite (IH _ _ eq_refl).
Qed.

Lemma digits1_length s d r : digits1 s = Some (d, r) -> (length r < length s)%nat.
Proof.
  unfold digits1. destruct (take_digits s) as [d' r'] eqn:E. apply take_digits_split in E as ->.
  destruct d' as [|c d']; [done|]. intros [= <- <-]. rewrite length_app. cbn. lia.
Qed.

Lemma lex_int_length s d r : lex_int s = Some (d, r) -> (length r < length s)%nat.
Proof.
  destruct s as [|c s]; cbn; [done|]. destruct (c =? 48); [intros [= <- <-]; lia|].
  destruct (is_digit c); [apply digits1_length | done].
Qed.

Lemma lex_frac_length s d r : lex_frac s = Some (d, r) -> (length r <= length s)%nat.
Proof.
  destruct s as [|c s]; cbn; [by intros [= <- <-]|]. destruct (c =? 46); [|intros [= <- <-]; cbn; lia].
  destruct (digits1 s) as [[d' r']|] eqn:E; cbn; [|done]. intros [= <- <-].
  apply digits1_length in E. lia.
Qed.

Lemma lex_exp_length s d r : lex_exp s = Some (d, r) -> (length r <= length s)%nat.
Proof.
  destruct s as [|c s]; cbn; [by intros [= <- <-]|].
  destruct ((c =? 101) || (c =? 69)); [|intros [= <- <-]; cbn; lia].
  destruct s as [|c' s]; cbn; [by unfold digits1|].
  destruct ((c' =? 43) || (c' =? 45)).
  - destruct (digits1 s) as [[d' r']|] eqn:E; cbn; [|done]. intros [= <- <-].
    apply digits1_length in E. lia.
  - destruct (digits1 (c' :: s)) as [[d' r']|] eqn:E; cbn; [|done]. intros [= <- <-].
    apply digits1_length in E. cbn in E. lia.
Qed.

Lemma lex_number_length s lx r : lex_number s = Some (lx, r) -> (length r < length s)%nat.
Proof.
  unfold lex_number. destruct (lex_sign s) as [sg s1] eqn:Es.
  assert (Hs : (length s1 <= length s)%nat).
  { destruct s as [|c s]; cbn in Es; [by injection Es as <- <-|].
    destruct (c =? 45); injection Es as <- <-; cbn; lia. }
  destruct (lex_int s1) as [[ip s2]|] eqn:Ei; cbn; [|done].
  destruct (lex_frac s2) as [[fp s3]|] eqn:Ef; cbn; [|done].
  destruct (lex_exp s3) as [[ep s4]|] eqn:Ee; cbn; [|done]. intros [= _ <-].
  apply lex_int_length in Ei. apply lex_frac_length in Ef. apply lex_exp_length in Ee. lia.
Qed.

(** A string body is read up to its closing quote, which is consumed. *)
Lemma parse_string_body_length s x r : parse_string_body s = Some (x, r) -> (length r < length s)%nat.
Proof.
  revert x r. induction s as [s IH] using list_length_ind. intros x r.
  destruct s as [|c t]; cbn; [done|].
  destruct (c =? 34); [intros [= <- <-]; lia|].
  destruct (c =? 92).
  - destruct t as [|e t]; [done|].
    destruct (short_escape e).
    + destruct (parse_string_body t) as [[x' r']|] eqn:E; cbn; [|done]. intros [= <- <-].
      apply IH in E; cbn; lia.
    + destruct (e =? 117); [|done]. destruct t as [|h1 [|h2 [|h3 [|h4 t]]]]; try done.
      destruct (hex_value h1), (hex_value h2), (hex_value h3), (hex_value h4); cbn; try done.
      destruct (parse_string_body t) as [[x' r']|] eqn:E; cbn; [|done]. intros [= <- <-].
      apply IH in E; cbn; lia.
  - destruct (c <? 32); [done|].
    destruct (parse_string_body t) as [[x' r']|] eqn:E; cbn; [|done]. intros [= <- <-].
    apply IH in E; cbn; lia.
Qed.

(** *** More fuel gives the same answer *)

Lemma parse_fuel_mono f :
  (forall s res f', (f <= f')%nat -> parse_value f s = Some res -> parse_value f' s = Some res) /\
  (forall s res f', (f <= f')%nat -> parse_elements f s = Some res -> parse_elements f' s = Some res) /\
  (forall acc s res f', (f <= f')%nat -> parse_members f acc s = Some res -> parse_members f' acc s = Some res).
Proof.
  induction f as [|f (IHv & IHe & IHm)]; [repeat split; intros; discriminate|].
  repeat split; intros * Hle; (destruct f' as [|f']; [lia|]); assert (Hf : (f <= f')%nat) by lia;
    cbn [parse_value parse_elements parse_members]; unfold mbind, option_bind;
    repeat match goal with
      | E : parse_value f ?x = Some _ |- context [parse_value f' ?x] => rewrite (IHv _ _ f' Hf E)
      | E : parse_elements f ?x = Some _ |- context [parse_elements f' ?x] => rewrite (IHe _ _ f' Hf E)
      | E : parse_members f ?a ?x = Some _ |- context [parse_members f' ?a ?x] => rewrite (IHm _ _ _ f' Hf E)
      | |- None = Some _ -> _ => discriminate
      | |- ?P -> ?P => exact id
      | |- parse_members f ?a ?x = Some _ -> _ => apply (IHm a x _ f' Hf)
      | |- (match ?x with _ => _ end) = _ -> _ => destruct x eqn:?
      end.
Qed.

(** *** Twice the code units read is enough fuel *)

(** Run the parser's first level again on the facts gathered about it. *)
Ltac replay :=
  unfold mbind, option_bind;
  repeat first [ progress cbv beta iota
               | match goal with E : ?x = _ |- context [?x] => rewrite E end ].

Lemma skip_ws_cons_length s c r : skip_ws s = c :: r -> (length r < length s)%nat.
Proof. intros E. pose proof (skip_ws_length s) as L. rewrite E in L. cbn in L. lia. Qed.

Lemma parse_fuel_bound f :
  (forall s v r, parse_value f s = Some (v, r) -> (length r < length s)%nat /\
     exists n, (n <= 2 * (length s - length r))%nat /\ parse_value n s = Some (v, r)) /\
  (forall s xs r, parse_elements f s = Some (xs, r) -> (length r < length s)%nat /\
     exists n, (n + 1 <= 2 * (length s - length r))%nat /\ parse_elements n s = Some (xs, r)) /\
  (forall acc s ps r, parse_members f acc s = Some (ps, r) -> (length r < length s)%nat /\
     exists n, (n + 1 <= 2 * (length s - length r))%nat /\ parse_members n acc s = Some (ps, r)).
Proof.
  induction f as [|f (IHv & IHe & IHm)]; [repeat split; intros; discriminate|].
  split; [|split].
  - (* parse_value *)
    intros s v r H. cbn [parse_value] in H. unfold mbind, option_bind in H.
    destruct (skip_ws s) as [|c r0] eqn:Ews; [discriminate|]. pose proof (skip_ws_cons_length _ _ _ Ews) as L0.
    destruct (c =? 91) eqn:C1; [|destruct (c =? 123) eqn:C2; [|destruct (c =? 34) eqn:C3]].
    + destruct (skip_ws r0) as [|d r1] eqn:Ews1; [discriminate|]. pose proof (skip_ws_cons_length _ _ _ Ews1) as L1.
      destruct (d =? 93) eqn:D.
      * injection H as <- <-. split; [lia|]. exists 1%nat. split; [lia|]. cbn [parse_value]. replay. done.
      * destruct (parse_elements f r0) as [[xs r']|] eqn:E; [|discriminate]. injection H as <- <-.
        destruct (IHe _ _ _ E) as [Lr (n & Hn & En)]. split; [lia|]. exists (S n). split; [lia|].
        cbn [parse_value]. replay. done.
    + destruct (skip_ws r0) as [|d r1] eqn:Ews1; [discriminate|]. pose proof (skip_ws_cons_length _ _ _ Ews1) as L1.
      destruct (d =? 125) eqn:D.
      * injection H as <- <-. split; [lia|]. exists 1%nat. split; [lia|]. cbn [parse_value]. replay. done.
      * destruct (parse_members f [] r0) as [[ps r']|] eqn:E; [|discriminate]. injection H as <- <-.
        destruct (IHm _ _ _ _ E) as [Lr (n & Hn & En)]. split; [lia|]. exists (S n). split; [lia|].
        cbn [parse_value]. replay. done.
    + destruct (parse_string_body r0) as [[x r']|] eqn:E; [|discriminate]. injection H as <- <-.
      pose proof (parse_string_body_length _ _ _ E). split; [lia|]. exists 1%nat. split; [lia|].
      cbn [parse_value]. replay. done.
    + assert (Ld : forall k, (length (drop k r0) < length s)%nat) by (intros k; rewrite length_drop; lia).
      destruct (is_prefix (js "true") (c :: r0)) eqn:P1;
        [injection H as <- <-; split; [apply Ld|]; exists 1%nat; split; [pose proof (Ld 3%nat); lia|];
         cbn [parse_value]; replay; done|].
      destruct (is_prefix (js "false") (c :: r0)) eqn:P2;
        [injection H as <- <-; split; [apply Ld|]; exists 1%nat; split; [pose proof (Ld 4%nat); lia|];
         cbn [parse_value]; replay; done|].
      destruct (is_prefix (js "null") (c :: r0)) eqn:P3;
        [injection H as <- <-; split; [apply Ld|]; exists 1%nat; split; [pose proof (Ld 3%nat); lia|];
         cbn [parse_value]; replay; done|].
      destruct (lex_number (c :: r0)) as [[lx r']|] eqn:E; [|discriminate]. injection H as <- <-.
      pose proof (lex_number_length _ _ _ E) as Ln. cbn in Ln. split; [lia|]. exists 1%nat. split; [lia|].
      cbn [parse_value]. replay. done.
  - (* parse_elements *)
    intros s xs r H. cbn [parse_elements] in H. unfold mbind, option_bind in H.
    destruct (parse_value f s) as [[x r1]|] eqn:E1; [|discriminate].
    destruct (IHv _ _ _ E1) as [L1 (n1 & Hn1 & En1)].
    destruct (skip_ws r1) as [|d r2] eqn:Ews; [discriminate|]. pose proof (skip_ws_cons_length _ _ _ Ews) as L2.
    destruct (d =? 44) eqn:D1; [|destruct (d =? 93) eqn:D2; [|discriminate]].
    + destruct (parse_elements f r2) as [[xs' r3]|] eqn:E2; [|discriminate]. injection H as <- <-.
      destruct (IHe _ _ _ E2) as [L3 (n2 & Hn2 & En2)]. split; [lia|].
      destruct (parse_fuel_mono n1) as (Mv & _ & _). destruct (parse_fuel_mono n2) as (_ & Me & _).
      apply (Mv _ _ (Nat.max n1 n2)) in En1; [|lia]. apply (Me _ _ (Nat.max n1 n2)) in En2; [|lia].
      exists (S (Nat.max n1 n2)). split; [lia|]. cbn [parse_elements]. replay. done.
    + injection H as <- <-. split; [lia|]. exists (S n1). split; [lia|]. cbn [parse_elements]. replay. done.
  - (* parse_members *)
    intros acc s ps r H. cbn [parse_members] in H. unfold mbind, option_bind in H.
    destruct (skip_ws s) as [|c r0] eqn:Ews; [discriminate|]. pose proof (skip_ws_cons_length _ _ _ Ews) as L0.
    destruct (c =? 34) eqn:C; [|discriminate].
    destruct (parse_string_body r0) as [[k r1]|] eqn:Ek; [|discriminate]. pose proof (parse_string_body_length _ _ _ Ek) as L1.
    destruct (skip_ws r1) as [|d r2] eqn:Ews2; [discriminate|]. pose proof (skip_ws_cons_length _ _ _ Ews2) as L2.
    destruct (d =? 58) eqn:D; [|discriminate].
    destruct (parse_value f r2) as [[x r3]|] eqn:Ev; [|discriminate].
    destruct (IHv _ _ _ Ev) as [L3 (n1 & Hn1 & En1)].
    destruct (skip_ws r3) as [|e r4] eqn:Ews4; [discriminate|]. pose proof (skip_ws_cons_length _ _ _ Ews4) as L4.
    destruct (e =? 44) eqn:E1; [|destruct (e =? 125) eqn:E2; [|discriminate]].
    + destruct (IHm _ _ _ _ H) as [L5 (n2 & Hn2 & En2)]. split; [lia|].
      destruct (parse_fuel_mono n1) as (Mv & _ & _). destruct (parse_fuel_mono n2) as (_ & _ & Mm).
      apply (Mv _ _ (Nat.max n1 n2)) in En1; [|lia]. apply (Mm _ _ _ (Nat.max n1 n2)) in En2; [|lia].
      exists (S (Nat.max n1 n2)). split; [lia|]. cbn [parse_members]. replay. done.
    + injection H as <- <-. split; [lia|]. exists (S n1). split; [lia|]. cbn [parse_members]. replay. done.
Qed.

(** The fuel [json_parse] gives is enough: [JSON.parse]
    reads a value from [s] exactly when the parser reads one, followed by
    white space only, with some fuel.  So the model's [None] is the
    [SyntaxError] of a text that is not JSON, never an exhausted fuel. *)
Theorem json_parse_fuel_enough s v :
  json_parse s = Some v <-> exists f r, parse_value f s = Some (v, r) /\ skip_ws r = [].
Proof.
  split.
  - unfold json_parse, mbind, option_bind. destruct (parse_value _ s) as [[v' r]|] eqn:E; [|done].
    destruct (skip_ws r) eqn:Er; [|done]. intros [= <-]. by exists (2 * length s + 2)%nat, r.
  - intros (f & r & H & Hr). destruct (parse_fuel_bound f) as (Hv & _ & _).
    destruct (Hv _ _ _ H) as [_ (n & Hn & En)]. destruct (parse_fuel_mono n) as (Mv & _ & _).
    unfold json_parse. rewrite (Mv _ _ (2 * length s + 2)%nat ltac:(lia) En). cbn. by rewrite Hr.
Qed.

(** ** What [JSON.parse] returns is a JSON value

    The lexeme of a number is read whole when it stands alone, string
    bodies keep the code units 16-bit, and an object has each key once. *)

(** *** The lexeme of a number, read again alone *)

Definition digit_head (r : jstr) : bool := match r with c :: _ => is_digit c | [] => false end.

Lemma take_digits_spec s d r :
  take_digits s = (d, r) -> s = d ++ r /\ forallb is_digit d = true /\ digit_head r = false.
Proof.
  revert d r. induction s as [|c s IH]; intros d r; cbn; [by intros [= <- <-]|].
  destruct (is_digit c) eqn:Hc; [|by intros [= <- <-]; cbn; rewrite Hc].
  destruct (take_digits s) as [d' r'] eqn:E. intros [= <- <-].
  destruct (IH _ _ eq_refl) as (-> & Hd & Hr). cbn. by rewrite Hc, Hd.
Qed.

Lemma take_digits_replay d r :
  forallb is_digit d = true -> digit_head r = false -> take_digits (d ++ r) = (d, r).
Proof.
  induction d as [|c d IH]; cbn.
  - destruct r as [|c r]; cbn; [done|]. by intros _ ->.
  - intros [Hc Hd]%andb_prop Hr. rewrite Hc, IH; done.
Qed.

Lemma digits1_spec s d r :
  digits1 s = Some (d, r) -> s = d ++ r /\ d <> [] /\ forallb is_digit d = true /\ digit_head r = false.
Proof.
  unfold digits1. destruct (take_digits s) as [d' r'] eqn:E. apply take_digits_spec in E as (-> & Hd & Hr).
  destruct d'; [done|]. by intros [= <- <-].
Qed.

Lemma digits1_replay d r :
  d <> [] -> forallb is_digit d = true -> digit_head r = false -> digits1 (d ++ r) = Some (d, r).
Proof. intros Hne Hd Hr. unfold digits1. rewrite take_digits_replay by done. by destruct d. Qed.

(** The parts of a number lexeme and what may follow each one. *)
Lemma lex_int_spec s ip r :
  lex_int s = Some (ip, r) -> s = ip ++ r /\ digit_head ip = true /\
    forall rest, digit_head rest = false -> lex_int (ip ++ rest) = Some (ip, rest).
Proof.
  destruct s as [|c s]; cbn; [done|]. destruct (Z.eqb_spec c 48) as [->|Hc0].
  - intros [= <- <-]. by repeat split.
  - destruct (is_digit c) eqn:Hc; [|done]. intros (E & Hne & Hd & Hr)%digits1_spec.
    destruct ip as [|c' ip]; [done|]. injection E as <- ->. repeat split; [done|].
    intros rest Hrest. cbn. destruct (Z.eqb_spec c 48); [lia|]. rewrite Hc.
    change (c :: ip ++ rest) with ((c :: ip) ++ rest). by apply digits1_replay.
Qed.

Definition head_is (c : Z) (r : jstr) : bool := match r with d :: _ => d =? c | [] => false end.

Lemma digit_head_app a b : a <> [] -> digit_head (a ++ b) = digit_head a.
Proof. by destruct a. Qed.

Lemma lex_frac_spec s fp r :
  lex_frac s = Some (fp, r) -> s = fp ++ r /\ digit_head fp = false /\
    (fp = [] -> head_is 46 r = false) /\
    forall rest, (fp = [] -> head_is 46 rest = false) -> (fp <> [] -> digit_head rest = false) ->
      lex_frac (fp ++ rest) = Some (fp, rest).
Proof.
  destruct s as [|c s]; cbn.
  - intros [= <- <-]. split; [done|]. split; [done|]. split; [done|].
    intros [|c rest] Hd _; cbn; [done|]. specialize (Hd eq_refl). cbn in Hd. by rewrite Hd.
  - destruct (Z.eqb_spec c 46) as [->|Hc].
    + destruct (digits1 s) as [[d r']|] eqn:E; cbn; [|done]. intros [= <- <-].
      apply digits1_spec in E as (-> & Hne & Hd & Hr). split; [done|]. split; [done|]. split; [done|].
      intros rest _ Hrest. cbn. rewrite digits1_replay by auto. done.
    + intros [= <- <-]. split; [done|]. split; [done|]. split; [cbn; intros _; by apply Z.eqb_neq|].
      intros [|c' rest] Hd _; cbn; [done|]. specialize (Hd eq_refl). cbn in Hd. by rewrite Hd.
Qed.

Lemma lex_exp_spec s ep r :
  lex_exp s = Some (ep, r) -> s = ep ++ r /\ digit_head ep = false /\ head_is 46 ep = false /\
    lex_exp ep = Some (ep, []).
Proof.
  destruct s as [|e s]; cbn; [by intros [= <- <-]|].
  destruct ((e =? 101) || (e =? 69)) eqn:He; [|by intros [= <- <-]].
  assert (Hd : digit_head (e :: []) = false /\ head_is 46 [e] = false).
  { cbn. unfold is_digit. apply orb_true_iff in He as [He|He]; apply Z.eqb_eq in He; subst; done. }
  destruct Hd as [Hd1 Hd2].
  destruct s as [|c s]; [by unfold digits1|]. cbn.
  destruct ((c =? 43) || (c =? 45)) eqn:Hs.
  - destruct (digits1 s) as [[d r']|] eqn:E; cbn; [|done]. intros [= <- <-].
    apply digits1_spec in E as (-> & Hne & Hd & Hr). repeat split; [done..|].
    cbn. rewrite He, Hs. rewrite <- (app_nil_r d), digits1_replay by auto. by rewrite app_nil_r.
  - destruct (digits1 (c :: s)) as [[d r']|] eqn:E; cbn; [|done]. intros [= <- <-].
    apply digits1_spec in E as (E & Hne & Hd & Hr). rewrite E. repeat split; [done..|].
    cbn. rewrite He. destruct d as [|c' d]; [done|]. injection E as -> ->. rewrite Hs.
    rewrite <- (app_nil_r (c' :: d)), digits1_replay by auto. by rewrite app_nil_r.
Qed.

(** A lexeme [lex_number] reads is a valid number. *)
Lemma lex_number_valid s lx r : lex_number s = Some (lx, r) -> s = lx ++ r /\ valid_number lx = true.
Proof.
  unfold lex_number. destruct (lex_sign s) as [sg s1] eqn:Es.
  destruct (lex_int s1) as [[ip s2]|] eqn:Ei; cbn; [|done].
  destruct (lex_frac s2) as [[fp s3]|] eqn:Ef; cbn; [|done].
  destruct (lex_exp s3) as [[ep s4]|] eqn:Ee; cbn; [|done]. intros [= <- <-].
  apply lex_int_spec in Ei as (-> & Hih & Hi). apply lex_frac_spec in Ef as (-> & Hfd & Hfdot & Hf).
  apply lex_exp_spec in Ee as (-> & Hed & Hedot & He).
  assert (Hs : s = sg ++ ip ++ fp ++ ep ++ s4 /\ lex_sign (sg ++ ip ++ fp ++ ep) = (sg, ip ++ fp ++ ep)).
  { destruct s as [|c s]; cbn in Es.
    - injection Es as <- E. destruct ip; [discriminate Hih | discriminate E].
    - destruct (Z.eqb_spec c 45) as [->|Hc]; injection Es as <- E; rewrite E; [split; reflexivity|].
      split; [reflexivity|]. destruct ip as [|c' ip]; [discriminate Hih|]. cbn in E |- *.
      injection E as Ec _. rewrite <- Ec.
      by replace (c =? 45) with false by (symmetry; by apply Z.eqb_neq). }
  destruct Hs as [-> Hsg]. rewrite !app_assoc. split; [done|].
  unfold valid_number, lex_number. rewrite <- !app_assoc, Hsg.
  rewrite Hi; [cbn|].
  - rewrite Hf; [cbn; rewrite He; cbn; by rewrite bool_decide_true| |].
    + intros ->. done.
    + intros Hne. by destruct ep.
  - destruct fp as [|c fp]; [done|]. cbn in Hfd |- *. done.
Qed.

(** *** Code units and keys *)

Lemma units_ok_app a b : units_ok (a ++ b) = units_ok a && units_ok b.
Proof. apply forallb_app. Qed.

Lemma units_ok_drop_while p s : units_ok s = true -> units_ok (drop_while p s) = true.
Proof.
  induction s as [|c s IH]; cbn; [done|]. intros Hs. pose proof Hs as [_ Hs']%andb_prop.
  destruct (p c); [by apply IH | exact Hs].
Qed.

Lemma units_ok_drop k s : units_ok s = true -> units_ok (drop k s) = true.
Proof.
  revert s. induction k as [|k IH]; intros [|c s] Hs; cbn; try done.
  apply IH. by apply andb_prop in Hs as [_ ?].
Qed.

Lemma hex_value_range c v : hex_value c = Some v -> 0 <= v < 16.
Proof. unfold hex_value. intros H. repeat case_match; simplify_eq; rewrite ?andb_true_iff, ?Z.leb_le in *; lia. Qed.

Lemma short_escape_range e u : short_escape e = Some u -> 0 <= u < 65536.
Proof. unfold short_escape. intros H. repeat case_match; simplify_eq; lia. Qed.

(** A string body keeps the code units 16-bit, and so does the rest. *)
Lemma parse_string_body_units s x r :
  parse_string_body s = Some (x, r) -> units_ok s = true -> units_ok x = true /\ units_ok r = true.
Proof.
  revert x r. induction s as [s IH] using list_length_ind. intros x r.
  destruct s as [|c t]; cbn [parse_string_body]; [done|]. intros H Hs.
  apply units_ok_cons in Hs as [Hc Ht].
  destruct (c =? 34); [injection H as <- <-; done|].
  destruct (c =? 92).
  - destruct t as [|e t]; [done|]. apply units_ok_cons in Ht as [He Ht].
    destruct (short_escape e) as [u|] eqn:Eu.
    + destruct (parse_string_body t) as [[x' r']|] eqn:E; cbn in H; [|done]. injection H as <- <-.
      destruct (IH t ltac:(cbn; lia) _ _ E Ht). split; [|done]. apply units_ok_cons.
      split; [by apply (short_escape_range e) | done].
    + destruct (e =? 117); [|done]. destruct t as [|h1 [|h2 [|h3 [|h4 t]]]]; try done.
      apply units_ok_cons in Ht as [_ Ht]. apply units_ok_cons in Ht as [_ Ht].
      apply units_ok_cons in Ht as [_ Ht]. apply units_ok_cons in Ht as [_ Ht].
      destruct (hex_value h1) as [v1|] eqn:E1, (hex_value h2) as [v2|] eqn:E2,
        (hex_value h3) as [v3|] eqn:E3, (hex_value h4) as [v4|] eqn:E4; cbn in H; try done.
      apply hex_value_range in E1, E2, E3, E4.
      destruct (parse_string_body t) as [[x' r']|] eqn:E; cbn in H; [|done]. injection H as <- <-.
      destruct (IH t ltac:(cbn; lia) _ _ E Ht). split; [|done]. apply units_ok_cons. split; [lia | done].
  - destruct (c <? 32); [done|].
    destruct (parse_string_body t) as [[x' r']|] eqn:E; cbn in H; [|done]. injection H as <- <-.
    destruct (IH t ltac:(cbn; lia) _ _ E Ht). split; [|done]. by apply units_ok_cons.
Qed.

(** Setting a member keeps the keys distinct. *)
Lemma obj_set_keys k x acc :
  (k ∈ map fst acc /\ map fst (obj_set k x acc) = map fst acc) \/
  (k ∉ map fst acc /\ map fst (obj_set k x acc) = map fst acc ++ [k]).
Proof.
  induction acc as [|[k' v'] acc IH]; cbn; [right; split; [set_solver | done]|].
  case_bool_decide as Hk; [left; subst; split; [set_solver | done]|]. cbn [map fst].
  destruct IH as [[Hin ->]|[Hnin ->]]; [left; split; [set_solver | done]|].
  right. split; [set_solver | done].
Qed.

Lemma obj_set_Forall (P : jstr * jsval -> Prop) k x acc :
  Forall P acc -> P (k, x) -> Forall P (obj_set k x acc).
Proof.
  induction 1 as [|[k' v'] acc Hkv Hacc IH]; intros Hk; cbn; [by constructor|].
  case_bool_decide; constructor; auto.
Qed.

Lemma obj_set_wf k x acc :
  json_wf (JObj acc) = true -> units_ok k = true -> json_wf x = true -> json_wf (JObj (obj_set k x acc)) = true.
Proof.
  cbn. intros [Hnd Hall]%andb_prop Hk Hx. apply andb_true_intro. split.
  - apply bool_decide_eq_true in Hnd. apply bool_decide_eq_true.
    destruct (obj_set_keys k x acc) as [[_ ->]|[Hnin ->]]; [done|].
    apply NoDup_app. split; [done|]. split; [set_solver | apply NoDup_singleton].
  - apply forallb_forall. intros kv Hkv. apply list_elem_of_In in Hkv. revert kv Hkv. apply Forall_forall.
    apply obj_set_Forall; [|cbv beta; cbn [fst snd]; by rewrite Hk, Hx].
    apply Forall_forall. intros kv Hkv. apply list_elem_of_In in Hkv.
    by apply (proj1 (forallb_forall _ _) Hall).
Qed.

Lemma units_ok_skip_ws s : units_ok s = true -> units_ok (skip_ws s) = true.
Proof. apply units_ok_drop_while. Qed.

Lemma units_ok_tail c r : units_ok (c :: r) = true -> units_ok r = true.
Proof. intros [_ H]%units_ok_cons. exact H. Qed.

(** *** The parser builds JSON values *)

Lemma parse_wf f :
  (forall s v r, units_ok s = true -> parse_value f s = Some (v, r) -> json_wf v = true /\ units_ok r = true) /\
  (forall s xs r, units_ok s = true -> parse_elements f s = Some (xs, r) ->
     forallb json_wf xs = true /\ units_ok r = true) /\
  (forall acc s ps r, units_ok s = true -> json_wf (JObj acc) = true -> parse_members f acc s = Some (ps, r) ->
     json_wf (JObj ps) = true /\ units_ok r = true).
Proof.
  induction f as [|f (IHv & IHe & IHm)]; [repeat split; intros; discriminate|].
  split; [|split].
  - intros s v r Hs H. cbn [parse_value] in H. unfold mbind, option_bind in H.
    pose proof (units_ok_skip_ws s Hs) as Hs0.
    destruct (skip_ws s) as [|c r0] eqn:Ews; [discriminate|]. pose proof (units_ok_tail _ _ Hs0) as Hr0.
    destruct (c =? 91); [|destruct (c =? 123); [|destruct (c =? 34)]].
    + pose proof (units_ok_skip_ws r0 Hr0) as Hr1.
      destruct (skip_ws r0) as [|d r1]; [discriminate|]. destruct (d =? 93).
      * injection H as <- <-. split; [done | exact (units_ok_tail _ _ Hr1)].
      * destruct (parse_elements f r0) as [[xs r']|] eqn:E; [|discriminate]. injection H as <- <-.
        exact (IHe _ _ _ Hr0 E).
    + pose proof (units_ok_skip_ws r0 Hr0) as Hr1.
      destruct (skip_ws r0) as [|d r1]; [discriminate|]. destruct (d =? 125).
      * injection H as <- <-. split; [done | exact (units_ok_tail _ _ Hr1)].
      * destruct (parse_members f [] r0) as [[ps r']|] eqn:E; [|discriminate]. injection H as <- <-.
        exact (IHm [] _ _ _ Hr0 ltac:(reflexivity) E).
    + destruct (parse_string_body r0) as [[x r']|] eqn:E; [|discriminate]. injection H as <- <-.
      exact (parse_string_body_units _ _ _ E Hr0).
    + destruct (is_prefix (js "true") (c :: r0)); [injection H as <- <-; split; [done | by apply units_ok_drop]|].
      destruct (is_prefix (js "false") (c :: r0)); [injection H as <- <-; split; [done | by apply units_ok_drop]|].
      destruct (is_prefix (js "null") (c :: r0)); [injection H as <- <-; split; [done | by apply units_ok_drop]|].
      destruct (lex_number (c :: r0)) as [[lx r']|] eqn:E; [|discriminate]. injection H as <- <-.
      destruct (lex_number_valid _ _ _ E) as [Es Hv]. split; [exact Hv|].
      rewrite Es, units_ok_app in Hs0. by apply andb_prop in Hs0 as [_ ?].
  - intros s xs r Hs H. cbn [parse_elements] in H. unfold mbind, option_bind in H.
    destruct (parse_value f s) as [[x r1]|] eqn:E1; [|discriminate].
    destruct (IHv _ _ _ Hs E1) as [Hx Hr1]. pose proof (units_ok_skip_ws r1 Hr1) as Hr1'.
    destruct (skip_ws r1) as [|d r2]; [discriminate|]. pose proof (units_ok_tail _ _ Hr1') as Hr2.
    destruct (d =? 44); [|destruct (d =? 93); [|discriminate]].
    + destruct (parse_elements f r2) as [[xs' r3]|] eqn:E2; [|discriminate]. injection H as <- <-.
      destruct (IHe _ _ _ Hr2 E2) as [Hxs Hr3]. cbn. by rewrite Hx, Hxs.
    + injection H as <- <-. cbn. by rewrite Hx.
  - intros acc s ps r Hs Hacc H. cbn [parse_members] in H. unfold mbind, option_bind in H.
    pose proof (units_ok_skip_ws s Hs) as Hs0.
    destruct (skip_ws s) as [|c r0]; [discriminate|]. pose proof (units_ok_tail _ _ Hs0) as Hr0.
    destruct (c =? 34); [|discriminate].
    destruct (parse_string_body r0) as [[k r1]|] eqn:Ek; [|discriminate].
    destruct (parse_string_body_units _ _ _ Ek Hr0) as [Hk Hr1]. pose proof (units_ok_skip_ws r1 Hr1) as Hr1'.
    destruct (skip_ws r1) as [|d r2]; [discriminate|]. pose proof (units_ok_tail _ _ Hr1') as Hr2.
    destruct (d =? 58); [|discriminate].
    destruct (parse_value f r2) as [[x r3]|] eqn:Ev; [|discriminate].
    destruct (IHv _ _ _ Hr2 Ev) as [Hx Hr3]. pose proof (units_ok_skip_ws r3 Hr3) as Hr3'.
    destruct (skip_ws r3) as [|e r4]; [discriminate|]. pose proof (units_ok_tail _ _ Hr3') as Hr4.
    pose proof (obj_set_wf k x acc Hacc Hk Hx) as Hset.
    destruct (e =? 44); [exact (IHm _ _ _ _ Hr4 Hset H)|].
    destruct (e =? 125); [|discriminate]. by injection H as <- <-.
Qed.

(** [JSON.parse] builds JSON values: from a text of 16-bit code
    units it returns no [undefined], numbers whose lexemes are valid, strings
    of 16-bit code units and objects whose keys are distinct (a repeated
    key keeps one member). *)
Theorem json_parse_wf s v : units_ok s = true -> json_parse s = Some v -> json_wf v = true.
Proof.
  intros Hs. unfold json_parse, mbind, option_bind.
  destruct (parse_value _ s) as [[v' r]|] eqn:E; [|done]. destruct (skip_ws r); [|done].
  intros [= <-]. destruct (parse_wf (2 * length s + 2)) as (Hv & _ & _). exact (proj1 (Hv _ _ _ Hs E)).
Qed.

(** An object with a repeated key and a number with an exponent. *)
Definition dup_key_text : jstr :=
  [123; 34] ++ js "a" ++ [34] ++ js ":[1.5e3,true]," ++ [34] ++ js "a" ++ [34] ++ js ":null}".

Lemma json_parse_wf_witness :
  exists v, json_parse dup_key_text = Some v /\ json_wf v = true.
Proof.
  eexists. split; [vm_compute; reflexivity|].
  apply (json_parse_wf dup_key_text); vm_compute; reflexivity.
Defined.
