(* ===== verification/Numbers.v ===== *)
(** * Numbers: the text of a JavaScript number and back.

    [JSON.stringify] writes a number by [Number.prototype.toString]; the
    model keeps a parsed number as its lexeme ([JNum], in [Json]).  This
    file holds what the components need to go between the two: the digits
    that [z_to_js] writes (an integer's [toString]), [number_lexeme] (the
    [toString] of an integer or of a half, the numbers the player's
    coordinates are made of) and [number_value] (the value of a lexeme
    without exponent), with their round trip: a lexeme written is a valid
    JSON number whose value is the number written. *)
From Stdlib Require Import QArith DecimalString DecimalZ DecimalPos.
From S2P Require Import Prelude JsString Json.

Local Open Scope Z_scope.

(** ** Definitions *)

(** The [toString] of a number whose reduced denominator is 1 or 2 (below
    [10^21], where JavaScript switches to exponent notation); [None] for
    the others, which the program does not produce. *)
Definition number_lexeme (q : Q) : option jstr :=
  let r := Qred q in
  match Qden r with
  | 1%positive => Some (z_to_js (Qnum r))
  | 2%positive =>
      Some ((if Qnum r <? 0 then [45] else []) ++ z_to_js (Z.abs (Qnum r) / 2) ++ [46; 53])
  | _ => None
  end.

(** The value of a number lexeme [-? digits (. digits)?]; [None] for a
    lexeme with an exponent. *)
Definition number_value (lx : jstr) : option Q :=
  let '(sign, body) := lex_sign lx in
  let neg (v : Q) := match sign with [] => v | _ => Qopp v end in
  match take_digits body with
  | ([], _) => None
  | (ip, []) => Some (neg (inject_Z (digits_value 0 ip)))
  | (ip, 46 :: fp) =>
      if bool_decide (fp <> []) && forallb is_digit fp
      then Some (neg (inject_Z (digits_value 0 ip)
                      + Qmake (digits_value 0 fp) (Z.to_pos (10 ^ Z.of_nat (length fp))))%Q)
      else None
  | _ => None
  end.

(** [a < b] on numbers, as the code's comparisons return it. *)
Definition Qltb (a b : Q) : bool := negb (Qle_bool b a).

(** ** Rationals *)

Lemma Qltb_false (a b : Q) : (b <= a)%Q -> Qltb a b = false.
Proof. intros H. unfold Qltb. apply negb_false_iff, Qle_bool_iff, H. Qed.

Lemma Qltb_iff a b : Qltb a b = true <-> (a < b)%Q.
Proof. unfold Qltb. rewrite negb_true_iff, <- not_true_iff_false, Qle_bool_iff. split; [apply Qnot_le_lt | apply Qlt_not_le]. Qed.

Lemma Qred_inject_Z z : Qred (inject_Z z) = inject_Z z.
Proof.
  unfold Qred, inject_Z.
  pose proof (Z.ggcd_gcd z 1) as Hg. pose proof (Z.ggcd_correct_divisors z 1) as Hd.
  destruct (Z.ggcd z 1) as [g [a b]]. cbn in *. rewrite Z.gcd_1_r in Hg. subst g.
  destruct Hd as [-> Hb]. rewrite Z.mul_1_l in *. by subst b.
Qed.

(** ** The digits of [Decimal] numbers *)

Lemma digits_value_uint_acc d (acc : positive) :
  digits_value (Zpos acc) (dec_codes (NilEmpty.string_of_uint d)) = Zpos (Pos.of_uint_acc d acc).
Proof. revert acc. induction d; intros acc; cbn; try rewrite <- IHd; f_equal; lia. Qed.

Lemma digits_value_uint d :
  digits_value 0 (dec_codes (NilEmpty.string_of_uint d)) = Z.of_uint d.
Proof.
  induction d; cbn -[Pos.of_uint_acc]; try done; rewrite <- digits_value_uint_acc; reflexivity.
Qed.

Lemma forallb_is_digit ds : Forall (fun c => 48 <= c <= 57) ds -> forallb is_digit ds = true.
Proof.
  intros Hd. apply forallb_forall. intros d Hd'. rewrite List.Forall_forall in Hd. specialize (Hd d Hd').
  unfold is_digit. apply andb_true_iff; split; apply Z.leb_le; lia.
Qed.

Lemma string_of_uint_nonnil d : d <> Decimal.Nil -> dec_codes (NilEmpty.string_of_uint d) <> [].
Proof. by destruct d. Qed.

Lemma nzhead_not_D0 d x : Decimal.nzhead d <> Decimal.D0 x.
Proof. induction d; cbn; congruence. Qed.

(** [Pos.to_uint] writes no leading zero. *)
Lemma to_uint_not_D0 p d : Pos.to_uint p <> Decimal.D0 d.
Proof.
  intros E. pose proof (Unsigned.to_of (Pos.to_uint p)) as U.
  rewrite Unsigned.of_to in U. change (N.to_uint (Npos p)) with (Pos.to_uint p) in U.
  rewrite E in U. unfold Decimal.unorm in U. cbn [Decimal.nzhead] in U.
  destruct (Decimal.nzhead d) eqn:Hn; try discriminate U.
  - injection U as U. subst d. by apply (Unsigned.to_uint_nonzero p).
  - by apply (nzhead_not_D0 d u).
Qed.

Lemma codes_head_zero u c r :
  dec_codes (NilEmpty.string_of_uint u) = c :: r -> c = 48 -> exists u', u = Decimal.D0 u'.
Proof. destruct u; cbn; intros H; inversion H; subst; try lia; eauto. Qed.

(** ** What [z_to_js] writes *)

Lemma z_to_js_neg p : z_to_js (Zneg p) = 45 :: z_to_js (Zpos p).
Proof. reflexivity. Qed.

(** A non-negative integer is written as digits, without a leading zero
    unless it is [0], and the digits have its value. *)
Lemma z_to_js_digits z :
  0 <= z -> exists c r, z_to_js z = c :: r /\ Forall (fun c => 48 <= c <= 57) (c :: r) /\
    (c = 48 -> z = 0 /\ r = []) /\ digits_value 0 (c :: r) = z.
Proof.
  intros Hz. destruct z as [|p|p]; [| |lia].
  - exists 48, []. repeat split; [constructor; [lia | constructor] | done..].
  - rewrite (proj1 (z_to_js_codes _)). cbn [Z.to_int NilEmpty.string_of_int].
    pose proof (string_of_uint_nonnil _ (Unsigned.to_uint_nonnil p)) as Hne.
    pose proof (string_of_uint_codes (Pos.to_uint p)) as Hd.
    pose proof (digits_value_uint (Pos.to_uint p)) as Hv.
    pose proof (codes_head_zero (Pos.to_uint p)) as H0.
    set (L := dec_codes _) in *. clearbody L.
    destruct L as [|c r]; [done|]. exists c, r. split; [done|]. split; [done|]. split.
    + intros ->. destruct (H0 _ _ eq_refl eq_refl) as [u Hu]. by destruct (to_uint_not_D0 p u).
    + rewrite Hv. exact (DecimalZ.of_to (Zpos p)).
Qed.

Lemma take_digits_all ds rest :
  Forall (fun c => 48 <= c <= 57) ds -> (forall c r, rest = c :: r -> is_digit c = false) ->
  take_digits (ds ++ rest) = (ds, rest).
Proof.
  intros Hd Hr. induction Hd as [|c ds Hc _ IH]; cbn.
  - destruct rest as [|c r]; [done|]. cbn. by rewrite (Hr c r eq_refl).
  - replace (is_digit c) with true by (symmetry; unfold is_digit; apply andb_true_iff; split; apply Z.leb_le; lia).
    by rewrite IH.
Qed.

(** The text after a number's digits: nothing or a non-digit. *)
Definition digit_stop (rest : jstr) : Prop := forall c r, rest = c :: r -> is_digit c = false.

Lemma lex_int_digits c r rest :
  Forall (fun c => 48 <= c <= 57) (c :: r) -> (c = 48 -> r = []) -> digit_stop rest ->
  lex_int ((c :: r) ++ rest) = Some (c :: r, rest).
Proof.
  intros Hd H48 Hr. cbn [app lex_int]. destruct (Z.eqb_spec c 48) as [->|Hc].
  - by rewrite (H48 eq_refl).
  - inversion Hd as [|? ? Hc' _]; subst.
    replace (is_digit c) with true by (symmetry; unfold is_digit; apply andb_true_iff; split; apply Z.leb_le; lia).
    unfold digits1. change (c :: r ++ rest) with ((c :: r) ++ rest). by rewrite take_digits_all.
Qed.

Lemma lex_sign_digit c r : 48 <= c <= 57 -> lex_sign (c :: r) = ([], c :: r).
Proof. intros Hc. cbn. by replace (c =? 45) with false by (symmetry; apply Z.eqb_neq; lia). Qed.

(** A lexeme [-? digits (.5)?] as [number_lexeme] writes it is a valid JSON
    number, and its value is the number. *)
Lemma lexeme_parts (neg half : bool) k :
  0 <= k ->
  let lx := (if neg then [45] else []) ++ z_to_js k ++ (if half then [46; 53] else []) in
  valid_number lx = true /\
  exists v, number_value lx = Some v /\
    (v == (if neg then -1 else 1) * (inject_Z k + if half then 1 # 2 else 0))%Q.
Proof.
  intros Hk lx. destruct (z_to_js_digits k Hk) as (c & r & E & Hd & H48 & Hv).
  subst lx. rewrite E. set (fr := if half then [46; 53] else []).
  assert (Hstop : digit_stop fr) by (intros c' r' H; destruct half; inversion H; done).
  assert (Hfr : lex_frac fr = Some (fr, [])) by (by destruct half).
  assert (Hsign : lex_sign ((if neg then [45] else []) ++ (c :: r) ++ fr)
                  = (if neg then [45] else [], (c :: r) ++ fr)).
  { destruct neg; [done|]. apply lex_sign_digit. by inversion Hd. }
  assert (H48' : c = 48 -> r = []) by (intros H; apply H48, H).
  split.
  - unfold valid_number, lex_number. change (c :: r ++ fr) with ((c :: r) ++ fr).
    rewrite Hsign, (lex_int_digits c r fr Hd H48' Hstop). cbn [mbind option_bind]. rewrite Hfr.
    cbn. rewrite app_nil_r. by apply bool_decide_true.
  - unfold number_value. change (c :: r ++ fr) with ((c :: r) ++ fr).
    rewrite Hsign, (take_digits_all (c :: r) fr Hd Hstop).
    subst fr. destruct half, neg; cbn -[digits_value]; eexists; (split; [reflexivity|]);
      rewrite Hv; unfold Qeq; cbn; lia.
Qed.

Lemma gcd_2_odd m : Z.gcd m 2 = 1 -> m mod 2 = 1.
Proof.
  intros Hg. pose proof (Z.mod_pos_bound m 2 ltac:(lia)) as Hb.
  destruct (Z.eq_dec (m mod 2) 0) as [H0|H0]; [|lia].
  rewrite (Z.div_mod m 2), H0, Z.add_0_r, Z.gcd_comm, Z.gcd_mul_diag_l in Hg by lia. discriminate.
Qed.

(** What [number_lexeme] writes is a valid JSON number whose value is the
    number written. *)
Lemma number_lexeme_spec q lx :
  number_lexeme q = Some lx ->
  valid_number lx = true /\ exists v, number_value lx = Some v /\ (v == q)%Q.
Proof.
  unfold number_lexeme. pose proof (Qred_correct q) as Hq. pose proof (gcd_Qred q) as Hg.
  destruct (Qred q) as [m d]. cbn [Qnum Qden] in *.
  destruct d as [d|[d|d|]|]; try (destruct d; discriminate); intros [= <-].
  - apply gcd_2_odd in Hg.
    destruct (lexeme_parts (m <? 0) true (Z.abs m / 2) ltac:(Z.to_euclidean_division_equations; lia))
      as [Hval (v & Hv & Heq)].
    split; [exact Hval|]. exists v. split; [exact Hv|]. rewrite <- Hq, Heq.
    destruct (Z.ltb_spec m 0); unfold Qeq; cbn; Z.to_euclidean_division_equations; lia.
  - destruct m as [|p|p].
    + destruct (lexeme_parts false false 0 ltac:(lia)) as [Hval (v & Hv & Heq)].
      split; [exact Hval|]. exists v. split; [exact Hv|]. rewrite <- Hq, Heq. reflexivity.
    + destruct (lexeme_parts false false (Zpos p) ltac:(lia)) as [Hval (v & Hv & Heq)].
      cbn [app] in Hval, Hv. rewrite app_nil_r in Hval, Hv.
      split; [exact Hval|]. exists v. split; [exact Hv|]. rewrite <- Hq, Heq. unfold Qeq; cbn; lia.
    + destruct (lexeme_parts true false (Zpos p) ltac:(lia)) as [Hval (v & Hv & Heq)].
      rewrite app_nil_r in Hval, Hv. rewrite z_to_js_neg.
      split; [exact Hval|]. exists v. split; [exact Hv|]. rewrite <- Hq, Heq. unfold Qeq; cbn; lia.
Qed.

Lemma number_lexeme_inject_Z z : number_lexeme (inject_Z z) = Some (z_to_js z).
Proof. unfold number_lexeme. by rewrite Qred_inject_Z. Qed.

Lemma valid_number_z_to_js z : valid_number (z_to_js z) = true.
Proof. exact (proj1 (number_lexeme_spec _ _ (number_lexeme_inject_Z z))). Qed.
