(* ===== verification/Config.v ===== *)
(** * Configuration ([config.js]) and offline content ([mockData.js]).

    [CONFIG] is a global object that the code reads everywhere; here it is
    a record passed explicitly to the components.  [MOCK_DATA] is the
    offline generator's material. *)

From S2P Require Import Prelude JsString.
Open Scope Z_scope.

(** The fields of [CONFIG] (config.js).  The numbers are JavaScript
    numbers; the code uses them as integers.  [roomSize] is overwritten by
    [Game.resizeCanvas] with the canvas size, an integer number of pixels. *)
Record Config := {
  librarySize_width : Z;
  librarySize_height : Z;
  roomSize_width : Z;
  roomSize_height : Z;
  booksPerRoom : Z;
  aislesPerRoom : Z;
  booksPerAisle : Z;
  playerSpeed : Z;
  playerSize : Z;
  wordsPerPage : Z;
  apiURL : jstr;
  apiModel : jstr;
  debug : bool;
  useMockData : bool;
  debugControls : bool;
  showFPS : bool;
  logEvents : bool
}.

(** The values of config.js. *)
Definition CONFIG : Config := {|
  librarySize_width := 256;
  librarySize_height := 256;
  roomSize_width := 800;
  roomSize_height := 600;
  booksPerRoom := 100;
  aislesPerRoom := 5;
  booksPerAisle := 20;
  playerSpeed := 3;
  playerSize := 32;
  wordsPerPage := 500;
  apiURL := js "https://api.openai.com/v1/chat/completions";
  apiModel := js "gpt-3.5-turbo";
  debug := true;
  useMockData := true;
  debugControls := true;
  showFPS := true;
  logEvents := true
|}.

(** The same configuration with the debug switches off: the backend is
    used.  Examples of the online behaviour run under it. *)
Definition CONFIG_online : Config := {|
  librarySize_width := librarySize_width CONFIG;
  librarySize_height := librarySize_height CONFIG;
  roomSize_width := roomSize_width CONFIG;
  roomSize_height := roomSize_height CONFIG;
  booksPerRoom := booksPerRoom CONFIG;
  aislesPerRoom := aislesPerRoom CONFIG;
  booksPerAisle := booksPerAisle CONFIG;
  playerSpeed := playerSpeed CONFIG;
  playerSize := playerSize CONFIG;
  wordsPerPage := wordsPerPage CONFIG;
  apiURL := apiURL CONFIG;
  apiModel := apiModel CONFIG;
  debug := false;
  useMockData := false;
  debugControls := false;
  showFPS := false;
  logEvents := false
|}.

(** [MOCK_DATA] (mockData.js). *)
Record MockData := {
  stories : list jstr;
  bookContents : list jstr;
  bookTitles : list jstr
}.

Definition MOCK_DATA : MockData := {|
  stories := [
    js "As {name} stood at the entrance of the Library of Babel, the weight of their quest pressed heavily upon their shoulders. {description} They had traveled across continents, following whispers and legends, all leading to this mythical repository of all possible knowledge. The librarian had greeted them with knowing eyes, as if expecting their arrival. "
      ++ [34] ++ js "The book you seek contains the cure for your sister's illness,"
      ++ [34] ++ js " they had said. "
      ++ [34] ++ js "But finding it among the infinite shelves will be your true test."
      ++ [34] ++ js " Now, with determination burning in their heart, {name} steps forward into the labyrinthine corridors, knowing that somewhere in this vast collection lies the knowledge that could save their sister's life.";
    js "{name} pushed open the heavy wooden doors of the Library of Babel with trembling hands. {description} For years, they had been haunted by a recurring dream – symbols and texts in a language they couldn't understand, yet somehow knew held the answers to their past. The scholars at the university had directed them here, to the legendary library said to contain every possible combination of letters, and thus every book that could ever be written. "
      ++ [34] ++ js "Your ancestry, your true lineage,"
      ++ [34] ++ js " the head scholar had whispered, "
      ++ [34] ++ js "the secrets erased from history – they are hidden in a book within these walls."
      ++ [34] ++ js " With each step deeper into the library, {name} felt closer to uncovering the truth that had been denied to them for so long."];
  bookContents := [
    js "The nature of infinity is such that all possibilities exist simultaneously in the grand tapestry of the cosmos. As you read these words, countless versions of yourself are reading slightly different variations of this same text. The Library of Babel stands as physical proof of this concept, housing every possible arrangement of letters, and therefore containing all knowledge both discovered and yet to be conceived. Within these pages, one might find accurate prophecies of the future, or complete nonsense – the challenge lies in distinguishing between them. The librarians who tend to this collection have developed systems over centuries to navigate the overwhelming vastness, but even they admit that finding specific information is often a matter of chance rather than methodology.";
    js "The theory of knowledge preservation suggests that ideas are never truly lost, merely waiting to be rediscovered in the great cycle of human understanding. Ancient wisdom often emerges anew, dressed in contemporary language but containing the same essential truths that have guided humanity since its earliest days. This book serves as a bridge between past insights and future discoveries, drawing connections across the tapestry of time. The careful reader might notice patterns emerging from the seemingly random collection of thoughts presented herein – patterns that reveal the underlying structure of reality itself. Whether you sought this volume or stumbled upon it by chance, know that your encounter with these words was inevitable, a predestined moment in the cosmic dance of cause and effect."];
  bookTitles := [
    js "Whispers of Forgotten Knowledge";
    js "Celestial Patterns and Mortal Understanding";
    js "The Veiled Truth: Revelations of the Inner Cosmos";
    js "Threads of Fate in the Tapestry of Time";
    js "Echoes from the Void: Messages from Beyond";
    js "The Philosopher's Enigma";
    js "Codex of Improbable Realities";
    js "Symmetries in Chaos: The Hidden Order";
    js "The Cartographer's Dream: Mapping the Impossible";
    js "Riddles of the Ancient Librarians"]
|}.
