(* ===== verification/World.v ===== *)
(** * The browser environment the program runs in.

    [World] is the state shared by every object of the program: the
    origin's [localStorage] (a map from strings to strings), the clock read
    by [Date.now()], and the answers the environment gives, consumed in
    order: the responses of the generation backend to [fetch], the values
    of [Math.random()], the answers to [confirm] and [prompt], and the
    order an [Array.prototype.sort] with a random comparator produces.
    [trace] records the start time of every backend request, most recent
    first; it is ghost state used to state the rate-limiting property.

    A method of an object runs in [St (T * World)], the object's own fields
    beside the shared world ([on_world] runs a world operation there). *)

From S2P Require Import Prelude JsString Json.
Open Scope Z_scope.

(** What [fetch] resolves to: a network failure (rejection), or a response
    with its HTTP status and its body parsed by [response.json()] ([None]
    when the body is not JSON). *)
Inductive fetch_result :=
  | NetworkError
  | HttpResponse (status : Z) (body : option jsval).

(** One backend request: how long it takes and what it returns. *)
Record FetchOutcome := { f_latency : Z; f_result : fetch_result }.

Record World := {
  ls : gmap jstr jstr;
  now : Z;
  fetches : list FetchOutcome;
  randoms : list Z;
  confirms : list bool;
  prompts : list (option jstr);
  sorts : list (list nat);
  window_mock : bool;
  trace : list Z
}.

(** A fresh browser profile: empty storage, the clock at [t], the given
    backend answers and random values, no dialog answered. *)
Definition world0 (t : Z) (fs : list FetchOutcome) (rs : list Z) : World :=
  {| ls := ∅; now := t; fetches := fs; randoms := rs; confirms := []; prompts := []; sorts := [];
     window_mock := false; trace := [] |}.

Definition set_ls (m : gmap jstr jstr) (w : World) : World :=
  {| ls := m; now := now w; fetches := fetches w; randoms := randoms w;
     confirms := confirms w; prompts := prompts w; sorts := sorts w;
     window_mock := window_mock w; trace := trace w |}.

Definition set_now (t : Z) (w : World) : World :=
  {| ls := ls w; now := t; fetches := fetches w; randoms := randoms w;
     confirms := confirms w; prompts := prompts w; sorts := sorts w;
     window_mock := window_mock w; trace := trace w |}.

(** ** [localStorage] *)

Definition getItem (k : jstr) : St World (option jstr) := gets (fun w => ls w !! k).

Definition setItem (k v : jstr) : St World unit := modify (fun w => set_ls (<[k := v]> (ls w)) w).

Definition removeItem (k : jstr) : St World unit := modify (fun w => set_ls (delete k (ls w)) w).

(** ** Time *)

Definition date_now : St World Z := gets now.

(** [await new Promise(resolve => setTimeout(resolve, d))]: the clock
    advances by the delay (a non-positive delay fires at once). *)
Definition sleep (d : Z) : St World unit := modify (fun w => set_now (now w + Z.max d 0) w).

(** ** The backend: one request, recorded in [trace] at its start. *)
Definition fetch_backend : St World fetch_result :=
  fun w =>
    let '(o, rest) := match fetches w with
                      | o :: rest => (o, rest)
                      | [] => ({| f_latency := 0; f_result := NetworkError |}, [])
                      end in
    (Ok (f_result o),
     {| ls := ls w; now := now w + Z.max (f_latency o) 0; fetches := rest;
        randoms := randoms w; confirms := confirms w; prompts := prompts w;
        sorts := sorts w; window_mock := window_mock w; trace := now w :: trace w |}).

(** ** Randomness and dialogs *)

(** [Math.random()] returns [r / 2^53] for the next [r] of [randoms], an
    integer in [0, 2^53); [Math.floor(Math.random() * n)] is then
    [rand_floor r n]. *)
Definition math_random : St World Z :=
  fun w =>
    match randoms w with
    | r :: rest =>
        (Ok r, {| ls := ls w; now := now w; fetches := fetches w; randoms := rest;
                  confirms := confirms w; prompts := prompts w; sorts := sorts w;
                  window_mock := window_mock w; trace := trace w |})
    | [] => (Ok 0, w)
    end.

Definition rand_floor (r n : Z) : Z := (Z.max 0 (Z.min r (2 ^ 53 - 1)) * n) / 2 ^ 53.

(** [confirm(...)]: an exhausted list answers Cancel. *)
Definition confirm : St World bool :=
  fun w =>
    match confirms w with
    | b :: rest =>
        (Ok b, {| ls := ls w; now := now w; fetches := fetches w; randoms := randoms w;
                  confirms := rest; prompts := prompts w; sorts := sorts w;
                  window_mock := window_mock w; trace := trace w |})
    | [] => (Ok false, w)
    end.

(** [prompt(...)]: [None] is Cancel ([null]). *)
Definition prompt : St World (option jstr) :=
  fun w =>
    match prompts w with
    | p :: rest =>
        (Ok p, {| ls := ls w; now := now w; fetches := fetches w; randoms := randoms w;
                  confirms := confirms w; prompts := rest; sorts := sorts w;
                  window_mock := window_mock w; trace := trace w |})
    | [] => (Ok None, w)
    end.

(** [xs.sort(() => 0.5 - Math.random())] yields some permutation of [xs],
    chosen by the environment: the next entry of [sorts] lists the source
    index of each position.  An entry that is not a permutation of the
    indices leaves the order unchanged (also a possible outcome). *)
Definition is_index_perm (p : list nat) (n : nat) : bool :=
  bool_decide (p ≡ₚ seq 0 n).

Definition sort_random {A} (xs : list A) : St World (list A) :=
  fun w =>
    match sorts w with
    | p :: rest =>
        let w' := {| ls := ls w; now := now w; fetches := fetches w; randoms := randoms w;
                     confirms := confirms w; prompts := prompts w; sorts := rest;
                     window_mock := window_mock w; trace := trace w |} in
        if is_index_perm p (length xs) then (Ok (omap (fun i => xs !! i) p), w')
        else (Ok xs, w')
    | [] => (Ok xs, w)
    end.

(** ** Running a world operation inside a method *)

Definition on_world {T A} (m : St World A) : St (T * World) A :=
  zoom snd (fun w '(t, _) => (t, w)) m.

(** [await new C().m()]: a method on a new object, dropped afterwards. *)
Definition with_new {T A} (o : T) (m : St (T * World) A) : St World A :=
  fun w => let '(r, (_, w')) := m (o, w) in (r, w').

Definition self {T} : St (T * World) T := gets fst.

Definition set_self {T} (t : T) : St (T * World) unit := modify (fun '(_, w) => (t, w)).

(** ** Operations that leave the shared state alone *)

(** [w'] differs from [w] at most in the answers consumed. *)
Record quiet (w w' : World) : Prop := {
  q_ls : ls w' = ls w;
  q_now : now w' = now w;
  q_trace : trace w' = trace w;
  q_fetches : fetches w' = fetches w
}.

Lemma quiet_refl w : quiet w w.
Proof. by constructor. Qed.

Lemma math_random_run w : exists r w', math_random w = (Ok r, w') /\ quiet w w'.
Proof. unfold math_random. destruct (randoms w); eexists _, _; split; done. Qed.

Lemma math_random_next w r rest :
  randoms w = r :: rest -> exists w', math_random w = (Ok r, w') /\ ls w' = ls w /\ randoms w' = rest.
Proof. unfold math_random. intros ->. by eexists. Qed.

Lemma on_world_run {T A} (m : St World A) (t : T) w :
  on_world m (t, w) = (fst (m w), (t, snd (m w))).
Proof. unfold on_world, zoom. cbn [snd]. by destruct (m w). Qed.

Lemma omap_lookup_seq {A} (xs : list A) : omap (fun i => xs !! i) (seq 0 (length xs)) = xs.
Proof.
  induction xs as [|x xs IH] using rev_ind; [done|].
  rewrite length_app, seq_app, omap_app. simpl.
  rewrite lookup_app_r, Nat.sub_diag by lia. simpl. f_equal.
  rewrite <-IH at 2. apply list_omap_ext, Forall_Forall2_diag, Forall_forall.
  intros i Hi%elem_of_seq. by rewrite lookup_app_l by lia.
Qed.

(** The shuffle of the offline catalog is a permutation of the titles. *)
Lemma sort_random_run {A} (xs : list A) w :
  exists ys w', sort_random xs w = (Ok ys, w') /\ quiet w w' /\ ys ≡ₚ xs.
Proof.
  unfold sort_random. destruct (sorts w) as [|p ps]; [by eexists _, _|].
  destruct (is_index_perm p (length xs)) eqn:Hp;
    (eexists _, _; split; [reflexivity|split; [done|]]); [|done].
  unfold is_index_perm in Hp. apply bool_decide_eq_true in Hp.
  rewrite Hp. by rewrite omap_lookup_seq.
Qed.
