(* ===== verification/Api.v ===== *)
(** * The generation client: [class APIHandler] (api.js).

    An [APIHandler] holds the API key, the [useMockData] flag, and the
    rate limiter's [lastCallTime] and [minTimeBetweenCalls].  Its methods
    run in [St (APIHandler * World)]: they read and write their own fields
    and the shared [World] (localStorage, clock, backend, dialogs).

    [callAPI] is recursive (it calls itself after switching to the offline
    generator); it is modelled with fuel, and [callAPI] proper gives it 2,
    which the theorems show is always enough. *)

From S2P Require Import Prelude JsString Json Config World.
Open Scope Z_scope.

Module Api.

Record APIHandler := {
  apiKey : option jstr;
  useMockData : bool;
  lastCallTime : Z;
  minTimeBetweenCalls : Z
}.

(** [new APIHandler()]: [apiKey] is [null], [useMockData] is [undefined]
    (falsy), and the class fields [lastCallTime = 0],
    [minTimeBetweenCalls = 1000]. *)
Definition new_APIHandler : APIHandler :=
  {| apiKey := None; useMockData := false; lastCallTime := 0; minTimeBetweenCalls := 1000 |}.

Definition with_apiKey (k : option jstr) (h : APIHandler) : APIHandler :=
  {| apiKey := k; useMockData := useMockData h; lastCallTime := lastCallTime h;
     minTimeBetweenCalls := minTimeBetweenCalls h |}.
Definition with_useMockData (b : bool) (h : APIHandler) : APIHandler :=
  {| apiKey := apiKey h; useMockData := b; lastCallTime := lastCallTime h;
     minTimeBetweenCalls := minTimeBetweenCalls h |}.
Definition with_lastCallTime (t : Z) (h : APIHandler) : APIHandler :=
  {| apiKey := apiKey h; useMockData := useMockData h; lastCallTime := t;
     minTimeBetweenCalls := minTimeBetweenCalls h |}.

Abbreviation H := (APIHandler * World)%type.

(** A world operation inside a method of the handler. *)
Definition onw {A} (m : St World A) : St H A := on_world m.
Definition me : St H APIHandler := self.

Definition set_apiKey (k : option jstr) : St H unit := modify (fun '(h, w) => (with_apiKey k h, w)).
Definition set_useMockData (b : bool) : St H unit :=
  modify (fun '(h, w) => (with_useMockData b h, w)).
Definition set_lastCallTime (t : Z) : St H unit :=
  modify (fun '(h, w) => (with_lastCallTime t h, w)).

(** Truthiness of the key: [null] and [""] are falsy. *)
Definition key_truthy (k : option jstr) : bool :=
  match k with Some s => negb (bool_decide (s = [])) | None => false end.

Section WithConfig.
Context (cfg : Config).

(** ** [initialize()] (api.js 5-34) *)
Definition initialize : St H bool :=
  wm ← onw (gets window_mock);
  set_useMockData (debug cfg && wm);;
  h ← me;
  if useMockData h then mret true
  else
    let finish : St H bool := h ← me; mret (useMockData h || key_truthy (apiKey h)) in
    if key_truthy (apiKey h) then finish
    else
      k ← onw (getItem (js "babel_api_key"));
      set_apiKey k;;
      if key_truthy k then finish
      else
        useApiKey ← onw confirm;
        if (useApiKey : bool) then
          p ← onw prompt;
          set_apiKey p;;
          (match p with
           | Some s => if key_truthy p then onw (setItem (js "babel_api_key") s) else mret tt
           | None => mret tt
           end);;
          finish
        else
          set_useMockData true;;
          mret true.

(** ** The offline answer of [callAPI] (api.js 111-125) *)
Definition mock_response (prompt : jstr) : jsval :=
  if includes prompt (js "story") then
    JStr (replace_all (replace_all (default [] (stories MOCK_DATA !! 0%nat)) (js "{name}") (js "Character"))
            (js "{description}") (js "A curious explorer"))
  else if includes prompt (js "book titles") then
    JStr (stringify_strings (take 10 (bookTitles MOCK_DATA)))
  else JStr (default [] (bookContents MOCK_DATA !! 0%nat)).

(** [data.choices[0].message.content]; [None] is the TypeError. *)
Definition content_of (data : jsval) : option jsval :=
  c ← get_prop data (js "choices");
  f ← get_prop c (js "0");
  m ← get_prop f (js "message");
  get_prop m (js "content").

(** What the [try] block of [callAPI] ends with: the content, or a retry
    (after a 429 in the block, or after any exception in the [catch]). *)
Inductive attempt := Retry | Content (c : jsval).

(** What the [try] block does with the outcome of [fetch] (api.js
    157-170): a rejected [fetch] throws, a 429 switches to the offline
    generator and retries, another failed status throws, and a success
    yields [data.choices[0].message.content]. *)
Definition handle_response (r : fetch_result) : St H attempt :=
  match r with
  | NetworkError => throw TypeError
  | HttpResponse st body =>
      if negb ((200 <=? st) && (st <=? 299)) then
        if st =? 429 then
          set_useMockData true;;
          onw (setItem (js "babel_use_mock_data") (js "true"));;
          mret Retry
        else throw (HttpError st)
      else
        match body with
        | None => throw SyntaxError
        | Some data =>
            match content_of data with
            | Some c => mret (Content c)
            | None => throw TypeError
            end
        end
  end.

(** The body of the [try] block (api.js 137-170): record the start time,
    send the request, and handle the response. *)
Definition backend_call : St H attempt :=
  t ← onw date_now;
  set_lastCallTime t;;
  r ← onw fetch_backend;
  handle_response r.

(** ** [callAPI(prompt)] (api.js 109-181), with fuel for its self-calls. *)
Fixpoint callAPI_go (fuel : nat) (prompt : jstr) : St H jsval :=
  match fuel with
  | O => throw OutOfFuel
  | S f =>
      h ← me;
      if (debug cfg && Config.useMockData cfg) || useMockData h then mret (mock_response prompt)
      else
        now ← onw date_now;
        let elapsed := now - lastCallTime h in
        (if elapsed <? minTimeBetweenCalls h
         then onw (sleep (minTimeBetweenCalls h - elapsed)) else mret tt);;
        a ← try backend_call catch (fun _ => set_useMockData true;; mret Retry);
        match a with
        | Retry => callAPI_go f prompt
        | Content c => mret c
        end
  end.

Definition callAPI (prompt : jstr) : St H jsval := callAPI_go 2 prompt.

(** ** The line heuristic of [generateRoomCatalog] (api.js 97-100) *)

(** The character class of the regular expression of api.js line 99:
    double and single quote, digits, hyphen, dot, star, and the three
    characters â, €, ¢ of the source text. *)
Definition bullet_class (c : Z) : bool :=
  (c =? 34) || (c =? 39) || ((48 <=? c) && (c <=? 57)) || (c =? 45) || (c =? 46)
  || (c =? 42) || bool_decide (c ∈ js "â€¢").

(** [line.replace(/^[...]+\s*/, '')]: the longest run of class characters
    at the start (at least one), then the white space after it. *)
Definition strip_bullet (line : jstr) : jstr :=
  match line with
  | c :: _ => if bullet_class c then drop_while is_js_space (drop_while bullet_class line) else line
  | [] => []
  end.

(** [arr.slice(0, n)] *)
Definition slice0 {A} (n : Z) (l : list A) : list A :=
  if 0 <=? n then take (Z.to_nat n) l else take (length l - Z.to_nat (- n)) l.

Definition line_titles (s : jstr) : list jstr :=
  slice0 (booksPerRoom cfg)
    (map (fun line => trim (strip_bullet line))
       (filter (fun line => negb (bool_decide (trim line = []))) (split_on 10 s))).

(** The response handling of [generateRoomCatalog] (api.js 88-104): the
    substring from the first [[] to the last []] parsed as JSON, else the
    line heuristic; a parse error or a non-string response gives [null]. *)
Definition extract_catalog (response : jsval) : jsval :=
  match response with
  | JStr s =>
      let jsonStart := index_of s [91] in
      let jsonEnd := last_index_of s [93] + 1 in
      if (0 <=? jsonStart) && (jsonStart <? jsonEnd) then
        match json_parse (substring s jsonStart jsonEnd) with
        | Some v => v
        | None => JNull
        end
      else JArr (map JStr (line_titles s))
  | _ => JNull
  end.

(** ** The three generators

    They call [this.callAPI(prompt)]: the method found on the instance,
    which is [callAPI] unless a client has replaced it on the object, as
    test.js does (test.js 99-102).  The section takes that method. *)

Section Generators.
Context (callAPI_m : jstr -> St H jsval).

Definition story_prompt (name description : jstr) : jstr :=
  js "Generate a short story (about 300 words) about a character named " ++ name
  ++ js " who has arrived at the Library of Babel searching for important information. The character is described as: "
  ++ description
  ++ js ". The story should explain why they are in the library and what specific knowledge they seek.".

(** [generateCharacterStory(name, description)] (api.js 34-48) *)
Definition generateCharacterStory (name description : jstr) : St H jsval :=
  ok ← initialize;
  if negb ok then mret JNull
  else
    h ← me;
    wm ← onw (gets window_mock);
    if useMockData h && wm then
      r ← onw math_random;
      let template := default [] (stories MOCK_DATA !! Z.to_nat (rand_floor r (Z.of_nat (length (stories MOCK_DATA))))) in
      mret (JStr (replace_all (replace_all template (js "{name}") name) (js "{description}") description))
    else callAPI_m (story_prompt name description).

Definition page_prompt (bookTitle : jsval) (currentPage : Z) : jstr :=
  js "Generate " ++ z_to_js (wordsPerPage cfg) ++ js " words of content for page " ++ z_to_js currentPage
  ++ js " of a book titled " ++ [34] ++ to_js_string bookTitle ++ [34]
  ++ js " in the Library of Babel. The content should be mystical, philosophical, or contain hidden knowledge. If this is beyond page 1, make the content flow naturally from the previous pages.".

(** [generateBookContent(bookTitle, currentPage = 1)] (api.js 50-62) *)
Definition generateBookContent (bookTitle : jsval) (currentPage : Z) : St H jsval :=
  ok ← initialize;
  if negb ok then mret JNull
  else
    h ← me;
    wm ← onw (gets window_mock);
    if useMockData h && wm then
      let pageIndex := Z.rem (currentPage - 1) (Z.of_nat (length (bookContents MOCK_DATA))) in
      let text := if 0 <=? pageIndex then default (js "undefined") (bookContents MOCK_DATA !! Z.to_nat pageIndex)
                  else js "undefined" in
      mret (JStr (text ++ js "

(Page " ++ z_to_js currentPage ++ js " of " ++ [34] ++ to_js_string bookTitle ++ [34] ++ js ")"))
    else callAPI_m (page_prompt bookTitle currentPage).

Definition catalog_prompt (roomX roomY : Z) : jstr :=
  js "Generate a list of " ++ z_to_js (booksPerRoom cfg)
  ++ js " book titles that would be found in room (" ++ z_to_js roomX ++ js ", " ++ z_to_js roomY
  ++ js ") of the Library of Babel. The titles should be mystical, philosophical, or suggest hidden knowledge. Return them as a JSON array of strings.".

(** The offline catalog (api.js 69-82): title [i] is a title of the
    shuffled list with a volume number. *)
Definition mock_titles (shuffled : list jstr) : list jstr :=
  map (fun i => default (js "undefined") (shuffled !! Z.to_nat (i mod Z.of_nat (length shuffled)))
                ++ js " (Vol. " ++ z_to_js (i / 10 + 1) ++ js "." ++ z_to_js (i mod 10 + 1) ++ js ")")
      (map Z.of_nat (seq 0 (Z.to_nat (booksPerRoom cfg)))).

(** [generateRoomCatalog(roomX, roomY)] (api.js 64-105) *)
Definition generateRoomCatalog (roomX roomY : Z) : St H jsval :=
  ok ← initialize;
  if negb ok then mret JNull
  else
    h ← me;
    wm ← onw (gets window_mock);
    if useMockData h && wm then
      shuffled ← onw (sort_random (bookTitles MOCK_DATA));
      mret (JArr (map JStr (mock_titles shuffled)))
    else
      response ← callAPI_m (catalog_prompt roomX roomY);
      mret (extract_catalog response).

End Generators.

(** ** Properties of the catalog extraction *)

Lemma stringify_strings_shape titles :
  exists body, stringify_strings titles = [91] ++ body ++ [93].
Proof. eexists. reflexivity. Qed.

(** A response with a [[] before a []], the first [[] after text without
    one and the last []] before text without one, is decided by
    [JSON.parse] of the text between them, brackets included. *)
Lemma extract_catalog_brackets pre mid post :
  91 ∉ pre -> 93 ∉ post ->
  extract_catalog (JStr (pre ++ [91] ++ mid ++ [93] ++ post)) =
    match json_parse ([91] ++ mid ++ [93]) with Some v => v | None => JNull end.
Proof.
  intros Hpre Hpost. unfold extract_catalog.
  replace (pre ++ [91] ++ mid ++ [93] ++ post) with (pre ++ 91 :: mid ++ 93 :: post) by done.
  rewrite index_of_first by done.
  replace (pre ++ 91 :: mid ++ 93 :: post) with ((pre ++ 91 :: mid) ++ 93 :: post)
    by (by rewrite <-!app_assoc).
  rewrite last_index_of_last by done. rewrite length_app. simpl length.
  zcase. replace (Z.of_nat (length pre + S (length mid)) + 1)
    with (Z.of_nat (length pre + length ([91] ++ mid ++ [93]))) by (rewrite !length_app; simpl; lia).
  replace ((pre ++ 91 :: mid) ++ 93 :: post) with (pre ++ ([91] ++ mid ++ [93]) ++ post)
    by (by rewrite <-!app_assoc).
  by rewrite substring_app_exact.
Qed.

(** C29: a response that carries a JSON array of titles, after text
    without [[] and before text without []], yields exactly those titles. *)
Theorem extract_catalog_json pre titles post :
  91 ∉ pre -> 93 ∉ post -> forallb units_ok titles = true ->
  extract_catalog (JStr (pre ++ stringify_strings titles ++ post)) = JArr (map JStr titles).
Proof.
  intros Hpre Hpost Hok. destruct (stringify_strings_shape titles) as [body Hb].
  rewrite Hb, <-!app_assoc, extract_catalog_brackets by done.
  rewrite <-Hb, stringify_strings_parses by done. reflexivity.
Qed.

(** A response without [[] goes to the line heuristic: its non-blank
    lines, each stripped of a leading run of quotes, digits, [-], [.], [*]
    and the following white space, at most [booksPerRoom] of them. *)
Theorem extract_catalog_lines s :
  91 ∉ s -> extract_catalog (JStr s) = JArr (map JStr (line_titles s)).
Proof. intros H. unfold extract_catalog. rewrite index_of_absent by done. reflexivity. Qed.

(** ** The contract of [callAPI] *)

(** [callAPI] answers offline when the configuration or the flag says so. *)
Definition mock_mode (h : APIHandler) : bool := (debug cfg && Config.useMockData cfg) || useMockData h.

Definition first_fetch (w : World) : FetchOutcome :=
  match fetches w with o :: _ => o | [] => {| f_latency := 0; f_result := NetworkError |} end.

(** The content of a successful response, [None] for every failure. *)
Definition backend_answer (r : fetch_result) : option jsval :=
  match r with
  | HttpResponse st (Some data) => if (200 <=? st) && (st <=? 299) then content_of data else None
  | _ => None
  end.

Definition is_429 (r : fetch_result) : bool :=
  match r with HttpResponse st _ => negb ((200 <=? st) && (st <=? 299)) && (st =? 429) | _ => false end.

(** When the request starts: once [minTimeBetweenCalls] has elapsed since
    the previous start. *)
Definition fetch_start (h : APIHandler) (w : World) : Z :=
  Z.max (now w) (lastCallTime h + minTimeBetweenCalls h).

(** What an online call guarantees. *)
Record online_post (p : jstr) (h : APIHandler) (w : World) (v : jsval) (h' : APIHandler) (w' : World)
  : Prop := {
  op_trace : trace w' = fetch_start h w :: trace w;
  op_last : lastCallTime h' = fetch_start h w;
  op_min : minTimeBetweenCalls h' = minTimeBetweenCalls h;
  op_key : apiKey h' = apiKey h;
  op_clock : fetch_start h w <= now w';
  op_fetches : fetches w' = tail (fetches w);
  op_answer : match backend_answer (f_result (first_fetch w)) with
              | Some c => v = c /\ useMockData h' = useMockData h
              | None => v = mock_response p /\ useMockData h' = true
              end;
  op_store : ls w' = if is_429 (f_result (first_fetch w))
                     then <[js "babel_use_mock_data" := js "true"]> (ls w) else ls w
}.

Ltac api_unfold :=
  unfold callAPI, callAPI_go, backend_call, handle_response, onw, me, on_world, self, set_self, set_useMockData,
    set_lastCallTime, set_apiKey, fetch_backend, date_now, sleep, setItem in *; st_simpl.

Lemma callAPI_go_mock f p h w :
  mock_mode h = true -> callAPI_go (S f) p (h, w) = (Ok (mock_response p), (h, w)).
Proof. intros Hm. unfold mock_mode in Hm. api_unfold. by rewrite Hm. Qed.

Lemma sleep_to_start h w :
  (if now w - lastCallTime h <? minTimeBetweenCalls h
   then sleep (minTimeBetweenCalls h - (now w - lastCallTime h)) else mret tt) w
  = (Ok tt, set_now (fetch_start h w) w).
Proof.
  unfold sleep, fetch_start, modify, mret, st_ret.
  destruct (Z.ltb_spec (now w - lastCallTime h) (minTimeBetweenCalls h)); unfold set_now;
    destruct w; simpl in *; do 3 f_equal; lia.
Qed.

(** The run of [callAPI], case by case. *)
Lemma callAPI_run p h w :
  exists v h' w', callAPI p (h, w) = (Ok v, (h', w')) /\
    (if mock_mode h then v = mock_response p /\ h' = h /\ w' = w
     else online_post p h w v h' w').
Proof.
  destruct (mock_mode h) eqn:Hm.
  { exists (mock_response p), h, w. unfold callAPI. by rewrite callAPI_go_mock. }
  unfold mock_mode in Hm. apply orb_false_iff in Hm as [Hcfg Hflag].
  unfold callAPI. cbn [callAPI_go]. unfold me, self, gets, onw, on_world, zoom, date_now.
  st_simpl. rewrite Hcfg, Hflag. simpl.
  unfold backend_call, handle_response, onw, on_world, zoom, fetch_backend, date_now, gets,
    set_lastCallTime, modify, set_useMockData, setItem, throw. st_simpl.
  unfold first_fetch, fetch_start, backend_answer, is_429.
  destruct w as [ls0 now0 fs rs cs ps ss wm tr]; simpl in *.
  destruct (Z.ltb_spec (now0 - lastCallTime h) (minTimeBetweenCalls h)); simpl;
  (destruct fs as [|[lat r] fs]; [|destruct r as [|st [data|]]]; simpl;
   [| |destruct ((200 <=? st) && (st <=? 299)) eqn:E2; simpl;
      [destruct (content_of data) eqn:Ec|destruct (st =? 429) eqn:E4]
    |destruct ((200 <=? st) && (st <=? 299)) eqn:E2; simpl; [|destruct (st =? 429) eqn:E4]]);
  (eexists _, _, _; split; [reflexivity|]; constructor; unfold fetch_start; simpl;
   rewrite ?Hflag, ?E2, ?Ec, ?E4; simpl; try done; try (f_equal; lia); lia).
Qed.


(** ** What [initialize] changes *)

(** The keys of [localStorage] that the handler writes. *)
Definition api_keys : list jstr := [js "babel_api_key"; js "babel_use_mock_data"].

(** A step of the handler that leaves the rest of [localStorage], the
    clock's past, the backend queue and the rate limiter's history alone
    beyond what [callAPI] does. *)
Record api_frame (h : APIHandler) (w : World) (h' : APIHandler) (w' : World) : Prop := {
  af_ls : forall k, k ∉ api_keys -> ls w' !! k = ls w !! k;
  af_now : now w <= now w';
  af_min : minTimeBetweenCalls h' = minTimeBetweenCalls h
}.

Lemma api_frame_refl h w : api_frame h w h w.
Proof. constructor; auto with lia. Qed.

Lemma api_frame_trans h w h1 w1 h2 w2 :
  api_frame h w h1 w1 -> api_frame h1 w1 h2 w2 -> api_frame h w h2 w2.
Proof.
  intros [A1 B1 C1] [A2 B2 C2]. constructor; [|lia|congruence].
  intros k Hk. rewrite A2, A1 by done. done.
Qed.

(** [initialize] returns a boolean, touches no request state, and writes
    only the key [babel_api_key]. *)
Lemma initialize_run h w :
  exists b h' w', initialize (h, w) = (Ok b, (h', w')) /\
    lastCallTime h' = lastCallTime h /\ trace w' = trace w /\ fetches w' = fetches w /\
    api_frame h w h' w' /\ now w' = now w.
Proof.
  unfold initialize, onw, on_world, me, self, set_useMockData, set_apiKey, getItem, setItem,
    confirm, prompt, gets, modify, zoom. st_simpl.
  destruct w as [ls0 now0 fs rs cs ps ss wm tr]; simpl.
  repeat (case_match; simplify_eq; simpl).
  all: eexists _, _, _; split; [reflexivity|].
  all: simpl; repeat split; simpl; try done; try lia.
  intros k Hk. rewrite lookup_insert_ne; [done|]. intros <-. apply Hk. unfold api_keys. set_solver.
Qed.

(** ** Rate limiting *)

(** Consecutive request start times, most recent first, are at least [gap]
    apart. *)
Fixpoint spaced (gap : Z) (tr : list Z) : Prop :=
  match tr with
  | a :: ((b :: _) as tl) => b + gap <= a /\ spaced gap tl
  | _ => True
  end.

(** The handler's view of the requests: they are spaced by its minimum
    interval, and the last one started at [lastCallTime]. *)
Definition rate_inv (h : APIHandler) (w : World) : Prop :=
  spaced (minTimeBetweenCalls h) (trace w) /\
  forall t, head (trace w) = Some t -> t <= lastCallTime h.

(** One step of the handler: it returns a value, stays within its frame,
    and keeps the requests spaced. *)
Definition api_step (m : St H jsval) : Prop :=
  forall h w, exists v h' w', m (h, w) = (Ok v, (h', w')) /\
    api_frame h w h' w' /\ (rate_inv h w -> rate_inv h' w').

Lemma api_frame_online p h w v h' w' : online_post p h w v h' w' -> api_frame h w h' w'.
Proof.
  intros [Htr Hl Hm Hk Hc Hf Ha Hs]. constructor; [|unfold fetch_start in Hc; lia|done].
  intros k Hk'. rewrite Hs. destruct (is_429 _); [|done].
  rewrite lookup_insert_ne; [done|]. intros <-. apply Hk'. unfold api_keys. set_solver.
Qed.

Lemma rate_inv_online p h w v h' w' :
  online_post p h w v h' w' -> rate_inv h w -> rate_inv h' w'.
Proof.
  intros [Htr Hl Hm Hk Hc Hf Ha Hs] [Hsp Hhd]. unfold rate_inv.
  rewrite Htr, Hl, Hm. split; [|by intros t [= ->]].
  destruct (trace w) as [|t tr] eqn:E; simpl; [done|].
  split; [|done]. specialize (Hhd t eq_refl). unfold fetch_start. lia.
Qed.

(** Every request a handler makes starts at least [minTimeBetweenCalls]
    after its previous one. *)
Theorem callAPI_step p : api_step (callAPI p).
Proof.
  intros h w. destruct (callAPI_run p h w) as (v & h' & w' & Hrun & Hpost).
  exists v, h', w'. split; [done|]. destruct (mock_mode h).
  - destruct Hpost as (_ & -> & ->). split; [apply api_frame_refl|done].
  - split; [by eapply api_frame_online|by eapply rate_inv_online].
Qed.

Lemma initialize_then {A} (k : bool -> St H A) h w :
  exists b h1 w1, (initialize ≫= k) (h, w) = k b (h1, w1) /\
    api_frame h w h1 w1 /\ (rate_inv h w -> rate_inv h1 w1).
Proof.
  destruct (initialize_run h w) as (b & h1 & w1 & Hi & Hl & Ht & Hf & Hfr & Hn).
  exists b, h1, w1. rewrite st_run_bind, Hi. split; [done|split; [done|]].
  unfold rate_inv. rewrite Ht, Hl, (af_min _ _ _ _ Hfr). done.
Qed.

Ltac run_initialize h w :=
  match goal with
  | |- context [ (initialize ≫= ?k) (h, w) ] =>
      let b := fresh "b" in let h1 := fresh "h1" in let w1 := fresh "w1" in
      let E := fresh "E" in let Hf := fresh "Hf" in let Hr := fresh "Hr" in
      destruct (initialize_then k h w) as (b & h1 & w1 & E & Hf & Hr); rewrite E; clear E
  end.

Lemma api_step_compose h w h1 w1 (m : St H jsval) :
  api_frame h w h1 w1 -> (rate_inv h w -> rate_inv h1 w1) -> api_step m ->
  exists v h' w', m (h1, w1) = (Ok v, (h', w')) /\
    api_frame h w h' w' /\ (rate_inv h w -> rate_inv h' w').
Proof.
  intros Hf Hr Hm. destruct (Hm h1 w1) as (v & h' & w' & Hrun & Hf' & Hr').
  exists v, h', w'. split; [done|]. split; [by eapply api_frame_trans|auto].
Qed.

(** A quiet world operation (randomness) keeps the frame. *)
Lemma api_step_quiet h w w' :
  quiet w w' -> api_frame h w h w' /\ (rate_inv h w -> rate_inv h w').
Proof.
  intros [Hl Hn Ht Hf]. split; [constructor; [by rewrite Hl|lia|done]|].
  unfold rate_inv. by rewrite Ht.
Qed.

Theorem generateRoomCatalog_step callAPI_m x y :
  (forall p, api_step (callAPI_m p)) -> api_step (generateRoomCatalog callAPI_m x y).
Proof.
  intros Hcall h w. unfold generateRoomCatalog.
  remember (bookTitles MOCK_DATA) as titles eqn:Et.
  run_initialize h w.
  destruct b; simpl; [|by exists JNull, h1, w1].
  unfold me, self, onw, on_world, gets, zoom. st_simpl.
  destruct (useMockData h1 && window_mock w1).
  - destruct (sort_random_run titles w1) as (ys & w2 & Hs & Hq & _).
    change (snd (h1, w1)) with w1. rewrite Hs. simpl. destruct (api_step_quiet h1 w1 w2 Hq) as [Hf2 Hr2].
    exists (JArr (map JStr (mock_titles ys))), h1, w2.
    split; [done|split; [by eapply api_frame_trans|auto]].
  - destruct (api_step_compose h w h1 w1 _ Hf Hr (Hcall (catalog_prompt x y)))
      as (v & h' & w' & Hrun & Hf' & Hr').
    rewrite Hrun. by exists (extract_catalog v), h', w'.
Qed.

Theorem generateBookContent_step callAPI_m t n :
  (forall p, api_step (callAPI_m p)) -> api_step (generateBookContent callAPI_m t n).
Proof.
  intros Hcall h w. unfold generateBookContent.
  run_initialize h w.
  destruct b; simpl; [|by exists JNull, h1, w1].
  unfold me, self, onw, on_world, gets, zoom. st_simpl.
  destruct (useMockData h1 && window_mock w1); [by eexists _, h1, w1|].
  destruct (api_step_compose h w h1 w1 _ Hf Hr (Hcall (page_prompt t n)))
    as (v & h' & w' & Hrun & Hf' & Hr').
  rewrite Hrun. by exists v, h', w'.
Qed.

Theorem generateCharacterStory_step callAPI_m name d :
  (forall p, api_step (callAPI_m p)) -> api_step (generateCharacterStory callAPI_m name d).
Proof.
  intros Hcall h w. unfold generateCharacterStory.
  run_initialize h w.
  destruct b; simpl; [|by exists JNull, h1, w1].
  unfold me, self, onw, on_world, gets, zoom. st_simpl.
  destruct (useMockData h1 && window_mock w1).
  - destruct (math_random_run w1) as (r & w2 & Hs & Hq).
    change (snd (h1, w1)) with w1. rewrite Hs. simpl.
    destruct (api_step_quiet h1 w1 w2 Hq) as [Hf2 Hr2].
    eexists _, h1, w2. split; [done|split; [by eapply api_frame_trans|auto]].
  - destruct (api_step_compose h w h1 w1 _ Hf Hr (Hcall (story_prompt name d)))
      as (v & h' & w' & Hrun & Hf' & Hr').
    rewrite Hrun. by exists v, h', w'.
Qed.

(** ** Properties of the handler *)

(** C2: [callAPI] returns a value in every case (no exception reaches the
    caller): offline it answers from [MOCK_DATA] without touching anything;
    online it sends one request, no earlier than [minTimeBetweenCalls]
    after the previous one, and answers with the backend's content, or, on
    any failure, with the offline answer after setting [useMockData]; a 429
    also stores [babel_use_mock_data]. *)
Theorem callAPI_contract p h w :
  exists v h' w', callAPI p (h, w) = (Ok v, (h', w')) /\
    (if mock_mode h then v = mock_response p /\ h' = h /\ w' = w
     else online_post p h w v h' w').
Proof. apply callAPI_run. Qed.

(** The requests of one handler are spaced as long as its calls do not
    overlap: if the requests it made so far started [minTimeBetweenCalls]
    apart, the last one at [lastCallTime], this still holds after one more
    [callAPI] run to its end.  Calls that overlap are not spaced
    ([ApiAsync.overlapping_calls_unspaced]). *)
Theorem callAPI_spaced p h w :
  rate_inv h w -> rate_inv (fst (snd (callAPI p (h, w)))) (snd (snd (callAPI p (h, w)))).
Proof.
  intros Hr. destruct (callAPI_step p h w) as (v & h' & w' & -> & _ & Hr'). by apply Hr'.
Qed.

(** C25 (finding): [initialize] undoes the fallback.  A handler in fallback mode
    ([useMockData]) that has a key leaves [initialize], which every
    generator calls first, with [useMockData] false when [window.MOCK_DATA]
    is not set: the fallback entered after a 429 lasts until the next
    generation request only, and [babel_use_mock_data] is never read. *)
Theorem initialize_resets_fallback h w :
  window_mock w = false -> key_truthy (apiKey h) = true ->
  initialize (h, w) = (Ok true, (with_useMockData false h, w)).
Proof.
  intros Hw Hk. unfold initialize, onw, on_world, me, self, set_useMockData, gets, modify, zoom.
  st_simpl. rewrite Hw, andb_false_r. simpl. rewrite Hk. simpl. by rewrite Hk.
Qed.

(** With a key in storage and no [window.MOCK_DATA], [initialize]
    answers [true], leaves the world as it is and the handler out of the
    fallback mode. *)
Lemma initialize_keyed h w key :
  window_mock w = false -> ls w !! js "babel_api_key" = Some key -> key <> [] ->
  exists h', initialize (h, w) = (Ok true, (h', w)) /\ useMockData h' = false.
Proof.
  intros Hw Hl Hk. unfold initialize, onw, on_world, me, self, set_useMockData, set_apiKey, getItem,
    gets, modify, zoom. st_simpl. rewrite Hw, andb_false_r. simpl.
  destruct (key_truthy (apiKey h)) eqn:E; simpl; [rewrite E; eexists; split; reflexivity|].
  rewrite Hl. unfold key_truthy at 1. rewrite bool_decide_false by done. simpl.
  rewrite bool_decide_false by done. eexists; split; reflexivity.
Qed.

Lemma initialize_keyed_then {A} (k : bool -> St H A) h w key :
  window_mock w = false -> ls w !! js "babel_api_key" = Some key -> key <> [] ->
  exists h', (initialize ≫= k) (h, w) = k true (h', w) /\ useMockData h' = false.
Proof.
  intros Hw Hl Hk. destruct (initialize_keyed h w key Hw Hl Hk) as (h' & E & Hm).
  exists h'. by rewrite st_run_bind, E.
Qed.

Ltac run_keyed :=
  match goal with
  | Hw : window_mock ?w = false, Hl : ls ?w !! _ = Some ?key, Hk : ?key <> [] |-
    context [ (initialize ≫= ?k) (?h, ?w) ] =>
      let h' := fresh "h'" in let E := fresh "E" in let Hm := fresh "Hm" in
      destruct (initialize_keyed_then k h w key Hw Hl Hk) as (h' & E & Hm); rewrite E; clear E;
      unfold me, self, onw, on_world, gets, zoom; st_simpl; rewrite Hm, Hw; simpl; by exists h'
  end.

(** So each generator asks [this.callAPI] with its prompt. *)
Lemma generateCharacterStory_keyed callAPI_m name d h w key :
  window_mock w = false -> ls w !! js "babel_api_key" = Some key -> key <> [] ->
  exists h', generateCharacterStory callAPI_m name d (h, w) = callAPI_m (story_prompt name d) (h', w).
Proof. intros Hw Hl Hk. unfold generateCharacterStory. run_keyed. Qed.

Lemma generateBookContent_keyed callAPI_m t n h w key :
  window_mock w = false -> ls w !! js "babel_api_key" = Some key -> key <> [] ->
  exists h', generateBookContent callAPI_m t n (h, w) = callAPI_m (page_prompt t n) (h', w).
Proof. intros Hw Hl Hk. unfold generateBookContent. run_keyed. Qed.

Lemma generateRoomCatalog_keyed callAPI_m x y h w key :
  window_mock w = false -> ls w !! js "babel_api_key" = Some key -> key <> [] ->
  exists h', generateRoomCatalog callAPI_m x y (h, w) =
             (callAPI_m (catalog_prompt x y) ≫= fun r => mret (extract_catalog r)) (h', w).
Proof. intros Hw Hl Hk. unfold generateRoomCatalog. run_keyed. Qed.


End WithConfig.

(** ** Concrete answers of the shipped configuration *)

(** In the offline answer, any prompt that contains [story] gets the
    story template: so does the page prompt of a book whose title contains
    [History]. *)
Theorem mock_story_for_history :
  mock_response (page_prompt CONFIG (JStr (js "A History of Forgotten Maps")) 1)
  = mock_response (js "story").
Proof. vm_compute. reflexivity. Qed.

(** The line heuristic does not strip the bullet character [•]: the
    character class of api.js line 99 holds the three characters of its
    UTF-8 bytes read as Windows-1252 ([â€¢]), not [•]. *)
Theorem bullet_not_stripped :
  extract_catalog CONFIG (JStr (js "• Alpha")) = JArr [JStr (js "• Alpha")].
Proof. vm_compute. reflexivity. Qed.

(** C26 (finding): a response whose brackets hold text that is not JSON
    gives [null], whatever lines it has: the line heuristic is only tried
    when there is no bracket pair, not after a failed parse. *)
Theorem malformed_brackets_null pre mid post :
  91 ∉ pre -> 93 ∉ post -> json_parse ([91] ++ mid ++ [93]) = None ->
  extract_catalog CONFIG (JStr (pre ++ [91] ++ mid ++ [93] ++ post)) = JNull.
Proof. intros Hpre Hpost Hp. by rewrite extract_catalog_brackets, Hp. Qed.

(** ** The generation service, as the book and the library see it

    [Book] and [Library] each own an [APIHandler] and call one of its
    generators.  [Generator] names those calls, [GeneratorLaws] states what
    a client relies on: each call returns a value (the handler catches every
    failure), touches no storage key outside [api_keys], and keeps the
    handler's requests spaced.  [api_generator] is the handler of this file;
    its laws are the [_step] lemmas above. *)
Class Generator := {
  gen_catalog : Z -> Z -> St H jsval;
  gen_page : jsval -> Z -> St H jsval
}.

Class GeneratorLaws (G : Generator) : Prop := {
  gen_catalog_step x y : api_step (gen_catalog x y);
  gen_page_step t n : api_step (gen_page t n)
}.

Definition api_generator (cfg : Config) : Generator :=
  {| gen_catalog := generateRoomCatalog cfg (callAPI cfg); gen_page := generateBookContent cfg (callAPI cfg) |}.

#[export] Instance api_generator_laws cfg : GeneratorLaws (api_generator cfg).
Proof. constructor; intros; [apply generateRoomCatalog_step|apply generateBookContent_step]; apply callAPI_step. Qed.

Definition sample_fetch : FetchOutcome :=
  {| f_latency := 200;
     f_result := HttpResponse 200 (Some (JObj [(js "choices",
                   JArr [JObj [(js "message", JObj [(js "content", JStr (js "Page text"))])]])])) |}.

(** C30 (finding): cancelling the API key dialog is not remembered: [initialize]
    answers [true] in fallback mode, but the handler still has no key and
    storage is unchanged, so the next generation call asks again. *)
Theorem cancel_not_remembered h w rest :
  window_mock w = false -> apiKey h = None -> ls w !! js "babel_api_key" = None ->
  confirms w = false :: rest ->
  let '(r, (h', w')) := initialize CONFIG (h, w) in
  r = Ok true /\ useMockData h' = true /\ apiKey h' = None /\ confirms w' = rest /\ ls w' = ls w.
Proof.
  intros Hw Hk Hl Hc. unfold initialize, onw, on_world, me, self, set_useMockData, set_apiKey,
    gets, modify, zoom, getItem, confirm. st_simpl.
  rewrite Hw, Hk. simpl. rewrite Hl. simpl. rewrite Hc. simpl. repeat split.
Qed.

(** Under the shipped configuration ([debug] and [useMockData] set)
    [callAPI] answers offline for every handler and never sends a request. *)
Theorem callAPI_offline_in_CONFIG p h w :
  callAPI CONFIG p (h, w) = (Ok (mock_response p), (h, w)).
Proof. unfold callAPI. by apply callAPI_go_mock. Qed.

(** The spacing is per handler.  Two new handlers (as a [Book] and the
    [Library] each create) send their requests 200 ms apart, less than
    [minTimeBetweenCalls]. *)
Theorem two_handlers_unspaced :
  let w1 := snd (snd (callAPI CONFIG_online (js "p") (new_APIHandler, world0 5000 [sample_fetch; sample_fetch] []))) in
  let w2 := snd (snd (callAPI CONFIG_online (js "q") (new_APIHandler, w1))) in
  trace w2 = [5200; 5000] /\ ~ spaced (minTimeBetweenCalls new_APIHandler) (trace w2).
Proof. vm_compute. split; [reflexivity|]. intros [H _]. by apply H. Qed.

(** ** Witnesses *)

(** A first request at time 500 waits until 1000, [minTimeBetweenCalls]
    after the initial [lastCallTime] 0. *)
Lemma callAPI_spaced_witness :
  rate_inv (fst (snd (callAPI CONFIG_online (js "p") (new_APIHandler, world0 500 [sample_fetch] []))))
           (snd (snd (callAPI CONFIG_online (js "p") (new_APIHandler, world0 500 [sample_fetch] [])))) /\
  trace (snd (snd (callAPI CONFIG_online (js "p") (new_APIHandler, world0 500 [sample_fetch] [])))) = [1000].
Proof.
  split; [apply callAPI_spaced; split; simpl; [exact I|discriminate]|vm_compute; reflexivity].
Defined.

Lemma initialize_resets_fallback_witness :
  initialize CONFIG (with_useMockData true (with_apiKey (Some (js "sk-test")) new_APIHandler), world0 0 [] [])
  = (Ok true, (with_useMockData false (with_useMockData true (with_apiKey (Some (js "sk-test")) new_APIHandler)),
               world0 0 [] [])).
Proof. apply initialize_resets_fallback; reflexivity. Defined.

(** The example of the specification: a JSON array after some text. *)
Lemma malformed_brackets_null_witness :
  extract_catalog CONFIG (JStr (js "Titles: " ++ [91] ++ js "Alpha, Beta" ++ [93] ++ js "
1. Gamma")) = JNull.
Proof. apply malformed_brackets_null; [decide_true|decide_true|vm_compute; reflexivity]. Defined.

Lemma extract_catalog_json_witness :
  extract_catalog CONFIG (JStr (js "Here are some titles: " ++ stringify_strings [js "A"; js "B"; js "C"] ++ []))
  = JArr (map JStr [js "A"; js "B"; js "C"]).
Proof.
  apply extract_catalog_json; [decide_true|decide_true|reflexivity].
Defined.

(** The example of the specification: two numbered lines. *)
Lemma extract_catalog_lines_witness :
  extract_catalog CONFIG (JStr (js "1. Alpha" ++ [10] ++ js "2. Beta"))
    = JArr (map JStr (line_titles CONFIG (js "1. Alpha" ++ [10] ++ js "2. Beta"))) /\
  line_titles CONFIG (js "1. Alpha" ++ [10] ++ js "2. Beta") = [js "Alpha"; js "Beta"].
Proof.
  split; [apply extract_catalog_lines; decide_true|vm_compute; reflexivity].
Defined.

(** A profile in which the user cancels the key dialog twice. *)
Definition world_cancel : World :=
  {| ls := ∅; now := 0; fetches := []; randoms := []; confirms := [false; false]; prompts := [];
     sorts := []; window_mock := false; trace := [] |}.

Lemma cancel_not_remembered_witness :
  let '(r, (h', w')) := initialize CONFIG (new_APIHandler, world_cancel) in
  r = Ok true /\ useMockData h' = true /\ apiKey h' = None /\ confirms w' = [false] /\ ls w' = ls world_cancel.
Proof. apply cancel_not_remembered; reflexivity. Defined.

End Api.
