(* ===== verification/Save.v ===== *)
(** * The content store: [class SaveSystem] (save.js).

    A [SaveSystem] keeps the key prefix and two in-memory caches (room
    catalogs and book pages) in front of the origin's [localStorage], which
    is shared by every instance.  Catalogs are stored as JSON text, pages as
    plain text, and two index records ([known_rooms], [known_books]) list
    the keys ever written.  Methods run in [St (SaveSystem * World)]. *)

From S2P Require Import Prelude JsString Json Config World.
Open Scope Z_scope.

Module Save.

Record SaveSystem := {
  savePrefix : jstr;
  roomCatalogs : gmap jstr jsval;
  bookContents : gmap jstr jsval
}.

(** [new SaveSystem()] (save.js 3-7) *)
Definition new_SaveSystem : SaveSystem :=
  {| savePrefix := js "babel_"; roomCatalogs := ∅; bookContents := ∅ |}.

Abbreviation S := (SaveSystem * World)%type.

Definition onw {A} (m : St World A) : St S A := on_world m.
Definition me : St S SaveSystem := self.

(** [this.roomCatalogs[k] = c], [this.bookContents[k] = c] *)
Definition with_catalog (k : jstr) (c : jsval) (s : SaveSystem) : SaveSystem :=
  {| savePrefix := savePrefix s; roomCatalogs := <[k := c]> (roomCatalogs s);
     bookContents := bookContents s |}.
Definition with_content (k : jstr) (c : jsval) (s : SaveSystem) : SaveSystem :=
  {| savePrefix := savePrefix s; roomCatalogs := roomCatalogs s;
     bookContents := <[k := c]> (bookContents s) |}.

Definition cache_catalog (k : jstr) (c : jsval) : St S unit :=
  modify (fun '(s, w) => (with_catalog k c s, w)).
Definition cache_content (k : jstr) (c : jsval) : St S unit :=
  modify (fun '(s, w) => (with_content k c s, w)).

(** [JSON.stringify(v)] as stored by [localStorage.setItem], which turns
    [undefined] into the text "undefined". *)
Definition stored_json (v : jsval) : jstr := default (js "undefined") (stringify v).

(** [data ? JSON.parse(data) : dflt], with the SyntaxError of a bad text. *)
Definition parse_or (dflt : jsval) (data : option jstr) : St S jsval :=
  match data with
  | Some d => if bool_decide (d = []) then mret dflt
              else match json_parse d with Some v => mret v | None => throw SyntaxError end
  | None => mret dflt
  end.

(** ** Keys *)

(** [`${roomX},${roomY}`] *)
Definition room_key (roomX roomY : Z) : jstr := z_to_js roomX ++ js "," ++ z_to_js roomY.

(** [`${roomX},${roomY}_${bookIndex}_${pageIndex}`] *)
Definition book_key (roomX roomY bookIndex pageIndex : Z) : jstr :=
  room_key roomX roomY ++ js "_" ++ z_to_js bookIndex ++ js "_" ++ z_to_js pageIndex.

(** ** The index arrays: [includes] and [push] on the parsed value *)

(** [v.includes(x)] for a string [x]: an array looks for an element that is
    the same string (SameValueZero is false across types), a string searches
    a substring, other values have no [includes] (TypeError, [None]). *)
Definition is_str (x : jstr) (v : jsval) : bool :=
  match v with JStr y => bool_decide (x = y) | _ => false end.

Definition js_includes (v : jsval) (x : jstr) : option bool :=
  match v with
  | JArr xs => Some (existsb (is_str x) xs)
  | JStr s => Some (includes s x)
  | _ => None
  end.

(** [v.push(x)] on an array, TypeError otherwise. *)
Definition js_push (v : jsval) (x : jstr) : option jsval :=
  match v with JArr xs => Some (JArr (xs ++ [JStr x])) | _ => None end.

Section WithConfig.
Context (cfg : Config).

(** ** Character and position (save.js 10-29) *)

Definition saveCharacter (characterData : jsval) : St S unit :=
  s ← me; onw (setItem (savePrefix s ++ js "character") (stored_json characterData)).

Definition loadCharacter : St S jsval :=
  s ← me; data ← onw (getItem (savePrefix s ++ js "character")); parse_or JNull data.

Definition savePlayerPosition (x y roomX roomY : jsval) : St S unit :=
  s ← me;
  onw (setItem (savePrefix s ++ js "player_pos")
         (stored_json (JObj [(js "x", x); (js "y", y); (js "roomX", roomX); (js "roomY", roomY)]))).

Definition loadPlayerPosition : St S jsval :=
  s ← me; data ← onw (getItem (savePrefix s ++ js "player_pos")); parse_or JNull data.

(** ** Helper methods (save.js 105-113) *)

(** The two getters differ only in the record they read. *)
Definition get_known (index : jstr) : St S jsval :=
  s ← me; data ← onw (getItem (savePrefix s ++ index)); parse_or (JArr []) data.

Definition getKnownRooms : St S jsval := get_known (js "known_rooms").

Definition getKnownBooks : St S jsval := get_known (js "known_books").

(** Add [key] to an index record unless it is there (save.js 42-46, 79-83). *)
Definition add_known (get_known : St S jsval) (index : jstr) (key : jstr) : St S unit :=
  known ← get_known;
  match js_includes known key with
  | None => throw TypeError
  | Some true => mret tt
  | Some false =>
      match js_push known key with
      | None => throw TypeError
      | Some known' => s ← me; onw (setItem (savePrefix s ++ index) (stored_json known'))
      end
  end.

(** ** Room catalogs (save.js 32-66) *)

(** The storage slots of a room and of a page. *)
Definition room_slot (s : SaveSystem) (x y : Z) : jstr := savePrefix s ++ js "room_" ++ room_key x y.
Definition book_slot (s : SaveSystem) (x y b p : Z) : jstr :=
  savePrefix s ++ js "book_" ++ book_key x y b p.

Definition saveRoomCatalog (roomX roomY : Z) (catalog : jsval) : St S unit :=
  let roomKey := room_key roomX roomY in
  cache_catalog roomKey catalog;;
  s ← me;
  onw (setItem (savePrefix s ++ js "room_" ++ roomKey) (stored_json catalog));;
  add_known getKnownRooms (js "known_rooms") roomKey.

Definition loadRoomCatalog (roomX roomY : Z) : St S jsval :=
  let roomKey := room_key roomX roomY in
  s ← me;
  let cached := default JUndef (roomCatalogs s !! roomKey) in
  if truthy cached then mret cached
  else
    data ← onw (getItem (savePrefix s ++ js "room_" ++ roomKey));
    match data with
    | Some d =>
        if bool_decide (d = []) then mret JNull
        else match json_parse d with
             | Some catalog => cache_catalog roomKey catalog;; mret catalog
             | None => throw SyntaxError
             end
    | None => mret JNull
    end.

(** ** Book pages (save.js 69-102) *)

Definition saveBookContent (roomX roomY bookIndex pageIndex : Z) (content : jsval) : St S unit :=
  let bookKey := book_key roomX roomY bookIndex pageIndex in
  cache_content bookKey content;;
  s ← me;
  onw (setItem (savePrefix s ++ js "book_" ++ bookKey) (to_js_string content));;
  add_known getKnownBooks (js "known_books") bookKey.

Definition loadBookContent (roomX roomY bookIndex pageIndex : Z) : St S jsval :=
  let bookKey := book_key roomX roomY bookIndex pageIndex in
  s ← me;
  let cached := default JUndef (bookContents s !! bookKey) in
  if truthy cached then mret cached
  else
    content ← onw (getItem (savePrefix s ++ js "book_" ++ bookKey));
    match content with
    | Some c => if bool_decide (c = []) then mret JNull
                else cache_content bookKey (JStr c);; mret (JStr c)
    | None => mret JNull
    end.

(** ** The character's story in a random book (save.js 116-138) *)

(** [catalog[i] = x] in strict mode for an integer [i]: an array grows
    with holes up to [i]; a negative [i] names a property that is not an
    element, which neither the elements nor [JSON.stringify] see; an object
    gets the property; a primitive throws (TypeError, [None]). *)
Definition js_array_set (v : jsval) (i : Z) (x : jsval) : option jsval :=
  match v with
  | JArr xs =>
      if i <? 0 then Some v
      else let n := Z.to_nat i in
           Some (JArr (if decide (n < length xs)%nat then <[n := x]> xs
                       else xs ++ replicate (n - length xs) JUndef ++ [x]))
  | JObj ps => Some (JObj (obj_set (z_to_js i) x ps))
  | _ => None
  end.

Definition story_title (characterData : jsval) : option jsval :=
  name ← get_prop characterData (js "name");
  Some (JStr (js "The Story of " ++ to_js_string name ++ js ": Seeker of Knowledge")).

Definition saveCharacterStoryToLibrary (characterData story : jsval) : St S jsval :=
  r1 ← onw math_random;
  r2 ← onw math_random;
  r3 ← onw math_random;
  let roomX := rand_floor r1 (librarySize_width cfg) in
  let roomY := rand_floor r2 (librarySize_height cfg) in
  let bookIndex := rand_floor r3 (booksPerRoom cfg) in
  loaded ← loadRoomCatalog roomX roomY;
  let catalog := if truthy loaded then loaded else JArr [] in
  match story_title characterData with
  | None => throw TypeError
  | Some title =>
      match js_array_set catalog bookIndex title with
      | None => throw TypeError
      | Some catalog' =>
          saveRoomCatalog roomX roomY catalog';;
          saveBookContent roomX roomY bookIndex 1 story;;
          let loc := JObj [(js "roomX", JNum (z_to_js roomX)); (js "roomY", JNum (z_to_js roomY));
                           (js "bookIndex", JNum (z_to_js bookIndex))] in
          s ← me;
          onw (setItem (savePrefix s ++ js "character_book") (stored_json loc));;
          mret loc
      end
  end.

End WithConfig.

(** ** [resetAllData()] (save.js 141-157): every key with the prefix is
    removed, and both caches are emptied. *)
Definition resetAllData : St S unit :=
  modify (fun '(s, w) =>
    ({| savePrefix := savePrefix s; roomCatalogs := ∅; bookContents := ∅ |},
     set_ls (filter (fun kv => negb (is_prefix (savePrefix s) kv.1)) (ls w)) w)).

(** ** The methods other objects call on their SaveSystem

    A [Book] and a [Library] own a SaveSystem and call four of its methods
    through [this.save].  JavaScript looks the method up on the object when
    it is called, so a client may replace it on one instance, as test.js
    does (test.js 208-209, 252-253).  [SaveMethods] names those calls;
    [save_methods], the class's methods, is the instance every object of
    the program uses. *)
Class SaveMethods := {
  sv_loadRoomCatalog : Z -> Z -> St S jsval;
  sv_saveRoomCatalog : Z -> Z -> jsval -> St S unit;
  sv_loadBookContent : Z -> Z -> Z -> Z -> St S jsval;
  sv_saveBookContent : Z -> Z -> Z -> Z -> jsval -> St S unit
}.

#[global] Instance save_methods : SaveMethods := {|
  sv_loadRoomCatalog := loadRoomCatalog;
  sv_saveRoomCatalog := saveRoomCatalog;
  sv_loadBookContent := loadBookContent;
  sv_saveBookContent := saveBookContent
|}.

(** ** Lemmas *)

Lemma with_catalog_prefix k c s : savePrefix (with_catalog k c s) = savePrefix s.
Proof. reflexivity. Qed.
Lemma with_content_prefix k c s : savePrefix (with_content k c s) = savePrefix s.
Proof. reflexivity. Qed.
Lemma book_slot_with_catalog k c s x y b p : book_slot (with_catalog k c s) x y b p = book_slot s x y b p.
Proof. reflexivity. Qed.
Create Rewrite HintDb save.
#[export] Hint Rewrite with_catalog_prefix with_content_prefix book_slot_with_catalog : save.

(** Unfold the monad and the methods, leaving literals and keys folded. *)
Ltac save_run :=
  cbv [saveRoomCatalog loadRoomCatalog saveBookContent loadBookContent
       cache_catalog cache_content parse_or onw me on_world self setItem getItem
       mbind st_bind modify gets zoom mret st_ret throw fst snd].

(** *** Keys: distinct rooms and pages have distinct storage slots *)

Lemma z_to_js_not_in c z : num_unit c = false -> c ∉ z_to_js z.
Proof.
  intros Hc Hin. destruct (z_to_js_codes z) as [_ HF].
  rewrite Forall_forall in HF. specialize (HF c Hin). congruence.
Qed.

Lemma room_key_no_underscore x y : 95 ∉ room_key x y.
Proof.
  unfold room_key. rewrite !elem_of_app.
  intros [H|[H|H]]; revert H; [apply z_to_js_not_in; done| |apply z_to_js_not_in; done].
  cbn. set_solver.
Qed.

Lemma room_key_inj x y x' y' : room_key x y = room_key x' y' -> x = x' /\ y = y'.
Proof.
  unfold room_key. intros H.
  apply app_sep_inj in H as [Hx Hy%z_to_js_inj]; [|apply z_to_js_not_in; done..].
  by apply z_to_js_inj in Hx.
Qed.

(** C14: two pages have the same storage key only when they are the same
    page of the same book of the same room: the integers print without
    [,] and [_], and differently. *)
Theorem book_key_inj x y b p x' y' b' p' :
  book_key x y b p = book_key x' y' b' p' -> x = x' /\ y = y' /\ b = b' /\ p = p'.
Proof.
  unfold book_key. intros H.
  apply app_sep_inj in H as [[-> ->]%room_key_inj H]; [|apply room_key_no_underscore..].
  apply app_sep_inj in H as [Hb Hp%z_to_js_inj]; [|apply z_to_js_not_in; done..].
  apply z_to_js_inj in Hb. auto.
Qed.

(** The slot of a room catalog is neither an index record nor a page. *)
Lemma room_slot_ne s x y :
  room_slot s x y <> savePrefix s ++ js "known_rooms" /\
  room_slot s x y <> savePrefix s ++ js "known_books" /\
  forall x' y' b p, room_slot s x y <> book_slot s x' y' b p.
Proof.
  unfold room_slot, book_slot. split_and!; [..|intros x' y' b p];
    intros H%app_inv_head; apply (f_equal head) in H; vm_compute in H; congruence.
Qed.

Lemma book_slot_ne s x y b p :
  book_slot s x y b p <> savePrefix s ++ js "known_rooms" /\
  book_slot s x y b p <> savePrefix s ++ js "known_books".
Proof. unfold book_slot. split; intros H%app_inv_head; apply (f_equal head) in H; vm_compute in H; congruence. Qed.

(** *** Reading leaves the state alone *)

Definition read_only {A} (m : St S A) : Prop := forall sw, snd (m sw) = sw.

Lemma parse_or_read_only d data : read_only (parse_or d data).
Proof. intros sw. unfold parse_or. repeat case_match; done. Qed.

Lemma get_known_read_only index : read_only (get_known index).
Proof.
  intros [s w]. unfold get_known, onw, me, on_world, self, getItem. st_simpl.
  apply parse_or_read_only.
Qed.

(** Updating an index record changes at most that record. *)
Lemma add_known_frame get index key s w :
  read_only get ->
  exists r w', add_known get index key (s, w) = (r, (s, w')) /\
    forall k, k <> savePrefix s ++ index -> ls w' !! k = ls w !! k.
Proof.
  intros Hget. specialize (Hget (s, w)). unfold add_known. st_simpl.
  destruct (get (s, w)) as [[v|e] sw] eqn:E; simpl in Hget; subst sw;
    [|by eexists _, _].
  destruct (js_includes v key) as [[]|]; [by eexists _, _| |by eexists _, _].
  destruct (js_push v key); [|by eexists _, _].
  unfold onw, on_world, me, self, setItem. st_simpl. eexists _, _. split; [reflexivity|].
  intros k Hk. simpl. by rewrite lookup_insert_ne by congruence.
Qed.

(** *** The three outcomes of [loadRoomCatalog] *)

Lemma loadRoomCatalog_cached x y s w c :
  roomCatalogs s !! room_key x y = Some c -> truthy c = true ->
  loadRoomCatalog x y (s, w) = (Ok c, (s, w)).
Proof. intros Hc Ht. save_run. by rewrite Hc; simpl; rewrite Ht. Qed.

Lemma loadRoomCatalog_stored x y s w t c :
  truthy (default JUndef (roomCatalogs s !! room_key x y)) = false ->
  ls w !! room_slot s x y = Some t -> json_parse t = Some c ->
  loadRoomCatalog x y (s, w) = (Ok c, (with_catalog (room_key x y) c s, w)).
Proof.
  intros Hc Hl Hp. unfold room_slot in Hl. save_run. rewrite Hc, Hl.
  destruct t; [done|]. rewrite bool_decide_false by done. by rewrite Hp.
Qed.

Lemma loadRoomCatalog_absent x y s w :
  truthy (default JUndef (roomCatalogs s !! room_key x y)) = false ->
  ls w !! room_slot s x y = None ->
  loadRoomCatalog x y (s, w) = (Ok JNull, (s, w)).
Proof. intros Hc Hl. unfold room_slot in Hl. save_run. by rewrite Hc, Hl. Qed.

(** *** What [saveRoomCatalog] writes *)

Lemma saveRoomCatalog_run x y c s w :
  exists r w', saveRoomCatalog x y c (s, w) = (r, (with_catalog (room_key x y) c s, w')) /\
    ls w' !! room_slot s x y = Some (stored_json c) /\
    forall k, k <> savePrefix s ++ js "known_rooms" -> k <> room_slot s x y ->
      ls w' !! k = ls w !! k.
Proof.
  save_run.
  autorewrite with save.
  destruct (add_known_frame getKnownRooms (js "known_rooms") (room_key x y)
              (with_catalog (room_key x y) c s)
              (set_ls (<[room_slot s x y := stored_json c]> (ls w)) w) (get_known_read_only _))
    as (r & w' & E & Hf).
  autorewrite with save in Hf. unfold room_slot in *. rewrite E. eexists _, _. split; [reflexivity|]. split.
  - rewrite Hf by apply (proj1 (room_slot_ne s x y)). cbn [ls set_ls]. by rewrite lookup_insert_eq.
  - intros k Hk1 Hk2. unfold room_slot in Hk2. rewrite Hf by done. cbn [ls set_ls].
    by rewrite lookup_insert_ne by congruence.
Qed.

(** *** The same for pages *)

Lemma loadBookContent_cached x y b p s w c :
  bookContents s !! book_key x y b p = Some c -> truthy c = true ->
  loadBookContent x y b p (s, w) = (Ok c, (s, w)).
Proof. intros Hc Ht. save_run. by rewrite Hc; simpl; rewrite Ht. Qed.

Lemma loadBookContent_stored x y b p s w (t : jstr) :
  truthy (default JUndef (bookContents s !! book_key x y b p)) = false ->
  ls w !! book_slot s x y b p = Some t -> t <> [] ->
  loadBookContent x y b p (s, w) = (Ok (JStr t), (with_content (book_key x y b p) (JStr t) s, w)).
Proof.
  intros Hc Hl Ht. unfold book_slot in Hl. save_run. rewrite Hc, Hl.
  by rewrite bool_decide_false by done.
Qed.

Lemma loadBookContent_absent x y b p s w :
  truthy (default JUndef (bookContents s !! book_key x y b p)) = false ->
  ls w !! book_slot s x y b p = None ->
  loadBookContent x y b p (s, w) = (Ok JNull, (s, w)).
Proof.
  intros Hc Hl. unfold book_slot in Hl. save_run. by rewrite Hc, Hl.
Qed.

Lemma loadBookContent_empty x y b p s w :
  truthy (default JUndef (bookContents s !! book_key x y b p)) = false ->
  ls w !! book_slot s x y b p = Some ([] : jstr) ->
  loadBookContent x y b p (s, w) = (Ok JNull, (s, w)).
Proof. intros Hc Hl. unfold book_slot in Hl. save_run. by rewrite Hc, Hl. Qed.

Lemma saveBookContent_run x y b p c s w :
  exists r w', saveBookContent x y b p c (s, w) = (r, (with_content (book_key x y b p) c s, w')) /\
    ls w' !! book_slot s x y b p = Some (to_js_string c) /\
    forall k, k <> savePrefix s ++ js "known_books" -> k <> book_slot s x y b p ->
      ls w' !! k = ls w !! k.
Proof.
  save_run.
  autorewrite with save.
  destruct (add_known_frame getKnownBooks (js "known_books") (book_key x y b p)
              (with_content (book_key x y b p) c s)
              (set_ls (<[book_slot s x y b p := to_js_string c]> (ls w)) w) (get_known_read_only _))
    as (r & w' & E & Hf).
  autorewrite with save in Hf. unfold book_slot in *. rewrite E. eexists _, _. split; [reflexivity|]. split.
  - rewrite Hf by apply (proj2 (book_slot_ne s x y b p)). cbn [ls set_ls]. by rewrite lookup_insert_eq.
  - intros k Hk1 Hk2. rewrite Hf by done. cbn [ls set_ls].
    by rewrite lookup_insert_ne by congruence.
Qed.

Lemma stored_json_parses c : json_wf c = true -> json_parse (stored_json c) = Some c.
Proof.
  intros Hwf. destruct (stringify_wf c Hwf) as [t Ht].
  unfold stored_json. rewrite Ht. by apply stringify_parses.
Qed.

(** *** Round trips through storage *)

(** C5: a catalog written by [saveRoomCatalog] is read
    back unchanged by [loadRoomCatalog], through the same SaveSystem (whose
    cache holds it) or through any other one with the same prefix and no
    cached entry for the room, such as a new one after a reload. *)
Theorem saveRoomCatalog_roundtrip x y c s w s' :
  json_wf c = true -> savePrefix s' = savePrefix s ->
  roomCatalogs s' !! room_key x y = None \/ roomCatalogs s' !! room_key x y = Some c ->
  result_of (loadRoomCatalog x y (s', snd (state_of (saveRoomCatalog x y c (s, w))))) = Ok c.
Proof.
  intros Hwf Hp Hc. destruct (saveRoomCatalog_run x y c s w) as (r & w' & E & Hslot & _).
  rewrite E. cbn [state_of snd].
  assert (Hs : ls w' !! room_slot s' x y = Some (stored_json c)) by (unfold room_slot; by rewrite Hp).
  destruct Hc as [Hc|Hc]; [|destruct (truthy c) eqn:Ht].
  - by erewrite loadRoomCatalog_stored by (rewrite ?Hc; eauto using stored_json_parses).
  - by rewrite (loadRoomCatalog_cached x y s' w' c).
  - by erewrite loadRoomCatalog_stored by (rewrite ?Hc; eauto using stored_json_parses).
Qed.

(** C6: a non-empty page written by [saveBookContent] is read back by
    [loadBookContent], through the same SaveSystem or a fresh one. *)
Theorem saveBookContent_roundtrip x y b p (t : jstr) s w s' :
  t <> [] -> savePrefix s' = savePrefix s ->
  bookContents s' !! book_key x y b p = None \/ bookContents s' !! book_key x y b p = Some (JStr t) ->
  result_of (loadBookContent x y b p (s', snd (state_of (saveBookContent x y b p (JStr t) (s, w)))))
    = Ok (JStr t).
Proof.
  intros Ht Hp Hc. destruct (saveBookContent_run x y b p (JStr t) s w) as (r & w' & E & Hslot & _).
  rewrite E. cbn [state_of snd].
  assert (Hs : ls w' !! book_slot s' x y b p = Some t) by (unfold book_slot; by rewrite Hp).
  destruct Hc as [Hc|Hc].
  - by erewrite loadBookContent_stored by (rewrite ?Hc; eauto).
  - rewrite (loadBookContent_cached x y b p s' w' (JStr t)) by (done || by destruct t). done.
Qed.

(** *** The index records list every saved key once *)

(** The record at [slot] is absent or a JSON array of the strings [keys],
    without repetition. *)
Definition index_ok (w : World) (slot : jstr) (keys : list jstr) : Prop :=
  match (ls w !! slot : option jstr) with
  | None => keys = []
  | Some t => t <> [] /\ json_parse t = Some (JArr (map JStr keys))
  end /\ NoDup keys /\ Forall (fun k => units_ok k = true) keys.

(** The index after adding [key]: appended unless present. *)
Definition keys_after (key : jstr) (keys : list jstr) : list jstr :=
  if bool_decide (key ∈ keys) then keys else keys ++ [key].

Lemma units_ok_z_to_js z : units_ok (z_to_js z) = true.
Proof.
  destruct (z_to_js_codes z) as [_ HF]. apply forallb_forall. intros c Hc.
  rewrite Forall_forall in HF. specialize (HF c (proj2 (list_elem_of_In _ _) Hc)).
  unfold num_unit in HF. apply andb_true_iff; split; [apply Z.leb_le|apply Z.ltb_lt];
    apply orb_true_iff in HF as [?%Z.eqb_eq|[?%Z.leb_le ?%Z.leb_le]%andb_true_iff]; lia.
Qed.

Lemma units_ok_room_key x y : units_ok (room_key x y) = true.
Proof. unfold room_key. by rewrite !units_ok_app, !units_ok_z_to_js. Qed.

Lemma units_ok_book_key x y b p : units_ok (book_key x y b p) = true.
Proof. unfold book_key. by rewrite !units_ok_app, !units_ok_z_to_js, units_ok_room_key. Qed.

Lemma index_ok_frame w w' slot keys :
  ls w' !! slot = ls w !! slot -> index_ok w slot keys -> index_ok w' slot keys.
Proof. unfold index_ok. by intros ->. Qed.

Lemma existsb_is_str key keys : existsb (is_str key) (map JStr keys) = bool_decide (key ∈ keys).
Proof.
  induction keys as [|k keys IH]; [done|]. simpl. rewrite IH.
  apply eq_bool_prop_intro. rewrite orb_True, !bool_decide_spec. set_solver.
Qed.

Lemma get_known_index index s w keys :
  index_ok w (savePrefix s ++ index) keys ->
  get_known index (s, w) = (Ok (JArr (map JStr keys)), (s, w)).
Proof.
  intros [Hl _]. cbv [get_known parse_or onw me on_world self getItem mbind st_bind gets zoom
                      mret st_ret throw fst snd].
  revert Hl. case_match; [intros [Ht Hp]|by intros ->].
  rewrite bool_decide_false by done. by rewrite Hp.
Qed.

Lemma add_known_index index key s w keys :
  units_ok key = true -> index_ok w (savePrefix s ++ index) keys ->
  exists w', add_known (get_known index) index key (s, w) = (Ok tt, (s, w')) /\
    index_ok w' (savePrefix s ++ index) (keys_after key keys) /\
    forall k, k <> savePrefix s ++ index -> ls w' !! k = ls w !! k.
Proof.
  intros Hk Hi. unfold add_known. rewrite st_run_bind, (get_known_index _ _ _ _ Hi).
  cbn [js_includes]. rewrite existsb_is_str. unfold keys_after.
  destruct (bool_decide (key ∈ keys)) eqn:Hin; [by eexists|].
  cbv [js_push me self onw on_world setItem mbind st_bind gets modify zoom fst snd].
  eexists. split; [reflexivity|]. split; [|intros k Hne; cbn [ls set_ls]; by rewrite lookup_insert_ne].
  destruct Hi as (_ & Hnd & Hok). apply bool_decide_eq_false in Hin.
  assert (Hall : forallb units_ok (keys ++ [key]) = true).
  { apply forallb_forall. intros k Hk'%list_elem_of_In. apply elem_of_app in Hk' as [Hk'|Hk'%list_elem_of_singleton];
      [rewrite Forall_forall in Hok; auto|by subst]. }
  unfold index_ok. cbn [ls set_ls]. rewrite lookup_insert_eq.
  replace (map JStr keys ++ [JStr key]) with (map JStr (keys ++ [key])) by apply map_app.
  change (stored_json _) with (stringify_strings (keys ++ [key])). split_and!.
  - unfold stringify_strings. rewrite stringify_JArr. simpl. by destruct (join _ _).
  - by apply stringify_strings_parses.
  - apply NoDup_app. split_and!; [done| |by apply NoDup_singleton]. set_solver.
  - apply Forall_app. split; [done|by constructor].
Qed.

(** C7: on a well-formed index, [saveRoomCatalog] completes without an
    exception, and afterwards [known_rooms] lists the room's key exactly
    once, after the rooms listed before. *)
Theorem saveRoomCatalog_index x y c s w keys :
  index_ok w (savePrefix s ++ js "known_rooms") keys ->
  exists w', saveRoomCatalog x y c (s, w) = (Ok tt, (with_catalog (room_key x y) c s, w')) /\
    index_ok w' (savePrefix s ++ js "known_rooms") (keys_after (room_key x y) keys).
Proof.
  intros Hi. save_run. autorewrite with save. unfold getKnownRooms.
  edestruct (add_known_index (js "known_rooms") (room_key x y) (with_catalog (room_key x y) c s))
    as (w' & E & Hi' & _); [apply units_ok_room_key| |by exists w'].
  eapply index_ok_frame; [|exact Hi]. cbn [ls set_ls]. autorewrite with save.
  by rewrite lookup_insert_ne by (intros Heq; apply (proj1 (room_slot_ne s x y)); exact Heq).
Qed.

Lemma saveBookContent_index x y b p c s w keys :
  index_ok w (savePrefix s ++ js "known_books") keys ->
  exists w', saveBookContent x y b p c (s, w) = (Ok tt, (with_content (book_key x y b p) c s, w')) /\
    index_ok w' (savePrefix s ++ js "known_books") (keys_after (book_key x y b p) keys).
Proof.
  intros Hi. save_run. autorewrite with save. unfold getKnownBooks.
  edestruct (add_known_index (js "known_books") (book_key x y b p) (with_content (book_key x y b p) c s))
    as (w' & E & Hi' & _); [apply units_ok_book_key| |by exists w'].
  eapply index_ok_frame; [|exact Hi]. cbn [ls set_ls]. autorewrite with save.
  by rewrite lookup_insert_ne by (intros Heq; apply (proj2 (book_slot_ne s x y b p)); exact Heq).
Qed.

Lemma keys_after_spec key keys :
  NoDup keys -> NoDup (keys_after key keys) /\ key ∈ keys_after key keys /\ keys ⊆ keys_after key keys.
Proof.
  intros Hnd. unfold keys_after. case_bool_decide; [done|].
  split_and!; [apply NoDup_app; split_and!; [done| |apply NoDup_singleton]|..]; set_solver.
Qed.

(** *** Reset *)

Lemma resetAllData_run s w :
  resetAllData (s, w) =
    (Ok tt, ({| savePrefix := savePrefix s; roomCatalogs := ∅; bookContents := ∅ |},
             set_ls (filter (fun kv => negb (is_prefix (savePrefix s) kv.1)) (ls w)) w)).
Proof. reflexivity. Qed.

Lemma resetAllData_lookup s w k :
  ls (snd (state_of (resetAllData (s, w)))) !! k =
    if is_prefix (savePrefix s) k then None else ls w !! k.
Proof.
  rewrite resetAllData_run. cbn [state_of snd ls set_ls]. rewrite map_lookup_filter.
  destruct (ls w !! k) as [v|]; simpl; [|by case_match].
  case_guard as H; destruct (is_prefix (savePrefix s) k); simpl in *; done.
Qed.

(** C8: after [resetAllData], every room and every page reads as [null],
    through the same SaveSystem, and the storage keys outside the prefix
    are untouched. *)
Theorem resetAllData_forgets s w x y b p :
  let sw := state_of (resetAllData (s, w)) in
  result_of (loadRoomCatalog x y sw) = Ok JNull /\
  result_of (loadBookContent x y b p sw) = Ok JNull /\
  forall k, is_prefix (savePrefix s) k = false -> ls (snd sw) !! k = ls w !! k.
Proof.
  intros sw. pose proof (resetAllData_lookup s w) as Hl. subst sw.
  rewrite resetAllData_run in *. cbn [state_of snd] in *. split_and!.
  - rewrite loadRoomCatalog_absent; [done|done|]. unfold room_slot. by rewrite Hl, is_prefix_app.
  - rewrite loadBookContent_absent; [done|done|]. unfold book_slot. by rewrite Hl, is_prefix_app.
  - intros k Hk. by rewrite Hl, Hk.
Qed.

(** *** Player position *)

Lemma parse_or_stored dflt c st :
  json_wf c = true -> parse_or dflt (Some (stored_json c)) st = (Ok c, st).
Proof.
  intros Hwf. unfold parse_or. pose proof (stored_json_parses c Hwf) as Hj.
  destruct (stored_json c) eqn:E; [discriminate|]. rewrite bool_decide_false by done. by rewrite Hj.
Qed.

Lemma saveCharacter_run c s w :
  saveCharacter c (s, w) = (Ok tt, (s, set_ls (<[savePrefix s ++ js "character" := stored_json c]> (ls w)) w)).
Proof. reflexivity. Qed.

Lemma loadCharacter_stored c s w :
  json_wf c = true -> ls w !! (savePrefix s ++ js "character") = Some (stored_json c) ->
  loadCharacter (s, w) = (Ok c, (s, w)).
Proof.
  intros Hwf Hl. cbv [loadCharacter onw me on_world self getItem mbind st_bind gets zoom mret st_ret fst snd].
  rewrite Hl. by apply parse_or_stored.
Qed.

Lemma savePlayerPosition_run x y rx ry s w :
  savePlayerPosition x y rx ry (s, w) =
    (Ok tt, (s, set_ls (<[savePrefix s ++ js "player_pos" :=
                           stored_json (JObj [(js "x", x); (js "y", y); (js "roomX", rx); (js "roomY", ry)])]> (ls w)) w)).
Proof. reflexivity. Qed.

Lemma loadPlayerPosition_stored c s w :
  json_wf c = true -> ls w !! (savePrefix s ++ js "player_pos") = Some (stored_json c) ->
  loadPlayerPosition (s, w) = (Ok c, (s, w)).
Proof.
  intros Hwf Hl. cbv [loadPlayerPosition onw me on_world self getItem mbind st_bind gets zoom mret st_ret fst snd].
  rewrite Hl. by apply parse_or_stored.
Qed.

(** *** Character record *)

Lemma saveCharacter_roundtrip d s w s' :
  json_wf d = true -> savePrefix s' = savePrefix s ->
  result_of (loadCharacter (s', snd (state_of (saveCharacter d (s, w))))) = Ok d.
Proof.
  intros Hwf Hp. cbv [saveCharacter loadCharacter parse_or onw me on_world self setItem getItem
                   mbind st_bind modify gets zoom mret st_ret throw fst snd state_of result_of].
  cbn [ls set_ls]. rewrite Hp, lookup_insert_eq, stored_json_parses by done.
  destruct (stored_json d) eqn:E; [|done]. exfalso.
  pose proof (stored_json_parses d Hwf) as Hj. rewrite E in Hj. discriminate.
Qed.

(** *** The cache of one SaveSystem hides writes by another *)

(** C9 (finding): a SaveSystem that has cached a catalog keeps returning it after
    another SaveSystem (as [Game] and [Library] each create one) has
    written a different catalog for the same room to storage. *)
Theorem stale_room_cache x y c c' s s2 w :
  roomCatalogs s !! room_key x y = Some c -> truthy c = true ->
  result_of (loadRoomCatalog x y (s, snd (state_of (saveRoomCatalog x y c' (s2, w))))) = Ok c.
Proof.
  intros Hc Ht. destruct (saveRoomCatalog_run x y c' s2 w) as (r & w' & -> & _).
  cbn [state_of snd]. by rewrite (loadRoomCatalog_cached x y s w' c).
Qed.

(** *** The story book in a room never visited *)

Lemma room_slot_ne_character s x y : room_slot s x y <> savePrefix s ++ js "character_book".
Proof. unfold room_slot. intros H%app_inv_head; apply (f_equal head) in H; vm_compute in H; congruence. Qed.

Lemma rand_floor_nonneg r n : 0 <= n -> 0 <= rand_floor r n.
Proof. intros Hn. unfold rand_floor. apply Z.div_pos; [apply Z.mul_nonneg_nonneg; lia|lia]. Qed.

(** C22 (finding): when the random room has no catalog yet, [saveCharacterStoryToLibrary]
    stores a catalog of [bookIndex + 1] entries: holes (written [null]) up
    to the story's title.  The catalog does not have [booksPerRoom] titles. *)
Theorem story_catalog_sparse cfg cd story s w r1 r2 r3 rest title :
  randoms w = r1 :: r2 :: r3 :: rest -> story_title cd = Some title -> 0 <= booksPerRoom cfg ->
  let x := rand_floor r1 (librarySize_width cfg) in
  let y := rand_floor r2 (librarySize_height cfg) in
  let b := rand_floor r3 (booksPerRoom cfg) in
  roomCatalogs s !! room_key x y = None -> ls w !! room_slot s x y = None ->
  ls (snd (state_of (saveCharacterStoryToLibrary cfg cd story (s, w)))) !! room_slot s x y
    = Some (stored_json (JArr (replicate (Z.to_nat b) JUndef ++ [title]))).
Proof.
  intros Hr Ht Hb x y b Hc Hs.
  destruct (math_random_next w r1 _ Hr) as (w1 & E1 & L1 & R1).
  destruct (math_random_next w1 r2 _ R1) as (w2 & E2 & L2 & R2).
  destruct (math_random_next w2 r3 _ R2) as (w3 & E3 & L3 & _).
  unfold saveCharacterStoryToLibrary, onw.
  rewrite st_run_bind, on_world_run, E1. cbn [fst snd]. cbv beta.
  rewrite st_run_bind, on_world_run, E2. cbn [fst snd]. cbv beta.
  rewrite st_run_bind, on_world_run, E3. cbn [fst snd]. cbv beta. fold x y b.
  rewrite st_run_bind, loadRoomCatalog_absent by (by rewrite ?Hc, ?L3, ?L2, ?L1). cbv beta.
  rewrite Ht. cbn [truthy js_array_set length]. rewrite (proj2 (Z.ltb_ge b 0)) by (apply rand_floor_nonneg; lia).
  rewrite decide_False by lia. rewrite Nat.sub_0_r, app_nil_l.
  destruct (saveRoomCatalog_run x y (JArr (replicate (Z.to_nat b) JUndef ++ [title])) s w3)
    as (r & w4 & E4 & Hslot & _).
  rewrite st_run_bind, E4. destruct r as [[]|e]; [|done].
  destruct (saveBookContent_run x y b 1 story
              (with_catalog (room_key x y) (JArr (replicate (Z.to_nat b) JUndef ++ [title])) s) w4)
    as (r' & w5 & E5 & _ & Hf5).
  rewrite st_run_bind, E5. destruct r' as [[]|e]; cbn [state_of snd]; autorewrite with save in Hf5.
  - cbv [me self onw on_world setItem mbind st_bind gets modify zoom mret st_ret state_of fst snd].
    cbn [ls set_ls]. autorewrite with save.
    rewrite lookup_insert_ne by (intros Heq; apply (room_slot_ne_character s x y); by rewrite Heq).
    rewrite Hf5; [done|apply (room_slot_ne s x y)|apply (room_slot_ne s x y)].
  - rewrite Hf5; [done|apply (room_slot_ne s x y)|apply (room_slot_ne s x y)].
Qed.

(** ** Witnesses *)

Definition sample_catalog : jsval := JArr [JStr (js "On Mirrors"); JStr (js "The Hexagon")].

Lemma saveRoomCatalog_roundtrip_witness :
  result_of (loadRoomCatalog 3 4 (new_SaveSystem,
    snd (state_of (saveRoomCatalog 3 4 sample_catalog (new_SaveSystem, world0 0 [] []))))) = Ok sample_catalog.
Proof. apply saveRoomCatalog_roundtrip; [reflexivity|reflexivity|left; reflexivity]. Defined.

Lemma saveBookContent_roundtrip_witness :
  result_of (loadBookContent 3 4 7 2 (new_SaveSystem,
    snd (state_of (saveBookContent 3 4 7 2 (JStr (js "Page two")) (new_SaveSystem, world0 0 [] [])))))
  = Ok (JStr (js "Page two")).
Proof. apply saveBookContent_roundtrip; [discriminate|reflexivity|left; reflexivity]. Defined.

Lemma saveRoomCatalog_index_witness :
  exists w', saveRoomCatalog 3 4 sample_catalog (new_SaveSystem, world0 0 [] [])
             = (Ok tt, (with_catalog (room_key 3 4) sample_catalog new_SaveSystem, w')) /\
    index_ok w' (savePrefix new_SaveSystem ++ js "known_rooms") (keys_after (room_key 3 4) []).
Proof. apply saveRoomCatalog_index. split; [reflexivity|split; constructor]. Defined.

(** The key of page 4 of book 3 in room (-1,12), ["-1,12_3_4"], names that
    page only. *)
Lemma book_key_inj_witness : -1 = -1 /\ 12 = 12 /\ 3 = 3 /\ 4 = 4.
Proof. apply (book_key_inj (-1) 12 3 4 (-1) 12 3 4). reflexivity. Defined.

(** A SaveSystem that has read room (3,4) keeps its copy after another one
    stores a new catalog there. *)
Lemma stale_room_cache_witness :
  result_of (loadRoomCatalog 3 4 (with_catalog (room_key 3 4) sample_catalog new_SaveSystem,
    snd (state_of (saveRoomCatalog 3 4 (JArr [JStr (js "New")]) (new_SaveSystem, world0 0 [] []))))) = Ok sample_catalog /\
  sample_catalog <> JArr [JStr (js "New")].
Proof.
  split; [apply stale_room_cache; [vm_compute; reflexivity|reflexivity]|discriminate].
Defined.

(** With [Math.random()] answering 0, 0 and about 0.05, the story goes to
    book 5 of room (0,0): the stored catalog has 6 entries. *)
Lemma story_catalog_sparse_witness :
  ls (snd (state_of (saveCharacterStoryToLibrary CONFIG (JObj [(js "name", JStr (js "Ada"))]) (JStr (js "Once"))
        (new_SaveSystem, world0 0 [] [0; 0; 450359962737050])))) !! room_slot new_SaveSystem 0 0
  = Some (stored_json (JArr (replicate 5 JUndef ++ [JStr (js "The Story of Ada: Seeker of Knowledge")]))).
Proof.
  apply (story_catalog_sparse CONFIG _ _ _ _ 0 0 450359962737050 []);
    [reflexivity|vm_compute; reflexivity|vm_compute; discriminate|vm_compute; reflexivity|vm_compute; reflexivity].
Defined.

End Save.
