(* ===== verification/Book.v ===== *)
(** * A book and its pages: [class Book] (book.js).

    A [Book] knows its title and place (room and index), the page shown,
    the pages it has already shown ([cachedPages]), and owns a generation
    handler and a SaveSystem of its own.  A page is read from storage, or
    generated and stored when storage has none; page numbers stay at 1 or
    above.  The generator is taken through the [Generator] interface of
    [Api]; the program's is [Api.api_generator CONFIG]. *)

From S2P Require Import Prelude JsString Json Config World Api Save.
Open Scope Z_scope.

Module Book.
Import Api Save.

Record Book := {
  title : jsval;
  roomX : Z;
  roomY : Z;
  bookIndex : Z;
  currentPage : Z;
  cachedPages : gmap Z jsval;
  api : APIHandler;
  save : SaveSystem
}.

(** [new Book(title, roomX, roomY, bookIndex)] (book.js 3-13) *)
Definition new_Book (t : jsval) (x y i : Z) : Book :=
  {| title := t; roomX := x; roomY := y; bookIndex := i; currentPage := 1; cachedPages := ∅;
     api := new_APIHandler; save := new_SaveSystem |}.

Definition set_currentPage (p : Z) (b : Book) : Book :=
  {| title := title b; roomX := roomX b; roomY := roomY b; bookIndex := bookIndex b;
     currentPage := p; cachedPages := cachedPages b; api := api b; save := save b |}.
Definition cache_page (p : Z) (c : jsval) (b : Book) : Book :=
  {| title := title b; roomX := roomX b; roomY := roomY b; bookIndex := bookIndex b;
     currentPage := currentPage b; cachedPages := <[p := c]> (cachedPages b); api := api b;
     save := save b |}.
Definition set_api (h : APIHandler) (b : Book) : Book :=
  {| title := title b; roomX := roomX b; roomY := roomY b; bookIndex := bookIndex b;
     currentPage := currentPage b; cachedPages := cachedPages b; api := h; save := save b |}.
Definition set_save (s : SaveSystem) (b : Book) : Book :=
  {| title := title b; roomX := roomX b; roomY := roomY b; bookIndex := bookIndex b;
     currentPage := currentPage b; cachedPages := cachedPages b; api := api b; save := s |}.

Abbreviation BW := (Book * World)%type.

(** [this.api.m(...)] and [this.save.m(...)]: a method of the owned object
    runs on it and the shared world. *)
Definition with_api {A} (m : St Api.H A) : St BW A :=
  zoom (fun '(b, w) => (api b, w)) (fun '(h, w) '(b, _) => (set_api h b, w)) m.
Definition with_save {A} (m : St Save.S A) : St BW A :=
  zoom (fun '(b, w) => (save b, w)) (fun '(s, w) '(b, _) => (set_save s b, w)) m.

Section WithGenerator.
Context {G : Generator} {SV : SaveMethods}.

(** [getPageContent()] (book.js 16-45) *)
Definition getPageContent : St BW jsval :=
  b ← self;
  content ← with_save (sv_loadBookContent (roomX b) (roomY b) (bookIndex b) (currentPage b));
  content ← (if truthy content then mret content
             else
               c ← with_api (gen_page (title b) (currentPage b));
               (if truthy c
                then with_save (sv_saveBookContent (roomX b) (roomY b) (bookIndex b) (currentPage b) c)
                else mret tt);;
               mret c);
  modify (fun '(b', w) => (cache_page (currentPage b') content b', w));;
  mret content.

(** [goToPage(pageNum)] (book.js 48-59) *)
Definition goToPage (pageNum : Z) : St BW jsval :=
  let pageNum := if pageNum <? 1 then 1 else pageNum in
  modify (fun '(b, w) => (set_currentPage pageNum b, w));;
  b ← self;
  let cached := default JUndef (cachedPages b !! pageNum) in
  if truthy cached then mret cached else getPageContent.

(** [nextPage()], [prevPage()] (book.js 62-69) *)
Definition nextPage : St BW jsval := b ← self; goToPage (currentPage b + 1).
Definition prevPage : St BW jsval := b ← self; goToPage (currentPage b - 1).

End WithGenerator.

(** ** Lemmas *)

Lemma with_save_run {A} (m : St Save.S A) b w :
  with_save m (b, w) = (fst (m (save b, w)), (set_save (fst (snd (m (save b, w)))) b, snd (snd (m (save b, w))))).
Proof. unfold with_save, zoom. by destruct (m (save b, w)) as [r [s' w']]. Qed.

Lemma with_api_run {A} (m : St Api.H A) b w :
  with_api m (b, w) = (fst (m (api b, w)), (set_api (fst (snd (m (api b, w)))) b, snd (snd (m (api b, w))))).
Proof. unfold with_api, zoom. by destruct (m (api b, w)) as [r [h' w']]. Qed.

(** The fields that say which page of which book is shown. *)
Definition place (b : Book) : jsval * Z * Z * Z * Z :=
  (title b, roomX b, roomY b, bookIndex b, currentPage b).

Definition same_place (s s' : BW) : Prop := place (fst s') = place (fst s).

#[export] Instance same_place_preorder : PreOrder same_place.
Proof. split; [done|]. intros ??? H1 H2. unfold same_place in *. congruence. Qed.

Section Frame.
Context {G : Generator}.

Lemma with_api_place {A} (m : St Api.H A) : keeps same_place (with_api m).
Proof. intros [b w]. by rewrite with_api_run. Qed.

Lemma with_save_place {A} (m : St Save.S A) : keeps same_place (with_save m).
Proof. intros [b w]. by rewrite with_save_run. Qed.

(** Loading a page changes neither the book shown nor the page. *)
Lemma getPageContent_place : keeps same_place getPageContent.
Proof.
  unfold getPageContent, self.
  keeps_auto; auto using with_api_place, with_save_place. by intros [b w].
Qed.

Ltac book_run :=
  repeat (rewrite ?st_run_bind, ?st_run_ret, ?with_api_run, ?with_save_run;
          cbn [fst snd api save set_api set_save cache_page title roomX roomY bookIndex currentPage
               gets modify mret st_ret truthy sv_loadBookContent sv_saveBookContent save_methods]).

Lemma same_place_page s s' : same_place s s' -> currentPage (fst s') = currentPage (fst s).
Proof. unfold same_place, place. intros H. by injection H. Qed.

Lemma goToPage_page n b w : currentPage (fst (snd (goToPage n (b, w)))) = Z.max 1 n.
Proof.
  unfold goToPage. cbv [mbind st_bind modify self gets].
  destruct (truthy _); [cbn; zcase|].
  rewrite (same_place_page _ _ (getPageContent_place _)). cbn. zcase.
Qed.

(** A page shown before is returned from the book's own cache. *)
Lemma goToPage_cached n b w c :
  cachedPages b !! Z.max 1 n = Some c -> truthy c = true ->
  goToPage n (b, w) = (Ok c, (set_currentPage (Z.max 1 n) b, w)).
Proof.
  intros Hc Ht. unfold goToPage.
  replace (if n <? 1 then 1 else n) with (Z.max 1 n) by zcase.
  cbv [mbind st_bind modify self gets mret st_ret]. cbn [fst cachedPages set_currentPage].
  by rewrite Hc; simpl; rewrite Ht.
Qed.

Definition page_slot (b : Book) : jstr :=
  book_slot (save b) (roomX b) (roomY b) (bookIndex b) (currentPage b).

(** A non-empty text that [getPageContent] returns, on a book whose
    SaveSystem has not cached the page, is in storage afterwards. *)
Lemma getPageContent_stores b w t b1 w1 :
  bookContents (save b) !! book_key (roomX b) (roomY b) (bookIndex b) (currentPage b) = None ->
  getPageContent (b, w) = (Ok (JStr t), (b1, w1)) -> t <> [] ->
  ls w1 !! page_slot b = Some t.
Proof.
  intros Hc Hrun Ht. unfold page_slot. revert Hrun. unfold getPageContent, self.
  assert (Hnc : truthy (default JUndef (bookContents (save b) !! book_key (roomX b) (roomY b) (bookIndex b) (currentPage b))) = false)
    by (by rewrite Hc).
  assert (HL : (exists (t0 : jstr) s0, t0 <> [] /\ ls w !! book_slot (save b) (roomX b) (roomY b) (bookIndex b) (currentPage b) = Some t0 /\
        loadBookContent (roomX b) (roomY b) (bookIndex b) (currentPage b) (save b, w) = (Ok (JStr t0), (s0, w))) \/
        loadBookContent (roomX b) (roomY b) (bookIndex b) (currentPage b) (save b, w) = (Ok JNull, (save b, w))).
  { destruct (ls w !! _) as [[|u t0]|] eqn:Hl.
    - right. by apply loadBookContent_empty.
    - left. eexists (u :: t0), _. split_and!; [done|done|by apply loadBookContent_stored].
    - right. by apply loadBookContent_absent. }
  book_run. destruct HL as [(t0 & s0 & Ht0 & Hl & ->)| ->]; book_run.
  - destruct t0; [done|]. book_run. intros [= <- _ <-]. done.
  - destruct (gen_page _ _ _) as [[v|e] [h' w2]]; book_run; [|done].
    destruct (truthy v) eqn:Hv; book_run; [|intros [= -> _ _]; by destruct t].
    destruct (saveBookContent_run (roomX b) (roomY b) (bookIndex b) (currentPage b) v (save b) w2)
      as (r & w3 & -> & Hs & _). destruct r as [[]|]; book_run; [|done]. intros [= -> _ ->]. done.
Qed.

(** A new book reads a stored page without asking the generator and
    without touching the world. *)
Lemma fresh_book_reads ti x y i p w (t : jstr) :
  1 <= p -> ls w !! book_slot new_SaveSystem x y i p = Some t -> t <> [] ->
  exists b', goToPage p (new_Book ti x y i, w) = (Ok (JStr t), (b', w)).
Proof.
  intros Hp Hl Ht. unfold goToPage. replace (if p <? 1 then 1 else p) with p by zcase.
  unfold self. book_run. cbn [cachedPages set_currentPage new_Book]. rewrite lookup_empty.
  cbn [default truthy]. unfold getPageContent, self. book_run.
  cbn [save set_currentPage new_Book roomX roomY bookIndex currentPage].
  rewrite (loadBookContent_stored x y i p new_SaveSystem w t) by (rewrite ?lookup_empty; done). book_run.
  destruct t; [done|]. book_run. by eexists.
Qed.

(** C23: a page is generated at most once.  When [getPageContent] has
    returned a non-empty text for a page (generated or read), a book
    created afterwards for the same title and place shows that page with
    the same text, leaving the world unchanged: no request to the backend,
    no write to storage. *)
Theorem page_generated_once b w t b1 w1 :
  bookContents (save b) !! book_key (roomX b) (roomY b) (bookIndex b) (currentPage b) = None ->
  savePrefix (save b) = savePrefix new_SaveSystem -> 1 <= currentPage b ->
  getPageContent (b, w) = (Ok (JStr t), (b1, w1)) -> t <> [] ->
  exists b2, goToPage (currentPage b) (new_Book (title b) (roomX b) (roomY b) (bookIndex b), w1)
             = (Ok (JStr t), (b2, w1)).
Proof.
  intros Hc Hp Hpage Hrun Ht. apply fresh_book_reads; [done| |done].
  pose proof (getPageContent_stores b w t b1 w1 Hc Hrun Ht) as Hs.
  unfold page_slot, book_slot in *. by rewrite <-Hp.
Qed.

(** [nextPage] and [prevPage] move one page forward or back and never
    below page 1, whatever the page content loads or generates. *)
Theorem page_navigation b w :
  currentPage (fst (snd (nextPage (b, w)))) = Z.max 1 (currentPage b + 1) /\
  currentPage (fst (snd (prevPage (b, w)))) = Z.max 1 (currentPage b - 1).
Proof. unfold nextPage, prevPage, self. rewrite !st_run_bind. cbv [gets]. cbn [fst]. by rewrite !goToPage_page. Qed.

(** [goToPage(n)] for [n < 1] is [goToPage(1)]. *)
Theorem goToPage_clamp n : n < 1 -> goToPage n = goToPage 1.
Proof. intros Hn. unfold goToPage. by replace (n <? 1) with true by zcase. Qed.

End Frame.

(** ** Witnesses *)

Definition sample_book : Book := new_Book (JStr (js "Tome of Echoes")) 1 2 3.

(** The first page of [sample_book] under the program's generator, in a
    fresh profile (the API key dialog is cancelled: offline content). *)
Definition sample_run : res jsval * BW :=
  getPageContent (G := api_generator CONFIG) (sample_book, world0 0 [] []).

Definition sample_text : jstr := match fst sample_run with Ok (JStr t) => t | _ => [] end.

Lemma page_generated_once_witness :
  exists b2, goToPage (G := api_generator CONFIG) (currentPage sample_book)
               (new_Book (title sample_book) (roomX sample_book) (roomY sample_book) (bookIndex sample_book),
                snd (snd sample_run))
             = (Ok (JStr sample_text), (b2, snd (snd sample_run))).
Proof.
  apply (page_generated_once sample_book (world0 0 [] []) sample_text (fst (snd sample_run)));
    [reflexivity|reflexivity|simpl; lia|vm_compute; reflexivity|vm_compute; discriminate].
Defined.

Lemma goToPage_clamp_witness : goToPage (G := api_generator CONFIG) 0 = goToPage (G := api_generator CONFIG) 1.
Proof. apply goToPage_clamp. lia. Defined.

End Book.
