(* ===== verification/Library.v ===== *)
(** * Rooms and their books: [class Library] (library.js).

    The [Library] knows the room the player is in, its catalog of titles
    ([cardCatalog]) and one [Book] per title, and owns a generation handler
    and a SaveSystem.  Entering a room reads its catalog from storage, or
    generates one, brings it to exactly [booksPerRoom] titles (two [while]
    loops) and stores it; when generation gives no array, a numbered
    fallback catalog is stored instead.  Moving between rooms stays inside
    the [librarySize] grid. *)

From Stdlib Require Import DecimalString DecimalZ.
From S2P Require Import Prelude JsString Json Numbers Config World Api Save Book.
Open Scope Z_scope.

Module Library.
Import Api Book.

Record Library := {
  currentRoomX : Z;
  currentRoomY : Z;
  books : list Book;
  cardCatalog : jsval;
  lib_api : APIHandler;
  lib_save : Save.SaveSystem
}.

(** [new Library()] (library.js 3-11) *)
Definition new_Library : Library :=
  {| currentRoomX := 0; currentRoomY := 0; books := []; cardCatalog := JArr [];
     lib_api := new_APIHandler; lib_save := Save.new_SaveSystem |}.

Definition set_room (x y : Z) (l : Library) : Library :=
  {| currentRoomX := x; currentRoomY := y; books := books l; cardCatalog := cardCatalog l;
     lib_api := lib_api l; lib_save := lib_save l |}.
Definition set_catalog (c : jsval) (l : Library) : Library :=
  {| currentRoomX := currentRoomX l; currentRoomY := currentRoomY l; books := books l;
     cardCatalog := c; lib_api := lib_api l; lib_save := lib_save l |}.
Definition set_books (bs : list Book) (l : Library) : Library :=
  {| currentRoomX := currentRoomX l; currentRoomY := currentRoomY l; books := bs;
     cardCatalog := cardCatalog l; lib_api := lib_api l; lib_save := lib_save l |}.
Definition set_lib_api (h : APIHandler) (l : Library) : Library :=
  {| currentRoomX := currentRoomX l; currentRoomY := currentRoomY l; books := books l;
     cardCatalog := cardCatalog l; lib_api := h; lib_save := lib_save l |}.
Definition set_lib_save (s : Save.SaveSystem) (l : Library) : Library :=
  {| currentRoomX := currentRoomX l; currentRoomY := currentRoomY l; books := books l;
     cardCatalog := cardCatalog l; lib_api := lib_api l; lib_save := s |}.

Abbreviation LW := (Library * World)%type.

Definition lib_with_api {A} (m : St Api.H A) : St LW A :=
  zoom (fun '(l, w) => (lib_api l, w)) (fun '(h, w) '(l, _) => (set_lib_api h l, w)) m.
Definition lib_with_save {A} (m : St Save.S A) : St LW A :=
  zoom (fun '(l, w) => (lib_save l, w)) (fun '(s, w) '(l, _) => (set_lib_save s l, w)) m.

Section WithConfig.
Context (cfg : Config) {G : Generator} {SV : Save.SaveMethods}.

(** ** Bringing a generated catalog to [booksPerRoom] titles (library.js 49-54) *)

(** [while (catalog.length > n) catalog.pop();] with one unit of fuel per
    element: the loop removes one element per turn. *)
Fixpoint trim_loop (fuel : nat) (catalog : list jsval) (n : Z) : list jsval :=
  match fuel with
  | O => catalog
  | S f => if n <? Z.of_nat (length catalog) then trim_loop f (removelast catalog) n else catalog
  end.

Definition unnamed (k : Z) : jsval := JStr (js "Unnamed Volume " ++ z_to_js k).

(** [while (catalog.length < n) catalog.push(`Unnamed Volume ${catalog.length + 1}`);]
    with fuel [n]: the loop adds one element per turn. *)
Fixpoint pad_loop (fuel : nat) (catalog : list jsval) (n : Z) : list jsval :=
  match fuel with
  | O => catalog
  | S f =>
      if Z.of_nat (length catalog) <? n
      then pad_loop f (catalog ++ [unnamed (Z.of_nat (length catalog) + 1)]) n
      else catalog
  end.

Definition normalize_catalog (catalog : list jsval) : list jsval :=
  let n := booksPerRoom cfg in
  pad_loop (Z.to_nat n) (trim_loop (length catalog) catalog n) n.

(** [Array(n).fill().map((_, i) => `Book ${i+1} of Room (${roomX},${roomY})`)] *)
Definition fallback_title (roomX roomY : Z) (i : nat) : jsval :=
  JStr (js "Book " ++ z_to_js (Z.of_nat i + 1) ++ js " of Room (" ++ z_to_js roomX ++ js ","
        ++ z_to_js roomY ++ js ")").

Definition fallback_catalog (roomX roomY : Z) : St LW jsval :=
  let n := booksPerRoom cfg in
  if n <? 0 then throw RangeError
  else mret (JArr (map (fallback_title roomX roomY) (seq 0 (Z.to_nat n)))).

(** ** [loadRoom(roomX, roomY)] (library.js 30-75) *)

Definition clamp_room (roomX roomY : Z) : Z * Z :=
  let roomX := if roomX <? 0 then 0 else roomX in
  let roomX := if librarySize_width cfg <=? roomX then librarySize_width cfg - 1 else roomX in
  let roomY := if roomY <? 0 then 0 else roomY in
  let roomY := if librarySize_height cfg <=? roomY then librarySize_height cfg - 1 else roomY in
  (roomX, roomY).

Definition room_books (catalog : list jsval) (roomX roomY : Z) : list Book :=
  imap (fun i t => new_Book t roomX roomY (Z.of_nat i)) catalog.

(** Lines 43-63: the catalog read from storage, or a generated one. *)
Definition room_catalog (roomX roomY : Z) (catalog : jsval) : St LW jsval :=
  if truthy catalog then mret catalog
  else
    generated ← lib_with_api (gen_catalog roomX roomY);
    match generated with
    | JArr xs =>
        let catalog := JArr (normalize_catalog xs) in
        lib_with_save (Save.sv_saveRoomCatalog roomX roomY catalog);;
        mret catalog
    | _ =>
        catalog ← fallback_catalog roomX roomY;
        lib_with_save (Save.sv_saveRoomCatalog roomX roomY catalog);;
        mret catalog
    end.

Definition loadRoom (roomX0 roomY0 : Z) : St LW (list Book) :=
  let '(roomX, roomY) := clamp_room roomX0 roomY0 in
  modify (fun '(l, w) => (set_room roomX roomY l, w));;
  catalog ← lib_with_save (Save.sv_loadRoomCatalog roomX roomY);
  catalog ← room_catalog roomX roomY catalog;
  modify (fun '(l, w) => (set_catalog catalog l, w));;
  match catalog with
  | JArr titles =>
      let bs := room_books titles roomX roomY in
      modify (fun '(l, w) => (set_books bs l, w));;
      mret bs
  | _ => throw TypeError
  end.

(** ** [moveToRoom(direction)] (library.js 78-107) *)

Definition step_room (direction : jstr) (x y : Z) : Z * Z :=
  if bool_decide (direction = js "north") then (x, y - 1)
  else if bool_decide (direction = js "south") then (x, y + 1)
  else if bool_decide (direction = js "east") then (x + 1, y)
  else if bool_decide (direction = js "west") then (x - 1, y)
  else (x, y).

Definition in_grid (x y : Z) : bool :=
  (0 <=? x) && (x <? librarySize_width cfg) && (0 <=? y) && (y <? librarySize_height cfg).

Definition moveToRoom (direction : jstr) : St LW bool :=
  l ← self;
  let '(newRoomX, newRoomY) := step_room direction (currentRoomX l) (currentRoomY l) in
  if negb (in_grid newRoomX newRoomY) then mret false
  else loadRoom newRoomX newRoomY;; mret true.

(** ** [getBook(index)] (library.js 110-115): [None] is [null]. *)
Definition getBook (l : Library) (index : Z) : option Book :=
  if (0 <=? index) && (index <? Z.of_nat (length (books l))) then books l !! Z.to_nat index
  else None.

(** ** [initialize()] (library.js 14-27) *)

(** An integer number literal: [-]? digits. *)
Definition int_of_lexeme (lx : jstr) : option Z :=
  match lx with
  | 45 :: ds => if bool_decide (ds <> []) && forallb is_digit ds then Some (- digits_value 0 ds) else None
  | ds => if bool_decide (ds <> []) && forallb is_digit ds then Some (digits_value 0 ds) else None
  end.

(** [savedPosition.roomX]: the stored room coordinates are integers, as
    [savePlayerPosition] writes them; another shape is not followed. *)
Definition room_coord (pos : jsval) (key : jstr) : St LW Z :=
  match get_prop pos key with
  | None => throw TypeError
  | Some (JNum lx) => match int_of_lexeme lx with Some z => mret z | None => throw Unmodelled end
  | Some _ => throw Unmodelled
  end.

Definition initialize : St LW (list Book) :=
  savedPosition ← lib_with_save Save.loadPlayerPosition;
  '(x, y) ← (if truthy savedPosition
             then x ← room_coord savedPosition (js "roomX");
                  y ← room_coord savedPosition (js "roomY");
                  mret (x, y)
             else r1 ← on_world math_random;
                  r2 ← on_world math_random;
                  mret (rand_floor r1 (librarySize_width cfg), rand_floor r2 (librarySize_height cfg)));
  modify (fun '(l, w) => (set_room x y l, w));;
  l ← self;
  loadRoom (currentRoomX l) (currentRoomY l).

End WithConfig.

(** ** Reading back the integers that [JSON.stringify] writes *)

Lemma int_of_lexeme_digits ds :
  ds <> [] -> Forall (fun c => 48 <= c <= 57) ds -> int_of_lexeme ds = Some (digits_value 0 ds).
Proof.
  intros Hne Hd. destruct ds as [|c r]; [done|]. inversion Hd as [|? ? Hc Hr]; subst.
  apply forallb_is_digit in Hr.
  assert (c = 48 \/ c = 49 \/ c = 50 \/ c = 51 \/ c = 52 \/ c = 53 \/ c = 54 \/ c = 55 \/ c = 56 \/ c = 57)
    as Hc' by lia.
  unfold int_of_lexeme. rewrite bool_decide_true by done.
  repeat destruct Hc' as [->|Hc']; try subst c; cbn [forallb andb]; rewrite Hr, andb_true_r; reflexivity.
Qed.

(** The integers that [JSON.stringify] writes are read back. *)
Lemma int_of_lexeme_z_to_js z : int_of_lexeme (z_to_js z) = Some z.
Proof.
  rewrite (proj1 (z_to_js_codes z)). rewrite <- (DecimalZ.of_to z) at 2.
  assert (Hz : match Z.to_int z with Decimal.Pos d | Decimal.Neg d => d <> Decimal.Nil end).
  { destruct z; [discriminate | apply DecimalPos.Unsigned.to_uint_nonnil ..]. }
  destruct (Z.to_int z) as [d|d]; cbn [NilEmpty.string_of_int Z.of_int].
  - rewrite int_of_lexeme_digits by auto using string_of_uint_nonnil, string_of_uint_codes.
    by rewrite digits_value_uint.
  - change (int_of_lexeme (45 :: dec_codes (NilEmpty.string_of_uint d)) = Some (- Z.of_uint d)).
    cbn [int_of_lexeme]. rewrite bool_decide_true by auto using string_of_uint_nonnil.
    rewrite forallb_is_digit by apply string_of_uint_codes. by rewrite digits_value_uint.
Qed.

(** ** The normalization loops *)

Section Normalize.
Context (cfg : Config).

(** The [pop] loop stops at the first [n] elements, given one unit of fuel
    per element in excess. *)
Lemma trim_loop_firstn fuel xs n :
  0 <= n -> (length xs - Z.to_nat n <= fuel)%nat -> trim_loop fuel xs n = firstn (Z.to_nat n) xs.
Proof.
  intros Hn. revert xs. induction fuel as [|f IH]; intros xs Hf; simpl.
  - by rewrite firstn_all2 by lia.
  - zcase; [|by rewrite firstn_all2 by lia].
    rewrite removelast_firstn_len, IH by (rewrite length_firstn; lia).
    rewrite firstn_firstn. f_equal. lia.
Qed.

Definition unnamed_from (start count : nat) : list jsval :=
  map (fun k => unnamed (Z.of_nat k + 1)) (seq start count).

(** The [push] loop appends [Unnamed Volume k] for the missing positions
    [k], given one unit of fuel per missing element. *)
Lemma pad_loop_app fuel xs n :
  (Z.to_nat n - length xs <= fuel)%nat ->
  pad_loop fuel xs n = xs ++ unnamed_from (length xs) (Z.to_nat n - length xs).
Proof.
  revert xs. induction fuel as [|f IH]; intros xs Hf; simpl.
  - replace (Z.to_nat n - length xs)%nat with 0%nat by lia. by rewrite app_nil_r.
  - zcase.
    + rewrite IH by (rewrite length_app; simpl; lia). rewrite length_app, <-app_assoc. simpl.
      f_equal. replace (Z.to_nat n - length xs)%nat with (S (Z.to_nat n - (length xs + 1))) by lia.
      unfold unnamed_from. simpl. by rewrite Nat.add_1_r.
    + replace (Z.to_nat n - length xs)%nat with 0%nat by lia. by rewrite app_nil_r.
Qed.

Lemma normalize_catalog_length xs :
  0 <= booksPerRoom cfg -> length (normalize_catalog cfg xs) = Z.to_nat (booksPerRoom cfg).
Proof.
  intros Hn. unfold normalize_catalog.
  rewrite trim_loop_firstn by (done || lia). rewrite pad_loop_app by lia.
  rewrite length_app. unfold unnamed_from. rewrite length_map, length_seq, length_firstn. lia.
Qed.

End Normalize.

(** ** Running the library's methods *)

Lemma lib_with_save_run {A} (m : St Save.S A) l w :
  lib_with_save m (l, w) =
    (fst (m (lib_save l, w)), (set_lib_save (fst (snd (m (lib_save l, w)))) l, snd (snd (m (lib_save l, w))))).
Proof. unfold lib_with_save, zoom. by destruct (m (lib_save l, w)) as [r [s' w']]. Qed.

Lemma lib_with_api_run {A} (m : St Api.H A) l w :
  lib_with_api m (l, w) =
    (fst (m (lib_api l, w)), (set_lib_api (fst (snd (m (lib_api l, w)))) l, snd (snd (m (lib_api l, w))))).
Proof. unfold lib_with_api, zoom. by destruct (m (lib_api l, w)) as [r [h' w']]. Qed.

Ltac lib_run :=
  repeat (rewrite ?st_run_bind, ?st_run_ret, ?lib_with_api_run, ?lib_with_save_run;
          cbn [fst snd lib_api lib_save set_lib_api set_lib_save set_room set_catalog set_books
               currentRoomX currentRoomY books cardCatalog gets modify truthy]).

(** The storage keys of the game are not those of the generation handler. *)
Lemma babel_keys_not_api s x y :
  Save.savePrefix s = js "babel_" ->
  ((Save.savePrefix s ++ js "known_rooms") ∉ api_keys) /\ (Save.room_slot s x y ∉ api_keys).
Proof.
  unfold Save.room_slot. intros ->. unfold api_keys.
  split; rewrite !elem_of_cons, elem_of_nil; intros [H|[H|[]]];
    apply (f_equal (take 7)) in H; vm_compute in H; congruence.
Qed.

Section Runs.
Context (cfg : Config) `{!GeneratorLaws G}.

(** Storing a catalog on a well-formed index succeeds. *)
Lemma save_catalog_ok rx ry titles l w keys :
  Save.index_ok w (Save.savePrefix (lib_save l) ++ js "known_rooms") keys ->
  exists w', (lib_with_save (Save.saveRoomCatalog rx ry (JArr titles));; mret (JArr titles)) (l, w)
             = (Ok (JArr titles), (set_lib_save (Save.with_catalog (Save.room_key rx ry) (JArr titles) (lib_save l)) l, w')) /\
    ls w' !! Save.room_slot (lib_save l) rx ry = Some (Save.stored_json (JArr titles)).
Proof.
  intros Hi. destruct (Save.saveRoomCatalog_index rx ry (JArr titles) (lib_save l) w keys Hi) as (w' & E & _).
  destruct (Save.saveRoomCatalog_run rx ry (JArr titles) (lib_save l) w) as (r & w'' & E' & Hs & _).
  rewrite E in E'. injection E' as <- <-. exists w'. lib_run. rewrite E. by lib_run.
Qed.

(** A room with no stored catalog gets one of [booksPerRoom] titles,
    whatever the generator answers, and it is stored. *)
Lemma room_catalog_fresh rx ry l w keys :
  0 <= booksPerRoom cfg -> Save.savePrefix (lib_save l) = js "babel_" ->
  Save.index_ok w (Save.savePrefix (lib_save l) ++ js "known_rooms") keys ->
  exists titles l' w', room_catalog cfg rx ry JNull (l, w) = (Ok (JArr titles), (l', w')) /\
    length titles = Z.to_nat (booksPerRoom cfg) /\
    (currentRoomX l', currentRoomY l') = (currentRoomX l, currentRoomY l) /\
    lib_save l' = Save.with_catalog (Save.room_key rx ry) (JArr titles) (lib_save l) /\
    ls w' !! Save.room_slot (lib_save l) rx ry = Some (Save.stored_json (JArr titles)).
Proof.
  intros Hn Hp Hi. unfold room_catalog. lib_run.
  destruct (gen_catalog_step rx ry (lib_api l) w) as (v & h' & w1 & -> & Hf & _). lib_run.
  assert (Hi1 : Save.index_ok w1 (Save.savePrefix (lib_save l) ++ js "known_rooms") keys).
  { eapply Save.index_ok_frame; [|exact Hi]. apply (af_ls _ _ _ _ Hf), (babel_keys_not_api _ rx ry Hp). }
  destruct v as [| | | | |xs|];
    [| | | | |destruct (save_catalog_ok rx ry (normalize_catalog cfg xs) (set_lib_api h' l) w1 keys Hi1)
                 as (w2 & E & Hs)|];
    [..|cbn [lib_save set_lib_api] in E, Hs; eexists _, _, _; split; [exact E|];
        split_and!; [by apply normalize_catalog_length|done|done|done]|];
    unfold fallback_catalog; rewrite (proj2 (Z.ltb_ge _ 0)) by lia; rewrite st_bind_ret_l;
    (destruct (save_catalog_ok rx ry (map (fallback_title rx ry) (seq 0 (Z.to_nat (booksPerRoom cfg))))
                 (set_lib_api h' l) w1 keys Hi1) as (w2 & E & Hs));
    cbn [lib_save set_lib_api] in E, Hs;
    (eexists _, _, _; split; [exact E|]); split_and!; try done; by rewrite length_map, length_seq.
Qed.

(** C1: entering a room whose catalog is neither cached nor stored gives
    the library exactly [booksPerRoom] books, one per title of the catalog
    it shows, whatever the generator answers (an array of any length, or
    anything else), and stores that catalog for the next visit. *)
Theorem loadRoom_fresh_room x y rx ry l w keys :
  0 <= booksPerRoom cfg -> Save.savePrefix (lib_save l) = js "babel_" -> clamp_room cfg x y = (rx, ry) ->
  Save.roomCatalogs (lib_save l) !! Save.room_key rx ry = None ->
  ls w !! Save.room_slot (lib_save l) rx ry = None ->
  Save.index_ok w (Save.savePrefix (lib_save l) ++ js "known_rooms") keys ->
  exists titles l' w', loadRoom cfg x y (l, w) = (Ok (room_books titles rx ry), (l', w')) /\
    length titles = Z.to_nat (booksPerRoom cfg) /\ length (books l') = Z.to_nat (booksPerRoom cfg) /\
    cardCatalog l' = JArr titles /\ books l' = room_books titles rx ry /\
    (currentRoomX l', currentRoomY l') = (rx, ry) /\
    ls w' !! Save.room_slot (lib_save l) rx ry = Some (Save.stored_json (JArr titles)).
Proof.
  intros Hn Hp Hcl Hc Hs Hi. unfold loadRoom. rewrite Hcl. lib_run.
  rewrite Save.loadRoomCatalog_absent by (rewrite ?Hc; done). lib_run.
  destruct (room_catalog_fresh rx ry (set_lib_save (lib_save l) (set_room rx ry l)) w keys Hn Hp Hi)
    as (titles & l' & w' & -> & Hlen & Hroom & _ & Hs'). lib_run.
  exists titles. eexists _, _. split; [reflexivity|]. cbn [books set_books cardCatalog set_catalog].
  unfold room_books. rewrite length_imap. split_and!; try done.
Qed.

(** A room whose catalog is in storage gets one book per stored title:
    only generated catalogs are brought to [booksPerRoom] titles. *)
Lemma loadRoom_stored x y rx ry l w titles :
  clamp_room cfg x y = (rx, ry) -> Save.roomCatalogs (lib_save l) !! Save.room_key rx ry = None ->
  ls w !! Save.room_slot (lib_save l) rx ry = Some (Save.stored_json (JArr titles)) ->
  json_wf (JArr titles) = true ->
  exists l', loadRoom cfg x y (l, w) = (Ok (room_books titles rx ry), (l', w)) /\
    books l' = room_books titles rx ry /\ cardCatalog l' = JArr titles.
Proof.
  intros Hcl Hc Hs Hwf. unfold loadRoom. rewrite Hcl. lib_run.
  rewrite (Save.loadRoomCatalog_stored rx ry _ w _ (JArr titles)) by (rewrite ?Hc; eauto using Save.stored_json_parses).
  unfold room_catalog. lib_run. eexists. split; [reflexivity|]. done.
Qed.

End Runs.

(** ** The current room *)

Definition room_of (s : LW) : Z * Z := (currentRoomX (fst s), currentRoomY (fst s)).

Definition same_room (s s' : LW) : Prop := room_of s' = room_of s.

#[export] Instance same_room_preorder : PreOrder same_room.
Proof. split; [done|]. intros ??? H1 H2. unfold same_room in *. congruence. Qed.

Section Rooms.
Context (cfg : Config) {G : Generator} {SV : Save.SaveMethods}.

Lemma lib_with_api_room {A} (m : St Api.H A) : keeps same_room (lib_with_api m).
Proof. intros [l w]. by rewrite lib_with_api_run. Qed.

Lemma lib_with_save_room {A} (m : St Save.S A) : keeps same_room (lib_with_save m).
Proof. intros [l w]. by rewrite lib_with_save_run. Qed.

Lemma room_catalog_room x y c : keeps same_room (room_catalog cfg x y c).
Proof.
  unfold room_catalog, fallback_catalog.
  keeps_auto; auto using lib_with_api_room, lib_with_save_room.
Qed.

(** [loadRoom] moves the library to the clamped room, also when it throws. *)
Lemma loadRoom_room x y s : room_of (snd (loadRoom cfg x y s)) = clamp_room cfg x y.
Proof.
  destruct s as [l w]. unfold loadRoom. destruct (clamp_room cfg x y) as [rx ry].
  rewrite st_run_bind. cbn [modify].
  match goal with |- room_of (snd (?K ?s)) = _ => assert (HK : keeps same_room K) end.
  { keeps_auto; auto using lib_with_save_room, room_catalog_room; by intros []. }
  by rewrite (HK (set_room rx ry l, w)).
Qed.

Lemma clamp_in_grid x y :
  1 <= librarySize_width cfg -> 1 <= librarySize_height cfg ->
  in_grid cfg (clamp_room cfg x y).1 (clamp_room cfg x y).2 = true.
Proof.
  intros Hw Hh. unfold clamp_room, in_grid. cbn [fst snd].
  repeat (case_match; simpl); repeat rewrite andb_true_iff; rewrite ?Z.leb_le, ?Z.ltb_lt in *;
    rewrite ?Z.leb_gt, ?Z.ltb_ge in *; lia.
Qed.

Lemma clamp_in_grid_id x y : in_grid cfg x y = true -> clamp_room cfg x y = (x, y).
Proof.
  unfold in_grid, clamp_room. rewrite !andb_true_iff, !Z.leb_le, !Z.ltb_lt. intros.
  f_equal; zcase.
Qed.

(** [moveToRoom]: a step that leaves the grid changes nothing and answers
    [false]; a step inside it enters the neighbouring room. *)
Lemma moveToRoom_spec d l w :
  let '(nx, ny) := step_room d (currentRoomX l) (currentRoomY l) in
  if in_grid cfg nx ny
  then room_of (snd (moveToRoom cfg d (l, w))) = (nx, ny) /\ result_of (moveToRoom cfg d (l, w)) <> Ok false
  else moveToRoom cfg d (l, w) = (Ok false, (l, w)).
Proof.
  unfold moveToRoom, self. rewrite st_run_bind. cbv [gets]. cbn [fst].
  destruct (step_room d _ _) as [nx ny]. destruct (in_grid cfg nx ny) eqn:Hg; [|done].
  cbn [negb]. rewrite st_run_bind. pose proof (loadRoom_room nx ny (l, w)) as Hr.
  rewrite clamp_in_grid_id in Hr by done.
  destruct (loadRoom cfg nx ny (l, w)) as [[bs|e] s'] eqn:E; simpl in *; done.
Qed.

Definition room_ok (s : LW) : bool := in_grid cfg (currentRoomX (fst s)) (currentRoomY (fst s)).

(** C24: in a grid of at least one room, the library's current room is
    inside the grid after [loadRoom] from any coordinates (it clamps), and
    [moveToRoom] keeps it inside, whichever direction is asked, also when
    loading the new room throws. *)
Theorem room_in_grid x y d l w :
  1 <= librarySize_width cfg -> 1 <= librarySize_height cfg ->
  room_ok (snd (loadRoom cfg x y (l, w))) = true /\
  (room_ok (l, w) = true -> room_ok (snd (moveToRoom cfg d (l, w))) = true).
Proof.
  intros Hw Hh. split.
  - pose proof (loadRoom_room x y (l, w)) as Hr. unfold room_of in Hr. unfold room_ok.
    rewrite <-(clamp_in_grid x y Hw Hh), <-Hr. done.
  - intros Hok. pose proof (moveToRoom_spec d l w) as Hm.
    destruct (step_room d _ _) as [nx ny]. destruct (in_grid cfg nx ny) eqn:Hg.
    + destruct Hm as [Hr _]. unfold room_of in Hr. injection Hr as Hx Hy. unfold room_ok. by rewrite Hx, Hy.
    + by rewrite Hm.
Qed.

Lemma step_room_directions x y :
  step_room (js "north") x y = (x, y - 1) /\ step_room (js "south") x y = (x, y + 1) /\
  step_room (js "east") x y = (x + 1, y) /\ step_room (js "west") x y = (x - 1, y).
Proof. unfold step_room. repeat split; vm_compute; reflexivity. Qed.

Lemma in_grid_iff x y :
  in_grid cfg x y = true <-> 0 <= x < librarySize_width cfg /\ 0 <= y < librarySize_height cfg.
Proof. unfold in_grid. rewrite !andb_true_iff, !Z.leb_le, !Z.ltb_lt. lia. Qed.

(** A move from [(x, y)] in direction [d] to the neighbour [(nx, ny)]. *)
Lemma moveToRoom_to d l w nx ny :
  step_room d (currentRoomX l) (currentRoomY l) = (nx, ny) ->
  (in_grid cfg nx ny = false -> moveToRoom cfg d (l, w) = (Ok false, (l, w))) /\
  (in_grid cfg nx ny = true ->
     room_of (snd (moveToRoom cfg d (l, w))) = (nx, ny) /\ result_of (moveToRoom cfg d (l, w)) <> Ok false).
Proof.
  intros Hs. pose proof (moveToRoom_spec d l w) as Hm. rewrite Hs in Hm.
  split; intros Hg; rewrite Hg in Hm; done.
Qed.

(** C28: from a room of the grid, a move towards an edge the room lies on
    answers [false] and changes nothing; a move away from it enters the
    room one step along the right axis. *)
Theorem moveToRoom_edges l w :
  let x := currentRoomX l in let y := currentRoomY l in
  in_grid cfg x y = true ->
  (x = 0 -> moveToRoom cfg (js "west") (l, w) = (Ok false, (l, w))) /\
  (x = librarySize_width cfg - 1 -> moveToRoom cfg (js "east") (l, w) = (Ok false, (l, w))) /\
  (y = 0 -> moveToRoom cfg (js "north") (l, w) = (Ok false, (l, w))) /\
  (y = librarySize_height cfg - 1 -> moveToRoom cfg (js "south") (l, w) = (Ok false, (l, w))) /\
  (x + 1 < librarySize_width cfg -> room_of (snd (moveToRoom cfg (js "east") (l, w))) = (x + 1, y)) /\
  (0 < x -> room_of (snd (moveToRoom cfg (js "west") (l, w))) = (x - 1, y)) /\
  (y + 1 < librarySize_height cfg -> room_of (snd (moveToRoom cfg (js "south") (l, w))) = (x, y + 1)) /\
  (0 < y -> room_of (snd (moveToRoom cfg (js "north") (l, w))) = (x, y - 1)).
Proof.
  intros x y Hin. apply in_grid_iff in Hin.
  destruct (step_room_directions x y) as (Hn & Hs & He & Hw).
  pose proof (moveToRoom_to _ l w _ _ Hn) as [Nf Nt].
  pose proof (moveToRoom_to _ l w _ _ Hs) as [Sf St].
  pose proof (moveToRoom_to _ l w _ _ He) as [Ef Et].
  pose proof (moveToRoom_to _ l w _ _ Hw) as [Wf Wt].
  split_and!; intros Hc;
    first [ apply Nf | apply Sf | apply Ef | apply Wf | apply Nt | apply St | apply Et | apply Wt ];
    apply in_grid_iff || (apply Bool.not_true_iff_false; rewrite in_grid_iff); lia.
Qed.

End Rooms.

(** ** The normalization, in closed form *)

Section NormalizeEquiv.
Context (cfg : Config).

(** C27: the two [while] loops of [loadRoom] end, and what they leave is
    the closed form of the specification: the first [booksPerRoom] titles,
    followed by [Unnamed Volume k] for each missing position [k]. *)
Theorem normalize_catalog_equiv xs :
  0 <= booksPerRoom cfg ->
  normalize_catalog cfg xs =
    let kept := firstn (Z.to_nat (booksPerRoom cfg)) xs in
    kept ++ unnamed_from (length kept) (Z.to_nat (booksPerRoom cfg) - length kept).
Proof.
  intros Hn. unfold normalize_catalog.
  rewrite trim_loop_firstn by (done || lia). apply pad_loop_app. lia.
Qed.

End NormalizeEquiv.

(** ** Witnesses *)

(** The scenario of the specification: a fresh store, [loadRoom(10, 10)]
    under the program's generator (the key dialog is cancelled, and the
    offline answer carries 10 titles), [booksPerRoom = 100]. *)
Lemma loadRoom_fresh_room_witness :
  exists titles l' w',
    loadRoom (G := api_generator CONFIG) CONFIG 10 10 (new_Library, world0 0 [] [])
      = (Ok (room_books titles 10 10), (l', w')) /\
    length titles = Z.to_nat (booksPerRoom CONFIG) /\ length (books l') = Z.to_nat (booksPerRoom CONFIG) /\
    cardCatalog l' = JArr titles /\ books l' = room_books titles 10 10 /\
    (currentRoomX l', currentRoomY l') = (10, 10) /\
    ls w' !! Save.room_slot (lib_save new_Library) 10 10 = Some (Save.stored_json (JArr titles)).
Proof.
  apply (loadRoom_fresh_room CONFIG 10 10 10 10 new_Library (world0 0 [] []) []);
    [vm_compute; discriminate|reflexivity|reflexivity|reflexivity|reflexivity|
     split; [reflexivity|split; constructor]].
Defined.

(** Three titles become the first three of a hundred. *)
Lemma normalize_catalog_equiv_witness :
  normalize_catalog CONFIG [JStr (js "A"); JStr (js "B"); JStr (js "C")] =
    [JStr (js "A"); JStr (js "B"); JStr (js "C")] ++ unnamed_from 3 97.
Proof. apply normalize_catalog_equiv. vm_compute. discriminate. Defined.

Lemma room_in_grid_witness :
  room_ok CONFIG (snd (loadRoom (G := api_generator CONFIG) CONFIG 300 (-4) (new_Library, world0 0 [] []))) = true /\
  (room_ok CONFIG (new_Library, world0 0 [] []) = true ->
   room_ok CONFIG (snd (moveToRoom (G := api_generator CONFIG) CONFIG (js "north") (new_Library, world0 0 [] []))) = true).
Proof. apply room_in_grid; vm_compute; discriminate. Defined.

Lemma moveToRoom_edges_witness :
  let l := new_Library in let w := world0 0 [] [] in
  (currentRoomX l = 0 -> moveToRoom (G := api_generator CONFIG) CONFIG (js "west") (l, w) = (Ok false, (l, w))) /\
  (currentRoomX l = librarySize_width CONFIG - 1 ->
     moveToRoom (G := api_generator CONFIG) CONFIG (js "east") (l, w) = (Ok false, (l, w))) /\
  (currentRoomY l = 0 -> moveToRoom (G := api_generator CONFIG) CONFIG (js "north") (l, w) = (Ok false, (l, w))) /\
  (currentRoomY l = librarySize_height CONFIG - 1 ->
     moveToRoom (G := api_generator CONFIG) CONFIG (js "south") (l, w) = (Ok false, (l, w))) /\
  (currentRoomX l + 1 < librarySize_width CONFIG ->
     room_of (snd (moveToRoom (G := api_generator CONFIG) CONFIG (js "east") (l, w))) = (currentRoomX l + 1, currentRoomY l)) /\
  (0 < currentRoomX l ->
     room_of (snd (moveToRoom (G := api_generator CONFIG) CONFIG (js "west") (l, w))) = (currentRoomX l - 1, currentRoomY l)) /\
  (currentRoomY l + 1 < librarySize_height CONFIG ->
     room_of (snd (moveToRoom (G := api_generator CONFIG) CONFIG (js "south") (l, w))) = (currentRoomX l, currentRoomY l + 1)) /\
  (0 < currentRoomY l ->
     room_of (snd (moveToRoom (G := api_generator CONFIG) CONFIG (js "north") (l, w))) = (currentRoomX l, currentRoomY l - 1)).
Proof. apply moveToRoom_edges. reflexivity. Defined.

End Library.
