(* ===== verification/Geometry.v ===== *)
(** * Geometry: [Library.getBookPositions] and [Library.getRoomInfo]

    The shelf layout of a room (library.js 117-176).  The coordinates are
    JavaScript numbers computed by [+], [*] and [/] from integers of the
    configuration; they are modelled as rationals ([Q]), which is exact for
    the shipped configuration (all the quotients are integers or halves).
    The two inner loops of the code (left and right side of an aisle) differ
    only in the first index, the abscissa and the side tag; both are
    [side_positions], each iteration's [continue] a [None] of [omap]. *)
From Stdlib Require Import QArith Qround Lqa.
From S2P Require Import Prelude JsString Json Numbers Config World Api Save Book Library.

Module Geometry.
Import Library.

Local Open Scope Q_scope.

(** A position object [{index, x, y, side}] (library.js 138-143). *)
Record Position := {
  pos_index : Q;
  pos_x : Q;
  pos_y : Q;
  pos_side : jstr
}.

(** [const bookHeight = 40] and [const shelfSpacing = 120] (library.js 121-122). *)
Definition bookHeight : Z := 40.
Definition shelfSpacing : Z := 120.

(** The number of turns of [for (let i = 0; i < booksPerAisle/2; i++)]: the
    integers [i >= 0] with [2 i < booksPerAisle] (see [half_count_spec]). *)
Definition half_count (bpa : Z) : nat := Z.to_nat ((bpa + 1) / 2).

(** [shelfLevel * shelfSpacing + 100 + bookPosition * (bookHeight + 5)] with
    [shelfLevel = Math.floor(i / 4)] and [bookPosition = i % 4]
    (library.js 135-141); [i >= 0], so [%] is [Z.modulo]. *)
Definition shelf_y (i : Z) : Q :=
  inject_Z (i / 4 * shelfSpacing + 100 + i mod 4 * (bookHeight + 5)).

(** One side loop (library.js 131-144 and 147-160): book [i] of the side
    has index [first i]; it is skipped when [bookIndex >= this.books.length]. *)
Definition side_positions (n : Z) (first : nat -> Q) (x : Q) (side : jstr)
    (count : nat) : list Position :=
  omap (fun k =>
          let bookIndex := first k in
          if Qle_bool (inject_Z n) bookIndex then None
          else Some {| pos_index := bookIndex; pos_x := x;
                       pos_y := shelf_y (Z.of_nat k); pos_side := side |})
       (seq 0 count).

(** [getBookPositions()] (library.js 118-164). *)
Definition getBookPositions (cfg : Config) (l : Library) : list Position :=
  let aisleWidth := inject_Z (roomSize_width cfg) / inject_Z (aislesPerRoom cfg) in
  let n := Z.of_nat (length (books l)) in
  let bpa := booksPerAisle cfg in
  flat_map (fun a : nat =>
      let aisle := inject_Z (Z.of_nat a) in
      let aisleX := aisle * aisleWidth + aisleWidth / 2 in
      side_positions n (fun i => aisle * inject_Z bpa + inject_Z (Z.of_nat i))
        (aisleX - aisleWidth / 4) (js "left") (half_count bpa) ++
      side_positions n (fun i => aisle * inject_Z bpa + inject_Z (Z.of_nat i) + inject_Z bpa / 2)
        (aisleX + aisleWidth / 4) (js "right") (half_count bpa))
    (seq 0 (Z.to_nat (aislesPerRoom cfg))).

(** The object returned by [getRoomInfo()] (library.js 167-175). *)
Record RoomInfo := {
  info_roomX : Z;
  info_roomY : Z;
  totalRooms : Z;
  info_cardCatalog : jsval;
  bookPositions : list Position
}.

Definition getRoomInfo (cfg : Config) (l : Library) : RoomInfo :=
  {| info_roomX := currentRoomX l; info_roomY := currentRoomY l;
     totalRooms := (librarySize_width cfg * librarySize_height cfg)%Z;
     info_cardCatalog := cardCatalog l;
     bookPositions := getBookPositions cfg l |}.

(** ** Indices of the positions *)

(** A book index as a JavaScript number. *)
Definition ix (k : nat) : Q := inject_Z (Z.of_nat k).

Lemma Qred_ix q k : q == ix k -> Qred q = ix k.
Proof. intros H. rewrite (Qred_complete _ _ H). apply Qred_inject_Z. Qed.

Lemma Qle_bool_ix (n : nat) q k :
  q == ix k -> Qle_bool (inject_Z (Z.of_nat n)) q = (n <=? k)%nat.
Proof.
  intros H. apply eq_iff_eq_true. rewrite Qle_bool_iff, Nat.leb_le, H.
  unfold ix. rewrite <- Zle_Qle. lia.
Qed.

Lemma half_count_spec (bpa : Z) (i : nat) :
  (i < half_count bpa)%nat <-> (2 * Z.of_nat i < bpa)%Z.
Proof.
  unfold half_count. rewrite Nat2Z.inj_lt. Z.to_euclidean_division_equations. lia.
Qed.

Lemma half_count_even h : half_count (Z.of_nat (2 * h)) = h.
Proof.
  unfold half_count. apply Nat2Z.inj. Z.to_euclidean_division_equations. lia.
Qed.

(** The side loop keeps the books whose index is below [n], in order. *)
Lemma side_positions_index (n : nat) first x side c b :
  (forall k, first k == ix (b + k)) ->
  map (fun p => Qred (pos_index p)) (side_positions (Z.of_nat n) first x side c)
  = map ix (List.filter (fun k => k <? n)%nat (seq b c)).
Proof.
  intros Hf. unfold side_positions. rewrite <- (Nat.add_0_r b), <- fmap_add_seq.
  induction (seq 0 c) as [|k ks IH]; [done|]. cbn [omap list_omap fmap list_fmap].
  rewrite (Qle_bool_ix n _ (b + k)) by apply Hf.
  destruct (n <=? b + k)%nat eqn:E; cbn [List.filter map pos_index]; rewrite (Nat.ltb_antisym n (b + k)), E; [done|].
  by rewrite IH, (Qred_ix _ _ (Hf k)).
Qed.

Lemma flat_map_seq (m A : nat) :
  flat_map (fun a => seq (a * m) m) (seq 0 A) = seq 0 (A * m).
Proof.
  induction A as [|A IH]; [done|].
  rewrite seq_S, flat_map_app, IH. cbn. rewrite app_nil_r, <- seq_app. f_equal. lia.
Qed.

Lemma filter_lt_seq (n K : nat) :
  List.filter (fun k => k <? n)%nat (seq 0 K) = seq 0 (Nat.min n K).
Proof.
  induction K as [|K IH]; [by rewrite Nat.min_0_r|].
  rewrite seq_S, List.filter_app, IH. cbn [List.filter Nat.add].
  destruct (K <? n)%nat eqn:E; [apply Nat.ltb_lt in E | apply Nat.ltb_ge in E].
  - rewrite !Nat.min_r by lia. by rewrite seq_S.
  - rewrite app_nil_r, !Nat.min_l by lia. done.
Qed.

Lemma map_flat_map_ext {A B C} (f : B -> C) (g : A -> list B) (g' : A -> list C) l :
  (forall a, map f (g a) = g' a) -> map f (flat_map g l) = flat_map g' l.
Proof. intros Hg. induction l as [|a l IH]; [done|]. cbn [flat_map]. by rewrite map_app, Hg, IH. Qed.

Lemma flat_map_map_filter {A B C} (f : B -> C) (p : B -> bool) (g : A -> list B) l :
  flat_map (fun a => map f (List.filter p (g a))) l = map f (List.filter p (flat_map g l)).
Proof. induction l as [|a l IH]; [done|]. cbn [flat_map]. by rewrite IH, List.filter_app, map_app. Qed.

(** With an even [booksPerAisle = 2 h], the left side of aisle [a] holds the
    books [a * 2h + i] and the right side the books [a * 2h + h + i], [i < h]:
    together the books [a * 2h .. a * 2h + 2h - 1] below [n], in order. *)
Lemma aisle_index (n a h : nat) (w : Q) :
  map (fun p => Qred (pos_index p))
    (side_positions (Z.of_nat n) (fun i => ix a * inject_Z (Z.of_nat (2 * h)) + ix i)
       (ix a * w + w / 2 - w / 4) (js "left") h ++
     side_positions (Z.of_nat n)
       (fun i => ix a * inject_Z (Z.of_nat (2 * h)) + ix i + inject_Z (Z.of_nat (2 * h)) / 2)
       (ix a * w + w / 2 + w / 4) (js "right") h)
  = map ix (List.filter (fun k => k <? n)%nat (seq (a * (2 * h)) (2 * h))).
Proof.
  rewrite map_app, (side_positions_index n _ _ _ h (a * (2 * h))),
    (side_positions_index n _ _ _ h (a * (2 * h) + h)).
  - assert (seq (a * (2 * h)) (2 * h) = seq (a * (2 * h)) h ++ seq (a * (2 * h) + h) h) as ->
      by (rewrite <- seq_app; f_equal; lia).
    by rewrite List.filter_app, map_app.
  - intros k. unfold ix, Qeq. cbn. lia.
  - intros k. unfold ix, Qeq. cbn. lia.
Qed.

Lemma side_positions_In_lt (n : nat) first x side c (k : nat) :
  (k < c)%nat -> first k < inject_Z (Z.of_nat n) ->
  In {| pos_index := first k; pos_x := x; pos_y := shelf_y (Z.of_nat k); pos_side := side |}
     (side_positions (Z.of_nat n) first x side c).
Proof.
  intros Hk Hf. unfold side_positions. apply list_elem_of_In, list_elem_of_omap.
  exists k. split; [apply list_elem_of_In, in_seq; lia|].
  destruct (Qle_bool _ _) eqn:E; [|done]. apply Qle_bool_iff in E. exfalso. by apply (Qlt_not_le _ _ Hf).
Qed.

Lemma side_positions_In (n : nat) first x side c (k j : nat) :
  (k < c)%nat -> first k == ix j -> (j < n)%nat ->
  In {| pos_index := first k; pos_x := x; pos_y := shelf_y (Z.of_nat k); pos_side := side |}
     (side_positions (Z.of_nat n) first x side c).
Proof.
  intros Hk Hf Hj. apply side_positions_In_lt; [done|]. rewrite Hf. unfold ix. rewrite <- Zlt_Qlt. lia.
Qed.

(** Every position of a side loop is one of its iterations. *)
Lemma side_positions_inv (n : Z) first x side c p :
  In p (side_positions n first x side c) ->
  exists k, (k < c)%nat /\ ~ inject_Z n <= first k /\
    p = {| pos_index := first k; pos_x := x; pos_y := shelf_y (Z.of_nat k); pos_side := side |}.
Proof.
  unfold side_positions. intros Hp. apply list_elem_of_In, list_elem_of_omap in Hp as (k & Hk & Hf).
  apply list_elem_of_In, in_seq in Hk. exists k.
  destruct (Qle_bool _ _) eqn:E; [done|]. injection Hf as <-. split; [lia|]. split; [|done].
  intros Hle. apply Qle_bool_iff in Hle. congruence.
Qed.

(** A position of the left side of aisle [0]. *)
Lemma first_aisle_left_In cfg l (k : nat) :
  (1 <= aislesPerRoom cfg)%Z -> (2 * Z.of_nat k < booksPerAisle cfg)%Z -> (k < length (books l))%nat ->
  let w := inject_Z (roomSize_width cfg) / inject_Z (aislesPerRoom cfg) in
  In {| pos_index := inject_Z (Z.of_nat 0) * inject_Z (booksPerAisle cfg) + inject_Z (Z.of_nat k);
        pos_x := inject_Z (Z.of_nat 0) * w + w / 2 - w / 4;
        pos_y := shelf_y (Z.of_nat k); pos_side := js "left" |}
     (getBookPositions cfg l).
Proof.
  intros HA Hb Hn w. apply in_flat_map. exists 0%nat. split; [apply in_seq; lia|].
  apply in_or_app. left.
  apply (side_positions_In _ (fun i => inject_Z (Z.of_nat 0) * inject_Z (booksPerAisle cfg)
    + inject_Z (Z.of_nat i)) _ _ _ k k); [by apply half_count_spec | | done].
  unfold ix, Qeq. cbn. lia.
Qed.

(** The abscissae of aisle [a < A] of a room [W] wide lie strictly inside
    the room: [a * w + w / 2 -+ w / 4] with [w = W / A]. *)
Lemma aisle_x_bounds (W A : Z) (a : nat) :
  (0 < A)%Z -> (0 < W)%Z -> (Z.of_nat a < A)%Z ->
  let w := inject_Z W / inject_Z A in
  (0 < ix a * w + w / 2 - w / 4 < inject_Z W) /\ (0 < ix a * w + w / 2 + w / 4 < inject_Z W).
Proof.
  intros HA HW Ha w.
  assert (Hw : 0 < w).
  { apply Qlt_shift_div_l; [change (inject_Z 0 < inject_Z A) | rewrite Qmult_0_l; change (inject_Z 0 < inject_Z W)];
      rewrite <- Zlt_Qlt; lia. }
  assert (HAw : inject_Z A * w == inject_Z W).
  { unfold w. field. intros H0. apply (inject_Z_injective A 0) in H0. lia. }
  assert (Ha0 : 0 <= ix a * w).
  { apply Qmult_le_0_compat; [|lra]. change (inject_Z 0 <= ix a). unfold ix. rewrite <- Zle_Qle. lia. }
  assert (Ha1 : (ix a + 1) * w <= inject_Z A * w).
  { apply Qmult_le_compat_r; [|lra]. change (inject_Z (Z.of_nat a) + inject_Z 1 <= inject_Z A).
    rewrite <- inject_Z_plus, <- Zle_Qle. lia. }
  rewrite Qmult_plus_distr_l, Qmult_1_l in Ha1.
  set (xw := ix a * w) in *. set (Aw := inject_Z A * w) in *. clearbody w xw Aw.
  change (w / 2) with (w * (1 # 2)). change (w / 4) with (w * (1 # 4)). split; split; lra.
Qed.

Lemma shelf_y_ge (k : nat) : 100 <= shelf_y (Z.of_nat k).
Proof.
  unfold shelf_y, shelfSpacing, bookHeight. change (inject_Z 100 <= inject_Z (Z.of_nat k / 4 * 120 + 100 + Z.of_nat k mod 4 * (40 + 5))).
  rewrite <- Zle_Qle. Z.to_euclidean_division_equations. lia.
Qed.

(** Every book is at or below the first shelf. *)
Lemma getBookPositions_y cfg l p : In p (getBookPositions cfg l) -> 100 <= pos_y p.
Proof.
  unfold getBookPositions. intros (a & _ & Hp)%in_flat_map.
  apply in_app_or in Hp as [Hp|Hp]; apply side_positions_inv in Hp as (k & _ & _ & ->); apply shelf_y_ge.
Qed.

(** ** Theorems *)

(** C32: with an even [booksPerAisle], [getBookPositions] gives a position
    to each book of the room below [aislesPerRoom * booksPerAisle], once and
    in the order of the indices, and to nothing else: the indices of the
    positions are [0 .. min(books.length, aislesPerRoom * booksPerAisle) - 1]
    (each index up to [Qred], the canonical form of a rational). *)
Theorem getBookPositions_indices cfg l h :
  booksPerAisle cfg = Z.of_nat (2 * h) ->
  map (fun p => Qred (pos_index p)) (getBookPositions cfg l)
  = map ix (seq 0 (Nat.min (length (books l)) (Z.to_nat (aislesPerRoom cfg) * (2 * h)))).
Proof.
  intros Hb. unfold getBookPositions. rewrite Hb, half_count_even.
  rewrite (map_flat_map_ext _ _ (fun a => map ix (List.filter (fun k => k <? length (books l))%nat
                                                   (seq (a * (2 * h)) (2 * h))))).
  - by rewrite flat_map_map_filter, flat_map_seq, filter_lt_seq.
  - intros a. apply aisle_index.
Qed.

(** C33 (finding): the four books of a shelf level are [bookHeight + 5 = 45]
    apart, 180 in all, but the levels are [shelfSpacing = 120] apart.  With
    one aisle, ten books per aisle and five books in the room, books 3 and 4
    are on the same side at the same abscissa, book 4 15 above book 3;
    game.js draws each book 40 high around its position, so they overlap. *)
Theorem shelf_levels_overlap cfg l :
  (1 <= aislesPerRoom cfg)%Z -> (10 <= booksPerAisle cfg)%Z -> (5 <= length (books l))%nat ->
  exists p q, In p (getBookPositions cfg l) /\ In q (getBookPositions cfg l) /\
    pos_index p == 3 /\ pos_index q == 4 /\ pos_side p = pos_side q /\
    pos_x p == pos_x q /\ pos_y p - pos_y q == 15.
Proof.
  intros HA Hb Hn.
  eexists _, _. split; [apply (first_aisle_left_In cfg l 3); cbn; lia|].
  split; [apply (first_aisle_left_In cfg l 4); cbn; lia|].
  cbn [pos_index pos_x pos_y pos_side].
  split; [unfold Qeq; cbn; lia|]. split; [unfold Qeq; cbn; lia|].
  split; [done|]. split; [reflexivity | by vm_compute].
Qed.

(** C34: every book of a room with at least one aisle is placed strictly
    inside the room's width, at or below the first shelf ([y >= 100]). *)
Theorem getBookPositions_in_room cfg l p :
  (0 < aislesPerRoom cfg)%Z -> (0 < roomSize_width cfg)%Z -> In p (getBookPositions cfg l) ->
  0 < pos_x p < inject_Z (roomSize_width cfg) /\ 100 <= pos_y p.
Proof.
  intros HA HW Hp. unfold getBookPositions in Hp.
  apply in_flat_map in Hp as (a & Ha & Hp). apply in_seq in Ha.
  destruct (aisle_x_bounds (roomSize_width cfg) (aislesPerRoom cfg) a HA HW ltac:(lia)) as [Hl Hr].
  apply in_app_or in Hp as [Hp|Hp]; apply side_positions_inv in Hp as (k & _ & _ & ->);
    cbn [pos_x pos_y]; split; [exact Hl | apply shelf_y_ge | exact Hr | apply shelf_y_ge].
Qed.

(** With an odd [booksPerAisle = 2h + 1] the right side of an
    aisle starts at [booksPerAisle / 2], not an integer: a room with more
    than [h] books has a position whose index is [h + 1/2], which names no
    book ([this.books[h + 0.5]] and [cardCatalog[h + 0.5]] are undefined). *)
Theorem odd_aisle_fractional_index cfg l h :
  (1 <= aislesPerRoom cfg)%Z -> booksPerAisle cfg = Z.of_nat (2 * h + 1) -> (h < length (books l))%nat ->
  exists p, In p (getBookPositions cfg l) /\ pos_index p == ix h + (1 # 2).
Proof.
  intros HA Hb Hn. eexists. split.
  - unfold getBookPositions. apply in_flat_map. exists 0%nat. split; [apply in_seq; lia|].
    apply in_or_app. right. rewrite Hb.
    apply (side_positions_In_lt _ (fun i => inject_Z (Z.of_nat 0) * inject_Z (Z.of_nat (2 * h + 1))
      + inject_Z (Z.of_nat i) + inject_Z (Z.of_nat (2 * h + 1)) / 2) _ _ _ 0).
    + apply half_count_spec. lia.
    + unfold Qlt, ix. cbn. lia.
  - unfold Qeq, ix. cbn. lia.
Qed.

(** ** Witnesses *)

(** A room of the shipped configuration with its [booksPerRoom] books. *)
Definition full_room : Library :=
  {| currentRoomX := 10; currentRoomY := 10;
     books := repeat Book.sample_book (Z.to_nat (booksPerRoom CONFIG));
     cardCatalog := JArr []; lib_api := Api.new_APIHandler; lib_save := Save.new_SaveSystem |}.

Lemma getBookPositions_indices_witness :
  booksPerAisle CONFIG = Z.of_nat (2 * 10) /\
  map (fun p => Qred (pos_index p)) (getBookPositions CONFIG full_room) = map ix (seq 0 100).
Proof.
  split; [reflexivity|]. by rewrite (getBookPositions_indices CONFIG full_room 10 eq_refl).
Defined.

Lemma shelf_levels_overlap_witness :
  exists p q, In p (getBookPositions CONFIG full_room) /\ In q (getBookPositions CONFIG full_room) /\
    pos_index p == 3 /\ pos_index q == 4 /\ pos_side p = pos_side q /\
    pos_x p == pos_x q /\ pos_y p - pos_y q == 15.
Proof. apply shelf_levels_overlap; decide_true. Defined.

Lemma getBookPositions_in_room_witness :
  exists p, In p (getBookPositions CONFIG full_room) /\
    0 < pos_x p < inject_Z (roomSize_width CONFIG) /\ 100 <= pos_y p.
Proof.
  eexists. split; [apply (first_aisle_left_In CONFIG full_room 0); decide_true|].
  apply (getBookPositions_in_room CONFIG full_room); [decide_true | decide_true |].
  apply (first_aisle_left_In CONFIG full_room 0); decide_true.
Defined.

(** The shipped layout with twenty aisles of five books. *)
Definition CONFIG_odd_aisles : Config := {|
  librarySize_width := librarySize_width CONFIG;
  librarySize_height := librarySize_height CONFIG;
  roomSize_width := roomSize_width CONFIG;
  roomSize_height := roomSize_height CONFIG;
  booksPerRoom := booksPerRoom CONFIG;
  aislesPerRoom := 20;
  booksPerAisle := 5;
  playerSpeed := playerSpeed CONFIG;
  playerSize := playerSize CONFIG;
  wordsPerPage := wordsPerPage CONFIG;
  apiURL := apiURL CONFIG;
  apiModel := apiModel CONFIG;
  debug := debug CONFIG;
  useMockData := useMockData CONFIG;
  debugControls := debugControls CONFIG;
  showFPS := showFPS CONFIG;
  logEvents := logEvents CONFIG
|}.

Lemma odd_aisle_fractional_index_witness :
  exists p, In p (getBookPositions CONFIG_odd_aisles full_room) /\ pos_index p == 5 # 2.
Proof.
  destruct (odd_aisle_fractional_index CONFIG_odd_aisles full_room 2) as (p & Hp & Hi);
    [decide_true | reflexivity | decide_true |].
  exists p. split; [exact Hp | rewrite Hi; reflexivity].
Defined.

End Geometry.
