(* ===== verification/Player.v ===== *)
(** * The player: [class Player] (player.js).

    The player's position in the room, the keys held, and what it stands
    near (a book, the card catalog, an exit), recomputed at every tick by
    [update], which also writes the position to storage.  The coordinates
    are numbers made of the room's half sizes and integer steps; they are
    kept as rationals ([Q]).  [closestDistance] is kept squared: the code
    compares [Math.sqrt] of a sum of squares with it, and [Math.sqrt] is
    increasing, so the comparisons agree. *)
From Stdlib Require Import QArith Qabs Qround Lqa.
From S2P Require Import Prelude JsString Json Numbers Config World Save Library Geometry.

Module Player.
Import Geometry.

Local Open Scope Q_scope.

Record Player := {
  name : jsval;
  description : jsval;
  x : Q;
  y : Q;
  speed : Z;
  size : Z;
  moveUp : bool;
  moveDown : bool;
  moveLeft : bool;
  moveRight : bool;
  nearbyBookIndex : Q;
  isAtCardCatalog : bool;
  isAtExit : option jstr;
  psave : Save.SaveSystem
}.

(** [new Player(name, description)] (player.js 3-23) *)
Definition new_Player (cfg : Config) (n d : jsval) : Player :=
  {| name := n; description := d;
     x := inject_Z (roomSize_width cfg) / 2; y := inject_Z (roomSize_height cfg) / 2;
     speed := playerSpeed cfg; size := playerSize cfg;
     moveUp := false; moveDown := false; moveLeft := false; moveRight := false;
     nearbyBookIndex := -1; isAtCardCatalog := false; isAtExit := None;
     psave := Save.new_SaveSystem |}.

Definition set_x (v : Q) (p : Player) : Player :=
  {| name := name p; description := description p; x := v; y := y p; speed := speed p;
     size := size p; moveUp := moveUp p; moveDown := moveDown p; moveLeft := moveLeft p;
     moveRight := moveRight p; nearbyBookIndex := nearbyBookIndex p;
     isAtCardCatalog := isAtCardCatalog p; isAtExit := isAtExit p; psave := psave p |}.
Definition set_y (v : Q) (p : Player) : Player :=
  {| name := name p; description := description p; x := x p; y := v; speed := speed p;
     size := size p; moveUp := moveUp p; moveDown := moveDown p; moveLeft := moveLeft p;
     moveRight := moveRight p; nearbyBookIndex := nearbyBookIndex p;
     isAtCardCatalog := isAtCardCatalog p; isAtExit := isAtExit p; psave := psave p |}.
Definition set_moves (u d l r : bool) (p : Player) : Player :=
  {| name := name p; description := description p; x := x p; y := y p; speed := speed p;
     size := size p; moveUp := u; moveDown := d; moveLeft := l; moveRight := r;
     nearbyBookIndex := nearbyBookIndex p;
     isAtCardCatalog := isAtCardCatalog p; isAtExit := isAtExit p; psave := psave p |}.
Definition set_exit (e : option jstr) (p : Player) : Player :=
  {| name := name p; description := description p; x := x p; y := y p; speed := speed p;
     size := size p; moveUp := moveUp p; moveDown := moveDown p; moveLeft := moveLeft p;
     moveRight := moveRight p; nearbyBookIndex := nearbyBookIndex p;
     isAtCardCatalog := isAtCardCatalog p; isAtExit := e; psave := psave p |}.
Definition set_nearby (i : Q) (p : Player) : Player :=
  {| name := name p; description := description p; x := x p; y := y p; speed := speed p;
     size := size p; moveUp := moveUp p; moveDown := moveDown p; moveLeft := moveLeft p;
     moveRight := moveRight p; nearbyBookIndex := i;
     isAtCardCatalog := isAtCardCatalog p; isAtExit := isAtExit p; psave := psave p |}.
Definition set_card (b : bool) (p : Player) : Player :=
  {| name := name p; description := description p; x := x p; y := y p; speed := speed p;
     size := size p; moveUp := moveUp p; moveDown := moveDown p; moveLeft := moveLeft p;
     moveRight := moveRight p; nearbyBookIndex := nearbyBookIndex p;
     isAtCardCatalog := b; isAtExit := isAtExit p; psave := psave p |}.
Definition set_psave (s : Save.SaveSystem) (p : Player) : Player :=
  {| name := name p; description := description p; x := x p; y := y p; speed := speed p;
     size := size p; moveUp := moveUp p; moveDown := moveDown p; moveLeft := moveLeft p;
     moveRight := moveRight p; nearbyBookIndex := nearbyBookIndex p;
     isAtCardCatalog := isAtCardCatalog p; isAtExit := isAtExit p; psave := s |}.

Abbreviation PW := (Player * World)%type.

(** [this.save.m(...)] *)
Definition with_save {A} (m : St Save.S A) : St PW A :=
  zoom (fun '(p, w) => (psave p, w)) (fun '(s, w) '(p, _) => (set_psave s p, w)) m.

(** ** [initialize()] (player.js 26-33) *)

(** [savedPosition.x]: a number; a stored value of another shape (or a
    number with an exponent) is not followed. *)
Definition num_prop (v : jsval) (k : jstr) : St PW Q :=
  match get_prop v k with
  | None => throw TypeError
  | Some (JNum lx) => match number_value lx with Some q => mret q | None => throw Unmodelled end
  | Some _ => throw Unmodelled
  end.

Definition initialize : St PW unit :=
  savedPosition ← with_save Save.loadPlayerPosition;
  if truthy savedPosition then
    px ← num_prop savedPosition (js "x");
    modify (fun '(p, w) => (set_x px p, w));;
    py ← num_prop savedPosition (js "y");
    modify (fun '(p, w) => (set_y py p, w))
  else mret tt.

(** ** [update(roomInfo)] (player.js 36-70) and the checks it calls *)

(** [let d = 0; if (neg) d -= speed; if (pos) d += speed;] *)
Definition axis_delta (neg pos : bool) (s : Q) : Q :=
  let d0 := if neg then 0 - s else 0 in
  if pos then d0 + s else d0.

(** [if (newX >= padding && newX <= limit - padding) this.x = newX;] *)
Definition clamp_move (pos d padding limit : Q) : Q :=
  let n := pos + d in
  if Qle_bool padding n && Qle_bool n (limit - padding) then n else pos.

(** The movement part of [update] (player.js 38-57). *)
Definition move (cfg : Config) (p : Player) : Player :=
  let s := inject_Z (speed p) in
  let dy := axis_delta (moveUp p) (moveDown p) s in
  let dx := axis_delta (moveLeft p) (moveRight p) s in
  let padding := inject_Z (size p) / 2 in
  set_y (clamp_move (y p) dy padding (inject_Z (roomSize_height cfg)))
    (set_x (clamp_move (x p) dx padding (inject_Z (roomSize_width cfg))) p).

(** [checkForRoomExits()] (player.js 73-95): the first edge within
    [exitDistance = 40], north, south, east, west in that order. *)
Definition room_exit (cfg : Config) (px py : Q) : option jstr :=
  if Qltb py 40 then Some (js "north")
  else if Qltb (inject_Z (roomSize_height cfg) - 40) py then Some (js "south")
  else if Qltb (inject_Z (roomSize_width cfg) - 40) px then Some (js "east")
  else if Qltb px 40 then Some (js "west")
  else None.

Definition checkForRoomExits (cfg : Config) : St PW unit :=
  modify (fun '(p, w) => (set_exit (room_exit cfg (x p) (y p)) p, w)).

(** The squared distance from the player to a book. *)
Definition dist2 (px py : Q) (b : Position) : Q :=
  (px - pos_x b) * (px - pos_x b) + (py - pos_y b) * (py - pos_y b).

(** One turn of the [forEach] of [checkForNearbyBooks]: the accumulator is
    [(closestDistance ^ 2, nearbyBookIndex)]. *)
Definition nearest_step (px py : Q) (acc : Q * Q) (b : Position) : Q * Q :=
  let '(closest, idx) := acc in
  let d := dist2 px py b in
  if Qltb d closest then (d, pos_index b) else (closest, idx).

Definition nearest_book (px py : Q) (ps : list Position) : Q :=
  snd (fold_left (nearest_step px py) ps (40 * 40, -1)).

(** [checkForNearbyBooks(bookPositions)] (player.js 98-115) *)
Definition checkForNearbyBooks (ps : list Position) : St PW unit :=
  modify (fun '(p, w) => (set_nearby (nearest_book (x p) (y p) ps) p, w)).

(** [this.y < 80 && Math.abs(this.x - CONFIG.roomSize.width / 2) < 50] *)
Definition at_card_catalog (cfg : Config) (px py : Q) : bool :=
  Qltb py 80 && Qltb (Qabs (px - inject_Z (roomSize_width cfg) / 2)) 50.

(** The text [JSON.stringify] writes for a coordinate. *)
Definition num_text (q : Q) : St PW jstr :=
  match number_lexeme q with Some lx => mret lx | None => throw Unmodelled end.

Definition update (cfg : Config) (info : RoomInfo) : St PW unit :=
  modify (fun '(p, w) => (move cfg p, w));;
  checkForRoomExits cfg;;
  checkForNearbyBooks (bookPositions info);;
  modify (fun '(p, w) => (set_card (at_card_catalog cfg (x p) (y p)) p, w));;
  p ← self;
  sx ← num_text (x p);
  sy ← num_text (y p);
  with_save (Save.savePlayerPosition (JNum sx) (JNum sy)
               (JNum (z_to_js (info_roomX info))) (JNum (z_to_js (info_roomY info)))).

(** ** [handleKeyDown] and [handleKeyUp] (player.js 118-150) *)

(** [key.toLowerCase()] on ASCII letters; no other character lowers to
    one of the four keys compared, so the comparisons agree with it. *)
Definition lower_ascii (s : jstr) : jstr :=
  map (fun c => if ((65 <=? c) && (c <=? 90))%Z then (c + 32)%Z else c) s.

Definition set_key (k : jstr) (v : bool) (p : Player) : Player :=
  let k := lower_ascii k in
  if bool_decide (k = js "w") then set_moves v (moveDown p) (moveLeft p) (moveRight p) p
  else if bool_decide (k = js "s") then set_moves (moveUp p) v (moveLeft p) (moveRight p) p
  else if bool_decide (k = js "a") then set_moves (moveUp p) (moveDown p) v (moveRight p) p
  else if bool_decide (k = js "d") then set_moves (moveUp p) (moveDown p) (moveLeft p) v p
  else p.

Definition handleKeyDown (k : jstr) : St PW unit := modify (fun '(p, w) => (set_key k true p, w)).
Definition handleKeyUp (k : jstr) : St PW unit := modify (fun '(p, w) => (set_key k false p, w)).

(** ** Runs *)

Lemma player_with_save_run {A} (m : St Save.S A) p w :
  with_save m (p, w) = (fst (m (psave p, w)), (set_psave (fst (snd (m (psave p, w)))) p, snd (snd (m (psave p, w))))).
Proof. unfold with_save, zoom. by destruct (m (psave p, w)) as [r [s' w']]. Qed.

(** The fields [update] sets before it writes the position. *)
Definition tick (cfg : Config) (info : RoomInfo) (p : Player) : Player :=
  let p1 := move cfg p in
  let p2 := set_exit (room_exit cfg (x p1) (y p1)) p1 in
  let p3 := set_nearby (nearest_book (x p2) (y p2) (bookPositions info)) p2 in
  set_card (at_card_catalog cfg (x p3) (y p3)) p3.

(** The record [savePlayerPosition] writes. *)
Definition pos_record (sx sy : jstr) (info : RoomInfo) : jsval :=
  JObj [(js "x", JNum sx); (js "y", JNum sy);
        (js "roomX", JNum (z_to_js (info_roomX info))); (js "roomY", JNum (z_to_js (info_roomY info)))].

Lemma set_psave_same p : set_psave (psave p) p = p.
Proof. by destruct p. Qed.

Lemma update_run cfg info p w :
  update cfg info (p, w) =
    let p' := tick cfg info p in
    match number_lexeme (x p'), number_lexeme (y p') with
    | Some sx, Some sy =>
        (Ok tt, (p', set_ls (<[Save.savePrefix (psave p') ++ js "player_pos" :=
                                 Save.stored_json (pos_record sx sy info)]> (ls w)) w))
    | _, _ => (Exc Unmodelled, (p', w))
    end.
Proof.
  unfold update, checkForRoomExits, checkForNearbyBooks, num_text, tick.
  cbv [mbind st_bind mret st_ret modify self gets throw].
  cbn [fst snd x y set_card set_exit set_nearby].
  destruct (number_lexeme (x (move cfg p))) as [sx|]; [|done].
  destruct (number_lexeme (y (move cfg p))) as [sy|]; [|done].
  rewrite player_with_save_run.
  cbv [Save.savePlayerPosition Save.onw Save.me on_world self setItem zoom mbind st_bind mret st_ret
       modify gets fst snd].
  by rewrite set_psave_same.
Qed.

Lemma update_player cfg info p w : fst (snd (update cfg info (p, w))) = tick cfg info p.
Proof. rewrite update_run. cbv zeta. by repeat case_match. Qed.

(** ** Movement *)

(** The player's disc lies inside the room: [padding <= x <= width - padding]
    and the same on [y], with [padding = size / 2]. *)
Definition in_room (cfg : Config) (p : Player) : Prop :=
  let pad := inject_Z (size p) / 2 in
  pad <= x p <= inject_Z (roomSize_width cfg) - pad /\ pad <= y p <= inject_Z (roomSize_height cfg) - pad.

Lemma axis_delta_bound neg pos s : 0 <= s -> Qabs (axis_delta neg pos s) <= s.
Proof. intros Hs. apply Qabs_Qle_condition. destruct neg, pos; cbn; split; lra. Qed.

Lemma clamp_move_bounds pos d pad lim b :
  pad <= pos <= lim - pad -> Qabs d <= b ->
  pad <= clamp_move pos d pad lim <= lim - pad /\ Qabs (clamp_move pos d pad lim - pos) <= b.
Proof.
  intros Hp Hd. apply Qabs_Qle_condition in Hd. unfold clamp_move.
  destruct (Qle_bool pad (pos + d)) eqn:E1, (Qle_bool (pos + d) (lim - pad)) eqn:E2; cbn [andb];
    rewrite ?Qle_bool_iff in E1, E2; (split; [lra | apply Qabs_Qle_condition; lra]).
Qed.

(** A move that keeps the disc inside the room is taken. *)
Lemma clamp_move_moves pos d pad lim :
  pad <= pos + d <= lim - pad -> clamp_move pos d pad lim = pos + d.
Proof. intros [H1 H2]. unfold clamp_move. apply Qle_bool_iff in H1, H2. by rewrite H1, H2. Qed.

(** A position farther than [b] beyond the upper limit stays where it is:
    every move of at most [b] lands outside, and [clamp_move] refuses it. *)
Lemma clamp_move_stuck pos d pad lim b :
  lim - pad < pos - b -> Qabs d <= b -> clamp_move pos d pad lim = pos.
Proof.
  intros Hp Hd. apply Qabs_Qle_condition in Hd. unfold clamp_move.
  replace (Qle_bool (pos + d) (lim - pad)) with false; [by rewrite andb_false_r|].
  symmetry. apply not_true_iff_false. rewrite Qle_bool_iff. lra.
Qed.

Lemma tick_x cfg info p :
  x (tick cfg info p) = clamp_move (x p) (axis_delta (moveLeft p) (moveRight p) (inject_Z (speed p)))
                          (inject_Z (size p) / 2) (inject_Z (roomSize_width cfg)).
Proof. reflexivity. Qed.
Lemma tick_y cfg info p :
  y (tick cfg info p) = clamp_move (y p) (axis_delta (moveUp p) (moveDown p) (inject_Z (speed p)))
                          (inject_Z (size p) / 2) (inject_Z (roomSize_height cfg)).
Proof. reflexivity. Qed.

(** ** The nearest book *)

(** What [checkForNearbyBooks] promises: the index of the first book
    nearest to the player among those closer than 40, or -1 when none is. *)
Definition nearest_spec (px py : Q) (ps : list Position) (i : Q) : Prop :=
  (i = -1 /\ Forall (fun b => 40 * 40 <= dist2 px py b) ps) \/
  exists k b, ps !! k = Some b /\ i = pos_index b /\ dist2 px py b < 40 * 40 /\
    (forall j b', (j < k)%nat -> ps !! j = Some b' -> dist2 px py b < dist2 px py b') /\
    (forall j b', (k < j)%nat -> ps !! j = Some b' -> dist2 px py b <= dist2 px py b').

Lemma lookup_snoc_Some {A} (l : list A) b j b' :
  (l ++ [b]) !! j = Some b' -> l !! j = Some b' \/ (j = length l /\ b' = b).
Proof.
  intros [Hj|[Hle Hj]]%lookup_app_Some; [by left|right].
  apply list_lookup_singleton_Some in Hj as [? ->]. split; [lia|done].
Qed.

(** The accumulator of the [forEach] after a prefix [l] of the books. *)
Lemma nearest_fold px py l :
  let '(c, i) := fold_left (nearest_step px py) l (40 * 40, -1) in
  (c = 40 * 40 /\ i = -1 /\ Forall (fun b => 40 * 40 <= dist2 px py b) l) \/
  exists k b, l !! k = Some b /\ i = pos_index b /\ c = dist2 px py b /\ dist2 px py b < 40 * 40 /\
    (forall j b', (j < k)%nat -> l !! j = Some b' -> dist2 px py b < dist2 px py b') /\
    (forall j b', (k < j)%nat -> l !! j = Some b' -> dist2 px py b <= dist2 px py b').
Proof.
  induction l as [|b l IH] using rev_ind; [by left|].
  rewrite fold_left_app. destruct (fold_left _ l _) as [c i]. cbn [fold_left nearest_step].
  destruct (Qltb (dist2 px py b) c) eqn:E; [apply Qltb_iff in E | apply negb_false_iff, Qle_bool_iff in E].
  - right. exists (length l), b. rewrite lookup_app_r, Nat.sub_diag by lia. split; [done|].
    split; [done|]. split; [done|]. split.
    { destruct IH as [(-> & _ & _)|(k & b0 & _ & _ & -> & Hb0 & _)]; [done | eapply Qlt_trans; eauto]. }
    split; [|intros j b' Hj [Hj'|[-> _]]%lookup_snoc_Some; [apply lookup_lt_Some in Hj'|]; lia].
    intros j b' Hj [Hj'|[-> _]]%lookup_snoc_Some; [|lia].
    destruct IH as [(-> & _ & Hall)|(k & b0 & Hk & _ & -> & _ & Hlt & Hge)].
    + apply (Forall_lookup_1 _ _ _ _ Hall) in Hj'. eapply Qlt_le_trans; eauto.
    + destruct (Nat.lt_total j k) as [Hjk|[->|Hjk]].
      * eapply Qlt_trans; [exact E | exact (Hlt _ _ Hjk Hj')].
      * rewrite Hk in Hj'. by injection Hj' as ->.
      * eapply Qlt_le_trans; [exact E | exact (Hge _ _ Hjk Hj')].
  - destruct IH as [(-> & -> & Hall)|(k & b0 & Hk & -> & -> & Hb0 & Hlt & Hge)].
    + left. split; [done|]. split; [done|]. apply Forall_app. split; [done|]. by constructor.
    + right. exists k, b0. rewrite lookup_app_l by (by apply lookup_lt_Some in Hk).
      do 4 (split; [done|]). split.
      * intros j b' Hj [Hj'|[-> _]]%lookup_snoc_Some; [exact (Hlt _ _ Hj Hj')|].
        apply lookup_lt_Some in Hk. lia.
      * intros j b' Hj [Hj'|[-> ->]]%lookup_snoc_Some; [exact (Hge _ _ Hj Hj') | exact E].
Qed.

(** No book within reach: the index stays -1. *)
Lemma nearest_book_none px py ps :
  Forall (fun b => 40 * 40 <= dist2 px py b) ps -> nearest_book px py ps = -1.
Proof.
  intros Hall. unfold nearest_book. pose proof (nearest_fold px py ps) as H.
  destruct (fold_left _ _ _) as [c i]. destruct H as [(_ & -> & _)|(k & b & Hk & _ & _ & Hb & _)]; [done|].
  apply (Forall_lookup_1 _ _ _ _ Hall) in Hk. exfalso. by apply (Qlt_not_le _ _ Hb).
Qed.

(** A book at least 40 below the player is out of reach. *)
Lemma dist2_far px py b : py + 40 <= pos_y b -> 40 * 40 <= dist2 px py b.
Proof.
  intros H. unfold dist2. set (u := px - pos_x b). set (v := py - pos_y b).
  assert (Hv : 40 <= - v) by (unfold v; lra). clearbody u v.
  assert (0 <= u * u) by nra. nra.
Qed.

(** The record written at a tick is a JSON value. *)
Lemma pos_record_wf sx sy info :
  valid_number sx = true -> valid_number sy = true -> json_wf (pos_record sx sy info) = true.
Proof.
  intros Hx Hy. cbn [json_wf pos_record forallb fst snd].
  rewrite Hx, Hy, !valid_number_z_to_js, bool_decide_true by decide_true. reflexivity.
Qed.

Lemma num_prop_pos_x sx sy info :
  num_prop (pos_record sx sy info) (js "x")
  = match number_value sx with Some q => mret q | None => throw Unmodelled end.
Proof. reflexivity. Qed.
Lemma num_prop_pos_y sx sy info :
  num_prop (pos_record sx sy info) (js "y")
  = match number_value sy with Some q => mret q | None => throw Unmodelled end.
Proof. reflexivity. Qed.

(** ** Holding W *)

Lemma tick_keys cfg info p :
  moveUp (tick cfg info p) = moveUp p /\ moveDown (tick cfg info p) = moveDown p /\
  speed (tick cfg info p) = speed p /\ size (tick cfg info p) = size p.
Proof. repeat split. Qed.

(** The exit is recomputed from the position the tick reaches. *)
Lemma tick_north cfg info p :
  y (tick cfg info p) < 40 -> isAtExit (tick cfg info p) = Some (js "north").
Proof.
  intros H. change (room_exit cfg (x (tick cfg info p)) (y (tick cfg info p)) = Some (js "north")).
  unfold room_exit. by rewrite (proj2 (Qltb_iff _ _) H).
Qed.

(** Holding W and not S, a tick moves the player up by [speed], or leaves
    it in place when that step would cross the top padding. *)
Lemma tick_up cfg info p :
  moveUp p = true -> moveDown p = false -> 0 <= inject_Z (speed p) ->
  y p <= inject_Z (roomSize_height cfg) - inject_Z (size p) / 2 ->
  y (tick cfg info p) == y p - inject_Z (speed p) \/
  (y (tick cfg info p) = y p /\ y p - inject_Z (speed p) < inject_Z (size p) / 2).
Proof.
  intros Hu Hd Hs Hy. rewrite tick_y, Hu, Hd. unfold clamp_move, axis_delta. cbv [negb].
  set (s := inject_Z (speed p)) in *. set (pad := inject_Z (size p) / 2) in *.
  set (H := inject_Z (roomSize_height cfg)) in *. clearbody s pad H.
  destruct (Qle_bool pad (y p + (0 - s))) eqn:E1, (Qle_bool (y p + (0 - s)) (H - pad)) eqn:E2;
    cbn [andb].
  - left. lra.
  - enough (Qle_bool (y p + (0 - s)) (H - pad) = true) by congruence. apply Qle_bool_iff. lra.
  - right. split; [done|]. apply Qnot_le_lt. intros C.
    assert (C' : pad <= y p + (0 - s)) by lra. apply Qle_bool_iff in C'. congruence.
  - right. split; [done|]. apply Qnot_le_lt. intros C.
    assert (C' : pad <= y p + (0 - s)) by lra. apply Qle_bool_iff in C'. congruence.
Qed.

(** Within [k] steps of [speed] above the exit line, holding W reaches it. *)
Lemma hold_w_within cfg info n : forall p,
  moveUp p = true -> moveDown p = false -> 0 <= inject_Z (speed p) ->
  inject_Z (size p) / 2 + inject_Z (speed p) <= 40 ->
  y p <= inject_Z (roomSize_height cfg) - inject_Z (size p) / 2 ->
  y p < 40 + inject_Z (Z.of_nat n) * inject_Z (speed p) ->
  eventually (tick cfg info) (fun p' => isAtExit p' = Some (js "north")) p.
Proof.
  induction n as [|n IH]; intros p Hu Hd Hs Hpad Hy Hk'.
  - change (inject_Z (Z.of_nat 0)) with 0 in Hk'. apply eventually_step, eventually_now, tick_north.
    destruct (tick_up cfg info p Hu Hd Hs Hy) as [E|[E _]]; [lra | rewrite E; lra].
  - rewrite Nat2Z.inj_succ, <- Z.add_1_r, inject_Z_plus, Qmult_plus_distr_l, Qmult_1_l in Hk'.
    apply eventually_step.
    destruct (tick_up cfg info p Hu Hd Hs Hy) as [E|[E Hst]].
    + destruct (tick_keys cfg info p) as (Hu' & Hd' & Hs' & Hz').
      apply IH; rewrite ?Hu', ?Hd', ?Hs', ?Hz'; try done; [lra|].
      set (m := inject_Z (Z.of_nat n) * inject_Z (speed p)) in *. clearbody m. lra.
    + apply eventually_now, tick_north. rewrite E. lra.
Qed.

(** ** Theorems *)

(** C35: a tick keeps the player's disc inside the room, and moves it by
    at most [speed] along each axis. *)
Theorem update_in_room cfg info p w :
  (0 <= speed p)%Z -> in_room cfg p ->
  let p' := fst (snd (update cfg info (p, w))) in
  in_room cfg p' /\ Qabs (x p' - x p) <= inject_Z (speed p) /\ Qabs (y p' - y p) <= inject_Z (speed p).
Proof.
  intros Hs [Hx Hy] p'. subst p'. rewrite update_player.
  assert (Hs' : 0 <= inject_Z (speed p)) by (change (inject_Z 0 <= inject_Z (speed p)); by rewrite <- Zle_Qle).
  destruct (clamp_move_bounds _ _ _ _ _ Hx (axis_delta_bound (moveLeft p) (moveRight p) _ Hs')) as [Hx1 Hx2].
  destruct (clamp_move_bounds _ _ _ _ _ Hy (axis_delta_bound (moveUp p) (moveDown p) _ Hs')) as [Hy1 Hy2].
  rewrite tick_x, tick_y. split; [split|split]; assumption.
Qed.

(** C36: [checkForNearbyBooks] sets [nearbyBookIndex] to the index of the
    first book nearest to the player among those closer than 40, and to -1
    when there is none. *)
Theorem checkForNearbyBooks_nearest ps p w :
  nearest_spec (x p) (y p) ps (nearbyBookIndex (fst (snd (checkForNearbyBooks ps (p, w))))).
Proof.
  cbn [checkForNearbyBooks modify fst snd nearbyBookIndex set_nearby]. unfold nearest_book.
  pose proof (nearest_fold (x p) (y p) ps) as H. destruct (fold_left _ _ _) as [c i]. cbn [snd].
  destruct H as [(_ & -> & Hall)|(k & b & Hk & -> & _ & Hb & Hlt & Hge)]; [by left|right].
  by exists k, b.
Qed.

(** C13 (roundtrip): the position written at a tick brings a reloaded player back: a
    new [Player] whose [initialize] reads the storage left by a successful
    [update] stands where the updated player stood. *)
Theorem position_reload cfg info p w p' w' n d :
  Save.savePrefix (psave p) = Save.savePrefix Save.new_SaveSystem ->
  update cfg info (p, w) = (Ok tt, (p', w')) ->
  exists p'' w'', initialize (new_Player cfg n d, w') = (Ok tt, (p'', w'')) /\
    x p'' == x p' /\ y p'' == y p'.
Proof.
  intros Hpre Hu. rewrite update_run in Hu. cbv zeta in Hu.
  destruct (number_lexeme (x (tick cfg info p))) as [sx|] eqn:Ex; [|discriminate].
  destruct (number_lexeme (y (tick cfg info p))) as [sy|] eqn:Ey; [|discriminate].
  injection Hu as <- <-.
  destruct (number_lexeme_spec _ _ Ex) as [Hvx (vx & Hx & Hqx)].
  destruct (number_lexeme_spec _ _ Ey) as [Hvy (vy & Hy & Hqy)].
  unfold initialize. rewrite st_run_bind, player_with_save_run.
  rewrite (Save.loadPlayerPosition_stored (pos_record sx sy info)); [| by apply pos_record_wf |].
  - cbn [fst snd]. replace (truthy (pos_record sx sy info)) with true by reflexivity.
    rewrite st_run_bind, num_prop_pos_x, Hx, st_run_ret, st_run_bind. cbn [modify fst snd].
    rewrite st_run_bind, num_prop_pos_y, Hy, st_run_ret. cbn [modify].
    eexists _, _. split; [reflexivity|]. done.
  - cbn [psave new_Player set_card set_nearby set_exit tick move set_x set_y ls set_ls].
    rewrite <- Hpre. apply lookup_insert_eq.
Qed.

(** C15 (liveness): holding W, and not S, the player reaches the north
    exit: from any height inside the room, ticks of [update] eventually
    set [isAtExit] to ["north"], provided the top padding plus one step is
    within the exit distance 40 ([size / 2 + speed <= 40]; 16 + 3 in the
    shipped configuration).  The player is never stuck below the exit line. *)
Theorem hold_w_reaches_north cfg info p :
  moveUp p = true -> moveDown p = false -> (0 < speed p)%Z ->
  inject_Z (size p) / 2 + inject_Z (speed p) <= 40 ->
  y p <= inject_Z (roomSize_height cfg) - inject_Z (size p) / 2 ->
  eventually (tick cfg info) (fun p' => isAtExit p' = Some (js "north")) p.
Proof.
  intros Hu Hd Hs Hpad Hy. set (k := Z.max 0 (Qceiling (y p))).
  assert (Hks : (k <= k * speed p)%Z) by nia.
  apply (hold_w_within cfg info (Z.to_nat k)); try done; rewrite ?Z2Nat.id by lia.
  - change 0 with (inject_Z 0). rewrite <- Zle_Qle. lia.
  - rewrite <- inject_Z_mult. rewrite Zle_Qle in Hks. pose proof (Qle_ceiling (y p)) as Hc.
    assert (Hmax : inject_Z (Qceiling (y p)) <= inject_Z k) by (rewrite <- Zle_Qle; lia). lra.
Qed.

(** ** Witnesses *)

(** A new player in the shipped configuration holding W and A, in the room
    of [Geometry.full_room]. *)
Definition walker : Player := set_moves true false true false (new_Player CONFIG JNull JNull).
Definition sample_info : RoomInfo := getRoomInfo CONFIG full_room.

Lemma update_in_room_witness :
  (0 <= speed walker)%Z /\ in_room CONFIG walker /\
  let p' := fst (snd (update CONFIG sample_info (walker, world0 0 [] []))) in
  in_room CONFIG p' /\ Qabs (x p' - x walker) <= inject_Z (speed walker) /\
  Qabs (y p' - y walker) <= inject_Z (speed walker).
Proof.
  assert (Hs : (0 <= speed walker)%Z) by decide_true.
  assert (Hr : in_room CONFIG walker) by (unfold in_room, Qle; vm_compute; repeat split; intros H; discriminate H).
  split; [exact Hs|]. split; [exact Hr|]. exact (update_in_room CONFIG sample_info walker _ Hs Hr).
Defined.

Lemma position_reload_witness :
  exists p' w', update CONFIG sample_info (walker, world0 0 [] []) = (Ok tt, (p', w')) /\
    exists p'' w'', initialize (new_Player CONFIG JNull JNull, w') = (Ok tt, (p'', w'')) /\
      x p'' == x p' /\ y p'' == y p'.
Proof.
  eexists _, _. split; [vm_compute; reflexivity|].
  apply (position_reload CONFIG sample_info walker (world0 0 [] [])); [reflexivity | vm_compute; reflexivity].
Defined.

(** A new player holding W in the shipped configuration, in the middle of
    the room. *)
Definition climber : Player := set_moves true false false false (new_Player CONFIG JNull JNull).

Lemma hold_w_reaches_north_witness :
  eventually (tick CONFIG sample_info) (fun p' => isAtExit p' = Some (js "north")) climber.
Proof.
  apply (hold_w_reaches_north CONFIG sample_info climber);
    [reflexivity | reflexivity | decide_true | unfold Qle; vm_compute; intros H; discriminate H
    | unfold Qle; vm_compute; intros H; discriminate H].
Defined.

End Player.
