(* ===== verification/TestSuite.v ===== *)
(** * The main test suite: [class TestSuite] (test.js 1-339).

    The suite creates objects of the game's classes ([APIHandler],
    [SaveSystem], [Book], [Library], [Player]), replaces some of their
    methods on the instance, calls others, and counts its assertions.  A
    test runs with its local objects beside the suite ([TL T]): [obj] runs
    a method on the object, [local] creates it and drops it when the test
    returns.  The replaced methods are instances of the interfaces the
    objects call them through: [Api.Generator] for [this.api],
    [Save.SaveMethods] for [this.save], and the [callAPI] method the
    generators take.  The objects are local, but [localStorage] is the
    player's own: the suite writes to it under the game's prefix. *)
From Stdlib Require Import QArith.
From S2P Require Import Prelude JsString Json Numbers Config World Api Save Book Library Geometry Player.
Open Scope Z_scope.

Module TestSuite.
Import Geometry.

Record Suite := {
  testsRun : Z;
  testsPassed : Z;
  testsFailed : Z;
  console : list (bool * jstr)
}.

(** [new TestSuite()] (test.js 3-7) *)
Definition new_TestSuite : Suite := {| testsRun := 0; testsPassed := 0; testsFailed := 0; console := [] |}.

Abbreviation SW := (Suite * World)%type.

(** A test's state: the suite, the test's local object and the world. *)
Abbreviation TL T := ((Suite * T) * World)%type.

(** [assert(condition, message)] (test.js 36-48): the counters and the
    line written to the console. *)
Definition count (condition : bool) (message : jstr) (s : Suite) : Suite :=
  {| testsRun := testsRun s + 1;
     testsPassed := if condition then testsPassed s + 1 else testsPassed s;
     testsFailed := if condition then testsFailed s else testsFailed s + 1;
     console := console s ++ [(condition, message)] |}.

Definition assert {T} (condition : bool) (message : jstr) : St (TL T) bool :=
  modify (fun '((s, o), w) => ((count condition message s, o), w));;
  mret condition.

(** A method call on the test's object. *)
Definition obj {T A} (m : St (T * World) A) : St (TL T) A :=
  zoom (fun '((_, o), w) => (o, w)) (fun '(o, w) '((s, _), _) => ((s, o), w)) m.

(** A test with its local object [o], which it drops when it returns. *)
Definition local {T A} (o : T) (m : St (TL T) A) : St SW A :=
  fun '(s, w) => let '(r, ((s', _), w')) := m ((s, o), w) in (r, (s', w')).

(** [v === 'text'] and [v === n] on the values the tests read. *)
Definition js_str_is (v : jsval) (t : jstr) : bool :=
  match v with JStr u => bool_decide (u = t) | _ => false end.

Definition js_num_is (v : jsval) (q : Q) : bool :=
  match v with
  | JNum lx => match number_value lx with Some q' => Qeq_bool q' q | None => false end
  | _ => false
  end.

(** [v.k]: a TypeError on [null] or [undefined]. *)
Definition prop {S} (v : jsval) (k : jstr) : St S jsval :=
  match get_prop v k with Some x => mret x | None => throw TypeError end.

(** [v.includes(t)] on a string; other values are not followed. *)
Definition str_includes {S} (v : jsval) (t : jstr) : St S bool :=
  match v with
  | JStr u => mret (includes u t)
  | JUndef | JNull => throw TypeError
  | _ => throw Unmodelled
  end.

(** [v && v.includes(t)] as a condition. *)
Definition and_includes {S} (v : jsval) (t : jstr) : St S bool :=
  if truthy v then str_includes v t else mret false.

Section WithConfig.
Context (cfg : Config).

(** ** [testModulesLoad()] (test.js 50-89)

    [typeof CONFIG === 'object'] and [typeof C === 'function'] for the six
    classes: the suite runs on the game's page, where the scripts declaring
    them are loaded (their declarations are the files of this development). *)
Definition testModulesLoad : St SW unit :=
  local tt (
    assert true (js "CONFIG object is defined");;
    assert true (js "APIHandler class is defined");;
    assert true (js "SaveSystem class is defined");;
    assert true (js "Book class is defined");;
    assert true (js "Library class is defined");;
    assert true (js "Player class is defined");;
    assert true (js "Game class is defined");;
    mret tt).

(** ** [testAPIHandler()] (test.js 91-129) *)

(** [api.callAPI = async (prompt) => `Test response for prompt: ${prompt.substring(0, 20)}...`] *)
Definition mock_callAPI (prompt : jstr) : St Api.H jsval :=
  mret (JStr (js "Test response for prompt: " ++ substring prompt 0 20 ++ js "...")).

(** [catalog !== null] *)
Definition not_null (v : jsval) : bool := match v with JNull => false | _ => true end.

Definition testAPIHandler : St SW unit :=
  key ← on_world (getItem (js "babel_api_key"));
  if Api.key_truthy key then
    local Api.new_APIHandler (
      story ← obj (Api.generateCharacterStory cfg mock_callAPI (js "Test Player") (js "A test character"));
      c ← and_includes story (js "Test response");
      assert c (js "generateCharacterStory returns mock content");;
      bookContent ← obj (Api.generateBookContent cfg mock_callAPI (JStr (js "Test Book")) 1);
      c ← and_includes bookContent (js "Test response");
      assert c (js "generateBookContent returns mock content");;
      catalog ← obj (Api.generateRoomCatalog cfg mock_callAPI 0 0);
      assert (not_null catalog) (js "generateRoomCatalog returns a non-null result");;
      mret tt)
  else mret tt.

(** ** [testSaveSystem()] (test.js 131-191) *)

Definition testCharacter : jsval :=
  JObj [(js "name", JStr (js "Test Character")); (js "description", JStr (js "A test character for unit tests"))].

Definition testCatalog : jsval := JArr [JStr (js "Book 1"); JStr (js "Book 2"); JStr (js "Book 3")].

Definition testContent : jstr := js "This is test book content for page 1".

Definition testSaveSystem : St SW unit :=
  local Save.new_SaveSystem (
    obj (Save.saveCharacter testCharacter);;
    loadedCharacter ← obj Save.loadCharacter;
    c ← (if truthy loadedCharacter
         then n ← prop loadedCharacter (js "name"); mret (js_str_is n (js "Test Character"))
         else mret false);
    assert c (js "Character data is correctly saved and loaded");;
    obj (Save.savePlayerPosition (JNum (js "100")) (JNum (js "200")) (JNum (js "10")) (JNum (js "20")));;
    loadedPosition ← obj Save.loadPlayerPosition;
    c ← (if truthy loadedPosition
         then px ← prop loadedPosition (js "x");
              if js_num_is px 100
              then rx ← prop loadedPosition (js "roomX"); mret (js_num_is rx 10)
              else mret false
         else mret false);
    assert c (js "Player position is correctly saved and loaded");;
    obj (Save.saveRoomCatalog 5 5 testCatalog);;
    loadedCatalog ← obj (Save.loadRoomCatalog 5 5);
    assert (match loadedCatalog with
            | JArr xs => (length xs =? 3)%nat && match xs !! 0%nat with Some v => js_str_is v (js "Book 1") | None => false end
            | _ => false
            end) (js "Room catalog is correctly saved and loaded");;
    obj (Save.saveBookContent 5 5 1 1 (JStr testContent));;
    loadedContent ← obj (Save.loadBookContent 5 5 1 1);
    assert (js_str_is loadedContent testContent) (js "Book content is correctly saved and loaded");;
    mret tt).

(** ** [testBookClass()] (test.js 193-243) *)

(** [testBook.api.generateBookContent = async () => 'Generated test content for page'] *)
Definition book_generator : Api.Generator := {|
  Api.gen_catalog := Api.generateRoomCatalog cfg (Api.callAPI cfg);
  Api.gen_page _ _ := mret (JStr (js "Generated test content for page"))
|}.

(** [testBook.save.loadBookContent = async () => null;
    testBook.save.saveBookContent = async () => true]: the book ignores
    what [saveBookContent] resolves to. *)
Definition book_save : Save.SaveMethods := {|
  Save.sv_loadRoomCatalog := Save.loadRoomCatalog;
  Save.sv_saveRoomCatalog := Save.saveRoomCatalog;
  Save.sv_loadBookContent _ _ _ _ := mret JNull;
  Save.sv_saveBookContent _ _ _ _ _ := mret tt
|}.

Definition testBookClass : St SW unit :=
  local (Book.new_Book (JStr (js "Test Book Title")) 3 3 5) (
    b ← obj self;
    assert (js_str_is (Book.title b) (js "Test Book Title") && (Book.roomX b =? 3) && (Book.bookIndex b =? 5))
      (js "Book initializes with correct properties");;
    content ← obj (Book.getPageContent (G := book_generator) (SV := book_save));
    c ← str_includes content (js "Generated test content");
    assert c (js "Book getPageContent works when no saved content exists");;
    obj (modify (fun '(b, w) => (Book.set_currentPage 1 b, w)));;
    obj (Book.nextPage (G := book_generator) (SV := book_save));;
    b ← obj self;
    assert (Book.currentPage b =? 2) (js "nextPage increments current page");;
    obj (Book.prevPage (G := book_generator) (SV := book_save));;
    b ← obj self;
    assert (Book.currentPage b =? 1) (js "prevPage decrements current page");;
    obj (Book.prevPage (G := book_generator) (SV := book_save));;
    b ← obj self;
    assert (Book.currentPage b =? 1) (js "prevPage does not go below page 1");;
    mret tt).

(** ** [testLibraryClass()] (test.js 245-290) *)

(** [library.api.generateRoomCatalog = async () => ['Test Book 1', 'Test Book 2', 'Test Book 3']]:
    a new array at each call. *)
Definition library_generator : Api.Generator := {|
  Api.gen_catalog _ _ := mret (JArr [JStr (js "Test Book 1"); JStr (js "Test Book 2"); JStr (js "Test Book 3")]);
  Api.gen_page := Api.generateBookContent cfg (Api.callAPI cfg)
|}.

(** [library.save.loadRoomCatalog = async () => null;
    library.save.saveRoomCatalog = async () => true] *)
Definition library_save : Save.SaveMethods := {|
  Save.sv_loadRoomCatalog _ _ := mret JNull;
  Save.sv_saveRoomCatalog _ _ _ := mret tt;
  Save.sv_loadBookContent := Save.loadBookContent;
  Save.sv_saveBookContent := Save.saveBookContent
|}.

Definition testLibraryClass : St SW unit :=
  local Library.new_Library (
    obj (Library.loadRoom cfg (G := library_generator) (SV := library_save) 10 10);;
    l ← obj self;
    assert ((Library.currentRoomX l =? 10) && (Library.currentRoomY l =? 10))
      (js "Library loadRoom sets current room coordinates");;
    l ← obj self;
    assert (0 <? length (Library.books l))%nat (js "Library loadRoom creates book objects");;
    l ← obj self;
    assert (match Library.cardCatalog l with JArr xs => (0 <? length xs)%nat | _ => false end)
      (js "Library has a card catalog after loading room");;
    l ← obj self;
    let origX := Library.currentRoomX l in
    obj (Library.moveToRoom cfg (G := library_generator) (SV := library_save) (js "east"));;
    l ← obj self;
    assert (Library.currentRoomX l =? origX + 1) (js "moveToRoom east increases X coordinate");;
    let origY := Library.currentRoomY l in
    obj (Library.moveToRoom cfg (G := library_generator) (SV := library_save) (js "north"));;
    l ← obj self;
    assert (Library.currentRoomY l =? origY - 1) (js "moveToRoom north decreases Y coordinate");;
    mret tt).

(** ** [testPlayerClass()] (test.js 292-338) *)

(** [{ roomX: 0, roomY: 0, bookPositions: [] }]: [update] reads no other
    field, so [totalRooms] and [cardCatalog], absent from the literal, are
    given any value. *)
Definition test_room_info : RoomInfo :=
  {| info_roomX := 0; info_roomY := 0; totalRooms := 0; info_cardCatalog := JUndef; bookPositions := [] |}.

Definition testPlayerClass : St SW unit :=
  local (Player.new_Player cfg (JStr (js "Test Player")) (JStr (js "A test player"))) (
    p ← obj self;
    assert (js_str_is (Player.name p) (js "Test Player") && js_str_is (Player.description p) (js "A test player"))
      (js "Player initializes with correct properties");;
    let originalX := Player.x p in
    obj (modify (fun '(p, w) => (Player.set_moves (Player.moveUp p) (Player.moveDown p) (Player.moveLeft p) true p, w)));;
    obj (Player.update cfg test_room_info);;
    p ← obj self;
    assert (Qltb originalX (Player.x p)) (js "Player moves right when moveRight is true");;
    obj (modify (fun '(p, w) => (Player.set_moves (Player.moveUp p) (Player.moveDown p) (Player.moveLeft p) false p, w)));;
    obj (modify (fun '(p, w) => (Player.set_moves (Player.moveUp p) (Player.moveDown p) true (Player.moveRight p) p, w)));;
    p ← obj self;
    let currentX := Player.x p in
    obj (Player.update cfg test_room_info);;
    p ← obj self;
    assert (Qltb (Player.x p) currentX) (js "Player moves left when moveLeft is true");;
    obj (Player.handleKeyDown (js "w"));;
    p ← obj self;
    assert (Player.moveUp p) (js "Player sets moveUp flag when W is pressed");;
    obj (Player.handleKeyUp (js "w"));;
    p ← obj self;
    assert (negb (Player.moveUp p)) (js "Player clears moveUp flag when W is released");;
    mret tt).

(** ** [runTests()] (test.js 9-34): resolves to [this.testsFailed === 0]. *)
Definition runTests : St SW jsval :=
  testModulesLoad;;
  testAPIHandler;;
  testSaveSystem;;
  testBookClass;;
  testLibraryClass;;
  testPlayerClass;;
  s ← gets fst;
  mret (JBool (testsFailed s =? 0)).

End WithConfig.

(** ** Runs of the tests *)

(** The suite after the assertions [log], in order. *)
Definition record (log : list (bool * jstr)) (s : Suite) : Suite :=
  fold_left (fun s l => count l.1 l.2 s) log s.

(** The console lines a test writes on a new suite in the world [w]. *)
Definition log_of (t : St SW unit) (w : World) : list (bool * jstr) :=
  console (fst (snd (t (new_TestSuite, w)))).

(** A profile whose storage holds an API key and nothing else. *)
Definition keyed_world : World := set_ls {[js "babel_api_key" := js "sk-test"]} (world0 0 [] []).

Lemma record_counts log s :
  testsRun (record log s) = testsRun s + Z.of_nat (length log) /\
  testsPassed (record log s) = testsPassed s + Z.of_nat (length (List.filter fst log)) /\
  testsFailed (record log s) = testsFailed s + Z.of_nat (length (List.filter (fun l => negb l.1) log)).
Proof.
  revert s. induction log as [|[c m] log IH]; intros s; [cbn; lia|].
  cbn [record fold_left fst snd List.filter length negb]. unfold record in IH.
  destruct (IH (count c m s)) as (H1 & H2 & H3). rewrite H1, H2, H3. cbn [count testsRun testsPassed testsFailed].
  destruct c; cbn [length negb]; lia.
Qed.

Lemma record_app l1 l2 s : record (l1 ++ l2) s = record l2 (record l1 s).
Proof. unfold record. by rewrite fold_left_app. Qed.

Lemma local_run {T A} (o : T) (m : St (TL T) A) s w :
  local o m (s, w) = let '(r, ((s', _), w')) := m ((s, o), w) in (r, (s', w')).
Proof. reflexivity. Qed.

Lemma obj_run {T A} (m : St (T * World) A) s o w :
  obj m ((s, o), w) = let '(r, (o', w')) := m (o, w) in (r, ((s, o'), w')).
Proof. unfold obj, zoom. by destruct (m (o, w)) as [? [? ?]]. Qed.

Lemma assert_run {T} c msg s (o : T) w : assert c msg ((s, o), w) = (Ok c, ((count c msg s, o), w)).
Proof. reflexivity. Qed.

(** Symbolic runs: everything is computed but the methods that read or
    write the world, which the proofs replace by their run lemmas, the
    counters, and the storage map, which stays abstract. *)
Tactic Notation "ts_cbv" "in" hyp(H) :=
  cbv -[Save.saveCharacter Save.loadCharacter Save.savePlayerPosition Save.loadPlayerPosition
        Save.saveRoomCatalog Save.loadRoomCatalog Save.saveBookContent Save.loadBookContent
        Api.generateCharacterStory Api.generateBookContent Api.generateRoomCatalog
        count insert lookup ls set_ls] in H.

(** Rewrite the run [E] of a method in the symbolic run [ER]. *)
Ltac ts_rewrite ER E := ts_cbv in ER; ts_cbv in E; rewrite E in ER.

Lemma index_ok_insert w slot keys k v :
  k <> slot -> Save.index_ok w slot keys -> Save.index_ok (set_ls (<[k := v]> (ls w)) w) slot keys.
Proof. intros Hk. apply Save.index_ok_frame. cbn [ls set_ls]. by rewrite lookup_insert_ne. Qed.

(** The tests that do not touch the world run the same in every one. *)
Lemma testModulesLoad_run s w : testModulesLoad (s, w) = (Ok tt, (record (log_of testModulesLoad w) s, w)).
Proof. vm_compute. reflexivity. Qed.

Lemma testBookClass_run s w :
  testBookClass CONFIG (s, w) = (Ok tt, (record (log_of (testBookClass CONFIG) (world0 0 [] [])) s, w)).
Proof. vm_compute. reflexivity. Qed.

Lemma testLibraryClass_run s w :
  testLibraryClass CONFIG (s, w) = (Ok tt, (record (log_of (testLibraryClass CONFIG) (world0 0 [] [])) s, w)).
Proof. vm_compute. reflexivity. Qed.

(** The player test writes the position twice: after the move right, and
    back at the centre after the move left, in room (0, 0). *)
Definition test_position (sx : jstr) : jstr :=
  Save.stored_json (Player.pos_record sx (js "300") test_room_info).

Lemma testPlayerClass_run s w :
  testPlayerClass CONFIG (s, w) =
    (Ok tt, (record (log_of (testPlayerClass CONFIG) (world0 0 [] [])) s,
             set_ls (<[js "babel_player_pos" := test_position (js "400")]>
                       (<[js "babel_player_pos" := test_position (js "403")]> (ls w))) w)).
Proof. vm_compute. reflexivity. Qed.

Definition test_pos : jsval :=
  JObj [(js "x", JNum (js "100")); (js "y", JNum (js "200")); (js "roomX", JNum (js "10")); (js "roomY", JNum (js "20"))].

(** On well-formed index records the save test passes its four
    assertions, and leaves the test character and the three-title catalog
    of room (5, 5) in storage. *)
Lemma testSaveSystem_run s w rooms books :
  Save.index_ok w (js "babel_known_rooms") rooms -> Save.index_ok w (js "babel_known_books") books ->
  exists w', testSaveSystem (s, w) = (Ok tt, (record (log_of testSaveSystem (world0 0 [] [])) s, w')) /\
    ls w' !! js "babel_character" = Some (Save.stored_json testCharacter) /\
    ls w' !! js "babel_room_5,5" = Some (Save.stored_json testCatalog).
Proof.
  intros Hr Hb. set (sv0 := Save.new_SaveSystem).
  pose proof (Save.saveCharacter_run testCharacter sv0 w) as E1. set (w1 := set_ls _ w) in E1.
  assert (E2 : Save.loadCharacter (sv0, w1) = (Ok testCharacter, (sv0, w1))).
  { apply Save.loadCharacter_stored; [reflexivity|]. cbn [w1 ls set_ls]. apply lookup_insert_eq. }
  pose proof (Save.savePlayerPosition_run (JNum (js "100")) (JNum (js "200")) (JNum (js "10")) (JNum (js "20")) sv0 w1)
    as E3.
  set (w2 := set_ls _ w1) in E3.
  assert (E4 : Save.loadPlayerPosition (sv0, w2) = (Ok test_pos, (sv0, w2))).
  { apply Save.loadPlayerPosition_stored; [reflexivity|]. cbn [w2 ls set_ls]. apply lookup_insert_eq. }
  assert (Hr2 : Save.index_ok w2 (Save.savePrefix sv0 ++ js "known_rooms") rooms)
    by (do 2 (apply index_ok_insert; [discriminate|]); exact Hr).
  destruct (Save.saveRoomCatalog_index 5 5 testCatalog sv0 w2 rooms Hr2) as (w3 & E5 & _).
  destruct (Save.saveRoomCatalog_run 5 5 testCatalog sv0 w2) as (r5 & w3' & E5' & Hslot & Hframe).
  rewrite E5 in E5'. injection E5' as <- <-.
  set (sv3 := Save.with_catalog (Save.room_key 5 5) testCatalog sv0) in E5.
  assert (E6 : Save.loadRoomCatalog 5 5 (sv3, w3) = (Ok testCatalog, (sv3, w3))).
  { apply Save.loadRoomCatalog_cached; [|reflexivity]. cbn [sv3 Save.with_catalog Save.roomCatalogs].
    apply lookup_insert_eq. }
  assert (Hb3 : Save.index_ok w3 (Save.savePrefix sv3 ++ js "known_books") books).
  { apply Save.index_ok_frame with w2; [apply Hframe; discriminate|].
    do 2 (apply index_ok_insert; [discriminate|]). exact Hb. }
  destruct (Save.saveBookContent_index 5 5 1 1 (JStr testContent) sv3 w3 books Hb3) as (w4 & E7 & _).
  destruct (Save.saveBookContent_run 5 5 1 1 (JStr testContent) sv3 w3) as (r7 & w4' & E7' & _ & Hframe4).
  rewrite E7 in E7'. injection E7' as <- <-.
  set (sv4 := Save.with_content (Save.book_key 5 5 1 1) (JStr testContent) sv3) in E7.
  assert (E8 : Save.loadBookContent 5 5 1 1 (sv4, w4) = (Ok (JStr testContent), (sv4, w4))).
  { apply Save.loadBookContent_cached; [|reflexivity]. cbn [sv4 Save.with_content Save.bookContents].
    apply lookup_insert_eq. }
  exists w4. split.
  - remember (testSaveSystem (s, w)) as R eqn:ER.
    ts_rewrite ER E1. ts_rewrite ER E2. ts_rewrite ER E3. ts_rewrite ER E4.
    ts_rewrite ER E5. ts_rewrite ER E6. ts_rewrite ER E7. ts_rewrite ER E8.
    ts_cbv in ER. subst R. vm_compute. reflexivity.
  - rewrite !Hframe4 by discriminate. rewrite Hframe by discriminate. split; [|exact Hslot].
    cbn [w2 w1 ls set_ls]. rewrite lookup_insert_ne by discriminate. apply lookup_insert_eq.
Qed.

(** Without a key in storage the API test is skipped. *)
Lemma testAPIHandler_skipped s w :
  Api.key_truthy (ls w !! js "babel_api_key") = false -> testAPIHandler CONFIG (s, w) = (Ok tt, (s, w)).
Proof. intros Hk. unfold testAPIHandler. rewrite st_run_bind. cbn [on_world zoom getItem gets snd]. by rewrite Hk. Qed.

(** With a key, and no [window.MOCK_DATA], the three generators ask the
    replaced [callAPI] and the three assertions pass; the world is only
    read. *)
Lemma testAPIHandler_keyed s w key :
  window_mock w = false -> ls w !! js "babel_api_key" = Some key -> key <> [] ->
  testAPIHandler CONFIG (s, w) = (Ok tt, (record (log_of (testAPIHandler CONFIG) keyed_world) s, w)).
Proof.
  intros Hw Hl Hk.
  destruct (Api.generateCharacterStory_keyed CONFIG mock_callAPI (js "Test Player") (js "A test character")
              Api.new_APIHandler w key Hw Hl Hk) as (h1 & E1).
  destruct (Api.generateBookContent_keyed CONFIG mock_callAPI (JStr (js "Test Book")) 1 h1 w key Hw Hl Hk)
    as (h2 & E2).
  destruct (Api.generateRoomCatalog_keyed CONFIG mock_callAPI 0 0 h2 w key Hw Hl Hk) as (h3 & E3).
  remember (testAPIHandler CONFIG (s, w)) as R eqn:ER. ts_cbv in ER.
  assert (Hl' : ls w !! js "babel_api_key" = Some key) by exact Hl. ts_cbv in Hl'. rewrite Hl' in ER.
  assert (Hk' : Api.key_truthy (Some key) = true) by (unfold Api.key_truthy; by rewrite bool_decide_false).
  ts_cbv in Hk'. rewrite Hk' in ER.
  ts_rewrite ER E1. ts_rewrite ER E2. ts_rewrite ER E3.
  ts_cbv in ER. subst R. vm_compute. reflexivity.
Qed.

(** The whole suite, on any storage whose index records are well formed
    and without [window.MOCK_DATA] (as the game loads it): every assertion
    passes, 26 of them without an API key in storage and 29 with one, and
    [runTests] resolves to [true]; storage keeps the test character, the
    three-title catalog of room (5, 5) and the player's last position. *)
Lemma runTests_run w rooms books :
  window_mock w = false ->
  Save.index_ok w (js "babel_known_rooms") rooms -> Save.index_ok w (js "babel_known_books") books ->
  exists s' w', runTests CONFIG (new_TestSuite, w) = (Ok (JBool true), (s', w')) /\
    testsFailed s' = 0 /\ testsPassed s' = testsRun s' /\
    testsRun s' = (if Api.key_truthy (ls w !! js "babel_api_key") then 29 else 26) /\
    ls w' !! js "babel_character" = Some (Save.stored_json testCharacter) /\
    ls w' !! js "babel_room_5,5" = Some (Save.stored_json testCatalog) /\
    ls w' !! js "babel_player_pos" = Some (test_position (js "400")).
Proof.
  intros Hw Hr Hb. unfold runTests. rewrite st_run_bind, testModulesLoad_run. cbv beta iota.
  rewrite st_run_bind. set (s1 := record (log_of testModulesLoad w) new_TestSuite).
  destruct (Api.key_truthy (ls w !! js "babel_api_key")) eqn:Hk;
    [destruct (ls w !! js "babel_api_key") as [key|] eqn:Hl; [|discriminate];
     rewrite (testAPIHandler_keyed s1 w key Hw Hl) by (intros ->; discriminate)
    |rewrite (testAPIHandler_skipped s1 w Hk)];
    cbv beta iota; rewrite st_run_bind;
    match goal with |- context [testSaveSystem (?s2, w)] =>
      destruct (testSaveSystem_run s2 w rooms books Hr Hb) as (w1 & E & Hc & Hroom) end;
    rewrite E; cbv beta iota;
    rewrite st_run_bind, testBookClass_run; cbv beta iota;
    rewrite st_run_bind, testLibraryClass_run; cbv beta iota;
    rewrite st_run_bind, testPlayerClass_run; cbv beta iota;
    rewrite st_run_bind; unfold gets; cbv beta iota; rewrite st_run_ret;
    (eexists _, _; split; [reflexivity|]);
    (split_and!; [vm_compute; reflexivity..| | |]);
    cbn [ls set_ls]; rewrite ?lookup_insert_eq, ?lookup_insert_ne by discriminate; done.
Qed.

(** ** Theorems *)

(** C20 (functional): on any storage whose index records are well formed,
    in the game's page (no [window.MOCK_DATA]), the main suite passes every
    assertion it makes and resolves to [true]: 26 assertions, and 29 when
    an API key is stored, which enables the three generator tests. *)
Theorem runTests_passes w rooms books :
  window_mock w = false ->
  Save.index_ok w (js "babel_known_rooms") rooms -> Save.index_ok w (js "babel_known_books") books ->
  exists s' w', runTests CONFIG (new_TestSuite, w) = (Ok (JBool true), (s', w')) /\
    testsFailed s' = 0 /\ testsPassed s' = testsRun s' /\
    testsRun s' = (if Api.key_truthy (ls w !! js "babel_api_key") then 29 else 26).
Proof.
  intros Hw Hr Hb. destruct (runTests_run w rooms books Hw Hr Hb) as (s' & w' & E & H1 & H2 & H3 & _).
  by exists s', w'.
Qed.

(** C21 (finding): the suite runs on the player's own storage, under the
    game's prefix, and cleans nothing up.  Afterwards a new game reads the
    test character as the saved one (so [Game.initialize] skips the
    character creation), and a library entering room (5, 5) shows the
    three books of the test catalog instead of [booksPerRoom]: stored
    catalogs are not brought back to [booksPerRoom] titles. *)
Theorem runTests_overwrites_save w rooms books :
  window_mock w = false ->
  Save.index_ok w (js "babel_known_rooms") rooms -> Save.index_ok w (js "babel_known_books") books ->
  let w' := snd (snd (runTests CONFIG (new_TestSuite, w))) in
  fst (Save.loadCharacter (Save.new_SaveSystem, w')) = Ok testCharacter /\
  exists l', Library.loadRoom CONFIG (G := Api.api_generator CONFIG) 5 5 (Library.new_Library, w') =
               (Ok (Library.room_books [JStr (js "Book 1"); JStr (js "Book 2"); JStr (js "Book 3")] 5 5), (l', w')) /\
             length (Library.books l') = 3%nat /\ (length (Library.books l') < Z.to_nat (booksPerRoom CONFIG))%nat.
Proof.
  intros Hw Hr Hb. destruct (runTests_run w rooms books Hw Hr Hb) as (s' & w' & E & _ & _ & _ & Hc & Hroom & _).
  cbv zeta. rewrite E. cbn [fst snd]. split.
  - rewrite (Save.loadCharacter_stored testCharacter); [reflexivity|reflexivity|exact Hc].
  - destruct (Library.loadRoom_stored CONFIG (G := Api.api_generator CONFIG) 5 5 5 5 Library.new_Library w'
                [JStr (js "Book 1"); JStr (js "Book 2"); JStr (js "Book 3")]) as (l' & E' & Hbooks & _);
      [reflexivity|reflexivity|exact Hroom|reflexivity|].
    exists l'. rewrite E', Hbooks. split; [done|]. split; [reflexivity|apply Nat.ltb_lt; reflexivity].
Qed.

(** ** Witnesses *)

Lemma empty_storage_index slot : Save.index_ok (world0 0 [] []) slot [].
Proof. split_and!; [reflexivity|constructor|constructor]. Qed.

Lemma runTests_passes_witness :
  exists s' w', runTests CONFIG (new_TestSuite, world0 0 [] []) = (Ok (JBool true), (s', w')) /\
    testsFailed s' = 0 /\ testsPassed s' = testsRun s' /\
    testsRun s' = (if Api.key_truthy (ls (world0 0 [] []) !! js "babel_api_key") then 29 else 26).
Proof.
  exact (runTests_passes (world0 0 [] []) [] [] eq_refl (empty_storage_index _) (empty_storage_index _)).
Defined.

Lemma runTests_overwrites_save_witness :
  let w' := snd (snd (runTests CONFIG (new_TestSuite, keyed_world))) in
  fst (Save.loadCharacter (Save.new_SaveSystem, w')) = Ok testCharacter /\
  exists l', Library.loadRoom CONFIG (G := Api.api_generator CONFIG) 5 5 (Library.new_Library, w') =
               (Ok (Library.room_books [JStr (js "Book 1"); JStr (js "Book 2"); JStr (js "Book 3")] 5 5), (l', w')) /\
             length (Library.books l') = 3%nat /\ (length (Library.books l') < Z.to_nat (booksPerRoom CONFIG))%nat.
Proof.
  apply (runTests_overwrites_save keyed_world [] []); [reflexivity|split_and!; [reflexivity|constructor..]..].
Defined.

End TestSuite.
