(* ===== verification/Render.v ===== *)
(** * Drawing: [Game.render] and its helpers (game.js 139-310) and
    [Player.render] (player.js 152-176).

    The canvas' 2D context is kept as the state the code sets (the fill
    and stroke styles, the line width, the font, the text alignment and the
    current path) and the log of what has been painted, in order: a
    [fillRect], a [stroke] or a [fill] of the current path, a [fillText],
    each with the style in force when it was called.  Pixels are not
    computed: the screen is what the log paints over the last background.
    The canvas is as large as the room ([resizeCanvas] sets
    [CONFIG.roomSize] to the canvas size), and its coordinates are
    rationals like the player's.  [aislesPerRoom] is taken non-zero, as in
    Geometry.v: the aisle width divides by it. *)
From Stdlib Require Import QArith.
From S2P Require Import Prelude JsString Json Numbers Config Library Geometry Player.

Module Render.
Import Library Geometry Player.

Local Open Scope Q_scope.

(** A segment of the current path: [moveTo], [lineTo], and [arc] with the
    only angles the code passes, a full turn from [0] to [Math.PI * 2]. *)
Inductive Seg := MoveTo (x y : Q) | LineTo (x y : Q) | Circle (cx cy r : Q).

Inductive Shape :=
  | FilledRect (x y w h : Q) (color : jstr)
  | StrokedPath (path : list Seg) (color : jstr) (width : Z)
  | FilledPath (path : list Seg) (color : jstr)
  | FilledText (text : jsval) (x y : Q) (color font align : jstr).

Record Canvas := {
  fillStyle : jstr;
  strokeStyle : jstr;
  lineWidth : Z;
  font : jstr;
  textAlign : jstr;
  path : list Seg;
  painted : list Shape
}.

(** A new context, with the defaults of the HTML canvas. *)
Definition new_Canvas : Canvas :=
  {| fillStyle := js "#000000"; strokeStyle := js "#000000"; lineWidth := 1;
     font := js "10px sans-serif"; textAlign := js "start"; path := []; painted := [] |}.

Definition set_styles (f s : jstr) (lw : Z) (fo a : jstr) (c : Canvas) : Canvas :=
  {| fillStyle := f; strokeStyle := s; lineWidth := lw; font := fo; textAlign := a;
     path := path c; painted := painted c |}.
Definition set_path (p : list Seg) (c : Canvas) : Canvas :=
  {| fillStyle := fillStyle c; strokeStyle := strokeStyle c; lineWidth := lineWidth c;
     font := font c; textAlign := textAlign c; path := p; painted := painted c |}.
Definition paint (sh : Shape) (c : Canvas) : Canvas :=
  {| fillStyle := fillStyle c; strokeStyle := strokeStyle c; lineWidth := lineWidth c;
     font := font c; textAlign := textAlign c; path := path c; painted := painted c ++ [sh] |}.

(** ** The context's methods and properties *)

Definition set_fillStyle (v : jstr) : St Canvas unit :=
  modify (fun c => set_styles v (strokeStyle c) (lineWidth c) (font c) (textAlign c) c).
Definition set_strokeStyle (v : jstr) : St Canvas unit :=
  modify (fun c => set_styles (fillStyle c) v (lineWidth c) (font c) (textAlign c) c).
Definition set_lineWidth (v : Z) : St Canvas unit :=
  modify (fun c => set_styles (fillStyle c) (strokeStyle c) v (font c) (textAlign c) c).
Definition set_font (v : jstr) : St Canvas unit :=
  modify (fun c => set_styles (fillStyle c) (strokeStyle c) (lineWidth c) v (textAlign c) c).
Definition set_textAlign (v : jstr) : St Canvas unit :=
  modify (fun c => set_styles (fillStyle c) (strokeStyle c) (lineWidth c) (font c) v c).

Definition fillRect (x y w h : Q) : St Canvas unit := modify (fun c => paint (FilledRect x y w h (fillStyle c)) c).
Definition beginPath : St Canvas unit := modify (set_path []).
Definition moveTo (x y : Q) : St Canvas unit := modify (fun c => set_path (path c ++ [MoveTo x y]) c).
Definition lineTo (x y : Q) : St Canvas unit := modify (fun c => set_path (path c ++ [LineTo x y]) c).
Definition arc (cx cy r : Q) : St Canvas unit := modify (fun c => set_path (path c ++ [Circle cx cy r]) c).
Definition stroke : St Canvas unit := modify (fun c => paint (StrokedPath (path c) (strokeStyle c) (lineWidth c)) c).
Definition fill : St Canvas unit := modify (fun c => paint (FilledPath (path c) (fillStyle c)) c).
Definition fillText (text : jsval) (x y : Q) : St Canvas unit :=
  modify (fun c => paint (FilledText text x y (fillStyle c) (font c) (textAlign c)) c).

(** ** [Player.render(ctx)] (player.js 152-176) *)

(** [if (this.isAtExit)]: a direction is truthy when it is not empty. *)
Definition exit_truthy (e : option jstr) : bool :=
  match e with Some d => truthy (JStr d) | None => false end.

(** The text under the player, by the priority of the [if] chain. *)
Definition prompt (p : Player) : jstr :=
  if Qle_bool 0 (nearbyBookIndex p) then js "Press E to read book"
  else if isAtCardCatalog p then js "Press E to view card catalog"
  else match isAtExit p with
       | Some d => if truthy (JStr d) then js "Press E to go " ++ d else []
       | None => []
       end.

Definition renderPlayer (p : Player) : St Canvas unit :=
  set_fillStyle (js "#d4af37");;
  beginPath;;
  arc (x p) (y p) (inject_Z (size p) / 2);;
  fill;;
  if Qle_bool 0 (nearbyBookIndex p) || isAtCardCatalog p || exit_truthy (isAtExit p) then
    set_fillStyle (js "#ffffff");;
    set_font (js "12px Arial");;
    set_textAlign (js "center");;
    fillText (JStr (prompt p)) (x p) (y p - 20)
  else mret tt.

(** ** The room (game.js 139-310) *)

(** [roomInfo.cardCatalog[book.index]]: the index is written as a property
    key; reading a property of [null] or [undefined] is a [TypeError]. *)
Definition catalog_at (catalog : jsval) (index : Q) : St Canvas jsval :=
  match number_lexeme index with
  | None => throw Unmodelled
  | Some key => match get_prop catalog key with Some v => mret v | None => throw TypeError end
  end.

(** [if (title.length > 25) title = title.substring(0, 22) + '...']: a
    string is cut to 25 code units; an array longer than 25 has no
    [substring]; an object with a [length] member is not modelled; other
    values have no [length] and are kept. *)
Definition truncate_title (title : jsval) : St Canvas jsval :=
  match title with
  | JStr s => mret (if (25 <? Z.of_nat (length s))%Z then JStr (substring s 0 22 ++ js "...") else title)
  | JArr xs => if (25 <? Z.of_nat (length xs))%Z then throw TypeError else mret title
  | JObj ps => if existsb (fun kv => bool_decide (kv.1 = js "length")) ps then throw Unmodelled else mret title
  | _ => mret title
  end.

Section Room.
Context (cfg : Config).

Definition room_w : Q := inject_Z (roomSize_width cfg).
Definition room_h : Q := inject_Z (roomSize_height cfg).
Definition aisleWidth : Q := room_w / inject_Z (aislesPerRoom cfg).

(** The vertical line of aisle boundary [i]. *)
Definition drawAisleLine (i : nat) : St Canvas unit :=
  beginPath;; moveTo (ix i * aisleWidth) 0;; lineTo (ix i * aisleWidth) room_h;; stroke.

(** The five shelves of each side of an aisle. *)
Definition drawShelves (aisle : nat) : St Canvas unit :=
  let aisleX := ix aisle * aisleWidth in
  for_each (seq 0 5) (fun shelf =>
    let shelfY := ix shelf * 120 + 100 in
    fillRect (aisleX + 10) shelfY (aisleWidth / 2 - 20) 10;;
    fillRect (aisleX + aisleWidth / 2 + 10) shelfY (aisleWidth / 2 - 20) 10).

(** [book.index === this.player.nearbyBookIndex] *)
Definition isHighlighted (p : Player) (b : Position) : bool := Qeq_bool (pos_index b) (nearbyBookIndex p).

(** The body of [bookPositions.forEach(book => ...)]. *)
Definition drawBook (info : RoomInfo) (p : Player) (b : Position) : St Canvas unit :=
  let isHighlighted := isHighlighted p b in
  set_fillStyle (if isHighlighted then js "#d4af37" else js "#3a6ea5");;
  fillRect (pos_x b - 10) (pos_y b - 20) 20 40;;
  if isHighlighted then
    t ← catalog_at (info_cardCatalog info) (pos_index b);
    if truthy t then
      set_fillStyle (js "#ffffff");;
      set_font (js "12px Arial");;
      set_textAlign (js "center");;
      title ← truncate_title t;
      fillText title (pos_x b) (pos_y b + 30)
    else mret tt
  else mret tt.

Definition renderBookshelves (info : RoomInfo) (p : Player) : St Canvas unit :=
  set_strokeStyle (js "#6b5b3d");;
  set_lineWidth 2;;
  for_each (seq 0 (Z.to_nat (aislesPerRoom cfg + 1))) drawAisleLine;;
  set_fillStyle (js "#8b4513");;
  for_each (seq 0 (Z.to_nat (aislesPerRoom cfg))) drawShelves;;
  for_each (bookPositions info) (drawBook info p).

Definition renderExits : St Canvas unit :=
  set_fillStyle (js "#444444");;
  fillRect (room_w / 2 - 30) 0 60 20;;
  fillRect (room_w / 2 - 30) (room_h - 20) 60 20;;
  fillRect (room_w - 20) (room_h / 2 - 30) 20 60;;
  fillRect 0 (room_h / 2 - 30) 20 60.

Definition renderCardCatalog : St Canvas unit :=
  set_fillStyle (js "#d4af37");;
  fillRect (room_w / 2 - 50) 40 100 30;;
  set_fillStyle (js "#ffffff");;
  set_font (js "14px Arial");;
  set_textAlign (js "center");;
  fillText (JStr (js "Card Catalog")) (room_w / 2) 30.

Definition renderRoomInfo (info : RoomInfo) : St Canvas unit :=
  set_fillStyle (js "#ffffff");;
  set_font (js "12px Arial");;
  set_textAlign (js "left");;
  fillText (JStr (js "Room: (" ++ z_to_js (info_roomX info) ++ js ", " ++ z_to_js (info_roomY info) ++ js ")")) 10 20.

(** [render()]: the background, then, when there is a player, the room
    drawn from [library.getRoomInfo()]. *)
Definition render (player : option Player) (l : Library) : St Canvas unit :=
  set_fillStyle (js "#1a1a1a");;
  fillRect 0 0 room_w room_h;;
  match player with
  | None => mret tt
  | Some p =>
      let info := getRoomInfo cfg l in
      renderBookshelves info p;;
      renderExits;;
      renderCardCatalog;;
      renderPlayer p;;
      renderRoomInfo info
  end.

End Room.

(** ** What a drawing adds to the log *)

(** Drawing operations that never throw: they change the context by a
    function of it. *)
Definition painter (m : St Canvas unit) : Prop := exists f, forall c, m c = (Ok tt, f c).

Lemma painter_modify f : painter (modify f).
Proof. by exists f. Qed.

Lemma painter_bind (m k : St Canvas unit) : painter m -> painter k -> painter (m;; k).
Proof.
  intros [f Hf] [g Hg]. exists (fun c => g (f c)). intros c. by rewrite st_run_bind, Hf, Hg.
Qed.

Lemma painter_for_each {A} (xs : list A) f : (forall x, painter (f x)) -> painter (for_each xs f).
Proof.
  intros Hf. induction xs as [|x xs IH]; [by exists id|]. apply painter_bind; [apply Hf | exact IH].
Qed.

Ltac painter_auto :=
  repeat first [ apply painter_bind | apply painter_for_each; intros
               | unfold set_fillStyle, set_strokeStyle, set_lineWidth, set_font, set_textAlign,
                   fillRect, beginPath, moveTo, lineTo, arc, stroke, fill, fillText; apply painter_modify ].

(** The mark of a book drawn highlighted: a 20 x 40 rectangle in gold. *)
Definition gold : jstr := js "#d4af37".

Definition is_book_mark (sh : Shape) : bool :=
  match sh with
  | FilledRect _ _ w h color => Qeq_bool w 20 && Qeq_bool h 40 && bool_decide (color = gold)
  | _ => false
  end.

Definition book_mark (b : Position) : Shape := FilledRect (pos_x b - 10) (pos_y b - 20) 20 40 gold.

(** [c'] is [c] with shapes painted after, whose book marks are [ms]. *)
Definition grows_by (ms : list Shape) (c c' : Canvas) : Prop :=
  exists d, painted c' = painted c ++ d /\ List.filter is_book_mark d = ms.

Definition no_marks : Canvas -> Canvas -> Prop := grows_by [].

#[export] Instance no_marks_preorder : PreOrder no_marks.
Proof.
  split; [intros c; by exists []; rewrite app_nil_r|].
  intros c1 c2 c3 [d1 [E1 F1]] [d2 [E2 F2]]. exists (d1 ++ d2).
  by rewrite E2, E1, app_assoc, List.filter_app, F1, F2.
Qed.

Lemma grows_by_trans ms1 ms2 c1 c2 c3 :
  grows_by ms1 c1 c2 -> grows_by ms2 c2 c3 -> grows_by (ms1 ++ ms2) c1 c3.
Proof.
  intros [d1 [E1 F1]] [d2 [E2 F2]]. exists (d1 ++ d2).
  by rewrite E2, E1, app_assoc, List.filter_app, F1, F2.
Qed.

Lemma modify_no_marks f : (forall c, painted (f c) = painted c) -> keeps no_marks (modify f).
Proof. intros Hf c. exists []. cbn. by rewrite Hf, app_nil_r. Qed.

Lemma paint_no_marks sh c : is_book_mark sh = false -> no_marks c (paint sh c).
Proof. intros Hs. exists [sh]. cbn. by rewrite Hs. Qed.

(** Everything but a 20 x 40 rectangle leaves no mark. *)
Lemma ops_no_marks :
  (forall v, keeps no_marks (set_fillStyle v)) /\ (forall v, keeps no_marks (set_strokeStyle v)) /\
  (forall v, keeps no_marks (set_lineWidth v)) /\ (forall v, keeps no_marks (set_font v)) /\
  (forall v, keeps no_marks (set_textAlign v)) /\ keeps no_marks beginPath /\
  (forall x y, keeps no_marks (moveTo x y)) /\ (forall x y, keeps no_marks (lineTo x y)) /\
  (forall x y r, keeps no_marks (arc x y r)) /\ keeps no_marks stroke /\ keeps no_marks fill /\
  (forall t x y, keeps no_marks (fillText t x y)).
Proof.
  repeat split; intros; try (apply modify_no_marks; reflexivity); intros c; by apply paint_no_marks.
Qed.

Lemma fillRect_no_marks x y w h : Qeq_bool h 40 = false -> keeps no_marks (fillRect x y w h).
Proof. intros Hh c. apply paint_no_marks. cbn. by rewrite Hh, andb_false_r. Qed.

Lemma catalog_at_no_marks cat i : keeps no_marks (catalog_at cat i).
Proof. unfold catalog_at. keeps_auto. Qed.

Lemma truncate_title_no_marks t : keeps no_marks (truncate_title t).
Proof. unfold truncate_title. keeps_auto. Qed.

Create HintDb canvas.
#[export] Hint Resolve fillRect_no_marks catalog_at_no_marks truncate_title_no_marks
  keeps_for_each : canvas.

(** Split a drawing into its calls, each leaving no mark. *)
Ltac no_marks_auto :=
  pose proof ops_no_marks as (? & ? & ? & ? & ? & ? & ? & ? & ? & ? & ? & ?);
  keeps_auto;
  repeat match goal with
    | |- keeps no_marks (for_each _ _) => apply keeps_for_each; [typeclasses eauto|intros]
    | |- keeps no_marks (_ ≫= _) => keeps_auto
    end;
  try solve [auto | apply fillRect_no_marks; reflexivity | eauto with canvas].

Section Marks.
Context (cfg : Config).

Lemma renderPlayer_no_marks p : keeps no_marks (renderPlayer p).
Proof. unfold renderPlayer. no_marks_auto. Qed.

Lemma room_parts_no_marks info :
  keeps no_marks (renderExits cfg) /\ keeps no_marks (renderCardCatalog cfg) /\
  keeps no_marks (renderRoomInfo info).
Proof. unfold renderExits, renderCardCatalog, renderRoomInfo. repeat split; no_marks_auto. Qed.

Lemma shelves_no_marks :
  keeps no_marks (for_each (seq 0 (Z.to_nat (aislesPerRoom cfg + 1))) (drawAisleLine cfg)) /\
  keeps no_marks (for_each (seq 0 (Z.to_nat (aislesPerRoom cfg))) (drawShelves cfg)).
Proof. unfold drawAisleLine, drawShelves. split; no_marks_auto. Qed.

(** One book: its mark when it is the player's [nearbyBookIndex], and an
    exception only then (reading its title). *)
Lemma drawBook_marks info p b c :
  grows_by (if isHighlighted p b then [book_mark b] else []) c (snd (drawBook info p b c)) /\
  (fst (drawBook info p b c) <> Ok tt -> isHighlighted p b = true).
Proof.
  unfold drawBook. cbv zeta.
  rewrite st_run_bind. cbn [set_fillStyle modify]. rewrite st_run_bind. cbn [fillRect modify].
  destruct (isHighlighted p b).
  - split; [|done]. change [book_mark b] with ([book_mark b] ++ []).
    match goal with |- grows_by _ _ (snd (?m ?c1)) =>
      apply (grows_by_trans _ _ c c1); [|assert (Hk : keeps no_marks m) by no_marks_auto; apply Hk] end.
    exists [book_mark b]. split; [reflexivity | by vm_compute].
  - split; [|done]. eexists. split; [reflexivity|]. by vm_compute.
Qed.

(** The books, when at most one of them is the player's. *)
Lemma drawBooks_marks info p bs c :
  (length (List.filter (isHighlighted p) bs) <= 1)%nat ->
  grows_by (map book_mark (List.filter (isHighlighted p) bs)) c (snd (for_each bs (drawBook info p) c)).
Proof.
  revert c. induction bs as [|b bs IH]; intros c Hn.
  - exists []. by rewrite app_nil_r.
  - assert (Hm : map book_mark (List.filter (isHighlighted p) (b :: bs)) =
                 (if isHighlighted p b then [book_mark b] else []) ++ map book_mark (List.filter (isHighlighted p) bs))
      by (cbn; by destruct (isHighlighted p b)).
    assert (Hl : length (List.filter (isHighlighted p) (b :: bs)) =
                 ((if isHighlighted p b then 1 else 0) + length (List.filter (isHighlighted p) bs))%nat)
      by (cbn; by destruct (isHighlighted p b)).
    rewrite Hm. rewrite Hl in Hn. cbn [for_each fold_right]. rewrite st_run_bind.
    destruct (drawBook_marks info p b c) as [Hg He].
    destruct (drawBook info p b c) as [[[]|e] c1]; cbn [snd fst] in Hg, He |- *.
    + eapply grows_by_trans; [exact Hg|]. apply IH. destruct (isHighlighted p b); lia.
    + rewrite (He ltac:(discriminate)) in Hg, Hn |- *.
      destruct (List.filter (isHighlighted p) bs); [by rewrite app_nil_r | cbn in Hn; lia].
Qed.
End Marks.

(** [adds ms m]: every run of [m] paints shapes whose book marks are
    [ms]; [adds []] is [keeps no_marks]. *)
Definition adds (ms : list Shape) (m : St Canvas unit) : Prop := forall c, grows_by ms c (snd (m c)).

Lemma adds_bind_painter ms (m k : St Canvas unit) : painter m -> keeps no_marks m -> adds ms k -> adds ms (m;; k).
Proof.
  intros [f Hf] Hm Hk c. specialize (Hm c). rewrite Hf in Hm. rewrite st_run_bind, Hf.
  change ms with ([] ++ ms). eapply grows_by_trans; [exact Hm | apply Hk].
Qed.

Lemma adds_bind_r {A} ms (m : St Canvas A) (k : A -> St Canvas unit) :
  (forall c, grows_by ms c (snd (m c))) -> (forall a, keeps no_marks (k a)) -> adds ms (m ≫= k).
Proof.
  intros Hm Hk c. specialize (Hm c). rewrite st_run_bind.
  destruct (m c) as [[a|e] c1]; [|exact Hm].
  rewrite <- (app_nil_r ms). eapply grows_by_trans; [exact Hm | apply Hk].
Qed.

(** A rectangle in a colour other than gold is no mark. *)
Lemma adds_fill_rect ms v x y w h k :
  bool_decide (v = gold) = false -> adds ms k -> adds ms (set_fillStyle v;; (fillRect x y w h;; k)).
Proof.
  intros Hv Hk c. rewrite st_run_bind. cbn [set_fillStyle modify]. rewrite st_run_bind. cbn [fillRect modify].
  rewrite <- (app_nil_l ms).
  match goal with |- grows_by _ _ (snd (k ?c2)) => apply (grows_by_trans [] ms c c2); [|apply Hk] end.
  exists [FilledRect x y w h v]. split; [reflexivity|]. cbn [List.filter is_book_mark]. by rewrite Hv, andb_false_r.
Qed.

(** With distinct indices up to [Qred], at most one book is the player's. *)
Lemma highlighted_at_most_one p bs :
  NoDup (map (fun b => Qred (pos_index b)) bs) -> (length (List.filter (isHighlighted p) bs) <= 1)%nat.
Proof.
  induction bs as [|b bs IH]; cbn [List.filter map]; [intros; cbn; lia|]. intros Hnd. apply NoDup_cons in Hnd as [Hb Hnd].
  destruct (isHighlighted p b) eqn:E; [|by apply IH].
  cbn. enough (List.filter (isHighlighted p) bs = []) as -> by (cbn; lia).
  apply filter_none. intros b' Hin. apply not_true_iff_false. intros E'.
  apply Hb, list_elem_of_In, in_map_iff. exists b'. split; [|done].
  unfold isHighlighted in E, E'. apply Qeq_bool_iff in E, E'. apply Qred_complete. by rewrite E, E'.
Qed.

Lemma ix_inj : Inj eq eq ix.
Proof. intros a b H. unfold ix in H. injection H. lia. Qed.

(** ** Theorems *)

(** C18 (safety): with an even [booksPerAisle] (the shipped 20), a frame
    drawn for a player paints at most one book in gold, and it is the book
    whose index is the player's [nearbyBookIndex]: the book [E] would
    open.  The other parts of the frame (shelves, exits, the card catalog,
    the player, the room label) paint no such mark.  This holds whatever
    the frame does after it, an exception while reading the title included. *)
Theorem render_one_highlight cfg l p c h :
  booksPerAisle cfg = Z.of_nat (2 * h) ->
  let bs := List.filter (isHighlighted p) (getBookPositions cfg l) in
  (length bs <= 1)%nat /\ grows_by (map book_mark bs) c (snd (render cfg (Some p) l c)).
Proof.
  intros Hb bs. assert (Hn : (length bs <= 1)%nat).
  { apply highlighted_at_most_one. rewrite (getBookPositions_indices cfg l h Hb).
    apply NoDup_fmap; [apply ix_inj | apply NoDup_seq]. }
  split; [exact Hn|]. revert c. unfold render. cbv zeta.
  apply adds_fill_rect; [reflexivity|].
  apply adds_bind_r.
  - intros c. unfold renderBookshelves.
    pose proof (shelves_no_marks cfg) as [H1 H2]. pose proof ops_no_marks as (Hf & Hs & Hw & _).
    revert c. repeat (apply adds_bind_painter; [painter_auto; unfold drawAisleLine, drawShelves; painter_auto|auto|]).
    intros c. by apply drawBooks_marks.
  - intros _. pose proof (room_parts_no_marks cfg (getRoomInfo cfg l)) as (He & Hc & Hr).
    keeps_auto; auto using renderPlayer_no_marks.
Qed.

(** A title is drawn with at most 25 code units: a longer one is cut to its
    first 22 followed by [...]. *)
Lemma truncate_title_string s c :
  exists s', truncate_title (JStr s) c = (Ok (JStr s'), c) /\ (length s' <= 25)%nat /\
    ((length s <= 25)%nat -> s' = s) /\ ((25 < length s)%nat -> s' = take 22 s ++ js "...").
Proof.
  unfold truncate_title. destruct (Z.ltb_spec 25 (Z.of_nat (length s))) as [Hl|Hl].
  - assert (Hs : substring s 0 22 = take 22 s).
    { rewrite substring_in_range by lia. by rewrite drop_0. }
    eexists. split; [reflexivity|]. rewrite Hs, length_app, length_take.
    replace (length (js "...")) with 3%nat by reflexivity.
    repeat split; intros; first [done | lia | exfalso; lia].
  - eexists. split; [reflexivity|]. repeat split; intros; first [done | lia | exfalso; lia].
Qed.

(** ** Witnesses *)

(** The player of a new game standing by book 7 of a full room. *)
Definition reader : Player := set_nearby 7 (new_Player CONFIG JNull JNull).

Lemma render_one_highlight_witness :
  let bs := List.filter (isHighlighted reader) (getBookPositions CONFIG full_room) in
  (length bs <= 1)%nat /\ grows_by (map book_mark bs) new_Canvas (snd (render CONFIG (Some reader) full_room new_Canvas)).
Proof. apply (render_one_highlight CONFIG full_room reader new_Canvas 10). reflexivity. Defined.

End Render.
