(* ===== verification/UI.v ===== *)
(** * The user interface: [class UIHandler] (ui.js).

    The handler's part of the page is kept as the state the code reads and
    writes: whether the dialog and the book are hidden, what they show, the
    page number, the character-creation panel, the notification with its
    pending hide timers, and the alerts raised.  A dialog's HTML is kept as
    the [DialogContent] the code fills in (which template, with which
    values), not as markup.

    The handler reaches its game ([this.game]) through the [UIHost]
    interface: the handler itself, the library's book objects by index and
    the current room.  [this.currentBook] is kept as the index of the book
    in the library's [books] array: both places that open a book take it
    from [library.getBook(i)], so the object the handler holds is that
    array slot, and what the book's methods change (its page, its cache)
    is seen by the library too, as for the shared JavaScript object.  The
    listeners of [initEventListeners] take the game methods they call as
    section variables.  The page's markup is not in the repository; the
    dialog and the book start hidden and the character-creation panel is
    not shown until [showCharacterCreation]. *)
From S2P Require Import Prelude JsString Json Numbers Config World Api Save Book Player.

Module UI.
Import Api Book.

(** What [showStoryDialog] is given: the three dialogs of [startGame]
    (game.js 74, 83-89, 95-102), the card catalog (ui.js 177-186), whose
    items are the [data-index] text and the title of each [<li>], and a
    string of text without markup, as a test passes. *)
Inductive DialogContent :=
  | DText (text : jstr)
  | DWaiting
  | DStory (story : jsval)
  | DFallback (name : jstr)
  | DCatalog (roomX roomY : Z) (items : list (jstr * jsval)).

(** What [bookContent.innerHTML] shows: the two progress texts, a page,
    or the blank-page text for a falsy page. *)
Inductive BookView := BLoading | BTurning | BPage (content : jsval) | BBlank.

Record UIHandler := {
  dialogHidden : bool;
  dialogContent : option DialogContent;
  isStoryDialogShowing : bool;
  bookHidden : bool;
  bookContent : option BookView;
  pageNumber : option Z;
  currentBook : option Z;
  characterCreationShown : bool;
  notification : option jstr;
  notificationShown : bool;
  hideTimers : list Z;
  alerts : list jstr
}.

(** [new UIHandler(game)] (ui.js 3-27) *)
Definition new_UIHandler : UIHandler :=
  {| dialogHidden := true; dialogContent := None; isStoryDialogShowing := false;
     bookHidden := true; bookContent := None; pageNumber := None; currentBook := None;
     characterCreationShown := false; notification := None; notificationShown := false;
     hideTimers := []; alerts := [] |}.

Definition set_dialog (hidden : bool) (c : option DialogContent) (story : bool) (u : UIHandler) : UIHandler :=
  {| dialogHidden := hidden; dialogContent := c; isStoryDialogShowing := story;
     bookHidden := bookHidden u; bookContent := bookContent u; pageNumber := pageNumber u;
     currentBook := currentBook u; characterCreationShown := characterCreationShown u;
     notification := notification u; notificationShown := notificationShown u;
     hideTimers := hideTimers u; alerts := alerts u |}.
Definition set_book (hidden : bool) (v : option BookView) (n : option Z) (cb : option Z) (u : UIHandler) : UIHandler :=
  {| dialogHidden := dialogHidden u; dialogContent := dialogContent u;
     isStoryDialogShowing := isStoryDialogShowing u;
     bookHidden := hidden; bookContent := v; pageNumber := n; currentBook := cb;
     characterCreationShown := characterCreationShown u;
     notification := notification u; notificationShown := notificationShown u;
     hideTimers := hideTimers u; alerts := alerts u |}.
Definition set_creation (b : bool) (u : UIHandler) : UIHandler :=
  {| dialogHidden := dialogHidden u; dialogContent := dialogContent u;
     isStoryDialogShowing := isStoryDialogShowing u;
     bookHidden := bookHidden u; bookContent := bookContent u; pageNumber := pageNumber u;
     currentBook := currentBook u; characterCreationShown := b;
     notification := notification u; notificationShown := notificationShown u;
     hideTimers := hideTimers u; alerts := alerts u |}.
Definition set_notification (m : option jstr) (shown : bool) (ts : list Z) (u : UIHandler) : UIHandler :=
  {| dialogHidden := dialogHidden u; dialogContent := dialogContent u;
     isStoryDialogShowing := isStoryDialogShowing u;
     bookHidden := bookHidden u; bookContent := bookContent u; pageNumber := pageNumber u;
     currentBook := currentBook u; characterCreationShown := characterCreationShown u;
     notification := m; notificationShown := shown; hideTimers := ts; alerts := alerts u |}.
Definition add_alert (a : jstr) (u : UIHandler) : UIHandler :=
  {| dialogHidden := dialogHidden u; dialogContent := dialogContent u;
     isStoryDialogShowing := isStoryDialogShowing u;
     bookHidden := bookHidden u; bookContent := bookContent u; pageNumber := pageNumber u;
     currentBook := currentBook u; characterCreationShown := characterCreationShown u;
     notification := notification u; notificationShown := notificationShown u;
     hideTimers := hideTimers u; alerts := alerts u ++ [a] |}.

(** ** What the handler reaches of its game *)

(** [this.game] as the handler reads it: the handler itself, the room, and
    the [currentPage] of a book object, by reference ([None]: no object
    there).  A reference is what [library.getBook] returned; the handler
    keeps it in [currentBook]. *)
Class UIHost (GS : Type) := {
  host_ui : GS -> UIHandler;
  set_host_ui : UIHandler -> GS -> GS;
  host_book_page : Z -> GS -> option Z;
  host_room : GS -> Z * Z
}.

(** The handler is a part of its game of its own. *)
Class UIHostLaws (GS : Type) `{!UIHost GS} := {
  host_ui_set u g : host_ui (set_host_ui u g) = u;
  host_book_page_set_ui i u g : host_book_page i (set_host_ui u g) = host_book_page i g;
  host_room_set_ui u g : host_room (set_host_ui u g) = host_room g
}.

(** A run that leaves the handler as it was. *)
Definition ui_frame {GS} `{!UIHost GS} (s s' : GS * World) : Prop := host_ui (fst s') = host_ui (fst s).

#[export] Instance ui_frame_preorder {GS} `{!UIHost GS} : PreOrder (ui_frame (GS := GS)).
Proof. split; [done|]. intros ??? H1 H2. unfold ui_frame in *. congruence. Qed.

(** The methods the handler calls on the game's book objects:
    [library.getBook(index)] (a reference, or [None] for a falsy result)
    and a book's [getPageContent()], [prevPage()] and [nextPage()] (a
    missing object or method is a [TypeError]). *)
Class BookObjects (GS : Type) := {
  getBook_ref : option Z -> St (GS * World) (option Z);
  book_getPageContent : Z -> St (GS * World) jsval;
  book_prevPage : Z -> St (GS * World) jsval;
  book_nextPage : Z -> St (GS * World) jsval
}.

(** The book methods do not touch the handler. *)
Class BookObjectsLaws (GS : Type) `{!UIHost GS} (B : BookObjects GS) := {
  getBook_ref_ui n : keeps ui_frame (getBook_ref n);
  book_getPageContent_ui r : keeps ui_frame (book_getPageContent r);
  book_prevPage_ui r : keeps ui_frame (book_prevPage r);
  book_nextPage_ui r : keeps ui_frame (book_nextPage r)
}.

(** ** [parseInt(string)] (ECMAScript 19.2.5) with no radix; the digits
    of a radix are read by the [hex_value] of the JSON parser. *)

(** The value of the longest prefix of digits of the radix (10 or 16), and
    whether there was one. *)
Fixpoint radix_prefix (radix : Z) (s : jstr) (acc : Z) (any : bool) : option Z :=
  match s with
  | c :: r =>
      match hex_value c with
      | Some v => if v <? radix then radix_prefix radix r (acc * radix + v) true
                  else if any then Some acc else None
      | None => if any then Some acc else None
      end
  | [] => if any then Some acc else None
  end.

(** [None] is [NaN]. *)
Definition parseInt (input : jstr) : option Z :=
  let s := drop_while is_js_space input in
  let '(neg, s) := match s with
                   | 45 :: r => (true, r)
                   | 43 :: r => (false, r)
                   | _ => (false, s)
                   end in
  let '(radix, s) := match s with
                     | 48 :: x :: r => if (x =? 120) || (x =? 88) then (16, r) else (10, s)
                     | _ => (10, s)
                     end in
  option_map (fun v => if neg then - v else v) (radix_prefix radix s 0 false).

Section Handler.
Context {GS : Type} `{!UIHost GS} {B : BookObjects GS}.

Abbreviation HW := (GS * World)%type.

Definition ui_get : St HW UIHandler := gets (fun s => host_ui (fst s)).
Definition ui_modify (f : UIHandler -> UIHandler) : St HW unit :=
  modify (fun '(g, w) => (set_host_ui (f (host_ui g)) g, w)).

(** ** The dialogs (ui.js 73-123) *)

Definition showCharacterCreation : St HW unit := ui_modify (set_creation true).
Definition hideCharacterCreation : St HW unit := ui_modify (set_creation false).

Definition showStoryDialog (content : DialogContent) : St HW unit :=
  ui_modify (set_dialog false (Some content) true).

Definition hideDialog : St HW unit :=
  ui_modify (fun u => set_dialog true (dialogContent u) (isStoryDialogShowing u) u).

(** ** The book (ui.js 125-173) *)

(** [content || '<p>This page appears to be blank.</p>'] *)
Definition page_view (content : jsval) : BookView :=
  if truthy content then BPage content else BBlank.

Definition show_page (content : jsval) (n : option Z) : St HW unit :=
  ui_modify (fun u => set_book (bookHidden u) (Some (page_view content)) n (currentBook u) u).

Definition openBook (r : Z) : St HW unit :=
  g ← self;
  match host_book_page r g with
  | None => throw TypeError
  | Some n =>
      ui_modify (set_book false (Some BLoading) (Some n) (Some r));;
      detach (content ← book_getPageContent r;
              u ← ui_get;
              show_page content (pageNumber u))
  end.

Definition closeBook : St HW unit :=
  ui_modify (fun u => set_book true (bookContent u) (pageNumber u) None u).

Definition turnPage (direction : jstr) : St HW unit :=
  u ← ui_get;
  match currentBook u with
  | None => mret tt
  | Some r =>
      ui_modify (fun u => set_book (bookHidden u) (Some BTurning) (pageNumber u) (currentBook u) u);;
      detach (content ← (if bool_decide (direction = js "prev") then book_prevPage r else book_nextPage r);
              u' ← ui_get;
              g ← self;
              match currentBook u' ≫= fun j => host_book_page j g with
              | None => throw TypeError
              | Some n => show_page content (Some n)
              end)
  end.

(** ** The card catalog (ui.js 175-201) *)

(** [catalog.forEach((title, index) => ...)]: the [data-index] text of each
    item is its index written in decimal. *)
Definition catalog_items (titles : list jsval) : list (jstr * jsval) :=
  zip (map (fun k => z_to_js (Z.of_nat k)) (seq 0 (length titles))) titles.

Definition showCardCatalog (catalog : jsval) : St HW unit :=
  g ← self;
  match catalog with
  | JArr titles =>
      let '(rx, ry) := host_room g in showStoryDialog (DCatalog rx ry (catalog_items titles))
  | _ => throw TypeError
  end.

(** The click handler of the [k]-th item of the catalog list on the page. *)
Definition onCatalogItem (k : nat) : St HW unit :=
  u ← ui_get;
  match dialogContent u with
  | Some (DCatalog _ _ items) =>
      match items !! k with
      | None => mret tt
      | Some (idx, _) =>
          book ← getBook_ref (parseInt idx);
          match book with
          | Some r => hideDialog;; openBook r
          | None => mret tt
          end
      end
  | _ => mret tt
  end.

(** ** The notification (ui.js 203-230) *)

(** [setTimeout(() => notification.style.display = 'none', duration)] is
    kept as the time it fires. *)
Definition showNotification (message : jstr) (duration : Z) : St HW unit :=
  t ← on_world date_now;
  ui_modify (fun u => set_notification (Some message) true (hideTimers u ++ [t + duration]) u).

(** The timers due at time [t] fire: each hides the notification. *)
Definition fire_timers (t : Z) : St HW unit :=
  ui_modify (fun u =>
    if existsb (fun d => d <=? t) (hideTimers u)
    then set_notification (notification u) false (filter (fun d => t < d) (hideTimers u)) u
    else u).

(** ** The listeners of [initEventListeners] (ui.js 28-71) and the form
    (ui.js 83-100) *)
Section Listeners.
Context (isRunning : GS -> bool) (startGame : jstr -> jstr -> St HW unit)
  (startGameLoop : St HW unit) (handleInteraction : St HW unit).

(** [this.hideDialog] is looked up on the handler when the listener runs:
    it is [hideDialog] unless the object's property has been replaced. *)
Context (hideDialogM : St HW unit).

Definition submitCharacterInfo (nameInput descriptionInput : jstr) : St HW unit :=
  let name := trim nameInput in
  let description := trim descriptionInput in
  if bool_decide (name = []) then ui_modify (add_alert (js "Please enter your name."))
  else if bool_decide (description = []) then ui_modify (add_alert (js "Please enter a character description."))
  else hideCharacterCreation;; detach (startGame name description).

Definition onDialogClose : St HW unit :=
  hideDialogM;;
  u ← ui_get;
  g ← self;
  if isStoryDialogShowing u && negb (isRunning g) then
    ui_modify (fun u => set_dialog (dialogHidden u) (dialogContent u) false u);;
    startGameLoop
  else mret tt.

Definition onKeyDown (key : jstr) : St HW unit :=
  if bool_decide (Player.lower_ascii key = js "e") then
    u ← ui_get;
    if bookHidden u then handleInteraction else closeBook
  else mret tt.

End Listeners.
End Handler.

(** ** Reading back a [data-index] *)

Lemma radix_prefix_digit c s acc any :
  48 <= c <= 57 -> radix_prefix 10 (c :: s) acc any = radix_prefix 10 s (acc * 10 + (c - 48)) true.
Proof.
  intros Hc. cbn [radix_prefix]. unfold hex_value.
  destruct (Z.leb_spec 48 c), (Z.leb_spec c 57); try lia. cbn [andb].
  by replace (c - 48 <? 10) with true by (symmetry; apply Z.ltb_lt; lia).
Qed.

Lemma radix_prefix_digits c r acc any :
  Forall (fun c => 48 <= c <= 57) (c :: r) ->
  radix_prefix 10 (c :: r) acc any = Some (digits_value acc (c :: r)).
Proof.
  revert c acc any. induction r as [|c' r IH]; intros c acc any Hd; inversion Hd as [|? ? Hc Hr]; subst;
    rewrite radix_prefix_digit by done; [done|]. by apply IH.
Qed.

Lemma js_space_digit c : 48 <= c <= 57 -> is_js_space c = false.
Proof. intros Hc. unfold is_js_space. zcase; reflexivity. Qed.

(** [parseInt] reads back the decimal text of a non-negative integer. *)
Lemma parseInt_z_to_js_nonneg z : 0 <= z -> parseInt (z_to_js z) = Some z.
Proof.
  intros Hz. destruct (z_to_js_digits z Hz) as (c & r & Hs & Hd & H0 & Hv). rewrite Hs.
  pose proof (Forall_inv Hd) as Hc. cbv beta in Hc. unfold parseInt. cbn [drop_while]. rewrite js_space_digit by done.
  destruct (Z.eq_dec c 48) as [->|Hc48].
  - destruct (H0 eq_refl) as [-> ->]. reflexivity.
  - rewrite <- Hv. clear Hv H0 Hs.
    assert (Hcs : c = 49 \/ c = 50 \/ c = 51 \/ c = 52 \/ c = 53 \/ c = 54 \/ c = 55 \/ c = 56 \/ c = 57) by lia.
    repeat destruct Hcs as [->|Hcs]; try subst c; cbn -[radix_prefix digits_value];
      rewrite radix_prefix_digits by assumption; reflexivity.
Qed.

(** The catalog items carry their own index. *)
Lemma catalog_items_lookup titles k :
  (k < length titles)%nat -> exists t, catalog_items titles !! k = Some (z_to_js (Z.of_nat k), t).
Proof.
  intros Hk. destruct (lookup_lt_is_Some_2 titles k Hk) as [t Ht]. exists t.
  unfold catalog_items. rewrite lookup_zip_with, list_lookup_fmap, lookup_seq_lt by done. cbn.
  by rewrite Ht.
Qed.

(** ** What a step keeps of the book and the dialog shown *)

Section Frame.
Context {GS : Type} `{!UIHost GS, !UIHostLaws GS} {B : BookObjects GS} `{!BookObjectsLaws GS B}.

Definition shown (u : UIHandler) : bool * option Z * bool * option DialogContent :=
  (bookHidden u, currentBook u, dialogHidden u, dialogContent u).

Definition same_shown (s s' : GS * World) : Prop := shown (host_ui (fst s')) = shown (host_ui (fst s)).

#[export] Instance same_shown_preorder : PreOrder same_shown.
Proof. split; [done|]. intros ??? H1 H2. unfold same_shown in *. congruence. Qed.

Lemma ui_frame_shown {A} (m : St (GS * World) A) : keeps ui_frame m -> keeps same_shown m.
Proof. intros H s. unfold same_shown. by rewrite (H s). Qed.

Lemma show_page_shown c n : keeps same_shown (show_page c n).
Proof. intros [g w]. unfold same_shown. cbn. by rewrite host_ui_set. Qed.

Lemma self_shown : keeps same_shown (self (T := GS)).
Proof. intros s. reflexivity. Qed.

Lemma ui_get_shown : keeps same_shown ui_get.
Proof. intros s. reflexivity. Qed.

(** [openBook(book)] for the object at reference [r] shows it, whatever
    its page load does. *)
Lemma openBook_shows r g w n :
  host_book_page r g = Some n ->
  exists w', openBook r (g, w) = (Ok tt, w') /\
    shown (host_ui (fst w')) = (false, Some r, dialogHidden (host_ui g), dialogContent (host_ui g)).
Proof.
  intros Hb. unfold openBook. rewrite st_run_bind. cbn [self gets fst]. rewrite Hb.
  rewrite st_run_bind. cbn [ui_modify modify]. rewrite detach_run. eexists. split; [reflexivity|].
  match goal with |- context [snd (?m ?s)] => assert (Hk : keeps same_shown m) end.
  { keeps_auto; auto using ui_frame_shown, book_getPageContent_ui, show_page_shown, ui_get_shown, self_shown. }
  match goal with |- context [snd (?m ?s)] => rewrite (Hk s) end. cbn. by rewrite host_ui_set.
Qed.

(** A click on the [k]-th item of the card catalog the handler shows asks
    the library for book [k]: the [data-index] text is read back by
    [parseInt]. *)
Lemma catalog_click_getBook titles k g w :
  (k < length titles)%nat ->
  let s1 := snd (showCardCatalog (JArr titles) (g, w)) in
  onCatalogItem k s1 =
    (getBook_ref (Some (Z.of_nat k)) ≫= fun book =>
       match book with Some r => hideDialog;; openBook r | None => mret tt end) s1.
Proof.
  intros Hk s1. subst s1. unfold showCardCatalog. rewrite st_run_bind. cbn [self gets fst].
  destruct (host_room g) as [rx ry]. cbn [showStoryDialog ui_modify modify snd].
  destruct (catalog_items_lookup titles k Hk) as [t Ht].
  unfold onCatalogItem. rewrite st_run_bind. cbn [ui_get gets fst]. rewrite host_ui_set. cbn [dialogContent set_dialog].
  by rewrite Ht, parseInt_z_to_js_nonneg by lia.
Qed.
End Frame.

(** ** Theorems *)

Section Theorems.
Context {GS : Type} `{!UIHost GS, !UIHostLaws GS}.

(** C39 (error): the form refuses a name made only of white space: it
    raises the alert and changes nothing else, the game is not started.
    With a name but a description of white space only, it raises the
    other alert, again without starting the game. *)
Theorem submit_blank_refused startGame nm d g w :
  (Forall (fun c => is_js_space c = true) nm ->
   submitCharacterInfo startGame nm d (g, w) =
     (Ok tt, (set_host_ui (add_alert (js "Please enter your name.") (host_ui g)) g, w))) /\
  (Exists (fun c => is_js_space c = false) nm -> Forall (fun c => is_js_space c = true) d ->
   submitCharacterInfo startGame nm d (g, w) =
     (Ok tt, (set_host_ui (add_alert (js "Please enter a character description.") (host_ui g)) g, w))).
Proof.
  split.
  - intros Hnm. unfold submitCharacterInfo. by rewrite trim_all_space.
  - intros Hnm Hd. unfold submitCharacterInfo. rewrite (trim_all_space d Hd), bool_decide_false.
    + by rewrite bool_decide_true.
    + by apply trim_nonblank.
Qed.

(** C40 (finding): the hide timer of a notification fires [duration] after it was
    shown, whatever was shown since: a second notification shown less
    than 3 s after a first one is hidden when the first one's timer fires,
    before its own 3 s are over. *)
Theorem notification_hidden_early m1 m2 t1 t2 g w :
  hideTimers (host_ui g) = [] -> now w = t1 -> t1 < t2 < t1 + 3000 ->
  let s1 := snd (showNotification m1 3000 (g, w)) in
  let s2 := snd (showNotification m2 3000 (fst s1, set_now t2 (snd s1))) in
  let s3 := snd (fire_timers (t1 + 3000) s2) in
  notification (host_ui (fst s3)) = Some m2 /\ notificationShown (host_ui (fst s3)) = false /\
  hideTimers (host_ui (fst s3)) = [t2 + 3000].
Proof.
  intros Ht Hw Ht2 s1 s2 s3. subst s1 s2 s3. cbv [showNotification fire_timers ui_modify mbind st_bind
    on_world zoom date_now gets modify fst snd]. rewrite !host_ui_set, Ht, Hw. cbn.
  rewrite Z.leb_refl. cbn. rewrite ?host_ui_set. cbn.
  destruct (decide (t1 + 3000 < t1 + 3000)); [lia|].
  destruct (decide (t1 + 3000 < t2 + 3000)); [done|lia].
Qed.
End Theorems.

(** ** Witnesses *)

(** A page with a handler and a room, and no book: the smallest host. *)
Record Desk := { desk_ui : UIHandler; desk_room : Z * Z }.

#[local] Instance desk_host : UIHost Desk := {|
  host_ui := desk_ui;
  set_host_ui u d := {| desk_ui := u; desk_room := desk_room d |};
  host_book_page _ _ := None;
  host_room := desk_room
|}.

#[local] Instance desk_host_laws : UIHostLaws Desk.
Proof. by constructor. Qed.

Definition desk : Desk := {| desk_ui := new_UIHandler; desk_room := (3, 4) |}.

Lemma submit_blank_refused_witness :
  submitCharacterInfo (GS := Desk) (fun _ _ => mret tt) (js "  ") (js "x") (desk, world0 0 [] []) =
    (Ok tt, (set_host_ui (add_alert (js "Please enter your name.") (host_ui desk)) desk, world0 0 [] [])) /\
  submitCharacterInfo (GS := Desk) (fun _ _ => mret tt) (js "Ada") (js " ") (desk, world0 0 [] []) =
    (Ok tt, (set_host_ui (add_alert (js "Please enter a character description.") (host_ui desk)) desk, world0 0 [] [])).
Proof.
  pose proof (submit_blank_refused (GS := Desk) (fun _ _ => mret tt) (js "  ") (js "x") desk (world0 0 [] [])) as [H1 _].
  pose proof (submit_blank_refused (GS := Desk) (fun _ _ => mret tt) (js "Ada") (js " ") desk (world0 0 [] [])) as [_ H2].
  split; [apply H1 | apply H2].
  - change (js "  ") with [32; 32]. repeat constructor.
  - change (js "Ada") with [65; 100; 97]. by apply Exists_cons_hd.
  - change (js " ") with [32]. repeat constructor.
Defined.

Lemma notification_hidden_early_witness :
  let g := desk in let w := world0 1000 [] [] in
  let s1 := snd (showNotification (js "a") 3000 (g, w)) in
  let s2 := snd (showNotification (js "b") 3000 (fst s1, set_now 2500 (snd s1))) in
  let s3 := snd (fire_timers (1000 + 3000) s2) in
  notification (host_ui (fst s3)) = Some (js "b") /\ notificationShown (host_ui (fst s3)) = false /\
  hideTimers (host_ui (fst s3)) = [2500 + 3000].
Proof. apply (notification_hidden_early (js "a") (js "b") 1000 2500 desk); [reflexivity | reflexivity | lia]. Defined.

End UI.
