(* ===== verification/Game.v ===== *)
(** * The game controller: [class Game] (game.js).

    The game owns the library, the player (absent until a character
    exists), a generation handler and a SaveSystem of its own.  The calls
    it makes on its [UIHandler] run the handler of UI.v on the game's
    [ui] field; the game is the handler's [UIHost]: the books the handler
    opens are the slots of [library.books].  The drawing is Render.v's,
    on the game's canvas; [resizeCanvas] is a function on the
    configuration, which it rewrites.  An [async] method is run
    to its end before the next starts: in [startGame] the library's
    initialization, started before the story is requested, is run first. *)
From Stdlib Require Import QArith Qabs Lqa.
From S2P Require Import Prelude JsString Json Numbers Config World Api Save Book Library Geometry Player Render UI.

Module Game.
Import Library Geometry Player UI.

Local Open Scope Q_scope.

Record Game := {
  library : Library;
  player : option Player;
  gapi : Api.APIHandler;
  gsave : Save.SaveSystem;
  isRunning : bool;
  lastTimestamp : Z;
  ui : UIHandler;
  canvas : Render.Canvas;
  pendingFrames : nat
}.

(** [new Game()] (game.js 3-23), without the listeners (Events.v): a new
    canvas context and no animation frame requested. *)
Definition new_Game : Game :=
  {| library := new_Library; player := None; gapi := Api.new_APIHandler;
     gsave := Save.new_SaveSystem; isRunning := false; lastTimestamp := 0; ui := new_UIHandler;
     canvas := Render.new_Canvas; pendingFrames := 0 |}.

(** The page's [#game-container], as [resizeCanvas] reads it. *)
Record Container := { clientWidth : Z; clientHeight : Z }.

(** [resizeCanvas()] (game.js 26-34): the canvas takes the container's
    size, and [CONFIG.roomSize] the canvas's, for every reader of [CONFIG]
    from then on.  The constructor calls it (game.js 17) and the window's
    [resize] listener again at each resize (game.js 18). *)
Definition resizeCanvas (container : Container) (cfg : Config) : Config :=
  {| librarySize_width := librarySize_width cfg; librarySize_height := librarySize_height cfg;
     roomSize_width := clientWidth container; roomSize_height := clientHeight container;
     booksPerRoom := booksPerRoom cfg; aislesPerRoom := aislesPerRoom cfg; booksPerAisle := booksPerAisle cfg;
     playerSpeed := playerSpeed cfg; playerSize := playerSize cfg; wordsPerPage := wordsPerPage cfg;
     apiURL := apiURL cfg; apiModel := apiModel cfg; debug := debug cfg; useMockData := useMockData cfg;
     debugControls := debugControls cfg; showFPS := showFPS cfg; logEvents := logEvents cfg |}.

Definition set_library (l : Library) (g : Game) : Game :=
  {| library := l; player := player g; gapi := gapi g; gsave := gsave g;
     isRunning := isRunning g; lastTimestamp := lastTimestamp g; ui := ui g;
     canvas := canvas g; pendingFrames := pendingFrames g |}.
Definition set_player (p : option Player) (g : Game) : Game :=
  {| library := library g; player := p; gapi := gapi g; gsave := gsave g;
     isRunning := isRunning g; lastTimestamp := lastTimestamp g; ui := ui g;
     canvas := canvas g; pendingFrames := pendingFrames g |}.
Definition set_gapi (h : Api.APIHandler) (g : Game) : Game :=
  {| library := library g; player := player g; gapi := h; gsave := gsave g;
     isRunning := isRunning g; lastTimestamp := lastTimestamp g; ui := ui g;
     canvas := canvas g; pendingFrames := pendingFrames g |}.
Definition set_gsave (s : Save.SaveSystem) (g : Game) : Game :=
  {| library := library g; player := player g; gapi := gapi g; gsave := s;
     isRunning := isRunning g; lastTimestamp := lastTimestamp g; ui := ui g;
     canvas := canvas g; pendingFrames := pendingFrames g |}.
Definition set_running (b : bool) (t : Z) (g : Game) : Game :=
  {| library := library g; player := player g; gapi := gapi g; gsave := gsave g;
     isRunning := b; lastTimestamp := t; ui := ui g;
     canvas := canvas g; pendingFrames := pendingFrames g |}.
Definition set_ui (u : UIHandler) (g : Game) : Game :=
  {| library := library g; player := player g; gapi := gapi g; gsave := gsave g;
     isRunning := isRunning g; lastTimestamp := lastTimestamp g; ui := u;
     canvas := canvas g; pendingFrames := pendingFrames g |}.

Definition set_canvas (c : Render.Canvas) (g : Game) : Game :=
  {| library := library g; player := player g; gapi := gapi g; gsave := gsave g;
     isRunning := isRunning g; lastTimestamp := lastTimestamp g; ui := ui g;
     canvas := c; pendingFrames := pendingFrames g |}.
Definition set_frames (n : nat) (g : Game) : Game :=
  {| library := library g; player := player g; gapi := gapi g; gsave := gsave g;
     isRunning := isRunning g; lastTimestamp := lastTimestamp g; ui := ui g;
     canvas := canvas g; pendingFrames := n |}.

(** The game as its handler's [this.game]: a book reference is an index
    of [library.books], whose [currentPage] the handler reads. *)
#[export] Instance game_ui_host : UIHost Game := {|
  host_ui := ui;
  set_host_ui := set_ui;
  host_book_page i g := option_map Book.currentPage (getBook (library g) i);
  host_room g := (currentRoomX (library g), currentRoomY (library g))
|}.

#[export] Instance game_ui_host_laws : UIHostLaws Game.
Proof. by constructor. Qed.

Abbreviation GW := (Game * World)%type.

(** [this.library.m(...)], [this.api.m(...)], [this.save.m(...)] *)
Definition with_library {A} (m : St LW A) : St GW A :=
  zoom (fun '(g, w) => (library g, w)) (fun '(l, w) '(g, _) => (set_library l g, w)) m.
Definition with_gapi {A} (m : St Api.H A) : St GW A :=
  zoom (fun '(g, w) => (gapi g, w)) (fun '(h, w) '(g, _) => (set_gapi h g, w)) m.
Definition with_gsave {A} (m : St Save.S A) : St GW A :=
  zoom (fun '(g, w) => (gsave g, w)) (fun '(s, w) '(g, _) => (set_gsave s g, w)) m.

(** [this.ctx.m(...)] *)
Definition with_canvas {A} (m : St Render.Canvas A) : St GW A :=
  fun '(g, w) => let '(r, c') := m (canvas g) in (r, (set_canvas c' g, w)).

(** [requestAnimationFrame(this.gameLoop.bind(this))]: one more callback
    for the next frame. *)
Definition requestAnimationFrame : St GW unit :=
  modify (fun '(g, w) => (set_frames (Datatypes.S (pendingFrames g)) g, w)).

(** A method of the book object at index [i] of [library.books]: the
    object is the array slot, so what the method changes (its page, its
    cache) is written there.  A [TypeError] when there is none. *)
Definition with_book {A} (i : Z) (m : St Book.BW A) : St GW A :=
  fun '(g, w) =>
    match getBook (library g) i with
    | None => (Exc TypeError, (g, w))
    | Some b =>
        let '(r, (b', w')) := m (b, w) in
        (r, (set_library (set_books (<[Z.to_nat i := b']> (books (library g))) (library g)) g, w'))
    end.

(** [this.player.m(...)]: a [TypeError] when there is no player. *)
Definition with_player {A} (m : St PW A) : St GW A :=
  fun '(g, w) =>
    match player g with
    | None => (Exc TypeError, (g, w))
    | Some p => let '(r, (p', w')) := m (p, w) in (r, (set_player (Some p') g, w'))
    end.


(** ** Dates: [new Date(t).toISOString()] *)

Definition pad_digits (n : nat) (z : Z) : jstr :=
  let s := z_to_js z in repeat 48%Z (n - length s) ++ s.

(** The civil date of a day count from 1970-01-01 (proleptic Gregorian). *)
Definition civil_of_days (days : Z) : Z * Z * Z :=
  let z := (days + 719468)%Z in
  let era := (z / 146097)%Z in
  let doe := (z - era * 146097)%Z in
  let yoe := ((doe - doe / 1460 + doe / 36524 - doe / 146096) / 365)%Z in
  let doy := (doe - (365 * yoe + yoe / 4 - yoe / 100))%Z in
  let mp := ((5 * doy + 2) / 153)%Z in
  let d := (doy - (153 * mp + 2) / 5 + 1)%Z in
  let m := if (mp <? 10)%Z then (mp + 3)%Z else (mp - 9)%Z in
  let y := (yoe + era * 400)%Z in
  ((if (m <=? 2)%Z then (y + 1)%Z else y), m, d).

Definition iso_string (t : Z) : jstr :=
  let '(y, m, d) := civil_of_days (t / 86400000)%Z in
  let ms := (t mod 86400000)%Z in
  let year := if ((0 <=? y) && (y <=? 9999))%Z then pad_digits 4 y
              else (if (y <? 0)%Z then js "-" else js "+") ++ pad_digits 6 (Z.abs y) in
  year ++ js "-" ++ pad_digits 2 m ++ js "-" ++ pad_digits 2 d ++ js "T"
  ++ pad_digits 2 (ms / 3600000)%Z ++ js ":" ++ pad_digits 2 (ms / 60000 mod 60)%Z ++ js ":"
  ++ pad_digits 2 (ms / 1000 mod 60)%Z ++ js "." ++ pad_digits 3 (ms mod 1000)%Z ++ js "Z".

Section WithConfig.
Context (cfg : Config).

(** The library's books as the handler calls them: [getBook(index)] gives
    the index when it names a book ([NaN] names none), and a book's methods
    run on its slot with the game's generation handler. *)
Definition game_books : BookObjects Game := {|
  getBook_ref n := gets (fun s => n ≫= fun i => getBook (library (fst s)) i ≫= fun _ => Some i);
  book_getPageContent i := with_book i (Book.getPageContent (G := Api.api_generator cfg));
  book_prevPage i := with_book i (Book.prevPage (G := Api.api_generator cfg));
  book_nextPage i := with_book i (Book.nextPage (G := Api.api_generator cfg))
|}.

Lemma with_book_ui {A} i (m : St Book.BW A) : keeps ui_frame (with_book i m).
Proof.
  intros [g w]. unfold with_book, ui_frame. destruct (getBook (library g) i) as [b|]; [|done].
  by destruct (m (b, w)) as [r [b' w']].
Qed.

#[export] Instance game_books_laws : BookObjectsLaws Game game_books.
Proof. constructor; intros; cbn; try apply with_book_ui. intros s. reflexivity. Qed.

(** ** [initialize()] (game.js 37-54) *)

(** [savedCharacter.name]: a [TypeError] on [null] or [undefined]. *)
Definition prop_of (v : jsval) (k : jstr) : St GW jsval :=
  match get_prop v k with Some r => mret r | None => throw TypeError end.

Definition initialize : St GW unit :=
  savedCharacter ← with_gsave Save.loadCharacter;
  if truthy savedCharacter then
    n ← prop_of savedCharacter (js "name");
    d ← prop_of savedCharacter (js "description");
    modify (fun '(g, w) => (set_player (Some (new_Player cfg n d)) g, w));;
    with_library (Library.initialize (G := Api.api_generator cfg) cfg);;
    with_player Player.initialize;;
    t ← on_world date_now;
    modify (fun '(g, w) => (set_running true t g, w));;
    requestAnimationFrame
  else showCharacterCreation.

(** ** [startGame(name, description)] (game.js 56-103) *)

Definition character_data (name description : jstr) (t : Z) : jsval :=
  JObj [(js "name", JStr name); (js "description", JStr description);
        (js "creationDate", JStr (iso_string t))].

Definition startGame (name description : jstr) : St GW unit :=
  modify (fun '(g, w) => (set_player (Some (new_Player cfg (JStr name) (JStr description))) g, w));;
  t ← on_world date_now;
  let characterData := character_data name description t in
  with_gsave (Save.saveCharacter characterData);;
  with_library (Library.initialize (G := Api.api_generator cfg) cfg);;
  showStoryDialog DWaiting;;
  story ← with_gapi (Api.generateCharacterStory cfg (Api.callAPI cfg) name description);
  with_player Player.initialize;;
  if truthy story then
    showStoryDialog (DStory story);;
    with_gsave (Save.saveCharacterStoryToLibrary cfg characterData story);;
    mret tt
  else showStoryDialog (DFallback name).

(** [startGameLoop()] (game.js 110-115) *)
Definition startGameLoop : St GW unit :=
  t ← on_world date_now;
  modify (fun '(g, w) => (set_running true t g, w));;
  requestAnimationFrame.

(** ** [update(deltaTime)] (game.js 131-137) and [gameLoop] (118-128) *)

Definition update : St GW unit :=
  g ← self;
  match player g with
  | None => mret tt
  | Some _ => with_player (Player.update cfg (getRoomInfo cfg (library g)))
  end.

(** [this.render()] (game.js 139-162) on the game's canvas. *)
Definition render : St GW unit :=
  g ← self;
  with_canvas (Render.render cfg (player g) (library g)).

(** One frame: the callback the browser runs for a requested frame.  An
    exception in [update] or [render] ends it before the next frame is
    requested. *)
Definition gameLoop (timestamp : Z) : St GW unit :=
  modify (fun '(g, w) => (set_running (isRunning g) timestamp g, w));;
  g ← self;
  if isRunning g then update;; render;; requestAnimationFrame else mret tt.

(** ** [useExit(direction)] (game.js 359-388) *)

(** Where the player enters the next room: the entrance opposite the exit. *)
Definition arrival (direction : jstr) (px py : Q) : Q * Q :=
  let W := inject_Z (roomSize_width cfg) in
  let H := inject_Z (roomSize_height cfg) in
  if bool_decide (direction = js "north") then (W / 2, H - 40)
  else if bool_decide (direction = js "south") then (W / 2, 40)
  else if bool_decide (direction = js "east") then (40, H / 2)
  else if bool_decide (direction = js "west") then (W - 40, H / 2)
  else (px, py).

Definition entered_msg (rx ry : Z) : jstr :=
  js "Entered room (" ++ z_to_js rx ++ js ", " ++ z_to_js ry ++ js ")".

Definition useExit (direction : jstr) : St GW unit :=
  success ← with_library (Library.moveToRoom (G := Api.api_generator cfg) cfg direction);
  if (success : bool) then
    (g ← self;
     match player g with
     | None => throw TypeError
     | Some p =>
         let '(nx, ny) := arrival direction (x p) (y p) in
         modify (fun '(g, w) => (set_player (Some (set_y ny (set_x nx p))) g, w));;
         g' ← self;
         showNotification (entered_msg (currentRoomX (library g')) (currentRoomY (library g'))) 3000
     end)
  else showNotification (js "You cannot go further in that direction.") 3000.

(** ** [handleInteraction()] (game.js 333-356) *)

(** [this.library.getBook(index)] with a number index: [this.books[i]] is
    [undefined] for an [i] that is not an integer; an integer index is
    the book's slot. *)
Definition book_index (i : Q) : option Z :=
  match Qred i with
  | Qmake z 1 => Some z
  | _ => None
  end.

Definition handleInteraction : St GW unit :=
  g ← self;
  match player g with
  | None => mret tt
  | Some p =>
      let book := if Qle_bool 0 (nearbyBookIndex p) then
                    book_index (nearbyBookIndex p) ≫= fun i => getBook (library g) i ≫= fun _ => Some i
                  else None in
      match book with
      | Some i => openBook (B := game_books) i
      | None =>
          if isAtCardCatalog p then showCardCatalog (cardCatalog (library g))
          else match isAtExit p with
               | Some d => detach (useExit d)
               | None => mret tt
               end
      end
  end.

(** ** [handleKeyDown] and [handleKeyUp] (game.js 313-330) *)

Definition handleKeyDown (key : jstr) : St GW unit :=
  g ← self;
  match player g with
  | None => mret tt
  | Some _ =>
      with_player (Player.handleKeyDown key);;
      if bool_decide (lower_ascii key = js "e") then handleInteraction else mret tt
  end.

Definition handleKeyUp (key : jstr) : St GW unit :=
  g ← self;
  match player g with
  | None => mret tt
  | Some _ => with_player (Player.handleKeyUp key)
  end.

End WithConfig.

(** ** Directions, as the statements use them *)

(** The direction that leads back, and the keys that point there. *)
Definition opposite (d : jstr) : jstr :=
  if bool_decide (d = js "north") then js "south"
  else if bool_decide (d = js "south") then js "north"
  else if bool_decide (d = js "east") then js "west"
  else if bool_decide (d = js "west") then js "east"
  else d.

Definition hold_back (d : jstr) (p : Player) : Player :=
  set_moves (bool_decide (d = js "south")) (bool_decide (d = js "north"))
            (bool_decide (d = js "east")) (bool_decide (d = js "west")) p.

(** The neighbouring room in each direction of the grid: north is the row
    above. *)
Definition dir_delta (d : jstr) : Z * Z :=
  if bool_decide (d = js "north") then (0, -1)%Z
  else if bool_decide (d = js "south") then (0, 1)%Z
  else if bool_decide (d = js "east") then (1, 0)%Z
  else if bool_decide (d = js "west") then (-1, 0)%Z
  else (0, 0)%Z.

(** ** Runs *)

Lemma game_update_run cfg g w p :
  player g = Some p ->
  update cfg (g, w) =
    let '(r, (p', w')) := Player.update cfg (getRoomInfo cfg (library g)) (p, w) in
    (r, (set_player (Some p') g, w')).
Proof.
  intros Hp. unfold update. rewrite st_run_bind. cbn [self gets fst]. rewrite Hp.
  unfold with_player. rewrite Hp. reflexivity.
Qed.

(** The player after a tick, whatever the tick answers. *)
Lemma update_tick cfg g w p r g1 w1 p1 :
  player g = Some p -> update cfg (g, w) = (r, (g1, w1)) -> player g1 = Some p1 ->
  p1 = tick cfg (getRoomInfo cfg (library g)) p /\ library g1 = library g.
Proof.
  intros Hp Hu Hp1. rewrite (game_update_run cfg g w p Hp) in Hu.
  pose proof (update_player cfg (getRoomInfo cfg (library g)) p w) as Ht.
  destruct (Player.update _ _ (p, w)) as [r' [p' w']]. injection Hu as <- <- <-.
  cbn in Hp1, Ht |- *. injection Hp1 as <-. by split.
Qed.

(** Standing above the shelves, no book is within reach. *)
Lemma above_shelves_no_book cfg l px py :
  py < 60 -> nearest_book px py (bookPositions (getRoomInfo cfg l)) = -1.
Proof.
  intros Hy. apply nearest_book_none, List.Forall_forall. intros b Hb.
  apply dist2_far. pose proof (getBookPositions_y cfg l b Hb). lra.
Qed.

Lemma with_library_run {A} (m : St LW A) g w :
  with_library m (g, w) = (fst (m (library g, w)), (set_library (fst (snd (m (library g, w)))) g, snd (snd (m (library g, w))))).
Proof. unfold with_library, zoom. by destruct (m (library g, w)) as [r [l' w']]. Qed.

(** The entrance opposite an exit is not an exit, in a room of at least
    80 by 80. *)
Lemma arrival_not_exit cfg d px py :
  In d [js "north"; js "south"; js "east"; js "west"] ->
  (80 <= roomSize_width cfg)%Z -> (80 <= roomSize_height cfg)%Z ->
  room_exit cfg (arrival cfg d px py).1 (arrival cfg d px py).2 = None.
Proof.
  intros Hd HW HH. rewrite Zle_Qle in HW, HH. change (inject_Z 80) with 80 in HW, HH.
  destruct Hd as [<-|[<-|[<-|[<-|[]]]]];
    [change (arrival cfg (js "north") px py) with (inject_Z (roomSize_width cfg) / 2, inject_Z (roomSize_height cfg) - 40)
    |change (arrival cfg (js "south") px py) with (inject_Z (roomSize_width cfg) / 2, 40)
    |change (arrival cfg (js "east") px py) with (40, inject_Z (roomSize_height cfg) / 2)
    |change (arrival cfg (js "west") px py) with (inject_Z (roomSize_width cfg) - 40, inject_Z (roomSize_height cfg) / 2)];
    cbn [fst snd]; unfold room_exit;
    try change (inject_Z (roomSize_width cfg) / 2) with (inject_Z (roomSize_width cfg) * (1 # 2));
    try change (inject_Z (roomSize_height cfg) / 2) with (inject_Z (roomSize_height cfg) * (1 # 2));
    repeat rewrite Qltb_false by lra; reflexivity.
Qed.

Lemma step_room_delta d rx ry :
  In d [js "north"; js "south"; js "east"; js "west"] ->
  step_room d rx ry = (rx + (dir_delta d).1, ry + (dir_delta d).2)%Z.
Proof. intros [<-|[<-|[<-|[<-|[]]]]]; unfold step_room, dir_delta; js_decide; cbn [fst snd]; f_equal; lia. Qed.

(** The exit recomputed by a tick is the first edge within 40 of the
    position the tick reaches. *)
Lemma tick_exit cfg info p :
  isAtExit (tick cfg info p) = room_exit cfg (x (tick cfg info p)) (y (tick cfg info p)).
Proof. reflexivity. Qed.

(** From the entrance of a room, one step towards the room left behind
    reaches the exit leading back, when a step plus the player's half size
    is within the exit distance 40. *)
Lemma entrance_back_exit cfg info d p px py :
  In d [js "north"; js "south"; js "east"; js "west"] ->
  (80 <= roomSize_width cfg)%Z -> (80 <= roomSize_height cfg)%Z -> (0 < speed p)%Z ->
  inject_Z (size p) / 2 + inject_Z (speed p) <= 40 ->
  (x p, y p) = arrival cfg d px py ->
  isAtExit (tick cfg info (hold_back d p)) = Some (opposite d).
Proof.
  intros Hd HW HH Hs Hpad Ha. rewrite Zle_Qle in HW, HH. change (inject_Z 80) with 80 in HW, HH.
  rewrite Zlt_Qlt in Hs. change (inject_Z 0) with 0 in Hs.
  rewrite tick_exit, tick_x, tick_y. unfold arrival in Ha.
  set (W := inject_Z (roomSize_width cfg)) in *. set (Hh := inject_Z (roomSize_height cfg)) in *.
  set (s := inject_Z (speed p)) in *. set (pad := inject_Z (size p) / 2) in *.
  destruct Hd as [<-|[<-|[<-|[<-|[]]]]]; cbn in Ha; injection Ha as Ex Ey;
    cbn [hold_back set_moves x y speed size moveUp moveDown moveLeft moveRight];
    rewrite ?Ex, ?Ey; cbv [axis_delta]; js_decide; fold s pad;
    try change (W / 2) with (W * (1 # 2)); try change (Hh / 2) with (Hh * (1 # 2));
    rewrite !clamp_move_moves by lra; unfold room_exit; fold W Hh;
    repeat first [rewrite Qltb_false by lra | rewrite (proj2 (Qltb_iff _ _)) by lra];
    reflexivity.
Qed.

(** ** Theorems *)

(** C37 (finding): the zone of the card catalog ([y < 80], [|x - width/2| <
    50]) covers the north doorway drawn by [renderExits] ([width/2 - 30 ..
    width/2 + 30], [y < 20]).  A player standing there after a tick is at
    the north exit, but [handleInteraction] opens the card catalog and
    leaves the room unchanged: the north exit cannot be taken through its
    doorway. *)
Theorem north_doorway_shows_catalog cfg g w p r g1 w1 p1 :
  player g = Some p -> update cfg (g, w) = (r, (g1, w1)) -> player g1 = Some p1 ->
  y p1 < 40 -> Qabs (x p1 - inject_Z (roomSize_width cfg) / 2) < 50 ->
  isAtExit p1 = Some (js "north") /\
  handleInteraction cfg (g1, w1) = showCardCatalog (cardCatalog (library g1)) (g1, w1).
Proof.
  intros Hp Hu Hp1 Hy Hx. destruct (update_tick cfg g w p r g1 w1 p1 Hp Hu Hp1) as [-> Hl].
  set (t := tick cfg (getRoomInfo cfg (library g)) p) in *.
  split.
  - change (room_exit cfg (x t) (y t) = Some (js "north")). unfold room_exit.
    by rewrite (proj2 (Qltb_iff _ _) Hy).
  - unfold handleInteraction. rewrite st_run_bind. cbn [self gets fst snd]. rewrite Hp1.
    change (nearbyBookIndex t) with (nearest_book (x t) (y t) (bookPositions (getRoomInfo cfg (library g)))).
    rewrite above_shelves_no_book by lra. cbn [Qle_bool].
    change (isAtCardCatalog t) with (at_card_catalog cfg (x t) (y t)). unfold at_card_catalog.
    assert (Hy80 : y t < 80) by lra.
    rewrite (proj2 (Qltb_iff _ _) Hy80), (proj2 (Qltb_iff _ _) Hx). reflexivity.
Qed.

(** C38: a successful [useExit] through one of the four exits enters the
    neighbouring room in that direction (north is the row above) and puts
    the player at the entrance facing the room left behind: the entrance
    is not itself an exit, and one tick with the keys pointing back
    reaches the exit that leads back, when a step plus half the player is
    within the exit distance 40 (3 + 16 in the shipped configuration). *)
Theorem useExit_enters cfg d g w p g' w' info :
  player g = Some p -> In d [js "north"; js "south"; js "east"; js "west"] ->
  (80 <= roomSize_width cfg)%Z -> (80 <= roomSize_height cfg)%Z ->
  (0 < speed p)%Z -> inject_Z (size p) / 2 + inject_Z (speed p) <= 40 ->
  in_grid cfg (currentRoomX (library g) + (dir_delta d).1)%Z (currentRoomY (library g) + (dir_delta d).2)%Z = true ->
  useExit cfg d (g, w) = (Ok tt, (g', w')) ->
  room_of (library g', w') = (currentRoomX (library g) + (dir_delta d).1, currentRoomY (library g) + (dir_delta d).2)%Z /\
  exists p', player g' = Some p' /\ room_exit cfg (x p') (y p') = None /\
    isAtExit (tick cfg info (hold_back d p')) = Some (opposite d).
Proof.
  intros Hp Hd HW HH Hs Hpad Hin Hu.
  pose proof (step_room_delta d (currentRoomX (library g)) (currentRoomY (library g)) Hd) as Hsd.
  destruct (step_room d (currentRoomX (library g)) (currentRoomY (library g))) as [nx ny] eqn:Hst.
  injection Hsd as Ex Ey. rewrite <-Ex, <-Ey in Hin |- *.
  destruct (moveToRoom_to (G := Api.api_generator cfg) cfg d (library g) w nx ny Hst) as [_ Hto].
  destruct (Hto Hin) as [Hroom Hres].
  unfold useExit in Hu. rewrite st_run_bind, with_library_run in Hu.
  destruct (moveToRoom cfg d (library g, w)) as [[[|]|e] [l' w1]]; cbn [fst snd] in Hu, Hroom, Hres;
    [|by destruct Hres|discriminate].
  rewrite st_run_bind in Hu. cbn [self gets fst snd player set_library] in Hu. rewrite Hp in Hu.
  pose proof (arrival_not_exit cfg d (x p) (y p) Hd HW HH) as Hne.
  destruct (arrival cfg d (x p) (y p)) as [ax ay] eqn:Ea.
  cbv [mbind st_bind modify self gets showNotification ui_modify on_world zoom date_now] in Hu.
  injection Hu as <- <-.
  split; [exact Hroom|]. eexists. split; [reflexivity|]. split; [exact Hne|].
  by apply (entrance_back_exit cfg info d _ (x p) (y p)).
Qed.

(** ** Witnesses *)

(** A game in the shipped configuration whose player stands in the north
    doorway, at [(400, 30)], in the room of [Geometry.full_room]. *)
Definition doorway_game : Game :=
  set_player (Some (set_y 30 (new_Player CONFIG JNull JNull))) (set_library full_room new_Game).

(** C31 (finding): the window shrinks under the player.  After a resize
    to a container narrower than where the player stands (more than one
    step beyond the new right padding), no tick moves the player
    horizontally again, whatever keys are held: every step lands outside
    the new room and [update] refuses it, so the player is stuck beyond
    the canvas's right edge, where it is not drawn, until the east exit
    takes it to another room. *)
Theorem resize_strands_player cfg c info p n :
  (0 <= playerSpeed cfg)%Z -> speed p = playerSpeed cfg ->
  inject_Z (clientWidth c) - inject_Z (size p) / 2 < x p - inject_Z (speed p) ->
  x (Nat.iter n (tick (resizeCanvas c cfg) info) p) = x p.
Proof.
  intros Hs Hsp Hx. induction n as [|n IH]; [done|].
  cbn [Nat.iter]. set (q := Nat.iter n (tick (resizeCanvas c cfg) info) p) in *.
  assert (Hq : speed q = speed p /\ size q = size p).
  { subst q. clear IH. induction n as [|n IHn]; [done|]. cbn [Nat.iter]. exact IHn. }
  destruct Hq as [Hq1 Hq2]. rewrite Nat.iter_succ. fold q. rewrite tick_x, IH, Hq1, Hq2.
  apply clamp_move_stuck with (inject_Z (speed p)); [exact Hx|].
  apply axis_delta_bound. rewrite Hsp. change 0 with (inject_Z 0). rewrite <-Zle_Qle. exact Hs.
Qed.

Lemma north_doorway_shows_catalog_witness :
  exists r g1 w1 p1, update CONFIG (doorway_game, world0 0 [] []) = (r, (g1, w1)) /\
    player g1 = Some p1 /\ y p1 < 40 /\ Qabs (x p1 - inject_Z (roomSize_width CONFIG) / 2) < 50 /\
    isAtExit p1 = Some (js "north") /\
    handleInteraction CONFIG (g1, w1) = showCardCatalog (cardCatalog (library g1)) (g1, w1).
Proof.
  do 4 eexists. split; [vm_compute; reflexivity|]. split; [vm_compute; reflexivity|].
  split; [vm_compute; reflexivity|]. split; [vm_compute; reflexivity|].
  eapply (north_doorway_shows_catalog CONFIG doorway_game (world0 0 [] []) (set_y 30 (new_Player CONFIG JNull JNull)));
    [reflexivity | vm_compute; reflexivity | reflexivity | vm_compute; reflexivity | vm_compute; reflexivity].
Defined.

(** A new game whose player, in room (0, 0), takes the south exit. *)
Definition exit_game : Game := set_player (Some (new_Player CONFIG JNull JNull)) new_Game.

Lemma useExit_enters_witness :
  exists g' w', useExit CONFIG (js "south") (exit_game, world0 0 [] []) = (Ok tt, (g', w')) /\
    room_of (library g', w') = (currentRoomX (library exit_game) + (dir_delta (js "south")).1,
                                currentRoomY (library exit_game) + (dir_delta (js "south")).2)%Z /\
    exists p', player g' = Some p' /\ room_exit CONFIG (x p') (y p') = None /\
      isAtExit (tick CONFIG sample_info (hold_back (js "south") p')) = Some (opposite (js "south")).
Proof.
  do 2 eexists. split; [vm_compute; reflexivity|].
  apply (useExit_enters CONFIG (js "south") exit_game (world0 0 [] []) (new_Player CONFIG JNull JNull));
    [reflexivity | right; left; reflexivity | decide_true | decide_true | reflexivity
    | unfold Qle; vm_compute; discriminate | vm_compute; reflexivity | vm_compute; reflexivity].
Defined.

(** A player at [x = 700] in the shipped room, after the window shrinks
    the canvas to 400 pixels. *)
Definition far_right : Player := set_x 700 (new_Player CONFIG JNull JNull).

Lemma resize_strands_player_witness :
  x (Nat.iter 50 (tick (resizeCanvas {| clientWidth := 400; clientHeight := 600 |} CONFIG) sample_info)
       (set_moves false false true false far_right)) = 700.
Proof.
  apply (resize_strands_player CONFIG {| clientWidth := 400; clientHeight := 600 |} sample_info
           (set_moves false false true false far_right) 50); [vm_compute; discriminate|reflexivity|vm_compute; reflexivity].
Defined.

End Game.
