(* ===== verification/Events.v ===== *)
(** * The page's events: start-up (main.js) and the listeners registered
    by the game and its handler (game.js 3-23, ui.js 28-71, 190-200).

    An [Event] is what the user or the browser does: a key pressed or
    released, an animation frame, a click on one of the page's buttons or
    on an item of the card catalog, the clock advancing.  [dispatch] runs
    the listeners registered for it in registration order, each one
    [detach]ed (an exception in a listener is reported and the next one
    runs); before it, the notification timers that are due fire.  An
    animation frame runs the callbacks [requestAnimationFrame] registered
    for it ([animationFrame]).  [enabled] says which events the page
    offers (a hidden button cannot be clicked; a frame comes when a
    callback is requested).  [boot] is main.js: a new [Game] and its
    [initialize]; [session] the states a session reaches from it, window
    resizes included, by rule induction.  The invariants of the reachable states (the book
    shown, the frames requested) are proved from what each method keeps
    of a part of the game ([same_on]). *)
From Stdlib Require Import QArith Qabs Lqa.
From S2P Require Import Prelude JsString Json Numbers Config World Api Save Book Library Geometry Player Render UI Game.

Module Events.
Import Library Player UI Game.

Local Open Scope Q_scope.

Inductive Event :=
  | KeyDown (key : jstr)
  | KeyUp (key : jstr)
  | AnimationFrame (timestamp : Z)
  | DialogCloseClick
  | PrevPageClick
  | NextPageClick
  | BookCloseClick
  | StartGameClick (nameInput descriptionInput : jstr)
  | CatalogItemClick (k : nat)
  | Wait (ms : Z).

Section WithConfig.
Context (cfg : Config).

(** A frame: the browser runs the callbacks requested for it, each once
    and in order (an exception in one does not stop the others); those
    they request are for the next frame. *)
Definition animationFrame (t : Z) : St GW unit :=
  g ← self;
  modify (fun '(g, w) => (set_frames 0 g, w));;
  for_each (repeat tt (pendingFrames g)) (fun _ => detach (gameLoop cfg t)).

(** The listeners of an event, in the order they were registered: the
    handler's [keydown] listener is added by [new UIHandler(this)]
    (game.js 9, ui.js 61-70) before the game adds its own (game.js 21). *)
Definition listeners (e : Event) : list (St GW unit) :=
  match e with
  | KeyDown k => [onKeyDown (handleInteraction cfg) k; Game.Game.handleKeyDown cfg k]
  | KeyUp k => [Game.Game.handleKeyUp k]
  | AnimationFrame t => [animationFrame t]
  | DialogCloseClick => [onDialogClose isRunning startGameLoop hideDialog]
  | PrevPageClick => [turnPage (B := game_books cfg) (js "prev")]
  | NextPageClick => [turnPage (B := game_books cfg) (js "next")]
  | BookCloseClick => [closeBook]
  | StartGameClick n d => [submitCharacterInfo (startGame cfg) n d]
  | CatalogItemClick k => [onCatalogItem (B := game_books cfg) k]
  | Wait ms => [on_world (sleep ms)]
  end.

(** The hide timers due at the current time fire first. *)
Definition fire_due : St GW unit := t ← on_world date_now; fire_timers t.

Definition dispatch (e : Event) : St GW unit :=
  fire_due;; fold_right (fun l rest => detach l;; rest) (mret tt) (listeners e).

Definition catalog_size (u : UIHandler) : nat :=
  match dialogContent u with Some (DCatalog _ _ items) => length items | _ => 0%nat end.

Definition enabled (e : Event) (g : Game) : bool :=
  match e with
  | AnimationFrame _ => bool_decide (0 < pendingFrames g)%nat
  | DialogCloseClick => negb (dialogHidden (ui g))
  | PrevPageClick | NextPageClick | BookCloseClick => negb (bookHidden (ui g))
  | StartGameClick _ _ => characterCreationShown (ui g)
  | CatalogItemClick k => negb (dialogHidden (ui g)) && bool_decide (k < catalog_size (ui g))%nat
  | _ => true
  end.

(** main.js: [new Game()] and [game.initialize()], not awaited. *)
Definition boot (w : World) : GW := snd (detach (Game.Game.initialize cfg) (new_Game, w)).

Inductive step : GW -> Event -> GW -> Prop :=
  | step_dispatch s e : enabled e (fst s) = true -> step s e (snd (dispatch e s)).

End WithConfig.

(** A session of the page: main.js on a window whose [#game-container]
    has some size (the constructor's [resizeCanvas] sets [CONFIG.roomSize]
    before anything reads it), then the page's enabled events and window
    resizes, each of which rewrites [CONFIG.roomSize] for every later
    event (game.js 17-18). *)
Inductive session : Config -> GW -> Prop :=
  | session_boot c w : session (resizeCanvas c CONFIG) (boot (resizeCanvas c CONFIG) w)
  | session_step cfg s e s' : session cfg s -> step cfg s e s' -> session cfg s'
  | session_resize cfg c s : session cfg s -> session (resizeCanvas c cfg) s.

(** ** Runs *)

Section Runs.
Context (cfg : Config).

Lemma set_player_same g p : player g = Some p -> set_player (Some p) g = g.
Proof. destruct g; cbn. by intros ->. Qed.

(** What the interaction reads: the player's flags and whether the book
    is shown. *)
Definition iview (g : Game) : option (Q * bool * option jstr) * bool :=
  (option_map (fun p => (nearbyBookIndex p, isAtCardCatalog p, isAtExit p)) (player g), bookHidden (ui g)).

(** The timers that fire change the notification only. *)
Lemma fire_due_run g w :
  exists u, fire_due (g, w) = (Ok tt, (set_ui u g, w)) /\ shown u = shown (ui g).
Proof. eexists. split; [reflexivity|]. cbn. by case_match. Qed.

(** The game's [keydown] listener on E: the key changes none of the keys
    the player moves with, and the interaction follows. *)
Lemma handleKeyDown_e g w p :
  player g = Some p -> Game.handleKeyDown cfg (js "e") (g, w) = handleInteraction cfg (g, w).
Proof.
  intros Hp. unfold Game.handleKeyDown. rewrite st_run_bind. cbn [self gets fst]. rewrite Hp.
  rewrite st_run_bind. unfold with_player. rewrite Hp. cbn. by rewrite set_player_same.
Qed.

Lemma handleInteraction_exit g w p d :
  player g = Some p -> Qle_bool 0 (nearbyBookIndex p) = false -> isAtCardCatalog p = false ->
  isAtExit p = Some d -> handleInteraction cfg (g, w) = detach (useExit cfg d) (g, w).
Proof. intros Hp Hb Hc He. unfold handleInteraction. rewrite st_run_bind. cbn [self gets fst]. by rewrite Hp, Hb, Hc, He. Qed.

Lemma handleInteraction_book g w p i b :
  player g = Some p -> nearbyBookIndex p = inject_Z i -> (0 <= i)%Z -> getBook (library g) i = Some b ->
  handleInteraction cfg (g, w) = openBook (B := game_books cfg) i (g, w).
Proof.
  intros Hp Hn Hi Hb. unfold handleInteraction. rewrite st_run_bind. cbn [self gets fst]. rewrite Hp, Hn.
  replace (Qle_bool 0 (inject_Z i)) with true by (symmetry; apply Qle_bool_iff; change 0 with (inject_Z 0); rewrite <- Zle_Qle; lia).
  unfold book_index. rewrite Qred_inject_Z. cbn. by rewrite Hb.
Qed.

(** [useExit] moves the library as [moveToRoom] does, and leaves what the
    interaction reads unchanged: the player's flags are recomputed only at
    the next tick. *)
Lemma useExit_view d g w p :
  player g = Some p ->
  let s' := snd (useExit cfg d (g, w)) in
  room_of (library (fst s'), snd s') = room_of (snd (moveToRoom (G := Api.api_generator cfg) cfg d (library g, w))) /\
  iview (fst s') = iview g.
Proof.
  intros Hp s'. subst s'. unfold useExit. rewrite st_run_bind, with_library_run.
  destruct (moveToRoom (G := Api.api_generator cfg) cfg d (library g, w)) as [[[|]|e] [l' w1]]; cbn [fst snd]; [| |done].
  - rewrite st_run_bind. cbn [self gets fst player set_library]. rewrite Hp.
    destruct (arrival cfg d (x p) (y p)) as [ax ay].
    cbv [mbind st_bind modify self gets showNotification ui_modify on_world zoom date_now fst snd].
    split; [done|]. unfold iview. cbn [player ui set_ui set_player set_library set_notification
      bookHidden option_map nearbyBookIndex isAtCardCatalog isAtExit set_x set_y host_ui set_host_ui game_ui_host].
    by rewrite Hp.
  - cbv [showNotification ui_modify mbind st_bind on_world zoom date_now gets modify fst snd].
    split; [done|]. unfold iview. by cbn [player ui set_ui set_player set_library set_notification
      bookHidden host_ui set_host_ui game_ui_host].
Qed.

End Runs.

(** ** What a step keeps of a part of the game

    [same_on f]: a run leaves the view [f] of the game as it was.  The
    methods of a part of the game (the library, the handler, the player,
    the canvas, ...) keep every view that does not read that part. *)
Definition same_on {X} (f : Game -> X) (s s' : GW) : Prop := f (fst s') = f (fst s).

#[export] Instance same_on_preorder {X} (f : Game -> X) : PreOrder (same_on f).
Proof. split; [done|]. intros ??? H1 H2. unfold same_on in *. congruence. Qed.

Section SameOn.
Context {X : Type} (f : Game -> X).

Lemma with_library_same {A} (m : St LW A) :
  (forall l g, f (set_library l g) = f g) -> keeps (same_on f) (with_library m).
Proof. intros H [g w]. unfold with_library, zoom. destruct (m (library g, w)) as [r [l' w']]. apply H. Qed.
Lemma with_gapi_same {A} (m : St Api.H A) :
  (forall h g, f (set_gapi h g) = f g) -> keeps (same_on f) (with_gapi m).
Proof. intros H [g w]. unfold with_gapi, zoom. destruct (m (gapi g, w)) as [r [h' w']]. apply H. Qed.
Lemma with_gsave_same {A} (m : St Save.S A) :
  (forall s g, f (set_gsave s g) = f g) -> keeps (same_on f) (with_gsave m).
Proof. intros H [g w]. unfold with_gsave, zoom. destruct (m (gsave g, w)) as [r [s' w']]. apply H. Qed.
Lemma with_player_same {A} (m : St PW A) :
  (forall p g, f (set_player p g) = f g) -> keeps (same_on f) (with_player m).
Proof.
  intros H [g w]. unfold with_player. destruct (player g) as [p|]; [|done].
  destruct (m (p, w)) as [r [p' w']]. apply H.
Qed.
Lemma with_canvas_same {A} (m : St Render.Canvas A) :
  (forall c g, f (set_canvas c g) = f g) -> keeps (same_on f) (with_canvas m).
Proof. intros H [g w]. unfold with_canvas. destruct (m (canvas g)) as [r c']. apply H. Qed.
Lemma with_book_same {A} i (m : St Book.BW A) :
  (forall l g, f (set_library l g) = f g) -> keeps (same_on f) (with_book i m).
Proof.
  intros H [g w]. unfold with_book. destruct (getBook (library g) i) as [b|]; [|done].
  destruct (m (b, w)) as [r [b' w']]. apply H.
Qed.
Lemma ui_modify_same h : (forall u g, f (set_ui u g) = f g) -> keeps (same_on f) (ui_modify (GS := Game) h).
Proof. intros H [g w]. apply H. Qed.
Lemma frames_same : (forall n g, f (set_frames n g) = f g) -> keeps (same_on f) requestAnimationFrame.
Proof. intros H [g w]. apply H. Qed.
Lemma on_world_same {A} (m : St World A) : keeps (same_on f) (on_world m).
Proof. intros [g w]. rewrite on_world_run. reflexivity. Qed.
Lemma self_same : keeps (same_on f) (self (T := Game)).
Proof. by intros s. Qed.
Lemma ui_get_same : keeps (same_on f) (ui_get (GS := Game)).
Proof. by intros s. Qed.
End SameOn.

Create HintDb game_frame.
#[local] Hint Resolve with_library_same with_gapi_same with_gsave_same with_player_same with_canvas_same
  with_book_same frames_same on_world_same self_same ui_get_same : game_frame.
#[local] Hint Extern 1 (forall _ _, _ = _) => (intros; reflexivity) : game_frame.

(** Split a method into its calls on the parts of the game. *)
Ltac part_frame :=
  keeps_auto;
  repeat match goal with
    | |- keeps _ (detach _) => apply keeps_detach; keeps_auto
    | |- forall s : GW, same_on _ s _ => intros [? ?]; reflexivity
    end.

(** A property every listener keeps is kept by a dispatch. *)
Lemma dispatch_keeps cfg (R : GW -> GW -> Prop) `{!PreOrder R} e :
  keeps R fire_due -> Forall (keeps R) (listeners cfg e) -> keeps R (dispatch cfg e).
Proof.
  intros Hf Hl. unfold dispatch. apply (keeps_bind R); [exact Hf | intros _].
  induction Hl as [|l ls Hl _ IH]; cbn [fold_right]; [apply (keeps_ret R)|].
  apply (keeps_bind R); [by apply keeps_detach | intros _; exact IH].
Qed.

(** ** The book the handler holds *)

(** The handler shows the book exactly when it holds one: [bookHidden]
    and [currentBook] are set together by [openBook] and [closeBook]. *)
Definition book_ok (g : Game) : Prop := bookHidden (ui g) = true <-> currentBook (ui g) = None.

Definition book_state (g : Game) : bool * option Z := (bookHidden (ui g), currentBook (ui g)).

Abbreviation same_book := (same_on book_state).

Definition keeps_book_ok (s s' : GW) : Prop := book_ok (fst s) -> book_ok (fst s').

#[export] Instance keeps_book_ok_preorder : PreOrder keeps_book_ok.
Proof. split; [by intros ? ?|]. intros ??? H1 H2 H. by apply H2, H1. Qed.

Section BookFrame.
Context (cfg : Config).

Lemma same_book_ok {A} (m : St GW A) : keeps same_book m -> keeps keeps_book_ok m.
Proof.
  intros H s Hok. specialize (H s). unfold same_on, book_state, book_ok in *.
  injection H as E1 E2. by rewrite E1, E2.
Qed.

(** A change of the handler that keeps the book fields. *)
Lemma ui_modify_book f : (forall u, bookHidden (f u) = bookHidden u /\ currentBook (f u) = currentBook u) ->
  keeps same_book (ui_modify (GS := Game) f).
Proof. intros Hf [g w]. unfold same_on, book_state. cbn. by destruct (Hf (ui g)) as [-> ->]. Qed.

Ltac ui_fields := intros; split; reflexivity.

Lemma dialogs_book :
  (forall c, keeps same_book (showStoryDialog (GS := Game) c)) /\ keeps same_book (hideDialog (GS := Game)) /\
  keeps same_book (showCharacterCreation (GS := Game)) /\ keeps same_book (hideCharacterCreation (GS := Game)) /\
  (forall t, keeps same_book (fire_timers (GS := Game) t)).
Proof.
  repeat split; intros; apply ui_modify_book; try ui_fields.
  intros u. by case_match.
Qed.

Lemma showNotification_book m d : keeps same_book (showNotification (GS := Game) m d).
Proof. unfold showNotification. keeps_auto; [apply on_world_same | apply ui_modify_book; ui_fields]. Qed.

Lemma showCardCatalog_book c : keeps same_book (showCardCatalog (GS := Game) c).
Proof. unfold showCardCatalog. keeps_auto; try apply self_same; apply (proj1 dialogs_book). Qed.

#[local] Hint Resolve showNotification_book showCardCatalog_book : game_frame.

Ltac book_frame := part_frame; try (by apply dialogs_book); eauto with game_frame.

Lemma useExit_book d : keeps same_book (useExit cfg d).
Proof. unfold useExit. book_frame. Qed.

Lemma game_ops_book :
  keeps same_book (Game.initialize cfg) /\ (forall n d, keeps same_book (startGame cfg n d)) /\
  keeps same_book startGameLoop /\ (forall t, keeps same_book (gameLoop cfg t)) /\
  (forall k, keeps same_book (Game.handleKeyUp k)).
Proof.
  repeat split; intros;
    unfold Game.initialize, startGame, startGameLoop, gameLoop, update, Game.render, Game.handleKeyUp, prop_of;
    book_frame.
Qed.

Lemma turnPage_book d : keeps same_book (turnPage (B := game_books cfg) (GS := Game) d).
Proof.
  unfold turnPage, show_page. cbn [book_prevPage book_nextPage game_books].
  book_frame; apply ui_modify_book; ui_fields.
Qed.

Lemma openBook_ok i : keeps keeps_book_ok (openBook (B := game_books cfg) (GS := Game) i).
Proof.
  intros [g w] Hok. destruct (host_book_page i g) as [n|] eqn:Hb.
  - destruct (openBook_shows (B := game_books cfg) i g w n Hb) as [s' [-> Hs]].
    unfold shown in Hs. cbn in Hs |- *. injection Hs as E1 E2 _ _. unfold book_ok. cbn.
    rewrite E1, E2. split; discriminate.
  - unfold openBook. rewrite st_run_bind. cbn [self gets fst]. by rewrite Hb.
Qed.

Lemma closeBook_ok : keeps keeps_book_ok (closeBook (GS := Game)).
Proof. intros [g w] _. unfold book_ok. cbn. done. Qed.

#[local] Hint Resolve openBook_ok closeBook_ok : game_frame.

Ltac book_ok_frame :=
  keeps_auto;
  repeat match goal with
    | |- keeps _ (detach _) => apply keeps_detach; keeps_auto
    end;
  try solve [eauto with game_frame
            | apply same_book_ok; first [apply useExit_book | apply turnPage_book | solve [book_frame]]].

Lemma handleInteraction_ok : keeps keeps_book_ok (handleInteraction cfg).
Proof. unfold handleInteraction. book_ok_frame. Qed.

#[local] Hint Resolve handleInteraction_ok : game_frame.

Lemma listeners_ok e : Forall (keeps keeps_book_ok) (listeners cfg e).
Proof.
  pose proof game_ops_book as (Hi & Hs & Hl & Hg & Hu).
  destruct e; cbn [listeners];
    repeat match goal with
      | |- Forall _ (_ :: _) => apply List.Forall_cons
      | |- Forall _ [] => apply List.Forall_nil
      end.
  - unfold onKeyDown. book_ok_frame.
  - unfold Game.handleKeyDown. book_ok_frame.
  - apply same_book_ok, Hu.
  - apply same_book_ok. unfold animationFrame. book_frame.
    apply keeps_for_each; [typeclasses eauto|]. intros. apply keeps_detach, Hg.
  - unfold onDialogClose. book_ok_frame; apply same_book_ok; book_frame; apply ui_modify_book; ui_fields.
  - apply same_book_ok, turnPage_book.
  - apply same_book_ok, turnPage_book.
  - apply closeBook_ok.
  - unfold submitCharacterInfo. book_ok_frame; apply same_book_ok;
      first [apply ui_modify_book; ui_fields | apply dialogs_book | apply Hs].
  - unfold onCatalogItem. book_ok_frame; apply same_book_ok, dialogs_book.
  - apply same_book_ok, on_world_same.
Qed.

Lemma dispatch_ok e : keeps keeps_book_ok (dispatch cfg e).
Proof.
  apply dispatch_keeps; [typeclasses eauto | | apply listeners_ok].
  apply same_book_ok. unfold fire_due. book_frame.
Qed.

End BookFrame.

(** ** The animation frames *)

(** At most one callback is requested for the next frame, and none while
    the game is not running: the game loop runs once per frame. *)
Definition frames_fine (fs : nat * bool) : Prop := (fs.1 <= 1)%nat /\ (fs.2 = false -> fs.1 = 0%nat).

Definition frame_state (g : Game) : nat * bool := (pendingFrames g, isRunning g).

Definition frames_ok (g : Game) : Prop := frames_fine (frame_state g).

Abbreviation same_frames := (same_on frame_state).

Definition keeps_frames_ok (s s' : GW) : Prop := frames_ok (fst s) -> frames_ok (fst s').

#[export] Instance keeps_frames_ok_preorder : PreOrder keeps_frames_ok.
Proof. split; [by intros ? ?|]. intros ??? H1 H2 H. by apply H2, H1. Qed.

Lemma same_frames_ok {A} (m : St GW A) : keeps same_frames m -> keeps keeps_frames_ok m.
Proof. intros H s Hok. unfold frames_ok. by rewrite (H s). Qed.

(** A run that keeps the frames, then a continuation that ends fine from
    the same frames, ends fine, an exception of the first part included. *)
Lemma frames_tail fs {A} (m : St GW A) (k : A -> St GW unit) s :
  keeps same_frames m -> frame_state (fst s) = fs -> frames_fine fs ->
  (forall a s', frame_state (fst s') = fs -> frames_ok (fst (snd (k a s')))) ->
  frames_ok (fst (snd ((m ≫= k) s))).
Proof.
  intros Hm Hs Hf Hk. rewrite st_run_bind. specialize (Hm s). unfold same_on in Hm.
  destruct (m s) as [[a|e] s1]; cbn [snd] in Hm |- *; [apply Hk; congruence|].
  unfold frames_ok. by rewrite Hm, Hs.
Qed.

(** [this.isRunning = true; ...; requestAnimationFrame(...)] from a game
    that does not run and has no frame requested. *)
Lemma start_frames t s :
  frame_state (fst s) = (0%nat, false) ->
  frames_ok (fst (snd ((modify (fun '(g, w) => (set_running true t g, w));; requestAnimationFrame) s))).
Proof.
  destruct s as [g w]. unfold frames_ok, frames_fine, frame_state. cbn [fst]. intros E. injection E as E _.
  rewrite st_run_bind. cbn. rewrite E. split; [lia|discriminate].
Qed.

#[local] Hint Resolve ui_modify_same : game_frame.

Ltac frames_frame :=
  cbn [book_prevPage book_nextPage book_getPageContent getBook_ref game_books];
  part_frame; eauto with game_frame.

Section Frames.
Context (cfg : Config).

Lemma ui_ops_frames :
  (forall c, keeps same_frames (showStoryDialog (GS := Game) c)) /\ keeps same_frames (hideDialog (GS := Game)) /\
  keeps same_frames (showCharacterCreation (GS := Game)) /\ keeps same_frames (hideCharacterCreation (GS := Game)) /\
  (forall t, keeps same_frames (fire_timers (GS := Game) t)) /\ keeps same_frames (closeBook (GS := Game)) /\
  (forall m d, keeps same_frames (showNotification (GS := Game) m d)) /\
  (forall c, keeps same_frames (showCardCatalog (GS := Game) c)) /\
  (forall i, keeps same_frames (openBook (B := game_books cfg) i)) /\
  (forall d, keeps same_frames (turnPage (B := game_books cfg) d)).
Proof.
  unfold showStoryDialog, hideDialog, showCharacterCreation, hideCharacterCreation, fire_timers, closeBook,
    showNotification, showCardCatalog, openBook, turnPage, show_page.
  repeat split; intros; frames_frame.
Qed.


Lemma game_ops_frames :
  (forall d, keeps same_frames (useExit cfg d)) /\ keeps same_frames (handleInteraction cfg) /\
  (forall n d, keeps same_frames (startGame cfg n d)) /\ (forall k, keeps same_frames (Game.handleKeyDown cfg k)) /\
  (forall k, keeps same_frames (Game.handleKeyUp k)) /\ keeps same_frames (update cfg) /\
  keeps same_frames (Game.render cfg).
Proof.
  pose proof ui_ops_frames as (H1 & H2 & H3 & H4 & H5 & H6 & H7 & H8 & H9 & H10).
  assert (Hu : forall d, keeps same_frames (useExit cfg d)) by (intros; unfold useExit; frames_frame).
  assert (Hi : keeps same_frames (handleInteraction cfg)) by (unfold handleInteraction; frames_frame).
  unfold startGame, Game.handleKeyDown, Game.handleKeyUp, update, Game.render.
  repeat split; intros; frames_frame.
Qed.

(** The close button starts the loop only when the game does not run, so
    with no frame requested. *)
Lemma onDialogClose_frames : keeps keeps_frames_ok (onDialogClose (GS := Game) isRunning startGameLoop hideDialog).
Proof.
  intros [g w] Hok. unfold onDialogClose.
  do 3 (rewrite st_run_bind; cbn [hideDialog ui_modify modify ui_get gets self fst]).
  match goal with |- context [if ?b then _ else _] => destruct b eqn:E end; [|exact Hok].
  apply andb_true_iff in E as [_ E]. apply negb_true_iff in E. cbn [set_host_ui host_ui game_ui_host isRunning set_ui] in E.
  assert (Hfs : frame_state g = (0%nat, false)).
  { destruct Hok as [_ H0]. unfold frame_state in *. cbn in H0. by rewrite (H0 E), E. }
  apply (frames_tail (0%nat, false)); [apply ui_modify_same; done | exact Hfs | split; cbn; [lia|done] |].
  intros [] s' Hs'. unfold startGameLoop.
  apply (frames_tail (0%nat, false)); [apply on_world_same | exact Hs' | split; cbn; [lia|done] |].
  intros t s'' Hs''. by apply start_frames.
Qed.

(** A frame's callback, run when no other frame is requested, requests at
    most one, and only when the game runs. *)
Lemma gameLoop_frames t s : pendingFrames (fst s) = 0%nat -> frames_ok (fst (snd (gameLoop cfg t s))).
Proof.
  destruct s as [g w]. cbn [fst]. intros H0. unfold gameLoop.
  do 2 (rewrite st_run_bind; cbn [modify self gets fst]).
  cbn [isRunning set_running]. destruct (isRunning g) eqn:R.
  - apply (frames_tail (0%nat, true)); [apply game_ops_frames | unfold frame_state; cbn; by rewrite H0
                                       | split; cbn; [lia|done] |].
    intros [] s1 H1. apply (frames_tail (0%nat, true)); [apply game_ops_frames | exact H1 | split; cbn; [lia|done] |].
    intros [] [g2 w2] H2. unfold frame_state in H2. cbn in H2 |- *. injection H2 as E1 E2.
    unfold frames_ok, frames_fine, frame_state. cbn. rewrite E1, E2. split; [lia|discriminate].
  - unfold frames_ok, frames_fine, frame_state. cbn. rewrite H0. split; [lia|done].
Qed.

(** A frame runs the callbacks requested for it: at most one. *)
Lemma animationFrame_frames t : keeps keeps_frames_ok (animationFrame cfg t).
Proof.
  intros [g w] [Hle _]. unfold animationFrame.
  do 2 (rewrite st_run_bind; cbn [self gets fst modify]).
  cbn [fst frame_state] in Hle. destruct (pendingFrames g) as [|[|n]] eqn:E; [| |lia]; cbn [repeat for_each fold_right].
  - rewrite st_run_ret. unfold frames_ok, frames_fine, frame_state. cbn. split; [lia|done].
  - rewrite st_run_bind, detach_run, st_run_ret. apply gameLoop_frames. reflexivity.
Qed.

Lemma listeners_frames e : Forall (keeps keeps_frames_ok) (listeners cfg e).
Proof.
  pose proof ui_ops_frames as (H1 & H2 & H3 & H4 & H5 & H6 & H7 & H8 & H9 & H10).
  pose proof game_ops_frames as (G1 & G2 & G3 & G4 & G5 & G6 & G7).
  destruct e; cbn [listeners];
    repeat match goal with
      | |- Forall _ (_ :: _) => apply List.Forall_cons
      | |- Forall _ [] => apply List.Forall_nil
      end;
    first [ apply animationFrame_frames | apply onDialogClose_frames
          | apply same_frames_ok;
            unfold onKeyDown, submitCharacterInfo, onCatalogItem; frames_frame ].
Qed.

(** [main.js]: [initialize()] requests the first frame only when it
    starts the game from a saved character. *)
Lemma boot_frames w : frames_ok (fst (boot cfg w)).
Proof.
  unfold boot. rewrite detach_run. unfold Game.initialize.
  apply (frames_tail (0%nat, false)); [frames_frame | reflexivity | split; cbn; [lia|done] |].
  intros a s Hs. destruct (truthy a).
  - unfold prop_of.
    repeat (apply (frames_tail (0%nat, false)); [frames_frame | exact Hs | split; cbn; [lia|done] |];
            clear s Hs; intros ? s Hs).
    by apply start_frames.
  - pose proof ui_ops_frames as (_ & _ & H3 & _). specialize (H3 s). unfold same_on in H3.
    unfold frames_ok. rewrite H3, Hs. split; cbn; [lia|done].
Qed.

End Frames.

(** ** Theorems *)

Section Theorems.
Context (cfg : Config).

(** C10 (finding): E at an exit moves the player two rooms.  The handler's
    [keydown] listener calls [handleInteraction] (the book is closed), which
    takes the exit; then the game's own listener calls it again, and
    [isAtExit], recomputed only at the next tick, still names the exit:
    the library moves on by a second room in the same direction. *)
Theorem e_at_exit_moves_twice g w p d nx ny :
  player g = Some p -> bookHidden (ui g) = true ->
  Qle_bool 0 (nearbyBookIndex p) = false -> isAtCardCatalog p = false -> isAtExit p = Some d ->
  step_room d (currentRoomX (library g)) (currentRoomY (library g)) = (nx, ny) ->
  in_grid cfg nx ny = true -> in_grid cfg (step_room d nx ny).1 (step_room d nx ny).2 = true ->
  let s' := snd (dispatch cfg (KeyDown (js "e")) (g, w)) in
  room_of (library (fst s'), snd s') = step_room d nx ny.
Proof.
  intros Hp Hh Hb Hc He Hs Hg1 Hg2 s'. subst s'. unfold dispatch. rewrite st_run_bind.
  destruct (fire_due_run g w) as [u [-> Hu]]. cbn [listeners fold_right].
  rewrite st_run_bind, detach_run. unfold onKeyDown. rewrite bool_decide_true by reflexivity.
  rewrite (st_run_bind ui_get). cbn [ui_get gets fst host_ui game_ui_host ui set_ui].
  replace (bookHidden u) with true by (unfold shown in Hu; congruence).
  rewrite (handleInteraction_exit cfg _ w p d) by done. rewrite detach_run.
  destruct (useExit_view cfg d (set_ui u g) w p Hp) as [Hr1 Hv1].
  destruct (useExit cfg d (set_ui u g, w)) as [r1 [g1 w1]]. cbn [snd fst] in Hr1, Hv1 |- *.
  destruct (moveToRoom_to (G := Api.api_generator cfg) cfg d (library g) w nx ny Hs) as [_ Hto].
  destruct (Hto Hg1) as [Hroom _]. cbn [library set_ui] in Hr1. rewrite Hroom in Hr1.
  unfold iview in Hv1. cbn [player set_ui ui] in Hv1. rewrite Hp in Hv1.
  destruct (player g1) as [p1|] eqn:Hp1; [|discriminate]. injection Hv1 as Hn1 Hc1 He1 _.
  rewrite st_run_bind, detach_run, (handleKeyDown_e cfg g1 w1 p1 Hp1).
  rewrite (handleInteraction_exit cfg g1 w1 p1 d Hp1) by congruence. rewrite detach_run.
  destruct (useExit_view cfg d g1 w1 p1 Hp1) as [Hr2 _].
  destruct (useExit cfg d (g1, w1)) as [r2 [g2 w2]]. cbn [snd fst] in Hr2 |- *.
  rewrite st_run_ret. cbn [snd fst]. rewrite Hr2.
  unfold room_of in Hr1. cbn [fst] in Hr1. injection Hr1 as Hx Hy.
  destruct (step_room d nx ny) as [mx my] eqn:Hs2.
  destruct (moveToRoom_to (G := Api.api_generator cfg) cfg d (library g1) w1 mx my) as [_ Hto2];
    [by rewrite Hx, Hy|].
  by destruct (Hto2 Hg2) as [-> _].
Qed.

(** C11 (finding): E does not close a book while the player stands near
    it.  The handler's listener closes the book, then the game's listener
    runs [handleInteraction], which finds the same nearby book and opens it
    again: after the key the book is shown, as before. *)
Theorem e_reopens_nearby_book g w p i b :
  player g = Some p -> nearbyBookIndex p = inject_Z i -> (0 <= i)%Z ->
  getBook (library g) i = Some b -> bookHidden (ui g) = false ->
  let s' := snd (dispatch cfg (KeyDown (js "e")) (g, w)) in
  bookHidden (ui (fst s')) = false /\ currentBook (ui (fst s')) = Some i.
Proof.
  intros Hp Hn Hi Hb Hh s'. subst s'. unfold dispatch. rewrite st_run_bind.
  destruct (fire_due_run g w) as [u [-> Hu]]. cbn [listeners fold_right].
  rewrite st_run_bind, detach_run. unfold onKeyDown. rewrite bool_decide_true by reflexivity.
  rewrite (st_run_bind ui_get). cbn [ui_get gets fst host_ui game_ui_host ui set_ui].
  replace (bookHidden u) with false by (unfold shown in Hu; congruence).
  cbn [closeBook ui_modify modify snd set_host_ui game_ui_host ui set_ui].
  rewrite st_run_bind, detach_run, (handleKeyDown_e cfg _ w p) by done.
  rewrite (handleInteraction_book cfg _ w p i b) by done.
  match goal with |- context [openBook i (?g', ?w')] =>
    destruct (openBook_shows (B := game_books cfg) i g' w' (Book.currentPage b)) as [s1 [-> Hs1]];
      [cbn; by rewrite Hb|] end.
  rewrite st_run_ret. cbn [snd]. unfold shown in Hs1. injection Hs1 as -> -> _ _. by split.
Qed.

(** C16 (round trip): the card catalog lists each title with its index,
    and a click on the [k]-th item reads the index back with [parseInt],
    asks the library for book [k], hides the dialog and opens that book. *)
Theorem catalog_click_opens_book titles k g w b :
  (k < length titles)%nat -> getBook (library g) (Z.of_nat k) = Some b ->
  let s1 := snd (showCardCatalog (JArr titles) (g, w)) in
  let s2 := snd (onCatalogItem (B := game_books cfg) k s1) in
  currentBook (ui (fst s2)) = Some (Z.of_nat k) /\ bookHidden (ui (fst s2)) = false /\
  dialogHidden (ui (fst s2)) = true.
Proof.
  intros Hk Hb s1 s2. subst s1 s2.
  pose proof (catalog_click_getBook (B := game_books cfg) titles k g w Hk) as E. cbv zeta in E. rewrite E.
  unfold showCardCatalog. rewrite !st_run_bind.
  cbn [self gets fst snd host_room game_ui_host showStoryDialog ui_modify modify getBook_ref game_books
       set_host_ui host_ui library set_ui].
  replace (Some (Z.of_nat k) ≫= fun i => getBook (library g) i ≫= fun _ => Some i) with (Some (Z.of_nat k))
    by (cbn; by rewrite Hb).
  rewrite st_run_bind. cbn [hideDialog ui_modify modify].
  match goal with |- context [openBook ?i (?g', ?w')] =>
    destruct (openBook_shows (B := game_books cfg) i g' w' (Book.currentPage b)) as [s' [-> Hs]];
      [cbn; by rewrite Hb|] end.
  cbn [snd]. unfold shown in Hs. cbn in Hs. injection Hs as -> -> -> _. by repeat split.
Qed.

End Theorems.

(** C12 (invariant): in every state of a session, whatever the window's
    size and its resizes, the handler shows the book exactly when it holds
    one ([bookHidden] is [true] iff [currentBook] is [null]), by rule
    induction on the session: only [openBook] and [closeBook] change the
    two fields, and they change them together; a resize changes neither. *)
Theorem session_book_ok cfg s : session cfg s -> book_ok (fst s).
Proof.
  induction 1 as [c w|cfg s e s' _ IH Hs|cfg c s _ IH]; [|inversion Hs as [? ? _ E]; subst|exact IH].
  - unfold boot. apply (keeps_detach _ _ (same_book_ok _ (proj1 (game_ops_book _)))). unfold book_ok. done.
  - by apply (dispatch_ok cfg e).
Qed.

(** C17 (invariant): in every state of a session at most one
    animation-frame callback is pending, and none while the game does not
    run: [initialize] and the close button request the first frame only
    when the game is not running, and each frame's callback requests the
    next one.  The game loop never runs twice in a frame. *)
Theorem session_frames_ok cfg s : session cfg s -> frames_ok (fst s).
Proof.
  induction 1 as [c w|cfg s e s' _ IH Hs|cfg c s _ IH]; [apply boot_frames| |exact IH].
  inversion Hs as [? ? _ E]; subst. revert IH.
  apply (dispatch_keeps cfg keeps_frames_ok e); [|apply listeners_frames].
  apply same_frames_ok. unfold fire_due. frames_frame.
Qed.

(** ** Witnesses *)

(** A new game whose player, in room (10, 10), stands at the south exit. *)
Definition at_south_exit : Game :=
  set_player (Some (set_exit (Some (js "south")) (new_Player CONFIG JNull JNull)))
    (set_library Geometry.full_room new_Game).

Lemma e_at_exit_moves_twice_witness :
  let s' := snd (dispatch CONFIG (KeyDown (js "e")) (at_south_exit, world0 0 [] [])) in
  room_of (library (fst s'), snd s') = (10, 12)%Z.
Proof.
  apply (e_at_exit_moves_twice CONFIG at_south_exit (world0 0 [] [])
           (set_exit (Some (js "south")) (new_Player CONFIG JNull JNull)) (js "south") 10 11);
    try reflexivity; vm_compute; reflexivity.
Defined.

(** The same room, its book 2 open and the player standing near it. *)
Definition reading_game : Game :=
  set_ui (set_book false (Some BLoading) (Some 1%Z) (Some 2%Z) new_UIHandler)
    (set_player (Some (set_nearby 2 (new_Player CONFIG JNull JNull)))
       (set_library Geometry.full_room new_Game)).

Lemma e_reopens_nearby_book_witness :
  let s' := snd (dispatch CONFIG (KeyDown (js "e")) (reading_game, world0 0 [] [])) in
  bookHidden (ui (fst s')) = false /\ currentBook (ui (fst s')) = Some 2%Z.
Proof.
  eapply (e_reopens_nearby_book CONFIG reading_game (world0 0 [] [])
            (set_nearby 2 (new_Player CONFIG JNull JNull)) 2);
    [reflexivity | reflexivity | lia | vm_compute; reflexivity | reflexivity].
Defined.

Lemma catalog_click_opens_book_witness :
  let s1 := snd (showCardCatalog (JArr [JStr (js "A"); JStr (js "B"); JStr (js "C")])
                   (set_library Geometry.full_room new_Game, world0 0 [] [])) in
  let s2 := snd (onCatalogItem (B := game_books CONFIG) 1 s1) in
  currentBook (ui (fst s2)) = Some 1%Z /\ bookHidden (ui (fst s2)) = false /\ dialogHidden (ui (fst s2)) = true.
Proof.
  apply (catalog_click_opens_book CONFIG _ 1 _ _ Book.sample_book); [cbn; lia | reflexivity].
Defined.

(** The page in a window of 1024 by 768 pixels. *)
Definition window0 : Container := {| clientWidth := 1024; clientHeight := 768 |}.

Lemma session_book_ok_witness : book_ok (fst (boot (resizeCanvas window0 CONFIG) (world0 0 [] []))).
Proof. apply (session_book_ok (resizeCanvas window0 CONFIG)). constructor. Defined.

Lemma session_frames_ok_witness : frames_ok (fst (boot (resizeCanvas window0 CONFIG) (world0 0 [] []))).
Proof. apply (session_frames_ok (resizeCanvas window0 CONFIG)). constructor. Defined.

End Events.
