(* ===== verification/UITests.v ===== *)
(** * The handler's tests: [class UITests] (uitests.js) and the runner
    [window.runBabelTests] (test.js 341-355).

    The suite builds a mock game, a [UIHandler] on it, and runs three
    tests that call the handler's methods and count the assertions that
    hold.  The handler is the one of UI.v: the mock game is a [UIHost] and
    its book objects a [BookObjects] instance, as the game of Game.v is.
    The state is the suite's counters and console lines, the mock game
    (its [isRunning] and the book objects it hands out, by reference), the
    handler, and the two local flags of [testStoryFlow].

    The page: [createTestDOM] adds the handler's elements when the page has
    none, the dialog and the book hidden and the character creation not
    displayed; [new UIHandler(game)] reads them.  When the page already has
    them, the handler starts from what they show.  The listeners of the
    handler of a game already on the page, which a click also runs, act on
    that game and are not modelled.

    Methods a test replaces ([ui.hideDialog = ...], [game.startGameLoop =
    ...]) are the arguments of the listener that calls them through
    [this]. *)
From S2P Require Import Prelude JsString Json Config World Save UI TestSuite.

Module UITests.
Import UI.

(** A book object of the mock: [{title, currentPage, getPageContent}],
    whose [getPageContent()] resolves to [content]. *)
Record MockBook := { mb_title : jstr; mb_currentPage : Z; mb_content : jstr }.

Record TestState := {
  testsRun : Z;
  testsPassed : Z;
  testsFailed : Z;
  console : list (bool * jstr);
  mock_isRunning : bool;
  objects : list MockBook;
  tui : UIHandler;
  storyDialogShown : bool;
  gameLoopStarted : bool
}.

Abbreviation TW := (TestState * World)%type.

Definition set_counts (r p f : Z) (c : list (bool * jstr)) (s : TestState) : TestState :=
  {| testsRun := r; testsPassed := p; testsFailed := f; console := c;
     mock_isRunning := mock_isRunning s; objects := objects s; tui := tui s;
     storyDialogShown := storyDialogShown s; gameLoopStarted := gameLoopStarted s |}.
Definition set_game (running : bool) (os : list MockBook) (u : UIHandler) (s : TestState) : TestState :=
  {| testsRun := testsRun s; testsPassed := testsPassed s; testsFailed := testsFailed s; console := console s;
     mock_isRunning := running; objects := os; tui := u;
     storyDialogShown := storyDialogShown s; gameLoopStarted := gameLoopStarted s |}.
Definition set_flags (shown started : bool) (s : TestState) : TestState :=
  {| testsRun := testsRun s; testsPassed := testsPassed s; testsFailed := testsFailed s; console := console s;
     mock_isRunning := mock_isRunning s; objects := objects s; tui := tui s;
     storyDialogShown := shown; gameLoopStarted := started |}.

(** [new UITests()] (uitests.js 3-7) *)
Definition new_UITests : TestState :=
  {| testsRun := 0; testsPassed := 0; testsFailed := 0; console := [];
     mock_isRunning := false; objects := []; tui := new_UIHandler;
     storyDialogShown := false; gameLoopStarted := false |}.

(** ** The mock game (uitests.js 35-66) *)

Definition mock_object (r : Z) (s : TestState) : option MockBook :=
  if (0 <=? r)%Z then objects s !! Z.to_nat r else None.

(** An object literal evaluated: a new object, its reference returned. *)
Definition alloc (b : MockBook) : St TW Z :=
  fun '(s, w) =>
    (Ok (Z.of_nat (length (objects s))),
     (set_game (mock_isRunning s) (objects s ++ [b]) (tui s) s, w)).

#[export] Instance test_host : UIHost TestState := {|
  host_ui := tui;
  set_host_ui u s := set_game (mock_isRunning s) (objects s) u s;
  host_book_page r s := option_map mb_currentPage (mock_object r s);
  host_room _ := (0, 0)%Z
|}.

#[export] Instance test_host_laws : UIHostLaws TestState.
Proof. by constructor. Qed.

(** [library.getBook: (index) => ({title: 'Test Book', currentPage: 1,
    getPageContent: async () => 'Test content'})]: a new object at each
    call, whatever the index; the objects have no [prevPage] or [nextPage]. *)
Definition mock_books : BookObjects TestState := {|
  getBook_ref _ :=
    r ← alloc {| mb_title := js "Test Book"; mb_currentPage := 1; mb_content := js "Test content" |};
    mret (Some r);
  book_getPageContent r :=
    s ← gets fst;
    match mock_object r s with Some b => mret (JStr (mb_content b)) | None => throw TypeError end;
  book_prevPage _ := throw TypeError;
  book_nextPage _ := throw TypeError
|}.

#[export] Instance mock_books_laws : BookObjectsLaws TestState mock_books.
Proof.
  constructor; intros; cbn; keeps_auto; try done.
  intros [s w]. reflexivity.
Qed.

(** [const game = this.createMockGame(); const ui = new UIHandler(game)]
    on the page [createTestDOM] leaves: a game that does not run, no object
    handed out yet, a handler reading the page's elements, whose
    [_isStoryDialogShowing] is unset. *)
Definition fixture (dom : UIHandler) (s : TestState) : TestState :=
  set_game false []
    (set_book (bookHidden dom) (bookContent dom) (pageNumber dom) None
       (set_dialog (dialogHidden dom) (dialogContent dom) false dom)) s.

(** [createTestDOM()] (uitests.js 67-157): the elements the handler reads,
    added when the page has no [#dialog-container]: the canvas is not read
    by the handler; the dialog and the book containers have the class
    [hidden], their content, the page number and the notification are
    empty, and the character creation has [display: none]. *)
Definition test_dom : UIHandler :=
  {| dialogHidden := true; dialogContent := None; isStoryDialogShowing := false;
     bookHidden := true; bookContent := None; pageNumber := None; currentBook := None;
     characterCreationShown := false; notification := None; notificationShown := false;
     hideTimers := []; alerts := [] |}.

Definition createTestDOM (page : option UIHandler) : UIHandler :=
  match page with Some dom => dom | None => test_dom end.

(** ** The assertions (uitests.js 159-171) *)

Definition count (condition : bool) (message : jstr) (s : TestState) : TestState :=
  set_counts (testsRun s + 1)
    (if condition then testsPassed s + 1 else testsPassed s)
    (if condition then testsFailed s else testsFailed s + 1)
    (console s ++ [(condition, message)]) s.

Definition assert (condition : bool) (message : jstr) : St TW bool :=
  modify (fun '(s, w) => (count condition message s, w));;
  mret condition.

(** [ui.dialogContent.innerHTML === text], for a text without markup: the
    dialogs of the game begin with a tag, and an empty dialog is ['']. *)
Definition dialog_shows (c : option DialogContent) (text : jstr) : bool :=
  match c with Some (DText h) => bool_decide (h = text) | _ => false end.

(** ** The tests (uitests.js 173-317) *)

Definition testDialogBehavior : St TW unit :=
  showStoryDialog (DText (js "Test content"));;
  u ← ui_get;
  assert (negb (dialogHidden u)) (js "Dialog container should be visible when showStoryDialog is called");;
  u ← ui_get;
  assert (dialog_shows (dialogContent u) (js "Test content")) (js "Dialog content should be set correctly");;
  hideDialog;;
  u ← ui_get;
  assert (dialogHidden u) (js "Dialog container should be hidden when hideDialog is called");;
  mret tt.

(** The book container's class and its [style.display] are set together by
    [openBook] and [closeBook]: [bookHidden] stands for both. *)
Definition testBookContainerBehavior : St TW unit :=
  mockBook ← alloc {| mb_title := js "Test Book"; mb_currentPage := 1; mb_content := js "Test book content" |};
  openBook (B := mock_books) mockBook;;
  u ← ui_get;
  assert (negb (bookHidden u)) (js "Book container should be visible when openBook is called");;
  u ← ui_get;
  assert (bool_decide (currentBook u = Some mockBook)) (js "Current book should be set correctly when openBook is called");;
  closeBook;;
  u ← ui_get;
  assert (bookHidden u) (js "Book container should be hidden when closeBook is called");;
  u ← ui_get;
  assert (bookHidden u) (js "Book container display should be set to none when closeBook is called");;
  u ← ui_get;
  assert (bool_decide (currentBook u = None)) (js "Current book should be set to null when closeBook is called");;
  mret tt.

(** The replacements [testStoryFlow] installs. *)
Definition test_showStoryDialog (content : DialogContent) : St TW unit :=
  modify (fun '(s, w) => (set_flags true (gameLoopStarted s) s, w));;
  ui_modify (fun u => set_dialog (dialogHidden u) (dialogContent u) true u).

Definition test_hideDialog : St TW unit :=
  ui_modify (fun u => set_dialog (dialogHidden u) (dialogContent u) false u).

Definition test_startGameLoop : St TW unit :=
  modify (fun '(s, w) => (set_game true (objects s) (tui s) (set_flags (storyDialogShown s) true s), w)).

(** [game.startGame] of the mock: [async () => {}]. *)
Definition mock_startGame (name description : jstr) : St TW unit := mret tt.

(** [ui.dialogClose.click()] runs the close listener (ui.js 30-39) with the
    replaced methods; without [click], the test runs the same steps
    itself. *)
Definition close_story_dialog (click_is_function : bool) : St TW unit :=
  if click_is_function then onDialogClose mock_isRunning test_startGameLoop test_hideDialog
  else
    test_hideDialog;;
    u ← ui_get;
    s ← gets fst;
    if isStoryDialogShowing u && negb (mock_isRunning s) then
      ui_modify (fun u => set_dialog (dialogHidden u) (dialogContent u) false u);;
      test_startGameLoop
    else mret tt.

Definition testStoryFlow (click_is_function : bool) : St TW unit :=
  modify (fun '(s, w) => (set_flags false false s, w));;
  mock_startGame (js "Test Player") (js "Test description");;
  s ← gets fst;
  assert (storyDialogShown s) (js "Story dialog should be shown during game start");;
  s ← gets fst;
  assert (negb (gameLoopStarted s)) (js "Game loop should NOT start automatically before story dialog is closed");;
  close_story_dialog click_is_function;;
  s ← gets fst;
  assert (gameLoopStarted s) (js "Game loop should start after story dialog is closed");;
  mret tt.

(** ** [runTests()] (uitests.js 7-33) and the runner (test.js 341-355) *)

(** It has no [return]: it resolves to [undefined]. *)
Definition runTests (page : option UIHandler) (click_is_function : bool) : St TW jsval :=
  modify (fun '(s, w) => (fixture (createTestDOM page) s, w));;
  (try (testDialogBehavior;; testBookContainerBehavior;; testStoryFlow click_is_function)
   catch (fun _ => modify (fun '(s, w) =>
     (set_counts (testsRun s) (testsPassed s) (testsFailed s + 1) (console s) s, w))));;
  mret JUndef.

(** [a && b] on values. *)
Definition js_and (a b : jsval) : jsval := if truthy a then b else a.

(** [window.runBabelTests()] (test.js 342-355): the main suite, then the
    UI suite, each on a new object, with the game's configuration. *)
Definition runBabelTests (page : option UIHandler) (click_is_function : bool) : St World jsval :=
  mainTestsResult ← with_new TestSuite.new_TestSuite (TestSuite.runTests CONFIG);
  uiTestsResult ← with_new new_UITests (runTests page click_is_function);
  mret (js_and mainTestsResult uiTestsResult).

(** ** Theorems *)

(** The messages of the assertions that failed, in order. *)
Definition failures (s : TestState) : list jstr := map snd (List.filter (fun l => negb l.1) (console s)).

(** [runTests] resolves to [undefined], whatever its tests do. *)
Lemma runTests_undefined page click s w : fst (runTests page click (s, w)) = Ok JUndef.
Proof.
  unfold runTests, try_catch. rewrite st_run_bind. cbn [modify]. rewrite st_run_bind.
  match goal with |- context [match ?m ?s1 with _ => _ end] =>
    match m with _ ≫= _ => destruct (m s1) as [[[]|e] s'] end end; reflexivity.
Qed.

(** C19 (finding): the UI suite, on any page and whether the close button
    is clicked or its listener's steps are run by the test, records eleven
    assertions: the eight of the dialog and book tests hold against the
    handler, and two of the three of [testStoryFlow] fail against the
    test's own mock: its [startGame] is [async () => {}] and never shows the
    story, and the close listener calls the test's replacement of
    [hideDialog], which clears [_isStoryDialogShowing] before the listener
    tests it, so the loop is not started.  [runBabelTests] resolves to
    [undefined]: the main suite passes and resolves to [true], but
    [runTests] has no [return] (the summary and [return this.testsFailed
    === 0] sit after the [return mockGame] of [createMockGame]), so even a
    run where every assertion passed would be reported as a failure. *)
Theorem runBabelTests_outcome page click w rooms books :
  window_mock w = false ->
  Save.index_ok w (js "babel_known_rooms") rooms -> Save.index_ok w (js "babel_known_books") books ->
  (exists w', runBabelTests page click w = (Ok JUndef, w')) /\
  let '(r, (s', _)) := runTests page click (new_UITests, w) in
  r = Ok JUndef /\ testsRun s' = 11 /\ testsPassed s' = 9 /\ testsFailed s' = 2 /\
  failures s' = [js "Story dialog should be shown during game start";
                 js "Game loop should start after story dialog is closed"].
Proof.
  intros Hw Hr Hb. split.
  - destruct (TestSuite.runTests_run w rooms books Hw Hr Hb) as (s1 & w1 & E1 & _).
    unfold runBabelTests, with_new. rewrite st_run_bind. rewrite E1. cbv beta iota.
    rewrite st_run_bind. pose proof (runTests_undefined page click new_UITests w1) as Hu.
    destruct (runTests page click (new_UITests, w1)) as [r [s' w']]. cbn [fst] in Hu. subst r.
    by eexists.
  - pose proof (runTests_undefined page click new_UITests w) as Hu.
    destruct (runTests page click (new_UITests, w)) as [r [s' w']] eqn:E. cbn [fst] in Hu. subst r.
    split; [done|]. revert E. destruct page as [dom|], click; vm_compute; intros E; injection E as <- _; repeat split.
Qed.

(** ** Witnesses *)

Lemma runBabelTests_outcome_witness :
  (exists w', runBabelTests None true (world0 0 [] []) = (Ok JUndef, w')) /\
  let '(r, (s', _)) := runTests None true (new_UITests, world0 0 [] []) in
  r = Ok JUndef /\ testsRun s' = 11 /\ testsPassed s' = 9 /\ testsFailed s' = 2 /\
  failures s' = [js "Story dialog should be shown during game start";
                 js "Game loop should start after story dialog is closed"].
Proof. exact (runBabelTests_outcome None true (world0 0 [] []) [] [] eq_refl (TestSuite.empty_storage_index _) (TestSuite.empty_storage_index _)). Defined.

End UITests.
