(* ===== verification/Debug.v ===== *)
(** * The error overlay: [window.onerror] (debug.js).

    debug.js replaces the page's [onerror] handler: every error the
    browser reports adds a red box to [document.body] with the message, the
    source and the position, and a [Close] button that removes that box.
    The overlay is kept as the boxes it added, in the order they were
    appended, each with the reference of its element and its [innerHTML];
    the styles are not modelled.  The handler returns [false]: the browser
    goes on with its default reporting. *)
From S2P Require Import Prelude JsString Json.

Module Debug.

Record ErrorBox := { box_ref : nat; box_html : jstr }.

Record Overlay := { boxes : list ErrorBox; next_ref : nat }.

Definition empty_overlay : Overlay := {| boxes := []; next_ref := 0 |}.

(** The template of [errorDisplay.innerHTML]: the values are inserted as
    they are, not escaped. *)
Definition error_html (message source : jstr) (lineno colno : Z) : jstr :=
  js "<strong>Error:</strong> " ++ message ++ js "<br><strong>Source:</strong> " ++ source ++
  js "<br><strong>Line:</strong> " ++ z_to_js lineno ++ js ", <strong>Column:</strong> " ++ z_to_js colno.

(** [window.onerror(message, source, lineno, colno, error)] (debug.js 2-35) *)
Definition onerror (message source : jstr) (lineno colno : Z) : St Overlay bool :=
  modify (fun o => {| boxes := boxes o ++ [{| box_ref := next_ref o; box_html := error_html message source lineno colno |}];
                      next_ref := S (next_ref o) |});;
  mret false.

(** The [onclick] of the [Close] button of box [r] (debug.js 29-31):
    [document.body.removeChild(errorDisplay)]. *)
Definition closeBox (r : nat) : St Overlay unit :=
  o ← get;
  if existsb (fun b => Nat.eqb (box_ref b) r) (boxes o) then
    put {| boxes := List.filter (fun b => negb (Nat.eqb (box_ref b) r)) (boxes o); next_ref := next_ref o |}
  else throw NotFoundError.

(** ** Each box is closed by its own button *)

(** Every box has an element of its own: the references are distinct and
    below the next one. *)
Definition overlay_wf (o : Overlay) : Prop :=
  NoDup (map box_ref (boxes o)) /\ Forall (fun b => box_ref b < next_ref o)%nat (boxes o).

Lemma onerror_wf m s l c o : overlay_wf o -> overlay_wf (snd (onerror m s l c o)).
Proof.
  intros [Hnd Hlt]. unfold onerror, overlay_wf. rewrite st_run_bind. cbn [modify snd boxes next_ref st_ret mret].
  split.
  - rewrite map_app. apply NoDup_app. split; [done|]. split; [|apply NoDup_singleton].
    intros x Hx. apply list_elem_of_In, in_map_iff in Hx as (b & <- & Hb).
    cbn [map box_ref]. intros E%list_elem_of_singleton. rewrite Forall_forall in Hlt. specialize (Hlt b (proj2 (list_elem_of_In _ _) Hb)). lia.
  - apply Forall_app. split; [|constructor; [cbn [box_ref next_ref]; apply Nat.lt_succ_diag_r | constructor]].
    eapply Forall_impl; [exact Hlt|]. intros b Hb. cbv beta in Hb |- *. cbn [next_ref]. lia.
Qed.

Lemma closeBox_wf r o : overlay_wf o -> overlay_wf (snd (closeBox r o)).
Proof.
  intros [Hnd Hlt]. unfold closeBox. rewrite st_run_bind. cbn [get fst snd].
  destruct (existsb _ _); [|by split]. unfold overlay_wf. cbn [put snd boxes next_ref]. split.
  - by apply NoDup_map_filter.
  - apply Forall_forall. intros b Hb. apply list_elem_of_In, filter_In in Hb as [Hb _].
    rewrite Forall_forall in Hlt. by apply Hlt, list_elem_of_In.
Qed.

(** The Close button of box [r] removes that box and no other: the boxes
    after it are the others, in the order they were added. *)
Theorem closeBox_own r o :
  overlay_wf o -> In r (map box_ref (boxes o)) ->
  closeBox r o = (Ok tt, {| boxes := List.filter (fun b => negb (Nat.eqb (box_ref b) r)) (boxes o);
                           next_ref := next_ref o |}) /\
  S (length (List.filter (fun b => negb (Nat.eqb (box_ref b) r)) (boxes o))) = length (boxes o).
Proof.
  intros [Hnd _] Hr. unfold closeBox. rewrite st_run_bind. cbn [get fst snd].
  replace (existsb (fun b => Nat.eqb (box_ref b) r) (boxes o)) with true.
  2:{ symmetry. apply existsb_exists. apply in_map_iff in Hr as (b & <- & Hb). exists b. split; [done|]. apply Nat.eqb_refl. }
  split; [reflexivity|]. clear -Hnd Hr. induction (boxes o) as [|b bs IH]; [done|].
  cbn in Hnd, Hr |- *. apply NoDup_cons in Hnd as [Hb Hnd]. destruct (Nat.eqb_spec (box_ref b) r) as [E|E]; cbn.
  - rewrite filter_all; [done|]. intros b' Hb'. apply negb_true_iff, Nat.eqb_neq. intros E'.
    apply Hb, list_elem_of_In, in_map_iff. exists b'. split; [congruence|done].
  - f_equal. apply IH; [done|]. destruct Hr as [Hr|Hr]; [done|exact Hr].
Qed.

(** Two errors reported, the first box closed: the second stays. *)
Definition two_errors : Overlay :=
  snd ((onerror (js "a") (js "x.js") 1 2;; onerror (js "b") (js "y.js") 3 4) empty_overlay).

Lemma closeBox_own_witness :
  closeBox 0 two_errors = (Ok tt, {| boxes := List.filter (fun b => negb (Nat.eqb (box_ref b) 0)) (boxes two_errors);
                                    next_ref := next_ref two_errors |}) /\
  S (length (List.filter (fun b => negb (Nat.eqb (box_ref b) 0)) (boxes two_errors))) = length (boxes two_errors).
Proof.
  apply closeBox_own; [|by left].
  apply onerror_wf, onerror_wf. split; constructor.
Defined.

End Debug.
